(** * Orders-Inventory-Data: the report engine, its calendar and its task runner

    A shallow embedding of the parts of [AMS_Orders/modules] that the
    specification makes promises about:

    - [helpers.py]: [get_company_holidays] and [subtract_one_business_day];
    - [App.py]: the composite branches ['both'] and ['all'] of
      [WorkerThread.run];
    - [excel_manager.py]: [ExcelManager.convert_xls_to_xlsx] and its lock;
    - [excel_report.py]: the six pattern handlers, [_DISPATCH],
      [_build_operations] and the operations loop of [main].

    Python exceptions are values of [exn]; a computation that may raise
    returns a [result]. *)

From Stdlib Require Import ZArith Lia Bool Ascii String Floats.SpecFloat.
From stdpp Require Import base decidable option list strings gmap pretty.

Local Open Scope Z_scope.

(** ** Exceptions and results *)

Inductive exn : Type :=
| KeyError (key : string)
| IndexError (msg : string)
| TypeError (msg : string)
| AttributeError (msg : string)
| ValueError (msg : string)
| OverflowError (msg : string)
| com_error (msg : string).

Inductive result (A : Type) : Type :=
| Ok (a : A)
| Raise (e : exn).
Arguments Ok {A} a.
Arguments Raise {A} e.

Definition result_bind {A B} (r : result A) (k : A -> result B) : result B :=
  match r with
  | Ok a => k a
  | Raise e => Raise e
  end.

(** [str(e)] *)
Definition exn_text (e : exn) : string :=
  match e with
  | KeyError k => "'" +:+ k +:+ "'"
  | IndexError m | TypeError m | AttributeError m | ValueError m
  | OverflowError m | com_error m => m
  end.

Declare Scope result_scope.
Delimit Scope result_scope with result.
Notation "x <- e ;; k" := (result_bind e (fun x => k))
  (at level 100, e at next level, k at level 200, right associativity)
  : result_scope.

Definition is_Ok {A} (r : result A) : bool :=
  match r with Ok _ => true | Raise _ => false end.

(** ** The calendar of [datetime] *)

Module Calendar.

(** A [datetime] object: the proleptic Gregorian date fields and the time
    of day, here in microseconds since midnight. *)
Record datetime : Type := mk_datetime {
  year : Z;
  month : Z;
  day : Z;
  tod : Z
}.

#[global] Instance datetime_eq_dec : EqDecision datetime.
Proof. solve_decision. Defined.

#[global] Instance datetime_countable : Countable datetime.
Proof.
  refine (inj_countable'
            (fun d => (year d, month d, day d, tod d))
            (fun t => match t with (y, m, d, u) => mk_datetime y m d u end) _).
  intros []; reflexivity.
Defined.

Definition MINYEAR : Z := 1.
Definition MAXYEAR : Z := 9999.

Definition _is_leap (y : Z) : bool :=
  (y mod 4 =? 0) && (negb (y mod 100 =? 0) || (y mod 400 =? 0)).

Definition _days_in_month (y m : Z) : Z :=
  if (m =? 2) && _is_leap y then 29
  else match m with
       | 1 => 31 | 2 => 28 | 3 => 31 | 4 => 30 | 5 => 31 | 6 => 30
       | 7 => 31 | 8 => 31 | 9 => 30 | 10 => 31 | 11 => 30 | 12 => 31
       | _ => 0
       end.

Definition _days_before_year (y : Z) : Z :=
  let y' := y - 1 in
  y' * 365 + y' / 4 - y' / 100 + y' / 400.

Definition _days_before_month (y m : Z) : Z :=
  match m with
  | 1 => 0 | 2 => 31 | 3 => 59 | 4 => 90 | 5 => 120 | 6 => 151
  | 7 => 181 | 8 => 212 | 9 => 243 | 10 => 273 | 11 => 304 | 12 => 334
  | _ => 0
  end + (if (2 <? m) && _is_leap y then 1 else 0).

Definition _ymd2ord (y m d : Z) : Z :=
  _days_before_year y + _days_before_month y m + d.

Definition toordinal (d : datetime) : Z := _ymd2ord (year d) (month d) (day d).

(** [date.weekday()]: Monday is 0, Sunday is 6. *)
Definition weekday (d : datetime) : Z := (toordinal d + 6) mod 7.

Definition valid_ymd (y m d : Z) : bool :=
  (MINYEAR <=? y) && (y <=? MAXYEAR) && (1 <=? m) && (m <=? 12)
  && (1 <=? d) && (d <=? _days_in_month y m).

Definition valid_datetime (d : datetime) : bool :=
  valid_ymd (year d) (month d) (day d) && (0 <=? tod d) && (tod d <? 86400000000).

(** The constructor [datetime(year, month, day)]: midnight of that day, or
    [ValueError] outside the calendar. *)
Definition datetime_ (y m d : Z) : result datetime :=
  if negb ((MINYEAR <=? y) && (y <=? MAXYEAR)) then
    Raise (ValueError ("year " +:+ pretty y +:+ " is out of range"))
  else if negb ((1 <=? m) && (m <=? 12)) then
    Raise (ValueError "month must be in 1..12")
  else if negb ((1 <=? d) && (d <=? _days_in_month y m)) then
    Raise (ValueError "day is out of range for month")
  else Ok (mk_datetime y m d 0).

(** One calendar day forward and backward; the time of day is kept.
    Leaving the calendar raises [OverflowError], as [datetime] arithmetic
    does. *)
Definition next_day (d : datetime) : result datetime :=
  if day d <? _days_in_month (year d) (month d) then
    Ok (mk_datetime (year d) (month d) (day d + 1) (tod d))
  else if month d <? 12 then
    Ok (mk_datetime (year d) (month d + 1) 1 (tod d))
  else if year d <? MAXYEAR then
    Ok (mk_datetime (year d + 1) 1 1 (tod d))
  else Raise (OverflowError "date value out of range").

Definition prev_day (d : datetime) : result datetime :=
  if 1 <? day d then
    Ok (mk_datetime (year d) (month d) (day d - 1) (tod d))
  else if 1 <? month d then
    Ok (mk_datetime (year d) (month d - 1)
          (_days_in_month (year d) (month d - 1)) (tod d))
  else if MINYEAR <? year d then
    Ok (mk_datetime (year d - 1) 12 31 (tod d))
  else Raise (OverflowError "date value out of range").

Fixpoint iter_days (step : datetime -> result datetime) (n : nat)
    (d : datetime) : result datetime :=
  match n with
  | O => Ok d
  | S n' => result_bind (step d) (iter_days step n')
  end.

(** [d + timedelta(days=k)] and [d - timedelta(days=k)]. *)
Definition add_days (d : datetime) (k : Z) : result datetime :=
  if 0 <=? k then iter_days next_day (Z.to_nat k) d
  else iter_days prev_day (Z.to_nat (- k)) d.

Definition sub_days (d : datetime) (k : Z) : result datetime :=
  add_days d (- k).

End Calendar.

(** ** [helpers.py]: company holidays and the previous business day *)

Module Helpers.
Import Calendar.

Local Open Scope result_scope.

(** [holidays.add(x)] on a Python [set]. *)
Definition set_add (x : datetime) (s : gset datetime) : gset datetime :=
  {[ x ]} ∪ s.

Definition get_company_holidays (year : Z) : result (gset datetime) :=
  let holidays : gset datetime := ∅ in
  (* Fixed holidays (same date every year) *)
  new_year <- datetime_ year 1 1 ;;
  let holidays := set_add new_year holidays in
  juneteenth <- datetime_ year 6 19 ;;
  let holidays := set_add juneteenth holidays in
  independence <- datetime_ year 7 4 ;;
  let holidays := set_add independence holidays in
  christmas_eve <- datetime_ year 12 24 ;;
  let holidays := set_add christmas_eve holidays in
  christmas <- datetime_ year 12 25 ;;
  let holidays := set_add christmas holidays in
  (* Check if July 4th falls on weekend, add observed day *)
  july_4 <- datetime_ year 7 4 ;;
  holidays <-
    (if weekday july_4 =? 5 then
       observed <- datetime_ year 7 3 ;; Ok (set_add observed holidays)
     else if weekday july_4 =? 6 then
       observed <- datetime_ year 7 5 ;; Ok (set_add observed holidays)
     else Ok holidays) ;;
  (* MLK Day: Third Monday of January *)
  jan_first <- datetime_ year 1 1 ;;
  first_monday <- add_days jan_first ((7 - weekday jan_first) mod 7) ;;
  let first_monday := if weekday jan_first =? 0 then jan_first else first_monday in
  mlk_day <- add_days first_monday (7 * 2) ;;
  let holidays := set_add mlk_day holidays in
  (* Presidents' Day: Third Monday of February *)
  feb_first <- datetime_ year 2 1 ;;
  first_monday <- add_days feb_first ((7 - weekday feb_first) mod 7) ;;
  let first_monday := if weekday feb_first =? 0 then feb_first else first_monday in
  presidents_day <- add_days first_monday (7 * 2) ;;
  let holidays := set_add presidents_day holidays in
  (* Memorial Day: Last Monday of May *)
  may_last <- datetime_ year 5 31 ;;
  memorial_day <- sub_days may_last ((weekday may_last - 0) mod 7) ;;
  let holidays := set_add memorial_day holidays in
  (* Labor Day: First Monday of September *)
  sep_first <- datetime_ year 9 1 ;;
  first_monday <- add_days sep_first ((7 - weekday sep_first) mod 7) ;;
  let first_monday := if weekday sep_first =? 0 then sep_first else first_monday in
  let labor_day := first_monday in
  let holidays := set_add labor_day holidays in
  (* Thanksgiving: Fourth Thursday of November *)
  nov_first <- datetime_ year 11 1 ;;
  first_thursday <- add_days nov_first ((3 - weekday nov_first) mod 7) ;;
  let first_thursday := if weekday nov_first =? 3 then nov_first else first_thursday in
  thanksgiving <- add_days first_thursday (7 * 3) ;;
  let holidays := set_add thanksgiving holidays in
  (* Day after Thanksgiving *)
  day_after <- add_days thanksgiving 1 ;;
  let holidays := set_add day_after holidays in
  Ok holidays.

(** The body of the [while True] loop of [subtract_one_business_day]:
    either [continue] with an earlier candidate or [break] with the
    business day found. *)
Inductive loop_control : Type :=
| Continue (date : datetime)
| Break (date : datetime).

Definition business_day_step (holidays : gset datetime) (date : datetime)
    : result loop_control :=
  (* Convert date to datetime for comparison with holidays set *)
  date_as_datetime <- datetime_ (year date) (month date) (day date) ;;
  if bool_decide (date_as_datetime ∈ holidays) then
    date <- sub_days date 1 ;; Ok (Continue date)
  else if weekday date =? 5 then        (* Saturday *)
    date <- sub_days date 1 ;; Ok (Continue date)
  else if weekday date =? 6 then        (* Sunday *)
    date <- sub_days date 2 ;; Ok (Continue date)
  else Ok (Break date).                 (* Found valid business day *)

(** The loop itself.  [fuel] bounds the number of iterations; [None] means
    the bound was reached before the loop left through [break] or an
    exception. *)
Fixpoint business_day_loop (fuel : nat) (holidays : gset datetime)
    (date : datetime) : option (result datetime) :=
  match fuel with
  | O => None
  | S fuel' =>
    match business_day_step holidays date with
    | Raise e => Some (Raise e)
    | Ok (Break date) => Some (Ok date)
    | Ok (Continue date) => business_day_loop fuel' holidays date
    end
  end.

(** [subtract_one_business_day(date)].  The [logger.info] calls of the
    source only print the candidate and are not part of the result. *)
Definition subtract_one_business_day (fuel : nat) (date : datetime)
    : option (result datetime) :=
  match sub_days date 1 with
  | Raise e => Some (Raise e)
  | Ok date =>
    (* Get holidays for this year and adjacent years *)
    match get_company_holidays (year date) with
    | Raise e => Some (Raise e)
    | Ok holidays =>
      match get_company_holidays (year date - 1) with
      | Raise e => Some (Raise e)
      | Ok prior => business_day_loop fuel (holidays ∪ prior) date
      end
    end
  end.

(** [date_as_datetime]: the same day at midnight. *)
Definition midnight (d : datetime) : datetime :=
  mk_datetime (year d) (month d) (day d) 0.

(** Membership of a date in the company holiday set of year [y]; a year
    for which [get_company_holidays] raises has no holidays. *)
Definition is_company_holiday (y : Z) (d : datetime) : bool :=
  match get_company_holidays y with
  | Ok holidays => bool_decide (midnight d ∈ holidays)
  | Raise _ => false
  end.

(** A business day: no Saturday, no Sunday, and no company holiday of its
    own year or of the year before. *)
Definition business_day (d : datetime) : bool :=
  negb (weekday d =? 5) && negb (weekday d =? 6)
  && negb (is_company_holiday (year d) d)
  && negb (is_company_holiday (year d - 1) d).

(** *** Vocabulary for the statements about the loop *)

(** [datetime(2, 1, 1)]: the day before any later date lies in year 2 or
    after, so that the holiday sets of its year and of the year before
    exist. *)
Definition first_supported : datetime := mk_datetime 2 1 1 0.

(** The shape of every member of [get_company_holidays y]: a midnight of
    year [y]; in December only the 24th and the 25th. *)
Definition holiday_shape (y : Z) (x : datetime) : Prop :=
  year x = y /\ tod x = 0 /\ (month x = 12 -> day x = 24 \/ day x = 25).

(** What the loop skips, relative to the holiday set it was given. *)
Definition non_business (hs : gset datetime) (d : datetime) : Prop :=
  midnight d ∈ hs \/ weekday d = 5 \/ weekday d = 6.

Definition is_weekend (c : datetime) : bool :=
  (weekday c =? 5) || (weekday c =? 6).

(** The holidays not later than the candidate, and the measure that
    decreases with every iteration of the loop. *)
Definition holidays_upto (hs : gset datetime) (c : datetime) : gset datetime :=
  filter (fun h => toordinal h <= toordinal c) hs.

Definition loop_measure (hs : gset datetime) (c : datetime) : nat :=
  (2 * size (holidays_upto hs c) + (if is_weekend c then 1 else 0))%nat.

End Helpers.


(** ** [App.py]: the composite tasks of [WorkerThread.run] *)

Module App.

(** How a call of a producer's [main] ends: it returns, or it raises an
    [Exception] whose text is [script_error]. *)
Inductive outcome : Type :=
| Returns
| Raises (script_error : string).

(** A run of [excel_report.main]: the stages it reports through its
    [progress_callback], then how it ends. *)
Record report_run : Type := {
  stages : list (Z * string);
  report_outcome : outcome
}.

(** What the worker does towards the outside: the two signals, and the
    calls of the three task entry points. *)
Inductive event : Type :=
| progress_emit (line : string)
| finished_emit (success : bool) (message : string)
| web_download_main
| sap_download_main
| excel_report_main.

(** The object stored in [results[...]]: its [returncode]. *)
Record returncode_obj : Type := { returncode : Z }.

(** [run_website]: the events of the thread and what it leaves in
    [results['website']]. *)
Definition run_website (web : outcome) : list event * option returncode_obj :=
  match web with
  | Returns =>
    ([progress_emit "→ Website download started...";
      web_download_main;
      progress_emit "✓ Website download completed!"],
     Some {| returncode := 0 |})
  | Raises script_error =>
    ([progress_emit "→ Website download started...";
      web_download_main;
      progress_emit ("✗ Website download failed: " +:+ script_error)],
     Some {| returncode := 1 |})
  end.

(** [run_sap], likewise; the initial [time.sleep(2)] has no event. *)
Definition run_sap (sap : outcome) : list event * option returncode_obj :=
  match sap with
  | Returns =>
    ([progress_emit "→ SAP extraction started...";
      sap_download_main;
      progress_emit "✓ SAP extraction completed!"],
     Some {| returncode := 0 |})
  | Raises script_error =>
    ([progress_emit "→ SAP extraction started...";
      sap_download_main;
      progress_emit ("✗ SAP extraction failed: " +:+ script_error)],
     Some {| returncode := 1 |})
  end.

(** The two threads run between [start] and [join]; a schedule says whose
    turn it is ([true]: the website thread), and when it runs out the
    remaining events follow in thread order. *)
Fixpoint interleave (schedule : list bool) (t1 t2 : list event) : list event :=
  match schedule with
  | [] => t1 ++ t2
  | turn :: schedule' =>
    match t1, t2 with
    | [], _ => t2
    | _, [] => t1
    | e1 :: t1', e2 :: t2' =>
      if turn then e1 :: interleave schedule' t1' t2
      else e2 :: interleave schedule' t1 t2'
    end
  end.

(** [results[k] and results[k].returncode == 0] *)
Definition succeeded (r : option returncode_obj) : bool :=
  match r with
  | Some obj => returncode obj =? 0
  | None => false
  end.

(** The branch [script_type == 'both']. *)
Definition run_both (schedule : list bool) (web sap : outcome) : list event :=
  let '(website_events, results_website) := run_website web in
  let '(sap_events, results_sap) := run_sap sap in
  let website_success := succeeded results_website in
  let sap_success := succeeded results_sap in
  [progress_emit "Starting both scripts in parallel..."]
  ++ interleave schedule website_events sap_events
  ++ (if website_success && sap_success then
        [finished_emit true "Both scripts completed successfully!"]
      else if website_success || sap_success then
        let msg := "Partial success: " in
        let msg := if website_success then msg +:+ "Website ✓, SAP ✗"
                   else msg +:+ "Website ✗, SAP ✓" in
        [finished_emit false msg]
      else
        [finished_emit false "Both scripts failed!"]).

(** The lines [excel_report.main] sends through the callback
    [lambda pct, stage: self.progress.emit(f"[{pct}%] {stage}")]. *)
Definition report_lines (run : report_run) : list event :=
  map (fun '(pct, stage) =>
         progress_emit ("[" +:+ pretty pct +:+ "%] " +:+ stage))
      (stages run).

(** The branch [script_type == 'all']. *)
Definition run_all (schedule : list bool) (web sap : outcome)
    (report : report_run) : list event :=
  let '(website_events, results_website) := run_website web in
  let '(sap_events, results_sap) := run_sap sap in
  let website_ok := succeeded results_website in
  let sap_ok := succeeded results_sap in
  (* Phase 1: downloads in parallel *)
  [progress_emit "Starting downloads (PDBS + SAP)..."]
  ++ interleave schedule website_events sap_events
  ++ (if negb (website_ok && sap_ok) then
        let msg := "Downloads failed — " in
        let msg :=
          if negb website_ok && negb sap_ok then
            msg +:+ "both PDBS and SAP failed."
          else if negb website_ok then
            msg +:+ "PDBS failed, SAP succeeded."
          else
            msg +:+ "PDBS succeeded, SAP failed." in
        [finished_emit false (msg +:+ " Excel report skipped.")]
      else
        (* Phase 2: excel report (sequential, needs download outputs) *)
        [progress_emit "→ Starting Excel report engine..."; excel_report_main]
        ++ report_lines report
        ++ match report_outcome report with
           | Returns =>
             [finished_emit true "All tasks completed successfully!"]
           | Raises e =>
             [progress_emit ("✗ Excel report failed: " +:+ e);
              finished_emit false
                ("Downloads succeeded but Excel report failed: " +:+ e)]
           end).

(** The [finished] signals of a trace, in order. *)
Definition finished_signals (trace : list event) : list (bool * string) :=
  omap (fun e => match e with
                 | finished_emit ok msg => Some (ok, msg)
                 | _ => None
                 end) trace.

Definition is_report_call (e : event) : bool :=
  match e with excel_report_main => true | _ => false end.

(** The events a download thread can produce. *)
Definition thread_event (e : event) : Prop :=
  match e with
  | finished_emit _ _ | excel_report_main => False
  | _ => True
  end.

End App.

(** ** [excel_manager.py]: the serialized Excel session *)

Module ExcelManager.

Definition thread_id : Type := nat.

(** [threading.RLock]: who holds it, and how many times. *)
Record RLock : Type := {
  owner : option thread_id;
  count : nat
}.

(** The external calls of [convert_xls_to_xlsx], by place in the code. *)
Inductive call_site : Type :=
| CoInitialize
| Dispatch_Excel
| set_Visible
| set_DisplayAlerts
| Workbooks_Open
| SaveAs
| Close
| sleep
| finally_Close
| Quit
| CoUninitialize.

(** The surroundings of one call: whether a lock held by another thread
    becomes free before the timeout, and which external calls raise (with
    the text of the exception). *)
Record environment : Type := {
  lock_freed_in_time : bool;
  fails : call_site -> option string
}.

Inductive action : Type :=
| lock_acquire (timeout : Z) (acquired : bool)
| lock_release
| logger_error (msg : string)
| logger_info (msg : string)
| external (site : call_site).

(** [self._operation_lock.acquire(timeout=timeout)] by thread [me]. *)
Definition acquire (me : thread_id) (env : environment) (lock : RLock)
    : bool * RLock :=
  match owner lock with
  | None => (true, {| owner := Some me; count := 1 |})
  | Some t =>
    if Nat.eqb t me then (true, {| owner := Some me; count := S (count lock) |})
    else if lock_freed_in_time env then
      (true, {| owner := Some me; count := 1 |})
    else (false, lock)
  end.

(** [self._operation_lock.release()] by the holder. *)
Definition release (lock : RLock) : RLock :=
  match count lock with
  | S (S n) => {| owner := owner lock; count := S n |}
  | _ => {| owner := None; count := 0 |}
  end.

(** How often [me] holds the lock. *)
Definition holds (me : thread_id) (lock : RLock) : nat :=
  match owner lock with
  | Some t => if Nat.eqb t me then count lock else 0%nat
  | None => 0%nat
  end.

(** The local variables [excel] and [wb] (are they not [None]?) and what
    has been done so far. *)
Record frame : Type := {
  excel : bool;
  wb : bool;
  trace : list action
}.

Definition M (A : Type) : Type := frame -> result A * frame.

Definition ret {A} (a : A) : M A := fun f => (Ok a, f).

Definition bind {A B} (m : M A) (k : A -> M B) : M B :=
  fun f => match m f with
           | (Ok a, f') => k a f'
           | (Raise e, f') => (Raise e, f')
           end.

Definition act (a : action) : M unit :=
  fun f => (Ok tt, {| excel := excel f; wb := wb f; trace := trace f ++ [a] |}).

Definition call (env : environment) (site : call_site) : M unit :=
  fun f =>
    let f' := {| excel := excel f; wb := wb f;
                 trace := trace f ++ [external site] |} in
    match fails env site with
    | Some msg => (Raise (com_error msg), f')
    | None => (Ok tt, f')
    end.

Definition set_excel (b : bool) : M unit :=
  fun f => (Ok tt, {| excel := b; wb := wb f; trace := trace f |}).

Definition set_wb (b : bool) : M unit :=
  fun f => (Ok tt, {| excel := excel f; wb := b; trace := trace f |}).

(** [try: body except Exception: pass] *)
Definition swallow (m : M unit) : M unit :=
  fun f => match m f with
           | (_, f') => (Ok tt, f')
           end.

Declare Scope session_scope.
Delimit Scope session_scope with session.
Notation "m1 ;; m2" := (bind m1 (fun _ => m2))
  (at level 100, m2 at level 200, right associativity) : session_scope.
Local Open Scope session_scope.

(** The [try] block. *)
Definition try_block (env : environment) (xls_path xlsx_path : string)
    : M bool :=
  (* Initialize COM for this thread *)
  call env CoInitialize ;;
  act (logger_info ("Converting " +:+ xls_path +:+ " to " +:+ xlsx_path +:+ "...")) ;;
  (* Create Excel instance *)
  call env Dispatch_Excel ;;
  set_excel true ;;
  call env set_Visible ;;
  call env set_DisplayAlerts ;;
  (* Open and convert file *)
  call env Workbooks_Open ;;
  set_wb true ;;
  call env SaveAs ;;
  call env Close ;;
  set_wb false ;;
  call env sleep ;;
  act (logger_info ("✓ Conversion complete: " +:+ xlsx_path)) ;;
  ret true.

(** The [finally] block without the release. *)
Definition cleanup (env : environment) : M unit :=
  (* Clean up Excel objects *)
  swallow (fun f => if wb f then call env finally_Close f else ret tt f) ;;
  swallow (fun f => if excel f then call env Quit f else ret tt f) ;;
  (* Uninitialize COM *)
  swallow (call env CoUninitialize).

(** [ExcelManager.convert_xls_to_xlsx(xls_path, xlsx_path, timeout=60)],
    called by thread [me]: the value returned, the lock afterwards and
    the actions in order. *)
Definition convert_xls_to_xlsx (me : thread_id) (env : environment)
    (xls_path xlsx_path : string) (timeout : option Z) (lock : RLock)
    : bool * RLock * list action :=
  let timeout := default 60 timeout in
  let '(acquired, lock) := acquire me env lock in
  if negb acquired then
    (false, lock,
     [lock_acquire timeout false;
      logger_error ("Timeout waiting for Excel lock (" +:+ pretty timeout +:+ "s)")])
  else
    let f := {| excel := false; wb := false;
                trace := [lock_acquire timeout true] |} in
    let '(r, f) := try_block env xls_path xlsx_path f in
    let '(returned, f) :=
      match r with
      | Ok b => (b, f)
      | Raise e =>
        (false, snd (act (logger_error ("Error converting file: " +:+ exn_text e)) f))
      end in
    let '(_, f) := cleanup env f in
    (* Release lock *)
    (returned, release lock, trace f ++ [lock_release]).

(** The external calls of the [try] block, in order. *)
Definition try_sites : list call_site :=
  [CoInitialize; Dispatch_Excel; set_Visible; set_DisplayAlerts;
   Workbooks_Open; SaveAs; Close; sleep].

Definition is_lock_action (a : action) : bool :=
  match a with
  | lock_acquire _ _ | lock_release => true
  | _ => false
  end.

(** [f'] continues [f] without touching the lock. *)
Definition extends (f f' : frame) : Prop :=
  exists added, trace f' = trace f ++ added
                /\ forallb (fun a => negb (is_lock_action a)) added = true.

(** A step of the session only adds actions that leave the lock alone. *)
Definition quiet {A} (m : M A) : Prop := forall f, extends f (snd (m f)).

Definition is_external (a : action) : bool :=
  match a with external _ => true | _ => false end.

Definition is_release (a : action) : bool :=
  match a with lock_release => true | _ => false end.

End ExcelManager.

(** ** [excel_report.py]: the pattern extraction engine *)

Module ExcelReport.

(** *** Cell values and what [Range.Value] hands over *)

(** The value of one cell as pywin32 delivers it: nothing, text, a
    boolean, a number (a double), or a Python [int] such as the [0] the
    engine itself writes.  Date and currency cells are left out. *)
Inductive cell : Type :=
| CNone
| CStr (s : string)
| CBool (b : bool)
| CInt (z : Z)
| CFloat (x : spec_float).

Definition is_zero_float (x : spec_float) : bool :=
  match x with
  | S754_zero _ => true
  | _ => false
  end.

(** [bool(v)] *)
Definition truthy (v : cell) : bool :=
  match v with
  | CNone => false
  | CStr s => negb (String.eqb s "")
  | CBool b => b
  | CInt z => negb (z =? 0)
  | CFloat x => negb (is_zero_float x)
  end.

(** [v in (None, "", 0)] *)
Definition is_empty_or_zero (v : cell) : bool :=
  match v with
  | CNone => true
  | CStr s => String.eqb s ""
  | CBool b => negb b
  | CInt z => z =? 0
  | CFloat x => is_zero_float x
  end.

Definition type_name (v : cell) : string :=
  match v with
  | CNone => "NoneType"
  | CStr _ => "str"
  | CBool _ => "bool"
  | CInt _ => "int"
  | CFloat _ => "float"
  end.

(** A rectangular range of a sheet, row by row. *)
Definition Range : Type := list (list cell).

Definition Rows_Count (r : Range) : Z := Z.of_nat (length r).

Definition Columns_Count (r : Range) : Z :=
  match r with
  | [] => 0
  | row :: _ => Z.of_nat (length row)
  end.

(** [Range.Value]: the plain value for a single cell, otherwise a tuple of
    row tuples. *)
Inductive variant : Type :=
| Scalar (v : cell)
| Rows (rows : list (list cell)).

Definition Range_Value (r : Range) : variant :=
  match r with
  | [[v]] => Scalar v
  | _ => Rows r
  end.

(** What indexing or iterating a [variant] yields: a row tuple, or a plain
    value (a character when the variant is a string). *)
Inductive pyitem : Type :=
| Tuple (cells : list cell)
| Value (v : cell).

(** [isinstance(x, tuple)] *)
Definition variant_is_tuple (v : variant) : bool :=
  match v with Rows _ => true | Scalar _ => false end.

Definition item_is_tuple (it : pyitem) : bool :=
  match it with Tuple _ => true | Value _ => false end.

(** [bool(values)] *)
Definition variant_truthy (v : variant) : bool :=
  match v with
  | Scalar c => truthy c
  | Rows [] => false
  | Rows (_ :: _) => true
  end.

(** [seq[i]] with Python's negative indices. *)
Definition py_index {A} (l : list A) (i : Z) : option A :=
  let n := Z.of_nat (length l) in
  if (0 <=? i) && (i <? n) then l !! Z.to_nat i
  else if (i <? 0) && (- n <=? i) then l !! Z.to_nat (n + i)
  else None.

(** The characters of a string, each a string of length one. *)
Definition chars (s : string) : list cell :=
  map (fun ch => CStr (String ch EmptyString)) (list_ascii_of_string s).

(** [len(values)] *)
Definition py_len (v : variant) : result Z :=
  match v with
  | Rows rows => Ok (Z.of_nat (length rows))
  | Scalar (CStr s) => Ok (Z.of_nat (String.length s))
  | Scalar c =>
    Raise (TypeError ("object of type '" +:+ type_name c +:+ "' has no len()"))
  end.

(** [values[i]] *)
Definition py_getitem (v : variant) (i : Z) : result pyitem :=
  match v with
  | Rows rows =>
    match py_index rows i with
    | Some row => Ok (Tuple row)
    | None => Raise (IndexError "tuple index out of range")
    end
  | Scalar (CStr s) =>
    match py_index (chars s) i with
    | Some ch => Ok (Value ch)
    | None => Raise (IndexError "string index out of range")
    end
  | Scalar c =>
    Raise (TypeError ("'" +:+ type_name c +:+ "' object is not subscriptable"))
  end.

(** [iter(values)] *)
Definition py_iter (v : variant) : result (list pyitem) :=
  match v with
  | Rows rows => Ok (map Tuple rows)
  | Scalar (CStr s) => Ok (map Value (chars s))
  | Scalar c =>
    Raise (TypeError ("'" +:+ type_name c +:+ "' object is not iterable"))
  end.

(** [row[i]], [len(row)], [iter(row)] and [row[1:]] for what came out of a
    [variant]. *)
Definition item_getitem (it : pyitem) (i : Z) : result cell :=
  match it with
  | Tuple cells =>
    match py_index cells i with
    | Some v => Ok v
    | None => Raise (IndexError "tuple index out of range")
    end
  | Value (CStr s) =>
    match py_index (chars s) i with
    | Some ch => Ok ch
    | None => Raise (IndexError "string index out of range")
    end
  | Value c =>
    Raise (TypeError ("'" +:+ type_name c +:+ "' object is not subscriptable"))
  end.

Definition item_len (it : pyitem) : result Z :=
  match it with
  | Tuple cells => Ok (Z.of_nat (length cells))
  | Value (CStr s) => Ok (Z.of_nat (String.length s))
  | Value c =>
    Raise (TypeError ("object of type '" +:+ type_name c +:+ "' has no len()"))
  end.

Definition item_iter (it : pyitem) : result (list pyitem) :=
  match it with
  | Tuple cells => Ok (map Value cells)
  | Value (CStr s) => Ok (map Value (chars s))
  | Value c =>
    Raise (TypeError ("'" +:+ type_name c +:+ "' object is not iterable"))
  end.

Definition item_tail (it : pyitem) : result (list cell) :=
  match it with
  | Tuple cells => Ok (drop 1 cells)
  | Value (CStr s) => Ok (drop 1 (chars s))
  | Value c =>
    Raise (TypeError ("'" +:+ type_name c +:+ "' object is not subscriptable"))
  end.

(** [val == label] for a string [label]. *)
Definition item_eq_str (it : pyitem) (label : string) : bool :=
  match it with
  | Value (CStr s) => String.eqb s label
  | _ => false
  end.

(** [kw in s] *)
Fixpoint contains (s kw : string) : bool :=
  String.prefix kw s
  || match s with
     | EmptyString => false
     | String _ s' => contains s' kw
     end.

(** [enumerate(l, start)] and [range(a, b)] *)
Definition enumerate {A} (start : Z) (l : list A) : list (Z * A) :=
  zip (seqZ start (Z.of_nat (length l))) l.

Definition range (a b : Z) : list Z := seqZ a (b - a).

(** *** Double precision, for the percentage of the progress events *)

(** [float(z)], rounded to nearest even. *)
Definition float_of_int (z : Z) : spec_float := binary_normalize 53 1024 z 0 false.

(** [a / b] on integers and [x * y] on floats.  For integers below [2^53]
    in size, which are doubles, Python divides the two doubles; [b] is
    not zero here, the divisor being [len(operations) or 1]. *)
Definition int_truediv (a b : Z) : spec_float :=
  SFdiv 53 1024 (float_of_int a) (float_of_int b).

Definition float_mul (x y : spec_float) : spec_float := SFmul 53 1024 x y.

(** [int(x)]: truncation towards zero. *)
Definition float_to_int (x : spec_float) : result Z :=
  match x with
  | S754_zero _ => Ok 0
  | S754_finite s m e =>
    let magnitude :=
      if 0 <=? e then Z.pos m * 2 ^ e else Z.pos m / 2 ^ (- e) in
    Ok (if s then - magnitude else magnitude)
  | S754_infinity _ =>
    Raise (OverflowError "cannot convert float infinity to integer")
  | S754_nan => Raise (ValueError "cannot convert float NaN to integer")
  end.

(** *** The workbook *)

Record PivotTable : Type := {
  DataBodyRange : Range;
  TableRange2 : Range
}.

(** A table on a sheet: where its header row and first column are, how
    many columns it has, and how many list rows. *)
Record ListObject : Type := {
  HeaderRow : Z;
  FirstColumn : Z;
  ListColumns_Count : nat;
  ListRows_Count : Z
}.

Record Worksheet : Type := {
  Cells : gmap (Z * Z) cell;
  ListObjects : gmap string ListObject;
  PivotTables : gmap string PivotTable
}.

Abbreviation Workbook := (gmap string Worksheet).

Inductive level : Type := INFO | WARNING | ERROR.

(** What a run does that can be observed. *)
Inductive event : Type :=
| Write (sheet : string) (row col : Z) (value : cell)
| ListRows_Add (sheet table : string)
| Log (lvl : level) (msg : string)
| Progress (pct : Z) (stage : string).

Record world : Type := {
  workbook : Workbook;
  events : list event
}.

(** Computations on the workbook that may raise. *)
Definition M (A : Type) : Type := world -> result A * world.

Definition ret {A} (a : A) : M A := fun w => (Ok a, w).

Definition raise {A} (e : exn) : M A := fun w => (Raise e, w).

Definition bind {A B} (m : M A) (k : A -> M B) : M B :=
  fun w => match m w with
           | (Ok a, w') => k a w'
           | (Raise e, w') => (Raise e, w')
           end.

Definition lift {A} (r : result A) : M A := fun w => (r, w).

Declare Scope engine_scope.
Delimit Scope engine_scope with engine.
Notation "x <- e ;; k" := (bind e (fun x => k))
  (at level 100, e at next level, k at level 200, right associativity)
  : engine_scope.
Notation "e1 ;; e2" := (bind e1 (fun _ => e2))
  (at level 100, e2 at level 200, right associativity) : engine_scope.
Local Open Scope engine_scope.

Fixpoint for_each {A} (l : list A) (body : A -> M unit) : M unit :=
  match l with
  | [] => ret tt
  | x :: l' => body x ;; for_each l' body
  end.

Definition emit_event (e : event) : M unit :=
  fun w => (Ok tt, {| workbook := workbook w; events := events w ++ [e] |}).

Definition logger_info (msg : string) : M unit := emit_event (Log INFO msg).
Definition logger_warning (msg : string) : M unit := emit_event (Log WARNING msg).
Definition logger_error (msg : string) : M unit := emit_event (Log ERROR msg).

(** [workbook.Sheets(name)] *)
Definition Sheets (name : string) : M Worksheet :=
  fun w => match workbook w !! name with
           | Some ws => (Ok ws, w)
           | None => (Raise (com_error "Exception occurred."), w)
           end.

(** [sheet.PivotTables(name)] and [sheet.ListObjects(name)] *)
Definition PivotTables_ (sheet name : string) : M PivotTable :=
  ws <- Sheets sheet ;;
  match PivotTables ws !! name with
  | Some pt => ret pt
  | None => raise (com_error "Exception occurred.")
  end.

Definition ListObjects_ (sheet name : string) : M ListObject :=
  ws <- Sheets sheet ;;
  match ListObjects ws !! name with
  | Some t => ret t
  | None => raise (com_error "Exception occurred.")
  end.

Definition cell_at (ws : Worksheet) (row col : Z) : cell :=
  default CNone (Cells ws !! (row, col)).

(** The cells of a block of [nrows] by [ncols] cells. *)
Definition block (ws : Worksheet) (row col nrows ncols : Z) : Range :=
  map (fun r => map (fun c => cell_at ws r c) (seqZ col ncols))
      (seqZ row nrows).

(** [sheet.Range(sheet.Cells(row1, col1), sheet.Cells(row2, col2))] *)
Definition region (ws : Worksheet) (row1 col1 row2 col2 : Z) : Range :=
  block ws (Z.min row1 row2) (Z.min col1 col2)
        (Z.abs (row2 - row1) + 1) (Z.abs (col2 - col1) + 1).

(** A cell that is given [None] or the empty string is empty afterwards. *)
Definition store (key : Z * Z) (v : cell) (cells : gmap (Z * Z) cell)
    : gmap (Z * Z) cell :=
  match v with
  | CNone => delete key cells
  | CStr EmptyString => delete key cells
  | _ => <[ key := v ]> cells
  end.

(** [sheet.Cells(row, col).Value = v].  The sheet has no border here. *)
Definition write_cell (sheet : string) (row col : Z) (v : cell) : M unit :=
  ws <- Sheets sheet ;;
  fun w =>
    let ws' := {| Cells := store (row, col) v (Cells ws);
                  ListObjects := ListObjects ws;
                  PivotTables := PivotTables ws |} in
    (Ok tt, {| workbook := <[ sheet := ws' ]> (workbook w);
               events := events w ++ [Write sheet row col v] |}).

(** [dest_table.ListRows.Add()]: one more list row.  Cells are not moved
    and the table does not grow by itself when cells next to it are
    written. *)
Definition ListRows_Add_ (sheet table : string) : M unit :=
  ws <- Sheets sheet ;;
  t <- ListObjects_ sheet table ;;
  fun w =>
    let t' := {| HeaderRow := HeaderRow t; FirstColumn := FirstColumn t;
                 ListColumns_Count := ListColumns_Count t;
                 ListRows_Count := ListRows_Count t + 1 |} in
    let ws' := {| Cells := Cells ws;
                  ListObjects := <[ table := t' ]> (ListObjects ws);
                  PivotTables := PivotTables ws |} in
    (Ok tt, {| workbook := <[ sheet := ws' ]> (workbook w);
               events := events w ++ [ListRows_Add sheet table] |}).

(** [dest_table.ListRows(n).Range.Cells(i, j).Value = v] *)
Definition write_list_row (sheet : string) (t : ListObject) (n i j : Z)
    (v : cell) : M unit :=
  write_cell sheet (HeaderRow t + n + i - 1) (FirstColumn t + j - 1) v.

(** [dest_table.HeaderRowRange] and [dest_table.DataBodyRange] (which is
    [None] for a table without rows). *)
Definition HeaderRowRange (ws : Worksheet) (t : ListObject) : Range :=
  block ws (HeaderRow t) (FirstColumn t) 1 (Z.of_nat (ListColumns_Count t)).

Definition DataBodyRange_ (ws : Worksheet) (t : ListObject) : option Range :=
  if ListRows_Count t <=? 0 then None
  else Some (block ws (HeaderRow t + 1) (FirstColumn t)
                   (ListRows_Count t) (Z.of_nat (ListColumns_Count t))).

(** *** Operations *)

(** An operation dict of [_build_operations]; a key that is absent is
    [None]. *)
Record operation : Type := {
  name : option string;
  pattern : option string;
  pivot : option string;
  keyword : option string;
  dest_sheet : option string;
  dest_table : option string;
  date_col : option (Z * string);
  col_offset : option (Z -> Z);
  row_start : option Z;
  dest_col_header : option string;
  extract_col : option Z;
  source_sheet : option string;
  start_row : option Z;
  start_col : option Z;
  end_row : option Z;
  end_col : option Z
}.

(** [op[key]] *)
Definition getitem {A} (key : string) (field : option A) : M A :=
  match field with
  | Some a => ret a
  | None => raise (KeyError key)
  end.

(** [try: body except Exception as e: handler] *)
Definition try_except {A} (body : M A) (handler : exn -> M A) : M A :=
  fun w => match body w with
           | (Ok a, w') => (Ok a, w')
           | (Raise e, w') => handler e w'
           end.

(** [if op.get("date_col"): col, date_val = op["date_col"];
    new_row.Range.Cells(1, col).Value = date_val] *)
Definition write_date_stamp (op : operation) (sheet : string)
    (t : ListObject) (next_row : Z) : M unit :=
  match date_col op with
  | Some (col, date_val) => write_list_row sheet t next_row 1 col (CStr date_val)
  | None => ret tt
  end.

Section Handlers.

(** [str(x)] of a float: the text Python prints for a double. *)
Variable float_repr : spec_float -> string.

(** [str(v)] *)
Definition py_str (v : cell) : string :=
  match v with
  | CNone => "None"
  | CStr s => s
  | CBool true => "True"
  | CBool false => "False"
  | CInt z => pretty z
  | CFloat x => float_repr x
  end.

(** [cell_val and op["keyword"] in str(cell_val)] *)
Definition keyword_in (op : operation) (cell_val : cell) : result bool :=
  if truthy cell_val then
    match keyword op with
    | Some kw => Ok (contains (py_str cell_val) kw)
    | None => Raise (KeyError "keyword")
    end
  else Ok false.

(** The search loop of patterns B, D and E:
    [for i in range(row_start - 1, len(values))], leaving with the first
    row whose first cell contains the keyword. *)
Fixpoint search_rows (values : variant) (op : operation) (indices : list Z)
    : result (option pyitem) :=
  match indices with
  | [] => Ok None
  | i :: indices' =>
    (row <- py_getitem values i ;;
     cell_val <- item_getitem row 0 ;;
     found <- keyword_in op cell_val ;;
     if found then Ok (Some row) else search_rows values op indices')%result
  end.

(** The search loop of pattern C: [for row_data in values]. *)
Fixpoint search_items (op : operation) (items : list pyitem)
    : result (option pyitem) :=
  match items with
  | [] => Ok None
  | row_data :: items' =>
    (cell_val <- item_getitem row_data 0 ;;
     found <- keyword_in op cell_val ;;
     if found then Ok (Some row_data) else search_items op items')%result
  end.

(** Pattern A: copy all DataBodyRange rows into a destination table. *)
Definition _copy_data_body_range (source_sheet : string) (op : operation)
    : M unit :=
  pivot_name <- getitem "pivot" (pivot op) ;;
  pivot <- PivotTables_ source_sheet pivot_name ;;
  let data_range := DataBodyRange pivot in
  dest_sheet <- getitem "dest_sheet" (dest_sheet op) ;;
  Sheets dest_sheet ;;
  dest_table_name <- getitem "dest_table" (dest_table op) ;;
  dest_table <- ListObjects_ dest_sheet dest_table_name ;;
  let next_row := ListRows_Count dest_table + 1 in
  ListRows_Add_ dest_sheet dest_table_name ;;
  write_date_stamp op dest_sheet dest_table next_row ;;
  (* Batch-read all values in one COM call (returns 2D tuple) *)
  let values :=
    match Range_Value data_range with
    | Rows rows => rows
    | Scalar v => [[v]]
    end in
  col_offset <- getitem "col_offset" (col_offset op) ;;
  let num_cols := Columns_Count data_range in
  for_each (enumerate 1 values) (fun '(i, row_data) =>
    for_each (range 1 num_cols) (fun j =>   (* skip last column *)
      v <- lift (item_getitem (Tuple row_data) (j - 1)) ;;
      write_list_row dest_sheet dest_table next_row i (col_offset j) v)) ;;
  name <- getitem "name" (name op) ;;
  logger_info ("Pattern A complete: " +:+ name).

(** Pattern B: search TableRange2 for a keyword row, copy columns 2+. *)
Definition _search_row_copy_columns (source_sheet : string) (op : operation)
    : M unit :=
  pivot_name <- getitem "pivot" (pivot op) ;;
  pivot <- PivotTables_ source_sheet pivot_name ;;
  let full_range := TableRange2 pivot in
  dest_sheet <- getitem "dest_sheet" (dest_sheet op) ;;
  Sheets dest_sheet ;;
  dest_table_name <- getitem "dest_table" (dest_table op) ;;
  dest_table <- ListObjects_ dest_sheet dest_table_name ;;
  let next_row := ListRows_Count dest_table + 1 in
  ListRows_Add_ dest_sheet dest_table_name ;;
  write_date_stamp op dest_sheet dest_table next_row ;;
  (* Batch-read entire range once *)
  let values := Range_Value full_range in
  let num_cols := Columns_Count full_range in
  let row_start := default 1 (row_start op) in
  len <- lift (py_len values) ;;
  target_row <- lift (search_rows values op (range (row_start - 1) len)) ;;
  match target_row with
  | None =>
    keyword <- getitem "keyword" (keyword op) ;;
    name <- getitem "name" (name op) ;;
    logger_warning ("Keyword '" +:+ keyword +:+ "' not found for " +:+ name)
  | Some target_row =>
    col_offset <- getitem "col_offset" (col_offset op) ;;
    for_each (range 2 num_cols) (fun j =>   (* skip last column *)
      v <- lift (item_getitem target_row (j - 1)) ;;
      write_list_row dest_sheet dest_table next_row 1 (col_offset j) v) ;;
    name <- getitem "name" (name op) ;;
    logger_info ("Pattern B complete: " +:+ name)
  end.

(** The header lookup of pattern C: the position (from 1) of the first
    header value equal to the label. *)
Fixpoint find_header (label : string) (idx : Z) (header_vals : list pyitem)
    : option Z :=
  match header_vals with
  | [] => None
  | val :: header_vals' =>
    if item_eq_str val label then Some idx
    else find_header label (idx + 1) header_vals'
  end.

(** [if header_vals and isinstance(header_vals[0], tuple):
       header_vals = header_vals[0]], then what [enumerate] runs over. *)
Definition header_items (header_vals : variant) : result (list pyitem) :=
  if variant_truthy header_vals then
    (first <- py_getitem header_vals 0 ;;
     if item_is_tuple first then item_iter first else py_iter header_vals)%result
  else py_iter header_vals.

(** The first row of the body whose cell in column [dest_col] is empty,
    counted from 0. *)
Fixpoint find_empty_row (dest_col : Z) (row_idx : Z) (body_vals : list pyitem)
    : result (option Z) :=
  match body_vals with
  | [] => Ok None
  | row_data :: body_vals' =>
    (v <- item_getitem row_data (dest_col - 1) ;;
     if negb (truthy v) then Ok (Some row_idx)
     else find_empty_row dest_col (row_idx + 1) body_vals')%result
  end.

(** Pattern C: find first empty cell in dest column, write last pivot col
    value. *)
Definition _previous_full_day_lookup (source_sheet : string) (op : operation)
    : M unit :=
  pivot_name <- getitem "pivot" (pivot op) ;;
  pivot <- PivotTables_ source_sheet pivot_name ;;
  let full_range := TableRange2 pivot in
  dest_sheet <- getitem "dest_sheet" (dest_sheet op) ;;
  ws <- Sheets dest_sheet ;;
  dest_table_name <- getitem "dest_table" (dest_table op) ;;
  dest_table <- ListObjects_ dest_sheet dest_table_name ;;
  (* Batch-read header row to find destination column *)
  let header_vals := Range_Value (HeaderRowRange ws dest_table) in
  header_vals <- lift (header_items header_vals) ;;
  label <- getitem "dest_col_header" (dest_col_header op) ;;
  match find_header label 1 header_vals with
  | None =>
    name <- getitem "name" (name op) ;;
    logger_warning ("Column '" +:+ label +:+ "' not found for " +:+ name)
  | Some dest_col =>
    (* Batch-read data body column to find first empty row *)
    match DataBodyRange_ ws dest_table with
    | None => raise (AttributeError "'NoneType' object has no attribute 'Value'")
    | Some data_body =>
      let data_body_Row := HeaderRow dest_table + 1 in
      body_vals <- lift (py_iter (Range_Value data_body)) ;;
      empty_row <- lift (find_empty_row dest_col 0 body_vals) ;;
      let target_row :=
        match empty_row with
        | Some row_idx => row_idx + 1 + data_body_Row - 1
        | None => Rows_Count data_body + data_body_Row
        end in
      (* Batch-read pivot range to find keyword row *)
      let values := Range_Value full_range in
      num_cols <- lift (if variant_truthy values then
                          (first <- py_getitem values 0 ;; item_len first)%result
                        else Ok 0) ;;
      rows <- lift (py_iter values) ;;
      target_data <- lift (search_items op rows) ;;
      match target_data with
      | None =>
        keyword <- getitem "keyword" (keyword op) ;;
        name <- getitem "name" (name op) ;;
        logger_warning ("Keyword '" +:+ keyword +:+ "' not found for " +:+ name)
      | Some target_data =>
        last_val <- lift (if num_cols =? 0 then Ok CNone
                          else item_getitem target_data (num_cols - 1)) ;;
        match last_val with
        | CNone =>
          name <- getitem "name" (name op) ;;
          logger_warning ("No data in last column for " +:+ name)
        | _ =>
          write_cell dest_sheet
                     (data_body_Row + (target_row - data_body_Row + 1) - 1)
                     (FirstColumn dest_table + dest_col - 1) last_val ;;
          name <- getitem "name" (name op) ;;
          logger_info ("Pattern C complete: " +:+ name)
        end
      end
    end
  end.

(** Pattern D: extract one cell value from a pivot row and write to dest. *)
Definition _single_cell_extraction (source_sheet : string) (op : operation)
    : M unit :=
  pivot_name <- getitem "pivot" (pivot op) ;;
  pivot <- PivotTables_ source_sheet pivot_name ;;
  let full_range := TableRange2 pivot in
  (* Batch-read all values *)
  let values := Range_Value full_range in
  let row_start := default 2 (row_start op) in
  len <- lift (py_len values) ;;
  target_row <- lift (search_rows values op (range (row_start - 1) len)) ;;
  match target_row with
  | None =>
    keyword <- getitem "keyword" (keyword op) ;;
    name <- getitem "name" (name op) ;;
    logger_warning ("Keyword '" +:+ keyword +:+ "' not found for " +:+ name)
  | Some target_row =>
    extract_col <- getitem "extract_col" (extract_col op) ;;
    value <- lift (item_getitem target_row (extract_col - 1)) ;;
    dest_sheet <- getitem "dest_sheet" (dest_sheet op) ;;
    Sheets dest_sheet ;;
    dest_table_name <- getitem "dest_table" (dest_table op) ;;
    dest_table <- ListObjects_ dest_sheet dest_table_name ;;
    let next_row := ListRows_Count dest_table + 1 in
    ListRows_Add_ dest_sheet dest_table_name ;;
    ws <- Sheets dest_sheet ;;
    dest_table <- ListObjects_ dest_sheet dest_table_name ;;
    match DataBodyRange_ ws dest_table with
    | None => raise (AttributeError "'NoneType' object has no attribute 'Rows'")
    | Some _ =>
      write_cell dest_sheet (HeaderRow dest_table + 1 + next_row - 1)
                 (FirstColumn dest_table) value ;;
      name <- getitem "name" (name op) ;;
      logger_info ("Pattern D complete: " +:+ name)
    end
  end.

(** Pattern E: like B but includes the last column and replaces blanks
    with 0. *)
Definition _search_row_with_blank_check (source_sheet : string)
    (op : operation) : M unit :=
  pivot_name <- getitem "pivot" (pivot op) ;;
  pivot <- PivotTables_ source_sheet pivot_name ;;
  let full_range := TableRange2 pivot in
  dest_sheet <- getitem "dest_sheet" (dest_sheet op) ;;
  Sheets dest_sheet ;;
  dest_table_name <- getitem "dest_table" (dest_table op) ;;
  dest_table <- ListObjects_ dest_sheet dest_table_name ;;
  let next_row := ListRows_Count dest_table + 1 in
  ListRows_Add_ dest_sheet dest_table_name ;;
  write_date_stamp op dest_sheet dest_table next_row ;;
  (* Batch-read entire range once *)
  let values := Range_Value full_range in
  num_cols <- lift (if variant_truthy values then
                      (first <- py_getitem values 0 ;; item_len first)%result
                    else Ok 0) ;;
  let row_start := default 2 (row_start op) in
  len <- lift (py_len values) ;;
  target_row <- lift (search_rows values op (range (row_start - 1) len)) ;;
  match target_row with
  | None =>
    keyword <- getitem "keyword" (keyword op) ;;
    name <- getitem "name" (name op) ;;
    logger_warning ("Keyword '" +:+ keyword +:+ "' not found for " +:+ name)
  | Some target_row =>
    (* Check if entire row is blank / zero (columns 2+ in batch data) *)
    tail <- lift (item_tail target_row) ;;
    let is_blank := forallb is_empty_or_zero tail in
    col_offset <- getitem "col_offset" (col_offset op) ;;
    for_each (range 2 (num_cols + 1)) (fun j =>   (* includes last col *)
      new_val <- lift (if is_blank then Ok (CInt 0)
                       else item_getitem target_row (j - 1)) ;;
      write_list_row dest_sheet dest_table next_row 1 (col_offset j) new_val) ;;
    name <- getitem "name" (name op) ;;
    logger_info ("Pattern E complete: " +:+ name)
  end.

(** Pattern F: copy a direct cell range (not a pivot table) to a dest
    table. *)
Definition _sheet_range_copy (op : operation) : M unit :=
  source_sheet_name <- getitem "source_sheet" (source_sheet op) ;;
  src_sheet <- Sheets source_sheet_name ;;
  start_row <- getitem "start_row" (start_row op) ;;
  start_col <- getitem "start_col" (start_col op) ;;
  end_row <- getitem "end_row" (end_row op) ;;
  end_col <- getitem "end_col" (end_col op) ;;
  let source_range := region src_sheet start_row start_col end_row end_col in
  dest_sheet <- getitem "dest_sheet" (dest_sheet op) ;;
  Sheets dest_sheet ;;
  dest_table_name <- getitem "dest_table" (dest_table op) ;;
  dest_table <- ListObjects_ dest_sheet dest_table_name ;;
  let next_row := ListRows_Count dest_table + 1 in
  ListRows_Add_ dest_sheet dest_table_name ;;
  write_date_stamp op dest_sheet dest_table next_row ;;
  (* Batch-read source range in one COM call *)
  let flat_values :=
    match Range_Value source_range with
    | Rows (first :: _) => first
    | Rows [] => []
    | Scalar v => [v]
    end in
  col_offset <- getitem "col_offset" (col_offset op) ;;
  for_each (enumerate 1 flat_values) (fun '(i, val) =>
    write_list_row dest_sheet dest_table next_row 1 (col_offset i) val) ;;
  name <- getitem "name" (name op) ;;
  logger_info ("Pattern F complete: " +:+ name).

(** A pattern function: called with [(workbook, source_sheet, op)] or,
    for pattern F, with [(workbook, op)]. *)
Inductive handler : Type :=
| with_source (f : string -> operation -> M unit)
| without_source (f : operation -> M unit).

Definition _DISPATCH (pattern : string) : option handler :=
  if String.eqb pattern "A" then Some (with_source _copy_data_body_range)
  else if String.eqb pattern "B" then Some (with_source _search_row_copy_columns)
  else if String.eqb pattern "C" then Some (with_source _previous_full_day_lookup)
  else if String.eqb pattern "D" then Some (with_source _single_cell_extraction)
  else if String.eqb pattern "E" then Some (with_source _search_row_with_blank_check)
  else if String.eqb pattern "F" then Some (without_source _sheet_range_copy)
  else None.

(** [handler(workbook, op)] and [handler(workbook, source_sheet, op)] *)
Definition call2 (h : handler) (op : operation) : M unit :=
  match h with
  | without_source f => f op
  | with_source _ =>
    raise (TypeError "missing 1 required positional argument: 'op'")
  end.

Definition call3 (h : handler) (source_sheet : string) (op : operation)
    : M unit :=
  match h with
  | with_source f => f source_sheet op
  | without_source _ =>
    raise (TypeError "takes 2 positional arguments but 3 were given")
  end.

(** [20 + int((idx / total) * 70)] *)
Definition percent (idx total : Z) : result Z :=
  (n <- float_to_int (float_mul (int_truediv idx total) (float_of_int 70)) ;;
   Ok (20 + n))%result.

(** [emit(pct, stage)] of [main]; [progress_callback] says whether a
    callback was given. *)
Definition emit (progress_callback : bool) (pct : Z) (stage : string)
    : M unit :=
  logger_info ("[" +:+ pretty pct +:+ "%] " +:+ stage) ;;
  if progress_callback then emit_event (Progress pct stage) else ret tt.

(** One turn of the loop [for idx, op in enumerate(operations, 1)]. *)
Definition run_operation (progress_callback : bool) (source_sheet : string)
    (total : Z) (idx : Z) (op : operation) : M unit :=
  pattern <- getitem "pattern" (pattern op) ;;
  let handler := _DISPATCH pattern in
  continue <-
    try_except
      (match handler with
       | None =>
         name <- getitem "name" (name op) ;;
         logger_error ("Unknown pattern '" +:+ pattern +:+ "' for " +:+ name) ;;
         ret true
       | Some handler =>
         (if String.eqb pattern "F" then call2 handler op
          else call3 handler source_sheet op) ;;
         ret false
       end)
      (fun e =>
         name <- getitem "name" (name op) ;;
         logger_error ("Operation '" +:+ name +:+ "' failed: " +:+ exn_text e) ;;
         ret false) ;;
  if continue : bool then ret tt
  else
    pct <- lift (percent idx total) ;;     (* 20-90% range *)
    name <- getitem "name" (name op) ;;
    emit progress_callback pct name.

(** [len(operations) or 1] *)
Definition len_or_1 (operations : list operation) : Z :=
  if Z.of_nat (length operations) =? 0 then 1
  else Z.of_nat (length operations).

(** Step 4 of [main], from [total = len(operations) or 1] on. *)
Definition operations_loop (progress_callback : bool) (source_sheet : string)
    (operations : list operation) : M unit :=
  let total := len_or_1 operations in
  for_each (enumerate 1 operations) (fun '(idx, op) =>
    run_operation progress_callback source_sheet total idx op).

End Handlers.

(** *** The operations list *)

(** [_build_operations(today_str, prev_bday_str)]: the dicts in order, each
    with the keys it has in the source. *)
Definition _build_operations (today_str prev_bday_str : string)
    : list operation :=
  [
    (* Op 1 — Incomplete, Inventory > 0 *)
    {| name := Some "Incomplete Inventory > 0"; pattern := Some "A";
       pivot := Some "PivotTable5"; dest_sheet := Some "MO YR SUMMARY";
       dest_table := Some "YR_INCOMP"; date_col := Some (2, today_str);
       col_offset := Some (fun j => j + 2);
       keyword := None; row_start := None; dest_col_header := None;
       extract_col := None; source_sheet := None; start_row := None;
       start_col := None; end_row := None; end_col := None |};
    (* Op 2 — No Inventory, Inventory = 0 *)
    {| name := Some "No Inventory = 0"; pattern := Some "A";
       pivot := Some "PivotTable7"; dest_sheet := Some "MO YR SUMMARY";
       dest_table := Some "YR_NOINV"; col_offset := Some (fun j => j);
       keyword := None; date_col := None; row_start := None;
       dest_col_header := None; extract_col := None;
       source_sheet := None; start_row := None; start_col := None;
       end_row := None; end_col := None |};
    (* Op 3 — Total MO Created *)
    {| name := Some "Total MO Created"; pattern := Some "A";
       pivot := Some "PivotTable4"; dest_sheet := Some "MO YR SUMMARY";
       dest_table := Some "MB51_submit18";
       col_offset := Some (fun j => j);
       keyword := None; date_col := None; row_start := None;
       dest_col_header := None; extract_col := None;
       source_sheet := None; start_row := None; start_col := None;
       end_row := None; end_col := None |};
    (* Op 4 — Daily Reservation Items Submitted *)
    {| name := Some "Daily Reservation Submitted"; pattern := Some "B";
       pivot := Some "PivotTable11";
       keyword := Some "CURRENT UNIL 6 PM";
       dest_sheet := Some "MO YR SUMMARY";
       dest_table := Some "MB51_submit";
       col_offset := Some (fun j => j - 1);
       date_col := None; row_start := None; dest_col_header := None;
       extract_col := None; source_sheet := None; start_row := None;
       start_col := None; end_row := None; end_col := None |};
    (* Op 5 — Previous Full Day Submitted *)
    {| name := Some "Prev Full Day Submitted"; pattern := Some "C";
       pivot := Some "PivotTable11";
       keyword := Some "PREVIOUS FULL DAY";
       dest_sheet := Some "MO YR SUMMARY";
       dest_table := Some "MB51_submit";
       dest_col_header := Some "Full Day SUBMIT";
       date_col := None; col_offset := None; row_start := None;
       extract_col := None; source_sheet := None; start_row := None;
       start_col := None; end_row := None; end_col := None |};
    (* Op 6 — DN AO Inventory Available *)
    {| name := Some "DN AO Inventory Available"; pattern := Some "B";
       pivot := Some "PivotTable3"; keyword := Some "Available";
       dest_sheet := Some "DN AO YR SUMMARY";
       dest_table := Some "AO_INV_AVAIL";
       date_col := Some (2, today_str);
       col_offset := Some (fun j => j + 1);
       row_start := None; dest_col_header := None; extract_col := None;
       source_sheet := None; start_row := None; start_col := None;
       end_row := None; end_col := None |};
    (* Op 7 — DN AO No Inventory *)
    {| name := Some "DN AO No Inventory"; pattern := Some "B";
       pivot := Some "PivotTable3"; keyword := Some "No Inventory";
       dest_sheet := Some "DN AO YR SUMMARY";
       dest_table := Some "AO_NO_INV";
       col_offset := Some (fun j => j - 1);
       date_col := None; row_start := None; dest_col_header := None;
       extract_col := None; source_sheet := None; start_row := None;
       start_col := None; end_row := None; end_col := None |};
    (* Op 8 — DN AO Partial Inventory *)
    {| name := Some "DN AO Partial Inventory"; pattern := Some "B";
       pivot := Some "PivotTable3"; keyword := Some "Partial";
       dest_sheet := Some "DN AO YR SUMMARY";
       dest_table := Some "AO_PART_INV";
       col_offset := Some (fun j => j - 1);
       date_col := None; row_start := None; dest_col_header := None;
       extract_col := None; source_sheet := None; start_row := None;
       start_col := None; end_row := None; end_col := None |};
    (* Op 9 — Daily DN AO Submitted *)
    {| name := Some "Daily DN AO Submitted"; pattern := Some "B";
       pivot := Some "PivotTable1";
       keyword := Some "CURRENT UNIL 6 PM";
       dest_sheet := Some "DN AO YR SUMMARY";
       dest_table := Some "Table16";
       col_offset := Some (fun j => j - 1);
       date_col := None; row_start := None; dest_col_header := None;
       extract_col := None; source_sheet := None; start_row := None;
       start_col := None; end_row := None; end_col := None |};
    (* Op 10 — Previous Full Day AO Submitted *)
    {| name := Some "Prev Full Day AO Submitted"; pattern := Some "C";
       pivot := Some "PivotTable1";
       keyword := Some "PREVIOUS FULL DAY";
       dest_sheet := Some "DN AO YR SUMMARY";
       dest_table := Some "Table16";
       dest_col_header := Some "FULL DAY SUBMIT";
       date_col := None; col_offset := None; row_start := None;
       extract_col := None; source_sheet := None; start_row := None;
       start_col := None; end_row := None; end_col := None |};
    (* Op 11 — Assembly Completed *)
    {| name := Some "SO YR COMP - Assembly Completed";
       pattern := Some "B"; pivot := Some "PivotTable6";
       keyword := Some "ASSEMBLY COMPLETED";
       dest_sheet := Some "SO YR COMP"; dest_table := Some "Table9";
       date_col := Some (2, prev_bday_str);
       col_offset := Some (fun j => j + 1); row_start := Some 2;
       dest_col_header := None; extract_col := None;
       source_sheet := None; start_row := None; start_col := None;
       end_row := None; end_col := None |};
    (* Op 12 — eStore *)
    {| name := Some "SO YR COMP - eStore"; pattern := Some "D";
       pivot := Some "PivotTable6"; keyword := Some "eStore";
       dest_sheet := Some "SO YR COMP"; dest_table := Some "Table11";
       row_start := Some 2; extract_col := Some 6;
       date_col := None; col_offset := None; dest_col_header := None;
       source_sheet := None; start_row := None; start_col := None;
       end_row := None; end_col := None |};
    (* Op 13 — HUB ORDER *)
    {| name := Some "SO YR COMP - HUB ORDER"; pattern := Some "B";
       pivot := Some "PivotTable6"; keyword := Some "HUB ORDER";
       dest_sheet := Some "SO YR COMP"; dest_table := Some "Table15";
       col_offset := Some (fun j => j - 1); row_start := Some 2;
       date_col := None; dest_col_header := None; extract_col := None;
       source_sheet := None; start_row := None; start_col := None;
       end_row := None; end_col := None |};
    (* Op 14 — REGULAR *)
    {| name := Some "SO YR COMP - REGULAR"; pattern := Some "B";
       pivot := Some "PivotTable6"; keyword := Some "REGULAR";
       dest_sheet := Some "SO YR COMP"; dest_table := Some "Table19";
       col_offset := Some (fun j => j - 1); row_start := Some 2;
       date_col := None; dest_col_header := None; extract_col := None;
       source_sheet := None; start_row := None; start_col := None;
       end_row := None; end_col := None |};
    (* Op 15 — Assembly Completed (incomplete) *)
    {| name := Some "SO YR INCMP - Assembly Completed";
       pattern := Some "E"; pivot := Some "PivotTable8";
       keyword := Some "ASSEMBLY COMPLETED";
       dest_sheet := Some "SO YR INCMP"; dest_table := Some "Table21";
       date_col := Some (2, today_str);
       col_offset := Some (fun j => j + 1); row_start := Some 2;
       dest_col_header := None; extract_col := None;
       source_sheet := None; start_row := None; start_col := None;
       end_row := None; end_col := None |};
    (* Op 16 — eStore (incomplete) *)
    {| name := Some "SO YR INCMP - eStore"; pattern := Some "D";
       pivot := Some "PivotTable8"; keyword := Some "eStore";
       dest_sheet := Some "SO YR INCMP";
       dest_table := Some "Table2326"; row_start := Some 2;
       extract_col := Some 7;
       date_col := None; col_offset := None; dest_col_header := None;
       source_sheet := None; start_row := None; start_col := None;
       end_row := None; end_col := None |};
    (* Op 17 — HUB ORDER (incomplete) *)
    {| name := Some "SO YR INCMP - HUB ORDER"; pattern := Some "E";
       pivot := Some "PivotTable8"; keyword := Some "HUB ORDER";
       dest_sheet := Some "SO YR INCMP"; dest_table := Some "Table27";
       col_offset := Some (fun j => j - 1); row_start := Some 2;
       date_col := None; dest_col_header := None; extract_col := None;
       source_sheet := None; start_row := None; start_col := None;
       end_row := None; end_col := None |};
    (* Op 18 — REGULAR (incomplete) *)
    {| name := Some "SO YR INCMP - REGULAR"; pattern := Some "E";
       pivot := Some "PivotTable8"; keyword := Some "REGULAR";
       dest_sheet := Some "SO YR INCMP"; dest_table := Some "Table28";
       col_offset := Some (fun j => j - 1); row_start := Some 2;
       date_col := None; dest_col_header := None; extract_col := None;
       source_sheet := None; start_row := None; start_col := None;
       end_row := None; end_col := None |};
    (* Op 19 — MO % sheet range copy (C4:DB4 → Table18) *)
    {| name := Some "MO % Sheet Copy"; pattern := Some "F";
       dest_sheet := Some "MO %"; dest_table := Some "Table18";
       date_col := Some (2, today_str);
       col_offset := Some (fun i => i + 11);
       source_sheet := Some "MO %"; start_row := Some 4;
       start_col := Some 3; end_row := Some 4; end_col := Some 106;
       pivot := None; keyword := None; row_start := None;
       dest_col_header := None; extract_col := None |}
  ].

(** *** Vocabulary for the statements about the engine *)

Definition sheet_exists (w : world) (sheet : string) : Prop :=
  is_Some (workbook w !! sheet).

(** The table [table] on [sheet], and the pivot view [pivot] on [sheet]. *)
Definition table_info (w : world) (sheet table : string) : option ListObject :=
  match workbook w !! sheet with
  | Some ws => ListObjects ws !! table
  | None => None
  end.

Definition pivot_info (w : world) (sheet pivot : string) : option PivotTable :=
  match workbook w !! sheet with
  | Some ws => PivotTables ws !! pivot
  | None => None
  end.

(** [t] after one [ListRows.Add()]. *)
Definition with_added_row (t : ListObject) : ListObject :=
  {| HeaderRow := HeaderRow t; FirstColumn := FirstColumn t;
     ListColumns_Count := ListColumns_Count t;
     ListRows_Count := ListRows_Count t + 1 |}.

(** The state changed by cell writes only: the events grew by [evs], the
    sheets and the tables are the ones of before. *)
Definition writes_only (w w' : world) (evs : list event) : Prop :=
  events w' = events w ++ evs
  /\ (forall s, sheet_exists w' s <-> sheet_exists w s)
  /\ (forall s t, table_info w' s t = table_info w s t).

(** A range of [R] rows with [C] cells each. *)
Definition rectangular (R C : nat) (r : Range) : Prop :=
  length r = R /\ Forall (fun row => length row = C) r.

(** The cell in row [i] and column [j] of a range, both from 1. *)
Definition range_cell (r : Range) (i j : Z) : cell :=
  match r !! Z.to_nat (i - 1) with
  | Some row => default CNone (row !! Z.to_nat (j - 1))
  | None => CNone
  end.

(** The write of the date stamp, if the operation has one. *)
Definition date_stamp_events (op : operation) (sheet : string)
    (t : ListObject) (next_row : Z) : list event :=
  match date_col op with
  | Some (col, date_val) =>
    [Write sheet (HeaderRow t + next_row + 1 - 1) (FirstColumn t + col - 1)
           (CStr date_val)]
  | None => []
  end.

(** The value writes of pattern A: row by row, for the columns 1 to
    [C - 1] of a body with [C] columns. *)
Definition pattern_A_writes (sheet : string) (t : ListObject)
    (off : Z -> Z) (body : Range) (C : nat) : list event :=
  flat_map (fun '(i, row) =>
    map (fun j => Write sheet (HeaderRow t + (ListRows_Count t + 1) + i - 1)
                        (FirstColumn t + off j - 1)
                        (default CNone (row !! Z.to_nat (j - 1))))
        (seqZ 1 (Z.of_nat C - 1)))
    (enumerate 1 body).

(** The writes of pattern E for the keyword row [row] of a range with
    [N] columns: the columns 2 to [N], zero throughout when every value
    of these columns is empty or zero. *)
Definition pattern_E_writes (sheet : string) (t : ListObject)
    (off : Z -> Z) (row : list cell) (N : nat) : list event :=
  map (fun j => Write sheet (HeaderRow t + (ListRows_Count t + 1) + 1 - 1)
                      (FirstColumn t + off j - 1)
                      (if forallb is_empty_or_zero (drop 1 row) then CInt 0
                       else default CNone (row !! Z.to_nat (j - 1))))
      (seqZ 2 (Z.of_nat N - 1)).

(** The header cells of a table, left to right. *)
Definition header_cells (ws : Worksheet) (t : ListObject) : list cell :=
  map (fun c => cell_at ws (HeaderRow t) c)
      (seqZ (FirstColumn t) (Z.of_nat (ListColumns_Count t))).

(** Equality of texts up to the case of the letters A to Z. *)
Definition lower_ascii (c : ascii) : ascii :=
  let n := nat_of_ascii c in
  if (Nat.leb 65 n) && (Nat.leb n 90) then ascii_of_nat (n + 32) else c.

Fixpoint lower (s : string) : string :=
  match s with
  | EmptyString => EmptyString
  | String c s' => String (lower_ascii c) (lower s')
  end.

Definition same_ignoring_case (a b : string) : bool :=
  String.eqb (lower a) (lower b).

(** Is the exception a [KeyError]? *)
Definition raises_KeyError {A} (r : result A) : bool :=
  match r with
  | Raise (KeyError _) => true
  | _ => false
  end.

(** A computation that never ends in a [KeyError]. *)
Definition key_safe {A} (m : M A) : Prop :=
  forall w, raises_KeyError (fst (m w)) = false.

Definition has_key {A} (field : option A) : bool :=
  match field with Some _ => true | None => false end.

Definition one_of (p : string) (patterns : list string) : bool :=
  existsb (String.eqb p) patterns.

(** The keys the handler of a pattern reads whatever the workbook holds. *)
Definition required_keys (p : string) (op : operation) : bool :=
  has_key (name op) && has_key (dest_sheet op) && has_key (dest_table op)
  && (if one_of p ["A"; "B"; "C"; "D"; "E"] then has_key (pivot op) else true)
  && (if one_of p ["A"; "B"; "E"; "F"] then has_key (col_offset op) else true)
  && (if one_of p ["B"; "C"; "D"; "E"] then has_key (keyword op) else true)
  && (if one_of p ["C"] then has_key (dest_col_header op) else true)
  && (if one_of p ["D"] then has_key (extract_col op) else true)
  && (if one_of p ["F"] then
        has_key (source_sheet op) && has_key (start_row op)
        && has_key (start_col op) && has_key (end_row op)
        && has_key (end_col op)
      else true).

(** The call of the loop: [handler(workbook, op)] for pattern F and
    [handler(workbook, source_sheet, op)] otherwise. *)
Definition call_handler (p : string) (h : handler) (source_sheet : string)
    (op : operation) : M unit :=
  if String.eqb p "F" then call2 h op else call3 h source_sheet op.

(** A record of a well-formed plan: its pattern is one of A to F, has a
    handler, and the record has the keys this handler reads. *)
Definition well_formed_operation (float_repr : spec_float -> string)
    (op : operation) : bool :=
  match pattern op with
  | Some p =>
    one_of p ["A"; "B"; "C"; "D"; "E"; "F"]
    && match _DISPATCH float_repr p with Some _ => true | None => false end
    && required_keys p op
  | None => false
  end.

(** Does the first cell of a row contain the keyword?  ([cell_val and
    keyword in str(cell_val)]) *)
Definition first_cell_matches (float_repr : spec_float -> string)
    (kw : string) (row : list cell) : bool :=
  match row with
  | cell_val :: _ => truthy cell_val && contains (py_str float_repr cell_val) kw
  | [] => false
  end.

(** [row] is the keyword row of [full_range]: the first row from
    [row_start] on whose first cell contains the keyword. *)
Definition keyword_row (float_repr : spec_float -> string) (kw : string)
    (full_range : Range) (row_start : Z) (row : list cell) : Prop :=
  exists k : nat,
    (Z.to_nat (row_start - 1) <= k)%nat
    /\ full_range !! k = Some row
    /\ first_cell_matches float_repr kw row = true
    /\ forall k' row', (Z.to_nat (row_start - 1) <= k' < k)%nat ->
                       full_range !! k' = Some row' ->
                       first_cell_matches float_repr kw row' = false.

(** The cells of a sheet that hold something. *)
Definition populated_cells (w : world) (sheet : string) : gmap (Z * Z) cell :=
  match workbook w !! sheet with
  | Some ws => Cells ws
  | None => ∅
  end.

Definition is_write (e : event) : bool :=
  match e with Write _ _ _ _ => true | _ => false end.

Definition is_progress (e : event) : bool :=
  match e with Progress _ _ => true | _ => false end.

(** An operation with a name and with a pattern that has a handler. *)
Definition known_operation (float_repr : spec_float -> string)
    (op : operation) : bool :=
  match pattern op, name op with
  | Some p, Some _ =>
    match _DISPATCH float_repr p with Some _ => true | None => false end
  | _, _ => false
  end.

(** The state of the loop after the first [k] operations. *)
Definition world_before (float_repr : spec_float -> string)
    (progress_callback : bool) (source_sheet : string)
    (operations : list operation) (k : nat) (w : world) : world :=
  snd (for_each (take k (enumerate 1 operations)) (fun '(idx, op) =>
         run_operation float_repr progress_callback source_sheet
                       (len_or_1 operations) idx op) w).

(** What the loop logs when the handler of the operation [name] ends
    with [r], and what [emit(pct, name)] adds. *)
Definition failure_log (name : string) (r : result unit) : list event :=
  match r with
  | Ok _ => []
  | Raise e =>
    [Log ERROR ("Operation '" +:+ name +:+ "' failed: " +:+ exn_text e)]
  end.

Definition progress_log (progress_callback : bool) (pct : Z) (name : string)
    : list event :=
  Log INFO ("[" +:+ pretty pct +:+ "%] " +:+ name)
  :: (if progress_callback then [Progress pct name] else []).

End ExcelReport.

(** ** A workbook to run the handlers on *)

Module Scenario.
Import ExcelReport.

(** The plan of a run on 2026-11-03, and its [k]-th record from 0. *)
Definition plan : list operation :=
  _build_operations "2026-11-03" "2026-11-02".

Definition no_keys : operation :=
  {| name := None; pattern := None; pivot := None; keyword := None;
     dest_sheet := None; dest_table := None; date_col := None;
     col_offset := None; row_start := None; dest_col_header := None;
     extract_col := None; source_sheet := None; start_row := None;
     start_col := None; end_row := None; end_col := None |}.

Definition operation_at (k : nat) : operation := default no_keys (plan !! k).

(** The workbook holds no floats. *)
Definition no_floats (x : spec_float) : string := "0.0".

(** A body of 3 rows and 4 columns, the last one being the totals. *)
Definition body_3x4 : Range :=
  [ [CInt 1; CInt 2; CInt 3; CInt 6];
    [CInt 4; CInt 5; CInt 6; CInt 15];
    [CInt 7; CInt 8; CInt 9; CInt 24] ].

(** A pivot range without an eStore row. *)
Definition orders_without_estore : Range :=
  [ [CStr "Row Labels"; CStr "Open"; CStr "Grand Total"];
    [CStr "REGULAR"; CInt 4; CInt 4];
    [CStr "Grand Total"; CInt 4; CInt 4] ].

(** A pivot range whose HUB ORDER row has no activity. *)
Definition orders_idle_hub : Range :=
  [ [CStr "Row Labels"; CStr "Open"; CStr "Grand Total"];
    [CStr "REGULAR"; CInt 4; CInt 4];
    [CStr "HUB ORDER"; CNone; CInt 0];
    [CStr "Grand Total"; CInt 4; CInt 4] ].

Definition empty_table (columns : nat) : ListObject :=
  {| HeaderRow := 1; FirstColumn := 1; ListColumns_Count := columns;
     ListRows_Count := 0 |}.

Definition table_16 : ListObject :=
  {| HeaderRow := 1; FirstColumn := 1; ListColumns_Count := 2;
     ListRows_Count := 1 |}.

Definition pivot_of (body full : Range) : PivotTable :=
  {| DataBodyRange := body; TableRange2 := full |}.

Definition utility : Worksheet :=
  {| Cells := ∅; ListObjects := ∅;
     PivotTables :=
       {[ "PivotTable7" := pivot_of body_3x4 [];
          "PivotTable6" := pivot_of [] orders_without_estore;
          "PivotTable8" := pivot_of [] orders_idle_hub;
          "PivotTable1" := pivot_of [] orders_without_estore ]} |}.

Definition sheet_of (cells : gmap (Z * Z) cell)
    (tables : gmap string ListObject) : Worksheet :=
  {| Cells := cells; ListObjects := tables; PivotTables := ∅ |}.

Definition report : world :=
  {| workbook :=
       {[ "UTILITY" := utility;
          "MO YR SUMMARY" := sheet_of ∅ {[ "YR_NOINV" := empty_table 4 ]};
          "SO YR COMP" := sheet_of ∅ {[ "Table11" := empty_table 3 ]};
          "SO YR INCMP" := sheet_of ∅ {[ "Table27" := empty_table 3 ]};
          "DN AO YR SUMMARY" :=
            sheet_of {[ (1, 1) := CStr "Date";
                        (1, 2) := CStr "Full Day Submit" ]}
                     {[ "Table16" := table_16 ]} ]};
     events := [] |}.

(** A record whose pattern has no handler. *)
Definition unknown_operation : operation :=
  {| name := Some "Ad hoc"; pattern := Some "Z"; pivot := None;
     keyword := None; dest_sheet := None; dest_table := None;
     date_col := None; col_offset := None; row_start := None;
     dest_col_header := None; extract_col := None; source_sheet := None;
     start_row := None; start_col := None; end_row := None;
     end_col := None |}.

End Scenario.

(** ** What a handler leaves in place *)

Module Layout.
Import ExcelReport.

(** Where a table sits and how wide it is. *)
Definition table_frame (t : ListObject) : Z * Z * nat :=
  (HeaderRow t, FirstColumn t, ListColumns_Count t).

(** [w'] has the sheets, the pivot tables and the tables of [w], each
    table where it was and with at least the rows it had; the log of [w']
    continues the one of [w]. *)
Definition same_layout (w w' : world) : Prop :=
  (exists evs, events w' = events w ++ evs)
  /\ (forall s, sheet_exists w' s <-> sheet_exists w s)
  /\ (forall s p, pivot_info w' s p = pivot_info w s p)
  /\ (forall s t, table_frame <$> table_info w' s t
                  = table_frame <$> table_info w s t)
  /\ (forall s t tab, table_info w s t = Some tab ->
        exists tab', table_info w' s t = Some tab'
                     /\ ListRows_Count tab <= ListRows_Count tab').

(** A computation that keeps the layout, however it ends. *)
Definition steady {A} (m : M A) : Prop := forall w, same_layout w (snd (m w)).

(** The percentages of the progress events of a log, in order. *)
Definition progress_of (evs : list event) : list Z :=
  omap (fun e => match e with Progress pct _ => Some pct | _ => None end) evs.

(** A computation that only adds to the log, and no progress event. *)
Definition silent {A} (m : M A) : Prop :=
  forall w, exists evs,
    events (snd (m w)) = events w ++ evs /\ progress_of evs = [].

(** [20 + int((idx / 19) * 70)] for [idx] from 1 to 19. *)
Definition plan_percentages : list Z :=
  [23; 27; 31; 34; 38; 42; 45; 49; 53; 56; 60; 64; 67; 71; 75; 78; 82; 86; 90].

End Layout.

(** ** More workbooks to run the handlers on *)

Module Scenario2.
Import ExcelReport Scenario.

(** A pivot range with the rows the plan looks for. *)
Definition orders_by_type : Range :=
  [ [CStr "Row Labels"; CStr "Mon"; CStr "Tue"; CStr "Wed"; CStr "Thu";
     CStr "Fri"; CStr "Grand Total"];
    [CStr "eStore"; CInt 2; CInt 1; CNone; CInt 3; CInt 5; CInt 11];
    [CStr "REGULAR"; CInt 4; CNone; CInt 1; CInt 1; CInt 2; CInt 8];
    [CStr "Grand Total"; CInt 6; CInt 1; CInt 1; CInt 4; CInt 7; CInt 19] ].

(** A pivot range for the submissions of the previous full day. *)
Definition submissions : Range :=
  [ [CStr "Row Labels"; CStr "Count"];
    [CStr "CURRENT UNIL 6 PM"; CInt 5];
    [CStr "PREVIOUS FULL DAY"; CInt 12] ].

Definition table_at (row col : Z) (columns : nat) (rows : Z) : ListObject :=
  {| HeaderRow := row; FirstColumn := col; ListColumns_Count := columns;
     ListRows_Count := rows |}.

Definition utility2 : Worksheet :=
  {| Cells := ∅; ListObjects := ∅;
     PivotTables :=
       {[ "PivotTable6" := pivot_of [] orders_by_type;
          "PivotTable11" := pivot_of [] submissions ]} |}.

(** The sheet of the submissions: a table of two columns and two rows,
    the second row still without its full-day count. *)
Definition summary_cells : gmap (Z * Z) cell :=
  {[ (1, 1) := CStr "Submit"; (1, 2) := CStr "Full Day SUBMIT";
     (2, 1) := CInt 7; (2, 2) := CInt 9;
     (3, 1) := CInt 5 ]}.

(** The sheet of pattern F: the source row 4 and, lower down, the table. *)
Definition percent_cells : gmap (Z * Z) cell :=
  {[ (4, 3) := CInt 10; (4, 4) := CInt 20; (4, 5) := CInt 30;
     (5, 3) := CInt 11; (5, 4) := CInt 21; (5, 5) := CInt 31 ]}.

Definition report2 : world :=
  {| workbook :=
       {[ "UTILITY" := utility2;
          "MO YR SUMMARY" :=
            sheet_of summary_cells {[ "MB51_submit" := table_at 1 1 2 2 ]};
          "SO YR COMP" :=
            sheet_of ∅ {[ "Table11" := table_at 1 1 3 0;
                          "Table19" := table_at 1 5 3 0 ]};
          "MO %" := sheet_of percent_cells {[ "Table18" := table_at 10 1 20 0 ]} ]};
     events := [] |}.

(** Pattern F on a range of two rows. *)
Definition two_row_copy : operation :=
  {| name := Some "Two rows"; pattern := Some "F";
     dest_sheet := Some "MO %"; dest_table := Some "Table18";
     date_col := None; col_offset := Some (fun i => i + 11);
     source_sheet := Some "MO %"; start_row := Some 4;
     start_col := Some 3; end_row := Some 5; end_col := Some 5;
     pivot := None; keyword := None; row_start := None;
     dest_col_header := None; extract_col := None |}.

End Scenario2.

(** ** [App.py]: every task of [WorkerThread.run] *)

Module Worker.
Import App.

(** [WorkerThread.run] for a given [script_type].  The set-up of the log
    monitor, the log handler and the stream captures, and the [finally]
    that undoes it, send no signal; the signals never raise, so the outer
    [except Exception] is not entered. *)
Definition run (script_type : string) (schedule : list bool)
    (web sap : outcome) (report : report_run) : list event :=
  if String.eqb script_type "both" then
    run_both schedule web sap
  else if String.eqb script_type "website" then
    [progress_emit "Starting website script..."; web_download_main]
    ++ match web with
       | Returns => [finished_emit true "PDBS Files Downloaded Successfully!"]
       | Raises e =>
         [progress_emit ("Error: " +:+ e); finished_emit false ("Error: " +:+ e)]
       end
  else if String.eqb script_type "sap" then
    [progress_emit "Starting SAP script..."; sap_download_main]
    ++ match sap with
       | Returns => [finished_emit true "SAP Files Downloaded Successfully!"]
       | Raises e =>
         [progress_emit ("Error: " +:+ e); finished_emit false ("Error: " +:+ e)]
       end
  else if String.eqb script_type "excel_report" then
    [progress_emit "Starting Excel report engine..."; excel_report_main]
    ++ report_lines report
    ++ match report_outcome report with
       | Returns => [finished_emit true "Excel Report completed successfully!"]
       | Raises e =>
         [progress_emit ("Error: " +:+ e); finished_emit false ("Error: " +:+ e)]
       end
  else if String.eqb script_type "all" then
    run_all schedule web sap report
  else [].

Definition returned (o : outcome) : bool :=
  match o with Returns => true | Raises _ => false end.

(** The entry points a task calls when nothing fails, and whether each of
    them returned. *)
Definition task_succeeds (script_type : string) (web sap : outcome)
    (report : report_run) : bool :=
  if String.eqb script_type "both" then returned web && returned sap
  else if String.eqb script_type "website" then returned web
  else if String.eqb script_type "sap" then returned sap
  else if String.eqb script_type "excel_report" then
    returned (report_outcome report)
  else if String.eqb script_type "all" then
    returned web && returned sap && returned (report_outcome report)
  else false.

Definition script_types : list string :=
  ["both"; "website"; "sap"; "excel_report"; "all"].

End Worker.

(** ** [excel_manager.py]: [release_excel] *)

Module ExcelRelease.
Import ExcelManager.

(** What [release_excel] does: the actions of [convert_xls_to_xlsx], the
    two other log levels, and the search for a running Excel. *)
Inductive step : Type :=
| performed (a : action)
| logger_warning (msg : string)
| logger_debug (msg : string)
| GetActiveObject.

Definition T (A : Type) : Type := list step -> result A * list step.

Definition ret {A} (a : A) : T A := fun tr => (Ok a, tr).

Definition bind {A B} (m : T A) (k : A -> T B) : T B :=
  fun tr => match m tr with
            | (Ok a, tr') => k a tr'
            | (Raise e, tr') => (Raise e, tr')
            end.

Definition note (s : step) : T unit := fun tr => (Ok tt, tr ++ [s]).

(** An external call: recorded, and raising when the surroundings say so. *)
Definition call (env : environment) (site : call_site) : T unit :=
  fun tr =>
    match fails env site with
    | Some msg => (Raise (com_error msg), tr ++ [performed (external site)])
    | None => (Ok tt, tr ++ [performed (external site)])
    end.

(** [win32com.client.GetActiveObject("Excel.Application")]; [active] has
    the text of the exception when no instance is found. *)
Definition get_active_object (active : option string) : T unit :=
  fun tr =>
    match active with
    | Some msg => (Raise (com_error msg), tr ++ [GetActiveObject])
    | None => (Ok tt, tr ++ [GetActiveObject])
    end.

(** [try: body except Exception as e: handler(e)] *)
Definition try_except (body : T unit) (handler : exn -> T unit) : T unit :=
  fun tr => match body tr with
            | (Ok a, tr') => (Ok a, tr')
            | (Raise e, tr') => handler e tr'
            end.

Declare Scope release_scope.
Delimit Scope release_scope with release.
Notation "m1 ;; m2" := (bind m1 (fun _ => m2))
  (at level 100, m2 at level 200, right associativity) : release_scope.
Local Open Scope release_scope.

(** [ExcelManager.release_excel(force_quit=False)], called by thread [me]:
    the lock afterwards and what was done, in order. *)
Definition release_excel (me : thread_id) (env : environment)
    (active : option string) (force_quit : option bool) (lock : RLock)
    : RLock * list step :=
  let force_quit := default false force_quit in
  if negb force_quit then (lock, [])
  else
    let '(acquired, lock) := acquire me env lock in
    if negb acquired then
      (lock,
       [performed (lock_acquire 10 false);
        logger_warning "Could not acquire lock to force close Excel"])
    else
      let tr := [performed (lock_acquire 10 true)] in
      let '(_, tr) :=
        try_except
          (call env CoInitialize ;;
           try_except
             (get_active_object active ;;
              call env Quit ;;
              note (performed (logger_info "✓ Force closed Excel instance")))
             (fun _ => note (logger_debug "No Excel instance found to close")))
          (fun e => note (logger_debug ("Excel cleanup: " +:+ exn_text e)))
          tr in
      let '(_, tr) :=
        try_except (call env CoUninitialize) (fun _ => ret tt) tr in
      (release lock, tr ++ [performed lock_release]).

Definition is_release (s : step) : bool :=
  match s with performed lock_release => true | _ => false end.

Definition is_site (site : call_site) (s : step) : bool :=
  match s with
  | performed (external c) =>
    match c, site with
    | CoInitialize, CoInitialize | Quit, Quit
    | CoUninitialize, CoUninitialize => true
    | _, _ => false
    end
  | _ => false
  end.

Definition reports_closing (s : step) : bool :=
  match s with
  | performed (logger_info msg) => String.eqb msg "✓ Force closed Excel instance"
  | _ => false
  end.

Definition no_failure (env : environment) (site : call_site) : bool :=
  match fails env site with None => true | Some _ => false end.

End ExcelRelease.

(** ** [excel_report.py]: the pipeline of [main] around the operations loop *)

Module Pipeline.
Import Calendar Helpers ExcelReport.

(** *** Exceptions and outcomes *)

(** The exceptions of the pipeline: the ones of the handlers and of the
    calendar, and the ones the file system raises. *)
Inductive error : Type :=
| Builtin (e : exn)
| FileNotFoundError (msg : string)
| OSError (msg : string).

(** [str(e)] *)
Definition error_text (e : error) : string :=
  match e with
  | Builtin e => exn_text e
  | FileNotFoundError msg | OSError msg => msg
  end.

(** How a call without a loop ends. *)
Inductive ended (A : Type) : Type :=
| Returned (a : A)
| Raised (e : error).
Arguments Returned {A} a.
Arguments Raised {A} e.

(** How a computation ends: with a value, with an exception, or not
    within the number of iterations that was allowed. *)
Inductive res (A : Type) : Type :=
| Done (a : A)
| Fail (e : error)
| Unfinished.
Arguments Done {A} a.
Arguments Fail {A} e.
Arguments Unfinished {A}.

(** *** The surroundings of a run *)

(** The external calls, by place in the code. *)
Inductive site : Type :=
| os_makedirs
| shutil_copy
| CoInitialize
| CoUninitialize
| Dispatch_Excel
| set_Visible_True
| Workbooks_Open
| RefreshAll
| read_CalculationState
| CalculateUntilAsyncQueriesDone
| set_Visible_False
| final_RefreshAll
| Save
| set_Visible_True_at_end
| Close
| Quit
| gc_collect.

#[global] Instance site_eq_dec : EqDecision site.
Proof. solve_decision. Defined.

(** What the run finds around it: the file system and the path functions
    of [os] and [glob], the two readings of [datetime.now()], the readings
    of [time.time()] and of [excel.CalculationState] in the order they are
    taken, what each [RefreshAll] makes of the workbook, and which external
    calls raise.  A modification time is a double; it is given here by its
    place in the order of the doubles. *)
Record surroundings : Type := {
  getcwd : string;
  path_join : string -> string -> string;
  path_basename : string -> string;
  path_dirname : string -> string;
  path_splitext : string -> string * string;
  glob_glob : string -> list string;
  path_getmtime : string -> ended Z;
  now_of_backup : datetime;
  now_of_main : datetime;
  time_time : nat -> spec_float;
  CalculationState : nat -> Z;
  refreshed : nat -> Workbook -> Workbook;
  fails : site -> option error
}.

(** What a run does that can be observed, in order. *)
Inductive step : Type :=
| engine (e : event)
| external (s : site)
| time_sleep (interval : spec_float)
| logger_debug (msg : string).

(** The workbook, what has been done, the local variables [excel] and
    [workbook] of [main] (are they not [None]?), and how often the clock,
    the calculation state and [RefreshAll] have been used. *)
Record session : Type := {
  book : Workbook;
  trace : list step;
  excel : bool;
  workbook_ : bool;
  ticks : nat;
  polls : nat;
  refreshes : nat
}.

Definition P (A : Type) : Type := session -> res A * session.

Definition ret {A} (a : A) : P A := fun s => (Done a, s).

Definition raise {A} (e : error) : P A := fun s => (Fail e, s).

Definition unfinished {A} : P A := fun s => (Unfinished, s).

Definition bind {A B} (m : P A) (k : A -> P B) : P B :=
  fun s => match m s with
           | (Done a, s') => k a s'
           | (Fail e, s') => (Fail e, s')
           | (Unfinished, s') => (Unfinished, s')
           end.

Declare Scope pipeline_scope.
Delimit Scope pipeline_scope with pipeline.
Notation "x <- e ;; k" := (bind e (fun x => k))
  (at level 100, e at next level, k at level 200, right associativity)
  : pipeline_scope.
Notation "e1 ;; e2" := (bind e1 (fun _ => e2))
  (at level 100, e2 at level 200, right associativity) : pipeline_scope.
Local Open Scope pipeline_scope.

(** [try: body except Exception as e: handler(e)] *)
Definition try_except {A} (body : P A) (handler : error -> P A) : P A :=
  fun s => match body s with
           | (Fail e, s') => handler e s'
           | other => other
           end.

(** [try: body finally: final]: the exception of [body] goes on after
    [final], unless [final] raises itself. *)
Definition try_finally {A} (body : P A) (final : P unit) : P A :=
  fun s => match body s with
           | (Unfinished, s') => (Unfinished, s')
           | (r, s') =>
             match final s' with
             | (Done _, s'') => (r, s'')
             | (Fail e, s'') => (Fail e, s'')
             | (Unfinished, s'') => (Unfinished, s'')
             end
           end.

Definition note (st : step) : P unit :=
  fun s => (Done tt,
            {| book := book s; trace := trace s ++ [st]; excel := excel s;
               workbook_ := workbook_ s; ticks := ticks s; polls := polls s;
               refreshes := refreshes s |}).

(** An external call: recorded, and raising when the surroundings say so. *)
Definition call (env : surroundings) (c : site) : P unit :=
  note (external c) ;;
  match fails env c with
  | Some e => raise e
  | None => ret tt
  end.

Definition set_excel (b : bool) : P unit :=
  fun s => (Done tt,
            {| book := book s; trace := trace s; excel := b;
               workbook_ := workbook_ s; ticks := ticks s; polls := polls s;
               refreshes := refreshes s |}).

Definition set_workbook (b : bool) : P unit :=
  fun s => (Done tt,
            {| book := book s; trace := trace s; excel := excel s;
               workbook_ := b; ticks := ticks s; polls := polls s;
               refreshes := refreshes s |}).

(** A computation of the engine, run on the workbook of the session: what
    it logs and writes is added to the trace. *)
Definition run_engine {A} (m : M A) : P A :=
  fun s =>
    let '(r, w) := m {| workbook := book s; events := [] |} in
    (match r with Ok a => Done a | Raise e => Fail (Builtin e) end,
     {| book := workbook w; trace := trace s ++ map engine (events w);
        excel := excel s; workbook_ := workbook_ s; ticks := ticks s;
        polls := polls s; refreshes := refreshes s |}).

(** [time.time()] *)
Definition time_time_ (env : surroundings) : P spec_float :=
  fun s => (Done (time_time env (ticks s)),
            {| book := book s; trace := trace s; excel := excel s;
               workbook_ := workbook_ s; ticks := S (ticks s);
               polls := polls s; refreshes := refreshes s |}).

(** [excel.CalculationState] *)
Definition CalculationState_ (env : surroundings) : P Z :=
  call env read_CalculationState ;;
  fun s => (Done (CalculationState env (polls s)),
            {| book := book s; trace := trace s; excel := excel s;
               workbook_ := workbook_ s; ticks := ticks s;
               polls := S (polls s); refreshes := refreshes s |}).

(** [workbook.RefreshAll()], at the place [c] of the code *)
Definition RefreshAll_ (env : surroundings) (c : site) : P unit :=
  call env c ;;
  fun s => (Done tt,
            {| book := refreshed env (refreshes s) (book s); trace := trace s;
               excel := excel s; workbook_ := workbook_ s; ticks := ticks s;
               polls := polls s; refreshes := S (refreshes s) |}).

(** *** File discovery and backup *)

Definition ENGINE_PATTERNS : list string :=
  ["*AO MO SO CHECKER*.xlsm"; "*AO MO SO CHECKER*.xlsx"].

Definition ended_bind {A B} (r : ended A) (k : A -> ended B) : ended B :=
  match r with
  | Returned a => k a
  | Raised e => Raised e
  end.

(** [max(items, key=key)]: the first of the items with the largest key;
    the keys are computed in order, once each. *)
Fixpoint max_from {A} (key : A -> ended Z) (best : A) (best_key : Z)
    (items : list A) : ended A :=
  match items with
  | [] => Returned best
  | x :: items' =>
    ended_bind (key x) (fun k =>
      if best_key <? k then max_from key x k items'
      else max_from key best best_key items')
  end.

Definition py_max {A} (key : A -> ended Z) (items : list A) : ended A :=
  match items with
  | [] => Raised (Builtin (ValueError "max() arg is an empty sequence"))
  | x :: items' => ended_bind (key x) (fun k => max_from key x k items')
  end.

(** [', '.join(items)] *)
Fixpoint join (sep : string) (items : list string) : string :=
  match items with
  | [] => ""
  | [x] => x
  | x :: items' => x +:+ sep +:+ join sep items'
  end.

(** The loop [for pattern in ENGINE_PATTERNS] of [_find_engine_file]. *)
Fixpoint first_pattern_with_matches (env : surroundings) (cwd : string)
    (patterns : list string) : option (list string) :=
  match patterns with
  | [] => None
  | pattern :: patterns' =>
    let matches := glob_glob env (path_join env cwd pattern) in
    match matches with
    | _ :: _ => Some matches
    | [] => first_pattern_with_matches env cwd patterns'
    end
  end.

(** [_find_engine_file()] *)
Definition _find_engine_file (env : surroundings) : ended string :=
  let cwd := getcwd env in
  match first_pattern_with_matches env cwd ENGINE_PATTERNS with
  | Some matches => py_max (path_getmtime env) matches
  | None =>
    Raised (FileNotFoundError
              ("No engine workbook (" +:+ join ", " ENGINE_PATTERNS
               +:+ ") found in " +:+ cwd))
  end.

(** [s.zfill(width)] for a string of digits *)
Definition zfill (width : nat) (s : string) : string :=
  string_of_list_ascii (repeat "0"%char (width - String.length s)) +:+ s.

(** [d.strftime(fmt)] for the directives the module uses: [%m], [%d] and
    [%Y], the latter with the four digits it has on Windows. *)
Fixpoint strftime (fmt : string) (d : datetime) : string :=
  match fmt with
  | EmptyString => EmptyString
  | String "%" (String c fmt') =>
    (if Ascii.eqb c "m" then zfill 2 (pretty (month d))
     else if Ascii.eqb c "d" then zfill 2 (pretty (day d))
     else if Ascii.eqb c "Y" then zfill 4 (pretty (year d))
     else String "%" (String c EmptyString))
    +:+ strftime fmt' d
  | String c fmt' => String c (strftime fmt' d)
  end.

Definition lift {A} (r : ended A) : P A :=
  fun s => (match r with Returned a => Done a | Raised e => Fail e end, s).

(** [subtract_one_business_day(date)] with at most [fuel] turns of its
    loop.  The lines it logs about the days it looks at are not part of
    the trace. *)
Definition subtract_one_business_day_ (fuel : nat) (date : datetime)
    : P datetime :=
  match subtract_one_business_day fuel date with
  | Some (Ok d) => ret d
  | Some (Raise e) => raise (Builtin e)
  | None => unfinished
  end.

(** [_backup_engine_file(engine_path)] *)
Definition _backup_engine_file (env : surroundings) (fuel : nat)
    (engine_path : string) : P unit :=
  let backup_folder := path_join env (path_dirname env engine_path) "Backup" in
  call env os_makedirs ;;
  prev_day <- subtract_one_business_day_ fuel (now_of_backup env) ;;
  let archive_date := strftime "%m%d%Y" prev_day in
  let '(name, ext) := path_splitext env (path_basename env engine_path) in
  let new_name := name +:+ "_" +:+ archive_date +:+ ext in
  let dest := path_join env backup_folder new_name in
  call env shutil_copy ;;
  run_engine (logger_info ("Engine file backed up as " +:+ new_name
                           +:+ " to " +:+ backup_folder)).

(** *** COM helpers *)

(** [_release_com_object(obj)]; [obj] says whether the object is not
    [None]. *)
Definition _release_com_object (env : surroundings) (obj : bool) : P unit :=
  if negb obj then ret tt
  else try_except (call env gc_collect) (fun _ => ret tt).

(** [0.5], [1.5] and [3] as doubles. *)
Definition half : spec_float := binary_normalize 53 1024 1 (-1) false.
Definition one_and_a_half : spec_float := binary_normalize 53 1024 3 (-1) false.
Definition three : spec_float := float_of_int 3.

(** [min(interval * 1.5, 3)]; the [3] that [min] hands over is an [int],
    which [time.sleep] and the next product take as the double. *)
Definition next_interval (interval : spec_float) : spec_float :=
  let longer := float_mul interval one_and_a_half in
  if SFltb three longer then three else longer.

(** The loop of [_wait_for_calculations], with at most [fuel] turns; the
    integer [max_wait] is compared as the double it is. *)
Fixpoint wait_loop (env : surroundings) (fuel : nat) (start : spec_float)
    (max_wait : Z) (interval : spec_float) : P bool :=
  match fuel with
  | O => unfinished
  | S fuel' =>
    state <- CalculationState_ env ;;
    if negb (state =? 0) then
      now <- time_time_ env ;;
      if SFltb (float_of_int max_wait) (SFsub 53 1024 now start) then
        run_engine (logger_warning "Calculation timeout — proceeding anyway.") ;;
        ret false
      else
        note (time_sleep interval) ;;
        wait_loop env fuel' start max_wait (next_interval interval)
    else
      call env CalculateUntilAsyncQueriesDone ;;
      ret true
  end.

(** [_wait_for_calculations(excel, max_wait=60)] *)
Definition _wait_for_calculations (env : surroundings) (fuel : nat)
    (max_wait : option Z) : P bool :=
  let max_wait := default 60 max_wait in
  start <- time_time_ env ;;
  let interval := half in
  wait_loop env fuel start max_wait interval.

(** [helpers.com_context()] around [body] *)
Definition com_context {A} (env : surroundings) (body : P A) : P A :=
  call env CoInitialize ;;
  try_finally body
    (try_except (call env CoUninitialize)
       (fun e => note (logger_debug ("COM cleanup: " +:+ error_text e)))).

(** [for _ in range(n): body] *)
Fixpoint times (n : nat) (body : P unit) : P unit :=
  match n with
  | O => ret tt
  | S n' => body ;; times n' body
  end.

(** *** [main] *)

Section Main.

Variable float_repr : spec_float -> string.
Variable env : surroundings.

(** [emit(pct, stage)] *)
Definition emit_ (progress_callback : bool) (pct : Z) (stage : string)
    : P unit :=
  run_engine (emit progress_callback pct stage).

(** Step 2 inside the [try] block: open the workbook and set the dates;
    the two date strings of the table columns are handed on. *)
Definition open_and_set_dates (progress_callback : bool) (fuel : nat)
    (engine_path : string) : P (string * string) :=
  emit_ progress_callback 5 "Opening engine workbook..." ;;
  call env Dispatch_Excel ;;
  set_excel true ;;
  call env set_Visible_True ;;
  call env Workbooks_Open ;;
  set_workbook true ;;
  let today := now_of_main env in
  prev_bday <- subtract_one_business_day_ fuel today ;;
  (* UTILITY sheet cells use MM/DD/YYYY *)
  run_engine (Sheets "UTILITY") ;;
  run_engine (write_cell "UTILITY" 3 6 (CStr (strftime "%m/%d/%Y" today))) ;;
  run_engine (write_cell "UTILITY" 3 5 (CStr (strftime "%m/%d/%Y" prev_bday))) ;;
  (* Table date columns use YYYY-MM-DD *)
  let today_str := strftime "%Y-%m-%d" today in
  let prev_bday_str := strftime "%Y-%m-%d" prev_bday in
  ret (today_str, prev_bday_str).

(** Step 3: refresh workbook queries (3 cycles). *)
Definition refresh_queries (progress_callback : bool) (fuel : nat) : P unit :=
  emit_ progress_callback 10 "Refreshing workbook data..." ;;
  times 3 (RefreshAll_ env RefreshAll ;;
           _wait_for_calculations env fuel (Some 120) ;;
           ret tt) ;;
  emit_ progress_callback 20 "Refresh complete.".

(** Step 4: execute operations. *)
Definition execute_operations (progress_callback : bool)
    (today_str prev_bday_str : string) : P unit :=
  run_engine (Sheets "UTILITY") ;;
  let operations := _build_operations today_str prev_bday_str in
  run_engine (operations_loop float_repr progress_callback "UTILITY" operations).

(** Step 5: final refresh and save. *)
Definition final_refresh_and_save (progress_callback : bool) (fuel : nat)
    : P unit :=
  emit_ progress_callback 92 "Final refresh..." ;;
  RefreshAll_ env final_RefreshAll ;;
  _wait_for_calculations env fuel (Some 60) ;;
  call env Save ;;
  call env set_Visible_True_at_end ;;
  emit_ progress_callback 100 "Excel report complete!".

(** The [try] block of [main]. *)
Definition main_try (progress_callback : bool) (fuel : nat)
    (engine_path : string) : P unit :=
  dates <- open_and_set_dates progress_callback fuel engine_path ;;
  let '(today_str, prev_bday_str) := dates in
  refresh_queries progress_callback fuel ;;
  call env set_Visible_False ;;
  execute_operations progress_callback today_str prev_bday_str ;;
  final_refresh_and_save progress_callback fuel.

(** The [finally] block of [main]. *)
Definition main_finally : P unit :=
  try_except
    (fun s => if workbook_ s then call env Close s else ret tt s)
    (fun _ => ret tt) ;;
  try_except
    (fun s => if excel s then call env Quit s else ret tt s)
    (fun _ => ret tt) ;;
  (fun s => _release_com_object env (workbook_ s) s) ;;
  (fun s => _release_com_object env (excel s) s).

(** [main(progress_callback=None)]; [progress_callback] says whether a
    callback is given. *)
Definition main (progress_callback : bool) (fuel : nat) : P unit :=
  (* Step 1: Discover and back up engine file *)
  engine_path <- lift (_find_engine_file env) ;;
  emit_ progress_callback 0
    ("Engine file found: " +:+ path_basename env engine_path) ;;
  emit_ progress_callback 2 "Backing up engine file..." ;;
  _backup_engine_file env fuel engine_path ;;
  (* Step 2: Open workbook and set dates *)
  com_context env
    (set_excel false ;;
     set_workbook false ;;
     try_finally
       (try_except
          (main_try progress_callback fuel engine_path)
          (fun e =>
             run_engine (logger_error ("Excel report failed: " +:+ error_text e)) ;;
             raise e))
       main_finally).

End Main.

(** *** Vocabulary for the statements *)

Definition fresh (wb : Workbook) : session :=
  {| book := wb; trace := []; excel := false; workbook_ := false;
     ticks := 0; polls := 0; refreshes := 0 |}.

(** The intervals of the sleeps of a trace, in order. *)
Definition sleeps (tr : list step) : list spec_float :=
  omap (fun st => match st with time_sleep i => Some i | _ => None end) tr.

(** The [k]-th interval of the schedule: [0.5 * 1.5^k = 3^k / 2^(k+1)]
    seconds for the first five, 3 seconds from then on. *)
Definition backoff (k : nat) : spec_float :=
  if (k <? 5)%nat then
    binary_normalize 53 1024 (3 ^ Z.of_nat k) (- (Z.of_nat k + 1)) false
  else three.

(** How often the call at [c] occurs in a trace. *)
Definition calls (c : site) (tr : list step) : nat :=
  length (List.filter (fun st => match st with
                                 | external c' => bool_decide (c' = c)
                                 | _ => false
                                 end) tr).

Definition succeeds (env : surroundings) (c : site) : bool :=
  match fails env c with None => true | Some _ => false end.

(** The locals of [main], the workbook and the count of the refreshes
    are those of [s]. *)
Definition same_locals (s s' : session) : Prop :=
  excel s' = excel s /\ workbook_ s' = workbook_ s /\ book s' = book s
  /\ refreshes s' = refreshes s.

(** The calls of the [finally] clauses, and the steps they add. *)
Definition cleanup_site (c : site) : bool :=
  match c with
  | Close | Quit | gc_collect | CoUninitialize => true
  | _ => false
  end.

Definition is_cleanup (st : step) : bool :=
  match st with
  | external c => cleanup_site c
  | logger_debug _ => true
  | _ => false
  end.

(** The external calls of a trace, and the percentages handed to the
    callback, in order. *)
Definition externals (tr : list step) : list site :=
  omap (fun st => match st with external c => Some c | _ => None end) tr.

Definition percentages (tr : list step) : list Z :=
  omap (fun st => match st with
                  | engine (Progress pct _) => Some pct
                  | _ => None
                  end) tr.

(** The calls that look at the calculation. *)
Definition is_poll (c : site) : bool :=
  match c with
  | read_CalculationState | CalculateUntilAsyncQueriesDone => true
  | _ => false
  end.

(** From every poll on, one of the next [fuel] polls reads [xlDone]. *)
Definition settles (env : surroundings) (fuel : nat) : Prop :=
  forall p : nat, exists n : nat,
    (n < fuel)%nat /\ CalculationState env (p + n) = 0.

(** A computation that only adds steps, none of them a call at a site of
    [guarded], and leaves the locals [excel] and [workbook] alone. *)
Definition tame (guarded : site -> bool) {A} (m : P A) : Prop :=
  forall s, exists added,
    trace (snd (m s)) = trace s ++ added
    /\ excel (snd (m s)) = excel s /\ workbook_ (snd (m s)) = workbook_ s
    /\ forall c, guarded c = true -> calls c added = 0%nat.

(** The calls up to the opening of the workbook. *)
Definition opening_site (c : site) : bool :=
  match c with
  | os_makedirs | shutil_copy | CoInitialize | Dispatch_Excel
  | set_Visible_True | Workbooks_Open => true
  | _ => false
  end.

(** The calls that [_backup_engine_file] does not make, and the ones that
    are not made inside the [try] block. *)
Definition not_in_backup (c : site) : bool :=
  match c with
  | os_makedirs | shutil_copy => false
  | _ => true
  end.

Definition outside_try (c : site) : bool :=
  cleanup_site c
  || match c with
     | os_makedirs | shutil_copy | CoInitialize => true
     | _ => false
     end.

(** The calls of the [finally] block of [main], for a workbook and an
    Excel that are there or not. *)
Definition finally_calls (workbook_there excel_there : bool) : list site :=
  (if workbook_there then [Close] else [])
  ++ (if excel_there then [Quit] else [])
  ++ (if workbook_there then [gc_collect] else [])
  ++ (if excel_there then [gc_collect] else []).

(** The calls that step 2 does not make inside the [try] block. *)
Definition not_in_step_2 (c : site) : bool :=
  match c with
  | Dispatch_Excel | set_Visible_True | Workbooks_Open => false
  | _ => true
  end.

(** The calls that the steps 3 to 5 of [main] do not make, and the ones
    that the steps 3 and 4 do not make. *)
Definition not_in_steps_3_to_5 (c : site) : bool :=
  cleanup_site c || opening_site c.

Definition not_in_steps_3_and_4 (c : site) : bool :=
  not_in_steps_3_to_5 c || bool_decide (c = Save).

(** A computation that saves at most once and, when it ends otherwise
    than by returning, has saved only when the save itself or the call
    after it raised. *)
Definition saves_last (env : surroundings) {A} (m : P A) : Prop :=
  forall s, exists added,
    trace (snd (m s)) = trace s ++ added
    /\ excel (snd (m s)) = excel s /\ workbook_ (snd (m s)) = workbook_ s
    /\ (forall c, not_in_steps_3_to_5 c = true -> calls c added = 0%nat)
    /\ (calls Save added <= 1)%nat
    /\ (forall a, fst (m s) = Done a -> calls Save added = 1%nat)
    /\ (calls Save added = 1%nat ->
        (exists a, fst (m s) = Done a)
        \/ succeeds env Save = false
        \/ succeeds env set_Visible_True_at_end = false).

(** The external calls of a trace without the looks at the calculation. *)
Definition plain_externals (tr : list step) : list site :=
  List.filter (fun c => negb (is_poll c)) (externals tr).

(** The workbook has its [UTILITY] sheet. *)
Definition has_utility (s : session) : Prop :=
  is_Some (book s !! "UTILITY").

(** On a workbook with its [UTILITY] sheet the computation returns; it
    reports the percentages [pcts], makes the calls [exts] apart from
    looking at the calculation, and leaves the sheet in place. *)
Definition performs (pcts : list Z) (exts : list site) {A} (m : P A) : Prop :=
  forall s, has_utility s ->
    exists a added,
      fst (m s) = Done a
      /\ trace (snd (m s)) = trace s ++ added
      /\ has_utility (snd (m s))
      /\ percentages added = pcts
      /\ plain_externals added = exts.

(** A computation that ends within the iterations it is allowed. *)
Definition finishes {A} (m : P A) : Prop :=
  forall s, fst (m s) <> Unfinished.

(** The modification time of each of [items] can be read. *)
Definition readable (env : surroundings) (items : list string) : Prop :=
  Forall (fun g => exists t, path_getmtime env g = Returned t) items.

(** [f] is one of the newest of [items]: none has a larger modification
    time, and the ones before it are older. *)
Definition newest_first (env : surroundings) (items : list string)
    (f : string) : Prop :=
  exists (i : nat) (t : Z),
    items !! i = Some f /\ path_getmtime env f = Returned t
    /\ forall (j : nat) g, items !! j = Some g ->
         exists t', path_getmtime env g = Returned t'
                    /\ t' <= t /\ ((j < i)%nat -> t' < t).

End Pipeline.

(** ** Surroundings to run the pipeline in *)

Module Scenario3.
Import Calendar ExcelReport Pipeline.

(** One engine workbook in the working directory, an Excel that has
    finished calculating whenever it is asked and whose [Quit] raises, and
    queries whose refresh leaves the workbook as it is. *)
Definition office : surroundings :=
  {| getcwd := "C:/reports";
     path_join := fun a b => a +:+ "/" +:+ b;
     path_basename := fun p => "AO MO SO CHECKER.xlsm";
     path_dirname := fun p => "C:/reports";
     path_splitext := fun p => ("AO MO SO CHECKER", ".xlsm");
     glob_glob := fun pattern =>
       if String.eqb pattern "C:/reports/*AO MO SO CHECKER*.xlsm"
       then ["C:/reports/AO MO SO CHECKER.xlsm"] else [];
     path_getmtime := fun p => Returned 0;
     now_of_backup := mk_datetime 2026 11 3 30600000000;
     now_of_main := mk_datetime 2026 11 3 30601000000;
     time_time := fun k => float_of_int (Z.of_nat k);
     CalculationState := fun k => 0;
     refreshed := fun k wb => wb;
     fails := fun c =>
       match c with
       | Quit => Some (Builtin (com_error "Call was rejected by callee."))
       | _ => None
       end |}.

(** The same with an Excel that is busy for the first three polls and
    whose [Quit] returns. *)
Definition busy_excel : surroundings :=
  {| getcwd := getcwd office;
     path_join := path_join office;
     path_basename := path_basename office;
     path_dirname := path_dirname office;
     path_splitext := path_splitext office;
     glob_glob := glob_glob office;
     path_getmtime := path_getmtime office;
     now_of_backup := now_of_backup office;
     now_of_main := now_of_main office;
     time_time := time_time office;
     CalculationState := fun k => if (k <? 3)%nat then 1 else 0;
     refreshed := refreshed office;
     fails := fun _ => None |}.

End Scenario3.

(** ** [helpers.py]: [SAP_Init] *)

Module Sap.

(** What one turn of the loop finds.  [raises]: a COM call of the [try]
    block raises, with the text of the exception; [not_CDispatch]: the
    object [GetObject] hands over is no [CDispatch]; [Children]: the
    scripting engine has [count] connections, the first being
    [connection]. *)
Inductive observation : Type :=
| raises (msg : string)
| not_CDispatch
| Children (count : Z) (connection : string).

Inductive sap_error : Type :=
| com_failure (msg : string)
| Exception (msg : string).

(** [str(e)] *)
Definition sap_error_text (e : sap_error) : string :=
  match e with com_failure msg | Exception msg => msg end.

Inductive level : Type := INFO | WARNING | ERROR.

Inductive step : Type :=
| GetObject
| logger (lvl : level) (msg : string)
| time_sleep (seconds : Z).

(** How [SAP_Init] ends: it returns a connection, it returns [None] by
    leaving the loop, or it raises. *)
Inductive ending : Type :=
| returns (connection : string)
| returns_None
| raised (e : sap_error).

Definition max_retries : Z := 10.
Definition retry_delay : Z := 2.

(** The [except Exception as e] clause of turn [attempt]; [None]: the loop
    goes on. *)
Definition on_exception (attempt : Z) (e : sap_error)
    : option ending * list step :=
  if attempt <? max_retries - 1 then
    (None,
     [logger WARNING ("SAP connection attempt " +:+ pretty (attempt + 1)
                      +:+ " failed: " +:+ sap_error_text e +:+ ", retrying...");
      time_sleep retry_delay])
  else
    (Some (raised e),
     [logger ERROR ("Could not initialize SAP connection after "
                    +:+ pretty max_retries +:+ " attempts: "
                    +:+ sap_error_text e)]).

(** One turn of the loop [for attempt in range(max_retries)]; [None]: the
    loop goes on. *)
Definition turn (observe : Z -> observation) (attempt : Z)
    : option ending * list step :=
  match observe attempt with
  | raises msg =>
    let '(r, steps) := on_exception attempt (com_failure msg) in
    (r, GetObject :: steps)
  | not_CDispatch => (None, [GetObject])
  | Children count connection =>
    (* Check if we have any connections yet *)
    if count =? 0 then
      if attempt <? max_retries - 1 then
        (None,
         [GetObject;
          logger WARNING ("No SAP connections available yet, retrying in "
                          +:+ pretty retry_delay +:+ "s... (attempt "
                          +:+ pretty (attempt + 1) +:+ "/"
                          +:+ pretty max_retries +:+ ")");
          time_sleep retry_delay])
      else
        let '(r, steps) :=
          on_exception attempt
            (Exception "SAP opened but no connection established. Check SAP login.") in
        (r, GetObject :: steps)
    else
      (Some (returns connection),
       [GetObject;
        logger INFO ("✓ SAP connection established (found " +:+ pretty count
                     +:+ " connection(s))")])
  end.

Fixpoint turns (observe : Z -> observation) (attempts : list Z)
    : ending * list step :=
  match attempts with
  | [] => (returns_None, [])
  | attempt :: attempts' =>
    match turn observe attempt with
    | (Some r, steps) => (r, steps)
    | (None, steps) =>
      let '(r, steps') := turns observe attempts' in (r, steps ++ steps')
    end
  end.

(** [SAP_Init()]; [observe attempt] is what turn [attempt] finds. *)
Definition SAP_Init (observe : Z -> observation) : ending * list step :=
  let '(r, steps) := turns observe (seqZ 0 max_retries) in
  (r, logger INFO "Initializing SAP connection..." :: steps).

(** *** Vocabulary for the statements *)

(** Turn [attempt] finds a connection. *)
Definition connects (observe : Z -> observation) (attempt : Z) : bool :=
  match observe attempt with
  | Children count _ => negb (count =? 0)
  | _ => false
  end.

(** Turn [attempt] ends in a pause: a call raised or no connection was
    there yet. *)
Definition pauses (observe : Z -> observation) (attempt : Z) : bool :=
  match observe attempt with
  | raises _ => true
  | not_CDispatch => false
  | Children count _ => count =? 0
  end.

Definition tries (steps : list step) : nat :=
  length (List.filter (fun st => match st with GetObject => true | _ => false end)
                      steps).

Definition slept (steps : list step) : Z :=
  foldr (fun st acc => match st with time_sleep t => t + acc | _ => acc end)
        0 steps.

(** How many of the turns [0] to [k - 1] end in a pause. *)
Definition pauses_before (observe : Z -> observation) (k : Z) : Z :=
  Z.of_nat (length (List.filter (pauses observe) (seqZ 0 k))).

(** How the last turn ends when it finds no connection. *)
Definition last_turn_ending (observe : Z -> observation) : ending :=
  match observe (max_retries - 1) with
  | raises msg => raised (com_failure msg)
  | not_CDispatch => returns_None
  | Children _ _ =>
    raised (Exception "SAP opened but no connection established. Check SAP login.")
  end.

Definition connection_of (observe : Z -> observation) (attempt : Z) : string :=
  match observe attempt with
  | Children _ connection => connection
  | _ => ""
  end.

End Sap.

(** * Facts *)

Lemma result_bind_Ok {A B} (a : A) (k : A -> result B) :
  result_bind (Ok a) k = k a.
Proof. reflexivity. Qed.

(** ** Calendar facts *)

Module CalendarFacts.
Import Calendar.

(** Evaluation of closed integer expressions inside a goal. *)
Ltac is_pos_cst p :=
  lazymatch p with
  | xH => idtac
  | xO ?q => is_pos_cst q
  | xI ?q => is_pos_cst q
  end.

Ltac is_Z_cst z :=
  lazymatch z with
  | Z0 => idtac
  | Zpos ?p => is_pos_cst p
  | Zneg ?p => is_pos_cst p
  end.

Ltac zfold_op f :=
  repeat match goal with
         | |- context [f ?a ?b] =>
           is_Z_cst a; is_Z_cst b;
           let v := eval vm_compute in (f a b) in
           change (f a b) with v
         | H : context [f ?a ?b] |- _ =>
           is_Z_cst a; is_Z_cst b;
           let v := eval vm_compute in (f a b) in
           change (f a b) with v in H
         end.

Ltac zfold :=
  zfold_op Z.add; zfold_op Z.sub; zfold_op Z.mul; zfold_op Z.modulo;
  zfold_op Z.div; zfold_op Z.ltb; zfold_op Z.leb; zfold_op Z.eqb.

Ltac calc := repeat (progress (zfold; cbn [andb orb negb] in *; cbv iota beta in *)).

Lemma is_leap_cases y :
  (_is_leap y = true /\ (y mod 4 = 0 /\ (y mod 100 <> 0 \/ y mod 400 = 0)))
  \/ (_is_leap y = false /\ (y mod 4 <> 0 \/ (y mod 100 = 0 /\ y mod 400 <> 0))).
Proof.
  unfold _is_leap.
  destruct (Z.eqb_spec (y mod 4) 0), (Z.eqb_spec (y mod 100) 0),
    (Z.eqb_spec (y mod 400) 0); cbn; lia.
Qed.

Lemma days_before_year_succ y :
  _days_before_year (y + 1)
  = _days_before_year y + 365 + (if _is_leap y then 1 else 0).
Proof.
  unfold _days_before_year. cbv zeta.
  replace (y + 1 - 1) with y by lia.
  destruct (is_leap_cases y) as [[-> H]|[-> H]];
    Z.div_mod_to_equations; lia.
Qed.

Lemma days_before_year_mono a b :
  a <= b -> _days_before_year a + 365 * (b - a) <= _days_before_year b.
Proof.
  intros Hab. unfold _days_before_year. cbv zeta.
  Z.div_mod_to_equations. lia.
Qed.

Lemma valid_ymd_iff y m d :
  valid_ymd y m d = true
  <-> 1 <= y <= 9999 /\ 1 <= m <= 12 /\ 1 <= d <= _days_in_month y m.
Proof. unfold valid_ymd, MINYEAR, MAXYEAR. rewrite !andb_true_iff. lia. Qed.

Lemma valid_datetime_iff d :
  valid_datetime d = true
  <-> (1 <= year d <= 9999 /\ 1 <= month d <= 12
       /\ 1 <= day d <= _days_in_month (year d) (month d))
      /\ 0 <= tod d < 86400000000.
Proof.
  unfold valid_datetime. rewrite !andb_true_iff, valid_ymd_iff. lia.
Qed.

Ltac month_cases m :=
  let H := fresh "Hm" in
  assert (H : m = 1 \/ m = 2 \/ m = 3 \/ m = 4 \/ m = 5 \/ m = 6 \/ m = 7
              \/ m = 8 \/ m = 9 \/ m = 10 \/ m = 11 \/ m = 12) by lia;
  repeat (destruct H as [H|H]); subst m.

Lemma days_in_month_bounds y m :
  1 <= m <= 12 -> 28 <= _days_in_month y m <= 31.
Proof.
  intros Hm. month_cases m; unfold _days_in_month;
    destruct (_is_leap y); calc; lia.
Qed.

Lemma days_before_month_succ y m :
  1 <= m < 12 ->
  _days_before_month y (m + 1) = _days_before_month y m + _days_in_month y m.
Proof.
  intros Hm. month_cases m; unfold _days_before_month, _days_in_month;
    destruct (_is_leap y); calc; lia.
Qed.

Lemma day_of_year_bounds y m d :
  1 <= m <= 12 -> 1 <= d <= _days_in_month y m ->
  1 <= _days_before_month y m + d <= 365 + (if _is_leap y then 1 else 0).
Proof.
  intros Hm. month_cases m; unfold _days_before_month, _days_in_month;
    destruct (_is_leap y); calc; lia.
Qed.

(** The ordinal of a valid date lies in the year's own block of days. *)
Lemma toordinal_year_block d :
  valid_datetime d = true ->
  _days_before_year (year d) < toordinal d <= _days_before_year (year d + 1).
Proof.
  rewrite valid_datetime_iff. intros [(Hy & Hm & Hd) _].
  unfold toordinal, _ymd2ord. rewrite days_before_year_succ.
  pose proof (day_of_year_bounds (year d) (month d) (day d) Hm Hd). lia.
Qed.

Lemma toordinal_pos d : valid_datetime d = true -> 1 <= toordinal d.
Proof.
  intros Hv. pose proof (toordinal_year_block d Hv) as Hb.
  apply valid_datetime_iff in Hv.
  pose proof (days_before_year_mono 1 (year d)).
  change (_days_before_year 1) with 0 in *. lia.
Qed.

(** Later ordinals never lie in earlier years. *)
Lemma year_mono a b :
  valid_datetime a = true -> valid_datetime b = true ->
  toordinal a <= toordinal b -> year a <= year b.
Proof.
  intros Ha Hb Hle.
  pose proof (toordinal_year_block a Ha).
  pose proof (toordinal_year_block b Hb).
  destruct (Z_le_gt_dec (year a) (year b)) as [|Hgt]; [assumption|].
  pose proof (days_before_year_mono (year b + 1) (year a)). lia.
Qed.

Lemma days_before_month_mono y m1 m2 d1 :
  1 <= m1 -> m1 < m2 <= 12 -> d1 <= _days_in_month y m1 ->
  _days_before_month y m1 + d1 <= _days_before_month y m2.
Proof.
  intros H1 H2 Hd.
  assert (Hm1 : 1 <= m1 <= 12) by lia. assert (Hm2 : 1 <= m2 <= 12) by lia.
  revert Hd. month_cases m1; month_cases m2; try lia;
    unfold _days_before_month, _days_in_month;
    destruct (_is_leap y); calc; lia.
Qed.

(** [toordinal] separates valid dates. *)
Lemma toordinal_inj a b :
  valid_datetime a = true -> valid_datetime b = true ->
  toordinal a = toordinal b ->
  year a = year b /\ month a = month b /\ day a = day b.
Proof.
  intros Ha Hb Heq.
  assert (Hy : year a = year b).
  { pose proof (year_mono a b Ha Hb). pose proof (year_mono b a Hb Ha). lia. }
  split; [exact Hy|].
  apply valid_datetime_iff in Ha. apply valid_datetime_iff in Hb.
  unfold toordinal, _ymd2ord in Heq. rewrite Hy in *.
  assert (Hm : month a = month b).
  { destruct (Z.lt_total (month a) (month b)) as [Hlt|[?|Hlt]]; [|assumption|].
    - pose proof (days_before_month_mono (year b) (month a) (month b) (day a)). lia.
    - pose proof (days_before_month_mono (year b) (month b) (month a) (day b)). lia. }
  split; [exact Hm|]. rewrite Hm in Heq. lia.
Qed.

Lemma prev_day_spec d d' :
  valid_datetime d = true -> prev_day d = Ok d' ->
  valid_datetime d' = true /\ toordinal d' = toordinal d - 1 /\ tod d' = tod d.
Proof.
  intros Hv. pose proof Hv as Hv'. apply valid_datetime_iff in Hv'.
  destruct Hv' as [(Hy & Hm & Hd) Ht]. unfold prev_day, MINYEAR.
  destruct (Z.ltb_spec 1 (day d)) as [H1|H1].
  - intros [= <-]. cbn. split; [|split; [|reflexivity]].
    + apply valid_datetime_iff. cbn. lia.
    + unfold toordinal, _ymd2ord. cbn. lia.
  - destruct (Z.ltb_spec 1 (month d)) as [H2|H2].
    + intros [= <-]. cbn. split; [|split; [|reflexivity]].
      * apply valid_datetime_iff. cbn.
        pose proof (days_in_month_bounds (year d) (month d - 1)). lia.
      * unfold toordinal, _ymd2ord. cbn.
        pose proof (days_before_month_succ (year d) (month d - 1)).
        replace (month d - 1 + 1) with (month d) in * by lia. lia.
    + destruct (Z.ltb_spec 1 (year d)) as [H3|H3]; [|discriminate].
      intros [= <-]. cbn. split; [|split; [|reflexivity]].
      * apply valid_datetime_iff. cbn.
        unfold _days_in_month. cbn. lia.
      * unfold toordinal, _ymd2ord. cbn.
        pose proof (days_before_year_succ (year d - 1)).
        replace (year d - 1 + 1) with (year d) in * by lia.
        assert (month d = 1) as -> by lia.
        unfold _days_before_month. cbn.
        destruct (_is_leap (year d - 1)); cbn; lia.
Qed.

Lemma prev_day_ok d :
  valid_datetime d = true -> 1 < toordinal d -> is_Ok (prev_day d) = true.
Proof.
  intros Hv Hord. pose proof Hv as Hv'. apply valid_datetime_iff in Hv'.
  destruct Hv' as [(Hy & Hm & Hd) Ht]. unfold prev_day, MINYEAR.
  destruct (Z.ltb_spec 1 (day d)); [reflexivity|].
  destruct (Z.ltb_spec 1 (month d)); [reflexivity|].
  destruct (Z.ltb_spec 1 (year d)); [reflexivity|].
  exfalso. unfold toordinal, _ymd2ord in Hord.
  assert (year d = 1) as Hy1 by lia. assert (month d = 1) as Hm1 by lia.
  rewrite Hy1, Hm1 in Hord.
  change (_days_before_year 1) with 0 in Hord.
  change (_days_before_month 1 1) with 0 in Hord. lia.
Qed.

Lemma weekday_range d : 0 <= weekday d < 7.
Proof. unfold weekday. apply Z.mod_pos_bound. lia. Qed.

Lemma datetime__ok y m d :
  valid_ymd y m d = true -> datetime_ y m d = Ok (mk_datetime y m d 0).
Proof.
  intros Hv. apply valid_ymd_iff in Hv. unfold datetime_, MINYEAR, MAXYEAR.
  destruct Hv as (Hy & Hm & Hd).
  repeat match goal with
         | |- context [?a <=? ?b] =>
           destruct (Z.leb_spec a b); [|lia]
         end.
  reflexivity.
Qed.

Lemma iter_next_day_in_month n y m d u :
  d + Z.of_nat n <= _days_in_month y m ->
  iter_days next_day n (mk_datetime y m d u)
  = Ok (mk_datetime y m (d + Z.of_nat n) u).
Proof.
  revert d. induction n as [|n IH]; intros d Hle.
  - cbn [iter_days]. do 2 f_equal. lia.
  - cbn [iter_days]. unfold next_day at 1. cbn [year month day tod].
    destruct (Z.ltb_spec d (_days_in_month y m)); [|lia].
    cbn [result_bind]. rewrite IH by lia. do 2 f_equal. lia.
Qed.

Lemma iter_prev_day_in_month n y m d u :
  1 <= d - Z.of_nat n ->
  iter_days prev_day n (mk_datetime y m d u)
  = Ok (mk_datetime y m (d - Z.of_nat n) u).
Proof.
  revert d. induction n as [|n IH]; intros d Hle.
  - cbn [iter_days]. do 2 f_equal. lia.
  - cbn [iter_days]. unfold prev_day at 1. cbn [year month day tod].
    destruct (Z.ltb_spec 1 d); [|lia].
    cbn [result_bind]. rewrite IH by lia. do 2 f_equal. lia.
Qed.

Lemma add_days_in_month y m d u k :
  0 <= k -> d + k <= _days_in_month y m ->
  add_days (mk_datetime y m d u) k = Ok (mk_datetime y m (d + k) u).
Proof.
  intros Hk Hle. unfold add_days. destruct (Z.leb_spec 0 k); [|lia].
  rewrite iter_next_day_in_month by lia. do 2 f_equal. lia.
Qed.

Lemma sub_days_in_month y m d u k :
  0 <= k -> 1 <= d - k ->
  sub_days (mk_datetime y m d u) k = Ok (mk_datetime y m (d - k) u).
Proof.
  intros Hk Hle. unfold sub_days, add_days.
  destruct (Z.leb_spec 0 (- k)).
  - assert (k = 0) as -> by lia. cbn [Z.opp Z.to_nat iter_days].
    do 2 f_equal. lia.
  - rewrite iter_prev_day_in_month by lia. do 2 f_equal. lia.
Qed.

End CalendarFacts.

(** ** Facts about the holiday set and the business-day loop *)

Module HelpersFacts.
Import Calendar Helpers CalendarFacts.

Lemma size_set_add x s : (size (set_add x s) <= S (size s))%nat.
Proof.
  unfold set_add. rewrite size_union_alt, size_singleton.
  apply le_n_S, subseteq_size. set_solver.
Qed.

Ltac solve_valid :=
  apply valid_ymd_iff; unfold _days_in_month; calc;
  try (destruct (_is_leap _); calc); lia.

Ltac solve_in_month :=
  first [lia
        |unfold _days_in_month; calc; try destruct (_is_leap _); calc; lia].

Lemma get_company_holidays_spec y :
  1 <= y <= 9999 ->
  exists hs, get_company_holidays y = Ok hs
             /\ (forall x, x ∈ hs -> holiday_shape y x)
             /\ (size hs <= 12)%nat.
Proof.
  intros Hy. unfold get_company_holidays. cbv zeta.
  repeat (rewrite datetime__ok by solve_valid; cbn [result_bind]).
  set (k1 := (7 - weekday (mk_datetime y 1 1 0)) mod 7).
  set (k2 := (7 - weekday (mk_datetime y 2 1 0)) mod 7).
  set (k3 := (weekday (mk_datetime y 5 31 0) - 0) mod 7).
  set (k4 := (7 - weekday (mk_datetime y 9 1 0)) mod 7).
  set (k5 := (3 - weekday (mk_datetime y 11 1 0)) mod 7).
  assert (H1 : 0 <= k1 < 7) by (apply Z.mod_pos_bound; lia).
  assert (H2 : 0 <= k2 < 7) by (apply Z.mod_pos_bound; lia).
  assert (H3 : 0 <= k3 < 7) by (apply Z.mod_pos_bound; lia).
  assert (H4 : 0 <= k4 < 7) by (apply Z.mod_pos_bound; lia).
  assert (H5 : 0 <= k5 < 7) by (apply Z.mod_pos_bound; lia).
  clearbody k1 k2 k3 k4 k5.
  assert (Hfeb : 28 <= _days_in_month y 2)
    by (pose proof (days_in_month_bounds y 2); lia).
  change (_days_in_month y 1) with 31 || idtac.
  repeat match goal with
         | |- context [if ?b then _ else _] => destruct b
         end; rewrite ?result_bind_Ok; cbv beta.
  all: repeat (first [rewrite add_days_in_month by solve_in_month
                     |rewrite sub_days_in_month by solve_in_month
                     |rewrite result_bind_Ok];
               cbv beta).
  all: eexists; split; [reflexivity|]; split.
  all: try (intros x Hx; unfold set_add in Hx;
            rewrite !elem_of_union, !elem_of_singleton in Hx;
            rewrite elem_of_empty in Hx;
            unfold holiday_shape;
            repeat (destruct Hx as [Hx|Hx]); try contradiction; subst x;
            cbn [year month day tod]; repeat split; lia).
  all: repeat (etrans; [apply size_set_add|apply le_n_S]).
  all: rewrite size_empty.
  all: clear; lia.
Qed.
Lemma datetime__midnight d :
  valid_datetime d = true ->
  datetime_ (year d) (month d) (day d) = Ok (midnight d).
Proof.
  intros Hv. apply datetime__ok. unfold valid_datetime in Hv.
  rewrite !andb_true_iff in Hv. tauto.
Qed.

Lemma sub_days_1 d : sub_days d 1 = prev_day d.
Proof.
  unfold sub_days, add_days. change (0 <=? - (1)) with false.
  change (Z.to_nat (- - (1))) with 1%nat. cbn [iter_days].
  destruct (prev_day d); reflexivity.
Qed.

Lemma sub_days_2 d : sub_days d 2 = result_bind (prev_day d) prev_day.
Proof.
  unfold sub_days, add_days. change (0 <=? - (2)) with false.
  change (Z.to_nat (- - (2))) with 2%nat. cbn [iter_days].
  destruct (prev_day d) as [d'|]; [|reflexivity]. cbn [result_bind].
  destruct (prev_day d'); reflexivity.
Qed.

Lemma toordinal_midnight d : toordinal (midnight d) = toordinal d.
Proof. reflexivity. Qed.

Lemma weekday_midnight d : weekday (midnight d) = weekday d.
Proof. reflexivity. Qed.

Lemma weekday_of_ordinal a b :
  toordinal a = toordinal b -> weekday a = weekday b.
Proof. unfold weekday. intros ->. reflexivity. Qed.

Lemma midnight_of_ordinal a b :
  valid_datetime a = true -> valid_datetime b = true ->
  toordinal a = toordinal b -> midnight a = midnight b.
Proof.
  intros Ha Hb Heq. destruct (toordinal_inj a b Ha Hb Heq) as (Hy & Hm & Hd).
  unfold midnight. rewrite Hy, Hm, Hd. reflexivity.
Qed.

(** The four ways through the loop body. *)
Lemma business_day_step_cases hs c :
  valid_datetime c = true ->
  (midnight c ∈ hs
   /\ business_day_step hs c
        = result_bind (prev_day c) (fun c' => Ok (Continue c')))
  \/ ((midnight c ∉ hs) /\ weekday c = 5
      /\ business_day_step hs c
        = result_bind (prev_day c) (fun c' => Ok (Continue c')))
  \/ ((midnight c ∉ hs) /\ weekday c = 6
      /\ business_day_step hs c
         = result_bind (prev_day c) (fun c' =>
             result_bind (prev_day c') (fun c'' => Ok (Continue c''))))
  \/ ((midnight c ∉ hs) /\ weekday c <> 5 /\ weekday c <> 6
      /\ business_day_step hs c = Ok (Break c)).
Proof.
  intros Hv. unfold business_day_step.
  rewrite (datetime__midnight c Hv), result_bind_Ok.
  destruct (bool_decide_reflect (midnight c ∈ hs)) as [Hin|Hin].
  - left. rewrite sub_days_1. auto.
  - right. destruct (Z.eqb_spec (weekday c) 5) as [H5|H5].
    + left. rewrite sub_days_1. auto.
    + right. destruct (Z.eqb_spec (weekday c) 6) as [H6|H6].
      * left. rewrite sub_days_2. repeat split; try assumption.
        destruct (prev_day c); reflexivity.
      * right. auto.
Qed.

(** Each iteration that continues moves the candidate back by one or two
    days and keeps the time of day. *)
Lemma business_day_step_decreases hs c c' :
  valid_datetime c = true ->
  business_day_step hs c = Ok (Continue c') ->
  valid_datetime c' = true /\ tod c' = tod c
  /\ toordinal c - 2 <= toordinal c' < toordinal c.
Proof.
  intros Hv Hstep.
  destruct (business_day_step_cases hs c Hv)
    as [(_ & E)|[(_ & _ & E)|[(_ & _ & E)|(_ & _ & _ & E)]]];
    rewrite E in Hstep; clear E.
  - destruct (prev_day c) as [d|] eqn:E; [|discriminate].
    injection Hstep as <-. destruct (prev_day_spec c d Hv E) as (? & ? & ?).
    repeat split; try assumption; lia.
  - destruct (prev_day c) as [d|] eqn:E; [|discriminate].
    injection Hstep as <-. destruct (prev_day_spec c d Hv E) as (? & ? & ?).
    repeat split; try assumption; lia.
  - destruct (prev_day c) as [d|] eqn:E; [|discriminate].
    cbn [result_bind] in Hstep.
    destruct (prev_day d) as [d2|] eqn:E2; [|discriminate].
    injection Hstep as <-.
    destruct (prev_day_spec c d Hv E) as (Hvd & ? & ?).
    destruct (prev_day_spec d d2 Hvd E2) as (? & ? & ?).
    repeat split; try assumption; try congruence; lia.
  - discriminate.
Qed.

Lemma size_filter_le hs (a b : datetime) :
  toordinal a <= toordinal b ->
  (size (holidays_upto hs a)
   <= size (holidays_upto hs b))%nat.
Proof.
  intros Hle. apply subseteq_size. unfold holidays_upto. intros x.
  rewrite !elem_of_filter. intros [? ?]. split; [lia|assumption].
Qed.

Lemma size_filter_lt hs (a b : datetime) :
  toordinal a < toordinal b -> midnight b ∈ hs ->
  (size (holidays_upto hs a)
   < size (holidays_upto hs b))%nat.
Proof.
  intros Hlt Hin. apply subset_size. unfold holidays_upto. split.
  - intros x. rewrite !elem_of_filter. intros [? ?]. split; [lia|assumption].
  - intros Hsub. specialize (Hsub (midnight b)).
    rewrite !elem_of_filter, toordinal_midnight in Hsub.
    destruct Hsub as [? _]; [split; [lia|assumption]|]. lia.
Qed.

Lemma loop_measure_bound hs c : (loop_measure hs c <= 2 * size hs + 1)%nat.
Proof.
  unfold loop_measure.
  assert ((size (holidays_upto hs c) <= size hs)%nat).
  { apply subseteq_size. unfold holidays_upto. intros x. rewrite elem_of_filter. tauto. }
  destruct (is_weekend c); lia.
Qed.

Lemma weekday_pred a b :
  toordinal b = toordinal a - 1 -> weekday b = (weekday a - 1) mod 7.
Proof.
  unfold weekday. intros ->. 
  rewrite Zminus_mod_idemp_l. f_equal. lia.
Qed.

Lemma business_day_loop_terminates hs :
  forall fuel c,
    valid_datetime c = true -> (loop_measure hs c < fuel)%nat ->
    exists res, business_day_loop fuel hs c = Some res.
Proof.
  induction fuel as [|fuel IH]; intros c Hv Hlt; [lia|].
  cbn [business_day_loop].
  destruct (business_day_step hs c) as [[c'|r]|e] eqn:Hstep;
    [|eexists; reflexivity|eexists; reflexivity].
  apply IH.
  - eapply business_day_step_decreases; eassumption.
  - destruct (business_day_step_decreases hs c c' Hv Hstep) as (Hv' & _ & Hord).
    destruct (business_day_step_cases hs c Hv)
      as [(Hin & E)|[(_ & Hw & E)|[(_ & Hw & E)|(_ & _ & _ & E)]]];
      rewrite E in Hstep; clear E.
    + pose proof (size_filter_lt hs c' c ltac:(lia) Hin).
      unfold loop_measure in *. destruct (is_weekend c'), (is_weekend c); lia.
    + destruct (prev_day c) as [d|] eqn:E; [|discriminate].
      injection Hstep as <-. destruct (prev_day_spec c d Hv E) as (_ & Hd & _).
      pose proof (weekday_pred c d Hd) as Hwd. rewrite Hw in Hwd.
      pose proof (size_filter_le hs d c ltac:(lia)).
      unfold loop_measure, is_weekend in *. rewrite Hwd, Hw in *.
      change ((5 - 1) mod 7) with 4 in *. cbn in Hlt |- *. lia.
    + destruct (prev_day c) as [d|] eqn:E; [|discriminate].
      cbn [result_bind] in Hstep.
      destruct (prev_day d) as [d2|] eqn:E2; [|discriminate].
      injection Hstep as <-.
      destruct (prev_day_spec c d Hv E) as (Hvd & Hd & _).
      destruct (prev_day_spec d d2 Hvd E2) as (_ & Hd2 & _).
      pose proof (weekday_pred c d Hd) as Hwd. rewrite Hw in Hwd.
      pose proof (weekday_pred d d2 Hd2) as Hwd2. rewrite Hwd in Hwd2.
      pose proof (size_filter_le hs d2 c ltac:(lia)).
      unfold loop_measure, is_weekend in *. rewrite Hwd2, Hw in *.
      change (((6 - 1) mod 7 - 1) mod 7) with 4 in *. cbn in Hlt |- *. lia.
    + discriminate.
Qed.

Lemma non_business_of_ordinal hs a b :
  valid_datetime a = true -> valid_datetime b = true ->
  toordinal a = toordinal b -> non_business hs a -> non_business hs b.
Proof.
  intros Ha Hb Heq. unfold non_business.
  rewrite (midnight_of_ordinal a b Ha Hb Heq), (weekday_of_ordinal a b Heq).
  tauto.
Qed.

Lemma business_day_loop_correct hs b :
  valid_datetime b = true -> ~ non_business hs b ->
  forall fuel c res,
    valid_datetime c = true -> toordinal b <= toordinal c ->
    business_day_loop fuel hs c = Some res ->
    exists r, res = Ok r /\ valid_datetime r = true /\ tod r = tod c
              /\ toordinal b <= toordinal r <= toordinal c
              /\ ~ non_business hs r
              /\ forall x, valid_datetime x = true ->
                           toordinal r < toordinal x <= toordinal c ->
                           non_business hs x.
Proof.
  intros Hvb Hb. induction fuel as [|fuel IH]; intros c res Hv Hle Hloop;
    [discriminate|].
  cbn [business_day_loop] in Hloop.
  pose proof (toordinal_pos b Hvb) as Hbpos.
  assert (Hne : non_business hs c -> toordinal b < toordinal c).
  { intros Hnb. destruct (Z.eq_dec (toordinal b) (toordinal c)) as [Heq|]; [|lia].
    exfalso. apply Hb. eapply non_business_of_ordinal; [| |symmetry|]; eassumption. }
  destruct (business_day_step_cases hs c Hv)
    as [(Hin & E)|[(Hin & Hw & E)|[(Hin & Hw & E)|(Hin & Hw5 & Hw6 & E)]]];
    rewrite E in Hloop; clear E.
  - assert (Hlt : toordinal b < toordinal c) by (apply Hne; left; exact Hin).
    pose proof (prev_day_ok c Hv ltac:(lia)) as Hok.
    destruct (prev_day c) as [d|] eqn:E; [|discriminate]. cbn [result_bind] in Hloop.
    destruct (prev_day_spec c d Hv E) as (Hvd & Hd & Htd).
    destruct (IH d res Hvd ltac:(lia) Hloop) as (r & -> & Hvr & Htr & Hor & Hnr & Hbetween).
    exists r. repeat split; try assumption; try congruence; try lia.
    intros x Hvx Hx. destruct (Z.eq_dec (toordinal x) (toordinal c)) as [Heq|].
    + apply (non_business_of_ordinal hs c x Hv Hvx); [congruence|left; exact Hin].
    + apply Hbetween; [assumption|lia].
  - assert (Hlt : toordinal b < toordinal c) by (apply Hne; right; left; exact Hw).
    pose proof (prev_day_ok c Hv ltac:(lia)) as Hok.
    destruct (prev_day c) as [d|] eqn:E; [|discriminate]. cbn [result_bind] in Hloop.
    destruct (prev_day_spec c d Hv E) as (Hvd & Hd & Htd).
    destruct (IH d res Hvd ltac:(lia) Hloop) as (r & -> & Hvr & Htr & Hor & Hnr & Hbetween).
    exists r. repeat split; try assumption; try congruence; try lia.
    intros x Hvx Hx. destruct (Z.eq_dec (toordinal x) (toordinal c)) as [Heq|].
    + apply (non_business_of_ordinal hs c x Hv Hvx); [congruence|right; left; exact Hw].
    + apply Hbetween; [assumption|lia].
  - assert (Hlt : toordinal b < toordinal c) by (apply Hne; right; right; exact Hw).
    pose proof (prev_day_ok c Hv ltac:(lia)) as Hok.
    destruct (prev_day c) as [d|] eqn:E; [|discriminate]. cbn [result_bind] in Hloop.
    destruct (prev_day_spec c d Hv E) as (Hvd & Hd & Htd).
    pose proof (weekday_pred c d Hd) as Hwd. rewrite Hw in Hwd.
    change ((6 - 1) mod 7) with 5 in Hwd.
    assert (Hlt2 : toordinal b < toordinal d).
    { destruct (Z.eq_dec (toordinal b) (toordinal d)) as [Heq|]; [|lia].
      exfalso. apply Hb. apply (non_business_of_ordinal hs d b Hvd Hvb); [congruence|].
      right; left; exact Hwd. }
    pose proof (prev_day_ok d Hvd ltac:(lia)) as Hok2.
    destruct (prev_day d) as [d2|] eqn:E2; [|discriminate]. cbn [result_bind] in Hloop.
    destruct (prev_day_spec d d2 Hvd E2) as (Hvd2 & Hd2 & Htd2).
    destruct (IH d2 res Hvd2 ltac:(lia) Hloop) as (r & -> & Hvr & Htr & Hor & Hnr & Hbetween).
    exists r. repeat split; try assumption; try congruence; try lia.
    intros x Hvx Hx. destruct (Z.eq_dec (toordinal x) (toordinal c)) as [Heq|].
    + apply (non_business_of_ordinal hs c x Hv Hvx); [congruence|right; right; exact Hw].
    + destruct (Z.eq_dec (toordinal x) (toordinal d)) as [Heq2|].
      * apply (non_business_of_ordinal hs d x Hvd Hvx); [congruence|right; left; exact Hwd].
      * apply Hbetween; [assumption|lia].
  - injection Hloop as <-. exists c.
    split; [reflexivity|]. split; [assumption|]. split; [reflexivity|].
    split; [lia|]. split; [unfold non_business; tauto|].
    intros x _ Hx. lia.
Qed.

Lemma business_day_loop_fuel_mono hs :
  forall fuel fuel' c res,
    business_day_loop fuel hs c = Some res -> (fuel <= fuel')%nat ->
    business_day_loop fuel' hs c = Some res.
Proof.
  induction fuel as [|fuel IH]; intros fuel' c res Hloop Hle; [discriminate|].
  destruct fuel' as [|fuel']; [lia|].
  cbn [business_day_loop] in *.
  destruct (business_day_step hs c) as [[c'|r]|e]; try assumption.
  apply IH; [assumption|lia].
Qed.

Lemma get_company_holidays_range y hs :
  get_company_holidays y = Ok hs -> 1 <= y <= 9999.
Proof.
  unfold get_company_holidays. cbv zeta. unfold datetime_ at 1.
  unfold MINYEAR, MAXYEAR.
  destruct (Z.leb_spec 1 y), (Z.leb_spec y 9999); cbn [andb negb result_bind];
    try discriminate. lia.
Qed.

Lemma is_company_holiday_year y x :
  is_company_holiday y x = true -> year x = y.
Proof.
  unfold is_company_holiday.
  destruct (get_company_holidays y) as [hs|] eqn:E; [|discriminate].
  intros Hin. apply bool_decide_eq_true in Hin.
  destruct (get_company_holidays_spec y (get_company_holidays_range y hs E))
    as (hs' & E' & Hshape & _).
  rewrite E in E'. injection E' as <-.
  apply (Hshape _ Hin).
Qed.

Lemma size_union_le (X Y : gset datetime) : (size (X ∪ Y) <= size X + size Y)%nat.
Proof.
  rewrite size_union_alt. apply Nat.add_le_mono_l, subseteq_size. set_solver.
Qed.

Lemma toordinal_same_month y m d1 d2 u1 u2 :
  toordinal (mk_datetime y m d2 u2) = toordinal (mk_datetime y m d1 u1) + (d2 - d1).
Proof. unfold toordinal, _ymd2ord. cbn [year month day]. lia. Qed.

(** One of December 26, 27 and 28 is a weekday, and none is a holiday. *)
Lemma late_december_business_day hs1 hs0 Y :
  2 <= Y <= 9999 ->
  (forall x, x ∈ hs1 -> holiday_shape Y x) ->
  (forall x, x ∈ hs0 -> holiday_shape (Y - 1) x) ->
  exists b, valid_datetime b = true /\ year b = Y - 1
            /\ ~ non_business (hs1 ∪ hs0) b.
Proof.
  intros HY H1 H0.
  assert (Hcand : forall dd, 26 <= dd <= 28 ->
            valid_datetime (mk_datetime (Y - 1) 12 dd 0) = true
            /\ (midnight (mk_datetime (Y - 1) 12 dd 0) ∉ hs1 ∪ hs0)).
  { intros dd Hdd. split.
    - apply valid_datetime_iff. cbn [year month day tod].
      change (_days_in_month (Y - 1) 12) with 31. lia.
    - rewrite elem_of_union. intros [Hin|Hin].
      + destruct (H1 _ Hin) as (Hy & _). cbn in Hy. lia.
      + destruct (H0 _ Hin) as (_ & _ & Hdec). cbn in Hdec.
        destruct (Hdec eq_refl); lia. }
  set (b26 := mk_datetime (Y - 1) 12 26 0).
  pose proof (weekday_range b26) as Hr.
  assert (H27 : weekday (mk_datetime (Y - 1) 12 27 0) = (weekday b26 + 1) mod 7).
  { unfold weekday. rewrite (toordinal_same_month _ _ 26 27 0 0).
    fold b26. rewrite Zplus_mod_idemp_l. f_equal. lia. }
  assert (H28 : weekday (mk_datetime (Y - 1) 12 28 0) = (weekday b26 + 2) mod 7).
  { unfold weekday. rewrite (toordinal_same_month _ _ 26 28 0 0).
    fold b26. rewrite Zplus_mod_idemp_l. f_equal. lia. }
  destruct (Z.eq_dec (weekday b26) 5) as [E5|N5].
  - exists (mk_datetime (Y - 1) 12 28 0).
    destruct (Hcand 28 ltac:(lia)) as [Hv Hn]. repeat split; try assumption.
    unfold non_business. rewrite H28, E5. change ((5 + 2) mod 7) with 0.
    intros [?|[?|?]]; [contradiction|lia|lia].
  - destruct (Z.eq_dec (weekday b26) 6) as [E6|N6].
    + exists (mk_datetime (Y - 1) 12 27 0).
      destruct (Hcand 27 ltac:(lia)) as [Hv Hn]. repeat split; try assumption.
      unfold non_business. rewrite H27, E6. change ((6 + 1) mod 7) with 0.
      intros [?|[?|?]]; [contradiction|lia|lia].
    + exists b26.
      destruct (Hcand 26 ltac:(lia)) as [Hv Hn]. repeat split; try assumption.
      unfold non_business. intros [?|[?|?]]; [contradiction|lia|lia].
Qed.

Lemma subtract_one_business_day_spec d :
  valid_datetime d = true ->
  toordinal first_supported < toordinal d ->
  exists r,
    (forall fuel, (50 <= fuel)%nat ->
                  subtract_one_business_day fuel d = Some (Ok r))
    /\ valid_datetime r = true /\ tod r = tod d
    /\ toordinal r < toordinal d
    /\ business_day r = true
    /\ (forall x, valid_datetime x = true ->
                  toordinal r < toordinal x < toordinal d ->
                  business_day x = false).
Proof.
  intros Hv Hafter. change (toordinal first_supported) with 366 in Hafter.
  pose proof (prev_day_ok d Hv ltac:(lia)) as Hok.
  destruct (prev_day d) as [c0|] eqn:Ec0; [clear Hok|discriminate].
  destruct (prev_day_spec d c0 Hv Ec0) as (Hv0 & Ho0 & Ht0).
  assert (HY : 2 <= year c0 <= 9999).
  { split.
    - apply (year_mono first_supported c0 eq_refl Hv0).
      change (toordinal first_supported) with 366. lia.
    - apply valid_datetime_iff in Hv0. lia. }
  destruct (get_company_holidays_spec (year c0) ltac:(lia))
    as (hs1 & E1 & Hshape1 & Hsize1).
  destruct (get_company_holidays_spec (year c0 - 1) ltac:(lia))
    as (hs0 & E0 & Hshape0 & Hsize0).
  destruct (late_december_business_day hs1 hs0 (year c0) HY Hshape1 Hshape0)
    as (b & Hvb & Hyb & Hb).
  assert (Hbc : toordinal b <= toordinal c0).
  { pose proof (toordinal_year_block b Hvb) as Hb1.
    pose proof (toordinal_year_block c0 Hv0) as Hc1.
    rewrite Hyb in Hb1. replace (year c0 - 1 + 1) with (year c0) in Hb1 by lia.
    lia. }
  assert (Hmu : (loop_measure (hs1 ∪ hs0) c0 < 50)%nat).
  { pose proof (loop_measure_bound (hs1 ∪ hs0) c0).
    pose proof (size_union_le hs1 hs0). lia. }
  destruct (business_day_loop_terminates (hs1 ∪ hs0) 50 c0 Hv0 Hmu)
    as (res & Hloop).
  destruct (business_day_loop_correct (hs1 ∪ hs0) b Hvb Hb 50 c0 res Hv0 Hbc Hloop)
    as (r & -> & Hvr & Htr & Hor & Hnr & Hbetween).
  assert (Hyr : year r = year c0 \/ year r = year c0 - 1).
  { pose proof (year_mono b r Hvb Hvr ltac:(lia)).
    pose proof (year_mono r c0 Hvr Hv0 ltac:(lia)). lia. }
  assert (Hnb : forall x, valid_datetime x = true ->
                          non_business (hs1 ∪ hs0) x -> business_day x = false).
  { intros x Hvx [Hin|[Hw|Hw]]; unfold business_day.
    - apply elem_of_union in Hin. destruct Hin as [Hin|Hin].
      + assert (year x = year c0) as Hyx by (apply (Hshape1 _ Hin)).
        unfold is_company_holiday at 1. rewrite Hyx, E1.
        rewrite (bool_decide_eq_true_2 _ Hin).
        rewrite andb_false_r. reflexivity.
      + assert (year x = year c0 - 1) as Hyx by (apply (Hshape0 _ Hin)).
        unfold is_company_holiday at 1. rewrite Hyx, E0.
        rewrite (bool_decide_eq_true_2 _ Hin).
        rewrite andb_false_r. reflexivity.
    - rewrite Hw. reflexivity.
    - rewrite Hw. reflexivity. }
  exists r. split; [|split; [exact Hvr|split; [congruence|split; [lia|split]]]].
  - intros fuel Hfuel. unfold subtract_one_business_day.
    rewrite sub_days_1, Ec0, E1, E0.
    apply (business_day_loop_fuel_mono _ 50); assumption.
  - unfold business_day, non_business in *.
    destruct (Z.eqb_spec (weekday r) 5); [tauto|].
    destruct (Z.eqb_spec (weekday r) 6); [tauto|].
    assert (Hown : is_company_holiday (year r) r = false).
    { unfold is_company_holiday.
      destruct Hyr as [-> | ->]; [rewrite E1|rewrite E0];
        apply bool_decide_eq_false_2; rewrite elem_of_union in Hnr; tauto. }
    assert (Hprior : is_company_holiday (year r - 1) r = false).
    { destruct (is_company_holiday (year r - 1) r) eqn:E; [|reflexivity].
      apply is_company_holiday_year in E. lia. }
    rewrite Hown, Hprior. reflexivity.
  - intros x Hvx Hx. apply Hnb; [assumption|].
    apply Hbetween; [assumption|lia].
Qed.

Lemma get_company_holidays_size y hs :
  get_company_holidays y = Ok hs -> (size hs <= 12)%nat.
Proof.
  intros E.
  destruct (get_company_holidays_spec y (get_company_holidays_range y hs E))
    as (hs' & E' & _ & Hsize).
  rewrite E in E'. injection E' as <-. exact Hsize.
Qed.

Lemma subtract_one_business_day_terminates d fuel :
  valid_datetime d = true -> (50 <= fuel)%nat ->
  exists res, subtract_one_business_day fuel d = Some res.
Proof.
  intros Hv Hfuel. unfold subtract_one_business_day. rewrite sub_days_1.
  destruct (prev_day d) as [c0|] eqn:Ec0; [|eexists; reflexivity].
  destruct (prev_day_spec d c0 Hv Ec0) as (Hv0 & _ & _).
  destruct (get_company_holidays (year c0)) as [hs1|] eqn:E1;
    [|eexists; reflexivity].
  destruct (get_company_holidays (year c0 - 1)) as [hs0|] eqn:E0;
    [|eexists; reflexivity].
  apply business_day_loop_terminates; [assumption|].
  pose proof (loop_measure_bound (hs1 ∪ hs0) c0).
  pose proof (size_union_le hs1 hs0).
  pose proof (get_company_holidays_size _ _ E1).
  pose proof (get_company_holidays_size _ _ E0). lia.
Qed.




(** C10: the search terminates.  For every input date and every bound of
    at least 50 iterations the call returns or raises; past 0002-01-01 it
    returns a business day.  Each iteration that continues moves the
    candidate back by one or two days, and for any finite holiday set the
    loop is over after at most [2 * size hs + 2] iterations. *)
Theorem business_day_search_terminates (d : datetime) (fuel : nat)
    (Hvalid : valid_datetime d = true) (Hfuel : (50 <= fuel)%nat) :
  (exists res, subtract_one_business_day fuel d = Some res
     /\ (toordinal first_supported < toordinal d ->
         exists r, res = Ok r /\ business_day r = true))
  /\ (forall hs c c',
        valid_datetime c = true ->
        business_day_step hs c = Ok (Continue c') ->
        toordinal c - 2 <= toordinal c' < toordinal c)
  /\ (forall hs c n,
        valid_datetime c = true -> (2 * size hs + 1 < n)%nat ->
        exists res, business_day_loop n hs c = Some res).
Proof.
  split; [|split].
  - destruct (subtract_one_business_day_terminates d fuel Hvalid Hfuel)
      as (res & Hres).
    exists res. split; [exact Hres|]. intros Hafter.
    destruct (subtract_one_business_day_spec d Hvalid Hafter)
      as (r & Hrun & _ & _ & _ & Hbus & _).
    exists r. split; [|exact Hbus].
    rewrite (Hrun fuel Hfuel) in Hres. congruence.
  - intros hs c c' Hv Hstep.
    apply (business_day_step_decreases hs c c' Hv Hstep).
  - intros hs c n Hv Hn. apply business_day_loop_terminates; [assumption|].
    pose proof (loop_measure_bound hs c). lia.
Qed.

Lemma business_day_search_terminates_witness :
  valid_datetime (mk_datetime 2026 11 3 0) = true /\ (50 <= 50)%nat
  /\ (exists res,
        subtract_one_business_day 50 (mk_datetime 2026 11 3 0) = Some res
        /\ (toordinal first_supported < toordinal (mk_datetime 2026 11 3 0) ->
            exists r, res = Ok r /\ business_day r = true))
  /\ (forall hs c c',
        valid_datetime c = true ->
        business_day_step hs c = Ok (Continue c') ->
        toordinal c - 2 <= toordinal c' < toordinal c)
  /\ (forall hs c n,
        valid_datetime c = true -> (2 * size hs + 1 < n)%nat ->
        exists res, business_day_loop n hs c = Some res).
Proof.
  split; [reflexivity|]. split; [apply le_n|].
  apply (business_day_search_terminates (mk_datetime 2026 11 3 0) 50);
    [reflexivity|apply le_n].
Defined.

End HelpersFacts.

(** ** Facts about the composite tasks *)

Module AppFacts.
Import App.

Lemma interleave_Forall (P : event -> Prop) schedule :
  forall t1 t2, Forall P t1 -> Forall P t2 -> Forall P (interleave schedule t1 t2).
Proof.
  induction schedule as [|turn schedule IH]; intros t1 t2 H1 H2; cbn [interleave].
  - apply Forall_app; auto.
  - destruct t1 as [|e1 t1]; [assumption|].
    destruct t2 as [|e2 t2]; [assumption|].
    destruct turn; constructor;
      try (apply IH; try assumption);
      solve [eapply Forall_inv; eassumption
            |eapply Forall_inv_tail; eassumption].
Qed.

Lemma run_website_thread_events web : Forall thread_event (run_website web).1.
Proof. destruct web; cbn; repeat constructor. Qed.

Lemma run_sap_thread_events sap : Forall thread_event (run_sap sap).1.
Proof. destruct sap; cbn; repeat constructor. Qed.

Lemma finished_signals_app t1 t2 :
  finished_signals (t1 ++ t2) = finished_signals t1 ++ finished_signals t2.
Proof. unfold finished_signals. apply omap_app. Qed.

Lemma finished_signals_thread t :
  Forall thread_event t -> finished_signals t = [].
Proof.
  induction 1 as [|e t He _ IH]; [reflexivity|].
  destruct e; cbn in He |- *; try contradiction; exact IH.
Qed.

Lemma report_call_thread t :
  Forall thread_event t -> existsb is_report_call t = false.
Proof.
  induction 1 as [|e t He _ IH]; [reflexivity|].
  destruct e; cbn in He |- *; try contradiction; exact IH.
Qed.

Lemma threads_quiet schedule web sap :
  Forall thread_event
    (interleave schedule (run_website web).1 (run_sap sap).1).
Proof.
  apply interleave_Forall;
    [apply run_website_thread_events|apply run_sap_thread_events].
Qed.

(** C6: the ['both'] task signals success exactly when both children
    succeed, a partial success whose message marks the failed side when
    exactly one does, and failure when neither does; in the ['all'] task a
    download phase that is not fully successful ends in one descriptive
    failure signal and [excel_report.main] is not called. *)
Theorem composite_task_outcomes (schedule : list bool) (web sap : outcome)
    (report : report_run) :
  finished_signals (run_both schedule web sap)
  = [match web, sap with
     | Returns, Returns => (true, "Both scripts completed successfully!")
     | Returns, Raises _ => (false, "Partial success: Website ✓, SAP ✗")
     | Raises _, Returns => (false, "Partial success: Website ✗, SAP ✓")
     | Raises _, Raises _ => (false, "Both scripts failed!")
     end]
  /\ match web, sap with
     | Returns, Returns =>
       existsb is_report_call (run_all schedule web sap report) = true
     | _, _ =>
       existsb is_report_call (run_all schedule web sap report) = false
       /\ finished_signals (run_all schedule web sap report)
          = [(false,
              match web, sap with
              | Raises _, Raises _ =>
                "Downloads failed — both PDBS and SAP failed. Excel report skipped."
              | Raises _, Returns =>
                "Downloads failed — PDBS failed, SAP succeeded. Excel report skipped."
              | _, _ =>
                "Downloads failed — PDBS succeeded, SAP failed. Excel report skipped."
              end)]
     end.
Proof.
  pose proof (threads_quiet schedule web sap) as Hq.
  pose proof (finished_signals_thread _ Hq) as Hf.
  pose proof (report_call_thread _ Hq) as Hr.
  unfold run_both, run_all.
  destruct web as [|ew], sap as [|es]; cbn [run_website run_sap fst snd] in *;
    cbn [succeeded returncode Z.eqb andb orb negb];
    rewrite ?finished_signals_app, ?existsb_app, ?Hf, ?Hr;
    cbn; try rewrite ?orb_true_r; auto.
Qed.

End AppFacts.

(** ** Facts about the serialized Excel session *)

Module ExcelManagerFacts.
Import ExcelManager.

Lemma extends_refl f : extends f f.
Proof. exists []. split; [symmetry; apply app_nil_r|reflexivity]. Qed.

Lemma extends_trans f1 f2 f3 : extends f1 f2 -> extends f2 f3 -> extends f1 f3.
Proof.
  intros (a1 & E1 & H1) (a2 & E2 & H2). exists (a1 ++ a2). split.
  - rewrite E2, E1. symmetry. apply app_assoc.
  - rewrite forallb_app, H1, H2. reflexivity.
Qed.

Lemma quiet_ret {A} (a : A) : quiet (ret a).
Proof. intros f. apply extends_refl. Qed.

Lemma quiet_bind {A B} (m : M A) (k : A -> M B) :
  quiet m -> (forall a, quiet (k a)) -> quiet (bind m k).
Proof.
  intros Hm Hk f. unfold bind. specialize (Hm f).
  destruct (m f) as [[a|e] f']; cbn [snd] in *; [|assumption].
  eapply extends_trans; [eassumption|apply Hk].
Qed.

Lemma quiet_act a : is_lock_action a = false -> quiet (act a).
Proof.
  intros Ha f. exists [a]. cbn. rewrite Ha. split; reflexivity.
Qed.

Lemma quiet_call env site : quiet (call env site).
Proof.
  intros f. exists [external site]. unfold call.
  destruct (fails env site); cbn; split; reflexivity.
Qed.

Lemma quiet_set_excel b : quiet (set_excel b).
Proof.
  intros f. exists []. cbn. split; [symmetry; apply app_nil_r|reflexivity].
Qed.

Lemma quiet_set_wb b : quiet (set_wb b).
Proof.
  intros f. exists []. cbn. split; [symmetry; apply app_nil_r|reflexivity].
Qed.

Lemma quiet_swallow m : quiet m -> quiet (swallow m).
Proof.
  intros Hm f. unfold swallow. specialize (Hm f).
  destruct (m f) as [r f']. exact Hm.
Qed.

Lemma quiet_if_frame (test : frame -> bool) (m1 m2 : M unit) :
  quiet m1 -> quiet m2 -> quiet (fun f => if test f then m1 f else m2 f).
Proof. intros H1 H2 f. destruct (test f); [apply H1|apply H2]. Qed.

Create HintDb quiet.
#[local] Hint Resolve quiet_ret quiet_act quiet_call quiet_set_excel
  quiet_set_wb quiet_swallow quiet_if_frame : quiet.

Lemma quiet_try_block env xls_path xlsx_path :
  quiet (try_block env xls_path xlsx_path).
Proof.
  unfold try_block.
  repeat (apply quiet_bind; [auto with quiet|intros _]); auto with quiet.
Qed.

Lemma quiet_cleanup env : quiet (cleanup env).
Proof.
  unfold cleanup.
  repeat (apply quiet_bind; [auto with quiet|intros _]); auto with quiet.
Qed.

Lemma holds_release_acquire me env lock lock' :
  acquire me env lock = (true, lock') ->
  holds me (release lock') = holds me lock.
Proof.
  unfold acquire, holds, release.
  destruct lock as [[t|] n]; cbn [owner count].
  - destruct (Nat.eqb t me) eqn:E.
    + intros [= <-]. cbn [owner count]. destruct n; cbn [owner]; [reflexivity|].
      rewrite Nat.eqb_refl. reflexivity.
    + destruct (lock_freed_in_time env); [|discriminate].
      intros [= <-]. reflexivity.
  - intros [= <-]. reflexivity.
Qed.

Lemma filter_release_quiet added :
  forallb (fun a => negb (is_lock_action a)) added = true ->
  List.filter is_release added = [].
Proof.
  induction added as [|a added IH]; [reflexivity|].
  cbn [forallb List.filter]. rewrite andb_true_iff. intros [Ha Hrest].
  destruct a; cbn in Ha |- *; try discriminate; auto.
Qed.

Lemma try_block_returns env xls_path xlsx_path f :
  is_Ok (try_block env xls_path xlsx_path f).1
  = forallb (fun site => match fails env site with
                         | None => true
                         | Some _ => false
                         end) try_sites
  /\ forall b, (try_block env xls_path xlsx_path f).1 = Ok b -> b = true.
Proof.
  unfold try_block, try_sites, bind, call, act, set_excel, set_wb, ret.
  cbn [forallb].
  repeat match goal with
         | |- context [fails env ?site] =>
           destruct (fails env site);
             [cbn; split; [reflexivity|intros b; discriminate]|cbn]
         end.
  split; [reflexivity|intros b; congruence].
Qed.


End ExcelManagerFacts.

(** ** Facts about the pattern extraction engine *)

Module ExcelReportFacts.
Import ExcelReport.

(** *** Running the primitives *)

Lemma bind_Ok {A B} (m : M A) (k : A -> M B) w a w' :
  m w = (Ok a, w') -> bind m k w = k a w'.
Proof. unfold bind. intros ->. reflexivity. Qed.

Lemma bind_Raise {A B} (m : M A) (k : A -> M B) w e w' :
  m w = (Raise e, w') -> bind m k w = (Raise e, w').
Proof. unfold bind. intros ->. reflexivity. Qed.

Lemma getitem_Some {A} key (a : A) w : getitem key (Some a) w = (Ok a, w).
Proof. reflexivity. Qed.

Lemma lift_run {A} (r : result A) w : lift r w = (r, w).
Proof. reflexivity. Qed.

Lemma Sheets_run w sheet ws :
  workbook w !! sheet = Some ws -> Sheets sheet w = (Ok ws, w).
Proof. unfold Sheets. intros ->. reflexivity. Qed.

Lemma PivotTables_run w sheet name pt :
  pivot_info w sheet name = Some pt -> PivotTables_ sheet name w = (Ok pt, w).
Proof.
  unfold pivot_info, PivotTables_. intros H.
  destruct (workbook w !! sheet) as [ws|] eqn:E; [|discriminate].
  rewrite (bind_Ok _ _ _ _ _ (Sheets_run _ _ _ E)). rewrite H. reflexivity.
Qed.

Lemma ListObjects_run w sheet name t :
  table_info w sheet name = Some t -> ListObjects_ sheet name w = (Ok t, w).
Proof.
  unfold table_info, ListObjects_. intros H.
  destruct (workbook w !! sheet) as [ws|] eqn:E; [|discriminate].
  rewrite (bind_Ok _ _ _ _ _ (Sheets_run _ _ _ E)). rewrite H. reflexivity.
Qed.

Lemma table_info_sheet w sheet name t :
  table_info w sheet name = Some t -> sheet_exists w sheet.
Proof.
  unfold table_info, sheet_exists.
  destruct (workbook w !! sheet); [eauto|discriminate].
Qed.

Lemma writes_only_refl w : writes_only w w [].
Proof.
  unfold writes_only. rewrite app_nil_r. repeat split; auto.
Qed.

Lemma writes_only_trans w1 w2 w3 e1 e2 :
  writes_only w1 w2 e1 -> writes_only w2 w3 e2 -> writes_only w1 w3 (e1 ++ e2).
Proof.
  intros (E1 & S1 & T1) (E2 & S2 & T2). split; [|split].
  - rewrite E2, E1. symmetry. apply app_assoc.
  - intros s. rewrite S2. apply S1.
  - intros s t. rewrite T2. apply T1.
Qed.

Lemma emit_event_run e w :
  exists w', emit_event e w = (Ok tt, w') /\ writes_only w w' [e]
             /\ workbook w' = workbook w.
Proof.
  eexists. split; [reflexivity|]. split; [|reflexivity].
  repeat split; auto.
Qed.

Lemma write_cell_run w sheet r c v :
  sheet_exists w sheet ->
  exists w', write_cell sheet r c v w = (Ok tt, w')
             /\ writes_only w w' [Write sheet r c v].
Proof.
  intros [ws Hws]. unfold write_cell.
  rewrite (bind_Ok _ _ _ _ _ (Sheets_run _ _ _ Hws)).
  eexists. split; [reflexivity|]. split; [reflexivity|]. split.
  - intros s. unfold sheet_exists. cbn [workbook].
    destruct (decide (sheet = s)) as [->|Hne].
    + rewrite lookup_insert_eq, Hws. split; eauto.
    + rewrite lookup_insert_ne by assumption. reflexivity.
  - intros s t. unfold table_info. cbn [workbook].
    destruct (decide (sheet = s)) as [->|Hne].
    + rewrite lookup_insert_eq, Hws. reflexivity.
    + rewrite lookup_insert_ne by assumption. reflexivity.
Qed.

Lemma ListRows_Add_run w sheet table t :
  table_info w sheet table = Some t ->
  exists w', ListRows_Add_ sheet table w = (Ok tt, w')
             /\ events w' = events w ++ [ListRows_Add sheet table]
             /\ (forall s, sheet_exists w' s <-> sheet_exists w s)
             /\ table_info w' sheet table = Some (with_added_row t)
             /\ (forall s t', (s, t') <> (sheet, table) ->
                              table_info w' s t' = table_info w s t').
Proof.
  intros Ht. unfold ListRows_Add_.
  pose proof Ht as Ht'. unfold table_info in Ht'.
  destruct (workbook w !! sheet) as [ws|] eqn:Hws; [|discriminate].
  rewrite (bind_Ok _ _ _ _ _ (Sheets_run _ _ _ Hws)).
  rewrite (bind_Ok _ _ _ _ _ (ListObjects_run _ _ _ _ Ht)).
  eexists. split; [reflexivity|]. split; [reflexivity|]. split; [|split].
  - intros s. unfold sheet_exists. cbn [workbook].
    destruct (decide (sheet = s)) as [->|Hne].
    + rewrite lookup_insert_eq, Hws. split; eauto.
    + rewrite lookup_insert_ne by assumption. reflexivity.
  - unfold table_info. cbn [workbook]. rewrite lookup_insert_eq.
    cbn [ListObjects]. rewrite lookup_insert_eq. reflexivity.
  - intros s t' Hne. unfold table_info. cbn [workbook].
    destruct (decide (sheet = s)) as [->|Hs].
    + rewrite lookup_insert_eq, Hws. cbn [ListObjects].
      rewrite lookup_insert_ne; [reflexivity|]. congruence.
    + rewrite lookup_insert_ne by assumption. reflexivity.
Qed.

Lemma py_index_in_range {A} (l : list A) (k : Z) :
  0 <= k < Z.of_nat (length l) -> py_index l k = l !! Z.to_nat k.
Proof.
  intros Hk. unfold py_index.
  destruct (Z.leb_spec 0 k); [|lia].
  destruct (Z.ltb_spec k (Z.of_nat (length l))); [|lia]. reflexivity.
Qed.

Lemma tuple_getitem_in_range (row : list cell) (k : Z) :
  0 <= k < Z.of_nat (length row) ->
  item_getitem (Tuple row) k = Ok (default CNone (row !! Z.to_nat k)).
Proof.
  intros Hk. unfold item_getitem. rewrite py_index_in_range by assumption.
  destruct (row !! Z.to_nat k) eqn:E; [reflexivity|].
  apply lookup_ge_None in E. lia.
Qed.

Lemma enumerate_cons {A} start (x : A) l :
  enumerate start (x :: l) = (start, x) :: enumerate (start + 1) l.
Proof.
  unfold enumerate. cbn [length].
  rewrite Nat2Z.inj_succ, seqZ_cons by lia. cbn [zip zip_with].
  do 3 f_equal; lia.
Qed.

Lemma enumerate_nil {A} start : enumerate start (@nil A) = [].
Proof. reflexivity. Qed.

(** The inner loop of pattern A over the columns of one row. *)
Lemma copy_row_run sheet t n i off (row : list cell) :
  forall js w,
    sheet_exists w sheet ->
    Forall (fun j => 0 <= j - 1 < Z.of_nat (length row)) js ->
    exists w',
      for_each js (fun j =>
        bind (lift (item_getitem (Tuple row) (j - 1))) (fun v =>
          write_list_row sheet t n i (off j) v)) w = (Ok tt, w')
      /\ writes_only w w'
           (map (fun j => Write sheet (HeaderRow t + n + i - 1)
                               (FirstColumn t + off j - 1)
                               (default CNone (row !! Z.to_nat (j - 1)))) js).
Proof.
  induction js as [|j js IH]; intros w Hs Hjs; cbn [for_each map].
  - exists w. split; [reflexivity|apply writes_only_refl].
  - apply Forall_cons in Hjs. destruct Hjs as [Hj Hjs].
    destruct (write_cell_run w sheet (HeaderRow t + n + i - 1)
                (FirstColumn t + off j - 1)
                (default CNone (row !! Z.to_nat (j - 1))) Hs)
      as (w1 & Hrun & Hw1).
    assert (Hstep :
      bind (lift (item_getitem (Tuple row) (j - 1))) (fun v =>
        write_list_row sheet t n i (off j) v) w = (Ok tt, w1)).
    { erewrite bind_Ok by (rewrite lift_run, tuple_getitem_in_range by assumption;
                           reflexivity).
      exact Hrun. }
    rewrite (bind_Ok _ _ _ _ _ Hstep).
    destruct (IH w1) as (w2 & Hrest & Hw2); [apply Hw1, Hs|assumption|].
    exists w2. split; [exact Hrest|].
    apply (writes_only_trans w w1 w2 [_] _ Hw1 Hw2).
Qed.

Lemma write_date_stamp_run op sheet t n w :
  sheet_exists w sheet ->
  exists w', write_date_stamp op sheet t n w = (Ok tt, w')
             /\ writes_only w w' (date_stamp_events op sheet t n).
Proof.
  intros Hs. unfold write_date_stamp, date_stamp_events.
  destruct (date_col op) as [[col date_val]|].
  - apply write_cell_run. exact Hs.
  - exists w. split; [reflexivity|apply writes_only_refl].
Qed.

(** The two nested loops of pattern A. *)
Lemma copy_rows_run sheet t n off (C : nat) :
  forall body start w,
    sheet_exists w sheet ->
    Forall (fun row => length row = C) body ->
    exists w',
      for_each (enumerate start body) (fun '(i, row_data) =>
        for_each (range 1 (Z.of_nat C)) (fun j =>
          bind (lift (item_getitem (Tuple row_data) (j - 1))) (fun v =>
            write_list_row sheet t n i (off j) v))) w = (Ok tt, w')
      /\ writes_only w w'
           (flat_map (fun '(i, row) =>
              map (fun j => Write sheet (HeaderRow t + n + i - 1)
                                  (FirstColumn t + off j - 1)
                                  (default CNone (row !! Z.to_nat (j - 1))))
                  (seqZ 1 (Z.of_nat C - 1)))
              (enumerate start body)).
Proof.
  induction body as [|row body IH]; intros start w Hs Hrows.
  - exists w. split; [reflexivity|apply writes_only_refl].
  - apply Forall_cons in Hrows. destruct Hrows as [Hrow Hrows].
    rewrite enumerate_cons. cbn [for_each flat_map].
    destruct (copy_row_run sheet t n start off row (range 1 (Z.of_nat C)) w Hs)
      as (w1 & Hrun & Hw1).
    { unfold range. apply Forall_forall. intros j Hj.
      apply elem_of_seqZ in Hj. lia. }
    rewrite (bind_Ok _ _ _ _ _ Hrun).
    destruct (IH (start + 1) w1) as (w2 & Hrest & Hw2);
      [apply Hw1, Hs|assumption|].
    exists w2. split; [exact Hrest|].
    unfold range in Hw1. replace (Z.of_nat C - 1) with (Z.of_nat C - 1) by lia.
    apply (writes_only_trans w w1 w2 _ _ Hw1 Hw2).
Qed.

Lemma values_of_range (r : Range) :
  match Range_Value r with
  | Rows rows => rows
  | Scalar v => [[v]]
  end = r.
Proof.
  unfold Range_Value. destruct r as [|[|v [|? ?]] [|? ?]]; reflexivity.
Qed.

Lemma length_enumerate {A} start (l : list A) :
  length (enumerate start l) = length l.
Proof.
  unfold enumerate. rewrite length_zip_with, length_seqZ. lia.
Qed.

Lemma pattern_A_writes_length sheet t off body (R C : nat) :
  rectangular R C body ->
  length (pattern_A_writes sheet t off body C) = (R * (C - 1))%nat.
Proof.
  intros [HR _]. unfold pattern_A_writes.
  assert (Hlen : forall l : list (Z * list cell),
             length (flat_map (fun '(i, row) =>
               map (fun j => Write sheet
                       (HeaderRow t + (ListRows_Count t + 1) + i - 1)
                       (FirstColumn t + off j - 1)
                       (default CNone (row !! Z.to_nat (j - 1))))
                   (seqZ 1 (Z.of_nat C - 1))) l)
             = (length l * (C - 1))%nat).
  { induction l as [|[i row] l IHl]; [reflexivity|].
    cbn [flat_map length]. rewrite length_app, IHl, length_map, length_seqZ. lia. }
  rewrite Hlen, length_enumerate, HR. reflexivity.
Qed.

Lemma Columns_Count_rectangular (R C : nat) body :
  rectangular R C body -> (1 <= R)%nat -> Columns_Count body = Z.of_nat C.
Proof.
  intros [HR Hrows] H1. destruct body as [|row body]; [cbn in HR; lia|].
  apply Forall_cons in Hrows. destruct Hrows as [Hrow _].
  cbn [Columns_Count]. rewrite Hrow. reflexivity.
Qed.


(** *** The keyword search *)

Section Search.
Variable float_repr : spec_float -> string.

Lemma range_lookup (a b : Z) i :
  i ∈ range a b <-> a <= i < b.
Proof. unfold range. rewrite elem_of_seqZ. lia. Qed.

Lemma rows_getitem (rows : list (list cell)) (i : Z) row :
  0 <= i -> rows !! Z.to_nat i = Some row ->
  py_getitem (Rows rows) i = Ok (Tuple row).
Proof.
  intros Hi Hrow. unfold py_getitem.
  rewrite py_index_in_range, Hrow; [reflexivity|].
  apply lookup_lt_Some in Hrow. lia.
Qed.

Lemma keyword_in_first_cell op kw c rest :
  keyword op = Some kw ->
  keyword_in float_repr op c = Ok (first_cell_matches float_repr kw (c :: rest)).
Proof.
  intros Hkw. unfold keyword_in, first_cell_matches. rewrite Hkw.
  destruct (truthy c); reflexivity.
Qed.

(** One turn of the search loop on a row with cells. *)
Lemma search_rows_step op kw rows i indices c rest :
  keyword op = Some kw -> 0 <= i ->
  rows !! Z.to_nat i = Some (c :: rest) ->
  search_rows float_repr (Rows rows) op (i :: indices)
  = if first_cell_matches float_repr kw (c :: rest)
    then Ok (Some (Tuple (c :: rest)))
    else search_rows float_repr (Rows rows) op indices.
Proof.
  intros Hkw Hi Hrow. cbn [search_rows].
  rewrite (rows_getitem rows i _ Hi Hrow), result_bind_Ok.
  rewrite tuple_getitem_in_range by (cbn [length]; lia).
  rewrite result_bind_Ok.
  change (default CNone ((c :: rest) !! Z.to_nat 0)) with c.
  rewrite (keyword_in_first_cell op kw c rest Hkw), result_bind_Ok.
  reflexivity.
Qed.

Lemma search_rows_none op kw rows :
  keyword op = Some kw ->
  forall indices,
    Forall (fun i => 0 <= i /\ exists c rest,
                rows !! Z.to_nat i = Some (c :: rest)
                /\ first_cell_matches float_repr kw (c :: rest) = false)
           indices ->
    search_rows float_repr (Rows rows) op indices = Ok None.
Proof.
  intros Hkw. induction indices as [|i indices IH]; intros Hall; [reflexivity|].
  apply Forall_cons in Hall. destruct Hall as [(Hi & c & rest & Hrow & Hno) Hall].
  rewrite (search_rows_step op kw rows i indices c rest Hkw Hi Hrow), Hno.
  apply IH. exact Hall.
Qed.

Lemma Range_Value_rows (R C : nat) r :
  rectangular R C r -> (2 <= C)%nat -> Range_Value r = Rows r.
Proof.
  intros [_ Hrows] HC. unfold Range_Value.
  destruct r as [|[|v [|? ?]] [|? ?]]; try reflexivity.
  apply Forall_cons in Hrows. destruct Hrows as [Hrow _]. cbn in Hrow. lia.
Qed.

Lemma rectangular_lookup (R C : nat) r (k : nat) :
  rectangular R C r -> (1 <= C)%nat -> (k < R)%nat ->
  exists c rest, r !! k = Some (c :: rest) /\ length (c :: rest) = C.
Proof.
  intros [HR Hrows] HC Hk.
  destruct (lookup_lt_is_Some_2 r k ltac:(lia)) as [row Hrow].
  pose proof (proj1 (Forall_lookup _ _) Hrows k row Hrow) as Hlen.
  destruct row as [|c rest]; [cbn in Hlen; lia|]. eauto.
Qed.

Lemma search_rows_not_found op kw (R C : nat) rows rs :
  keyword op = Some kw ->
  rectangular R C rows -> (1 <= C)%nat -> 1 <= rs ->
  Forall (fun row => first_cell_matches float_repr kw row = false)
         (drop (Z.to_nat (rs - 1)) rows) ->
  search_rows float_repr (Rows rows) op (range (rs - 1) (Z.of_nat R))
  = Ok None.
Proof.
  intros Hkw Hrect HC Hrs Hno. apply (search_rows_none op kw rows Hkw).
  apply Forall_forall. intros i Hi. apply range_lookup in Hi.
  split; [lia|].
  destruct (rectangular_lookup R C rows (Z.to_nat i) Hrect HC ltac:(lia))
    as (c & rest & Hrow & _).
  exists c, rest. split; [exact Hrow|].
  apply (proj1 (Forall_lookup _ _) Hno (Z.to_nat i - Z.to_nat (rs - 1))%nat).
  rewrite lookup_drop, <- Hrow. f_equal. lia.
Qed.

Lemma search_rows_found op kw (R C : nat) rows rs row :
  keyword op = Some kw ->
  rectangular R C rows -> (1 <= C)%nat -> 1 <= rs ->
  keyword_row float_repr kw rows rs row ->
  search_rows float_repr (Rows rows) op (range (rs - 1) (Z.of_nat R))
  = Ok (Some (Tuple row)).
Proof.
  intros Hkw Hrect HC Hrs (k & Hk & Hrow & Hmatch & Hfirst).
  assert (HkR : (k < R)%nat).
  { apply lookup_lt_Some in Hrow. destruct Hrect as [<- _]. exact Hrow. }
  unfold range.
  assert (Hgen : forall (d : nat) (a : Z),
             (Z.to_nat (rs - 1) <= Z.to_nat a)%nat -> 0 <= a ->
             Z.of_nat k = a + Z.of_nat d ->
             search_rows float_repr (Rows rows) op (seqZ a (Z.of_nat R - a))
             = Ok (Some (Tuple row))).
  { induction d as [|d IH]; intros a Ha Ha0 Hka.
    - rewrite seqZ_cons by lia.
      destruct (rectangular_lookup R C rows k Hrect HC HkR)
        as (c & rest & Hrow' & _).
      rewrite Hrow in Hrow'. injection Hrow' as ->.
      rewrite (search_rows_step op kw rows a _ c rest Hkw Ha0)
        by (replace (Z.to_nat a) with k by lia; exact Hrow).
      rewrite Hmatch. reflexivity.
    - rewrite seqZ_cons by lia.
      destruct (rectangular_lookup R C rows (Z.to_nat a) Hrect HC ltac:(lia))
        as (c & rest & Hrow' & _).
      rewrite (search_rows_step op kw rows a _ c rest Hkw Ha0 Hrow').
      rewrite (Hfirst (Z.to_nat a) (c :: rest) ltac:(lia) Hrow').
      replace (Z.pred (Z.of_nat R - a)) with (Z.of_nat R - Z.succ a) by lia.
      apply IH; lia. }
  apply (Hgen (k - Z.to_nat (rs - 1))%nat); lia.
Qed.

(** The write loop of pattern E over the columns of the keyword row. *)
Lemma blank_check_row_run sheet t n off (row : list cell) (blank : bool) :
  forall js w,
    sheet_exists w sheet ->
    Forall (fun j => 0 <= j - 1 < Z.of_nat (length row)) js ->
    exists w',
      for_each js (fun j =>
        bind (lift (if blank then Ok (CInt 0)
                    else item_getitem (Tuple row) (j - 1))) (fun new_val =>
          write_list_row sheet t n 1 (off j) new_val)) w = (Ok tt, w')
      /\ writes_only w w'
           (map (fun j => Write sheet (HeaderRow t + n + 1 - 1)
                               (FirstColumn t + off j - 1)
                               (if blank then CInt 0
                                else default CNone (row !! Z.to_nat (j - 1))))
                js).
Proof.
  induction js as [|j js IH]; intros w Hs Hjs; cbn [for_each map].
  - exists w. split; [reflexivity|apply writes_only_refl].
  - apply Forall_cons in Hjs. destruct Hjs as [Hj Hjs].
    set (v := if blank then CInt 0 else default CNone (row !! Z.to_nat (j - 1))).
    destruct (write_cell_run w sheet (HeaderRow t + n + 1 - 1)
                (FirstColumn t + off j - 1) v Hs) as (w1 & Hrun & Hw1).
    assert (Hstep :
      bind (lift (if blank then Ok (CInt 0)
                  else item_getitem (Tuple row) (j - 1))) (fun new_val =>
        write_list_row sheet t n 1 (off j) new_val) w = (Ok tt, w1)).
    { erewrite bind_Ok; [exact Hrun|].
      rewrite lift_run. subst v. destruct blank; [reflexivity|].
      rewrite tuple_getitem_in_range by assumption. reflexivity. }
    rewrite (bind_Ok _ _ _ _ _ Hstep).
    destruct (IH w1) as (w2 & Hrest & Hw2); [apply Hw1, Hs|assumption|].
    exists w2. split; [exact Hrest|].
    apply (writes_only_trans w w1 w2 [_] _ Hw1 Hw2).
Qed.

(** C3 (amended): when no row from [row_start] on has a first cell that
    contains the keyword, patterns B and D log a warning and return.
    Pattern B has appended its row before the search: the table has one
    row more, and only the optional date stamp was written.  Pattern D
    searches first: the workbook is as before. *)
Theorem keyword_not_found (w : world) (source_sheet : string)
    (op : operation) (pivot_name dsheet tname nm kw : string)
    (pt : PivotTable) (t : ListObject) (R C : nat)
    (Hpivot : pivot op = Some pivot_name)
    (Hdsheet : dest_sheet op = Some dsheet)
    (Hdtable : dest_table op = Some tname)
    (Hkw : keyword op = Some kw)
    (Hname : name op = Some nm)
    (Hpt : pivot_info w source_sheet pivot_name = Some pt)
    (Ht : table_info w dsheet tname = Some t)
    (Hshape : rectangular R C (TableRange2 pt))
    (HR : (1 <= R)%nat) (HC : (2 <= C)%nat) :
  (1 <= default 1 (row_start op) ->
   Forall (fun row => first_cell_matches float_repr kw row = false)
          (drop (Z.to_nat (default 1 (row_start op) - 1)) (TableRange2 pt)) ->
   exists w',
     _search_row_copy_columns float_repr source_sheet op w = (Ok tt, w')
     /\ events w'
        = events w
          ++ [ListRows_Add dsheet tname]
          ++ date_stamp_events op dsheet t (ListRows_Count t + 1)
          ++ [Log WARNING ("Keyword '" +:+ kw +:+ "' not found for " +:+ nm)]
     /\ table_info w' dsheet tname = Some (with_added_row t))
  /\ (1 <= default 2 (row_start op) ->
      Forall (fun row => first_cell_matches float_repr kw row = false)
             (drop (Z.to_nat (default 2 (row_start op) - 1)) (TableRange2 pt)) ->
      _single_cell_extraction float_repr source_sheet op w
      = (Ok tt,
         {| workbook := workbook w;
            events := events w
                      ++ [Log WARNING ("Keyword '" +:+ kw
                                       +:+ "' not found for " +:+ nm)] |})).
Proof.
  assert (Hlen : py_len (Range_Value (TableRange2 pt)) = Ok (Z.of_nat R)).
  { rewrite (Range_Value_rows R C _ Hshape HC). cbn [py_len].
    destruct Hshape as [-> _]. reflexivity. }
  split.
  - intros Hrs Hno.
    pose proof (table_info_sheet _ _ _ _ Ht) as [ws Hws].
    destruct (ListRows_Add_run w dsheet tname t Ht)
      as (w1 & Hadd & Hev1 & Hsh1 & Htab1 & _).
    assert (Hs1 : sheet_exists w1 dsheet) by (apply Hsh1; exists ws; exact Hws).
    destruct (write_date_stamp_run op dsheet t (ListRows_Count t + 1) w1 Hs1)
      as (w2 & Hdate & Hev2 & Hsh2 & Htab2).
    destruct (emit_event_run
                (Log WARNING ("Keyword '" +:+ kw +:+ "' not found for " +:+ nm)) w2)
      as (w3 & Hlog & (Hev3 & Hsh3 & Htab3) & _).
    exists w3. split; [|split].
    + unfold _search_row_copy_columns.
      rewrite Hpivot, Hdsheet, Hdtable, Hname.
      rewrite (bind_Ok _ _ _ _ _ (getitem_Some _ _ _)).
      rewrite (bind_Ok _ _ _ _ _ (PivotTables_run _ _ _ _ Hpt)).
      rewrite (bind_Ok _ _ _ _ _ (getitem_Some _ _ _)).
      rewrite (bind_Ok _ _ _ _ _ (Sheets_run _ _ _ Hws)).
      rewrite (bind_Ok _ _ _ _ _ (getitem_Some _ _ _)).
      rewrite (bind_Ok _ _ _ _ _ (ListObjects_run _ _ _ _ Ht)).
      rewrite (bind_Ok _ _ _ _ _ Hadd).
      rewrite (bind_Ok _ _ _ _ _ Hdate).
      rewrite Hlen.
      rewrite (bind_Ok _ _ _ _ _ (lift_run _ _)).
      rewrite (Range_Value_rows R C _ Hshape HC).
      rewrite (search_rows_not_found op kw R C _ _ Hkw Hshape ltac:(lia) Hrs Hno).
      rewrite (bind_Ok _ _ _ _ _ (lift_run _ _)).
      rewrite Hkw.
      rewrite (bind_Ok _ _ _ _ _ (getitem_Some _ _ _)).
      rewrite (bind_Ok _ _ _ _ _ (getitem_Some _ _ _)).
      exact Hlog.
    + rewrite Hev3, Hev2, Hev1. rewrite <- !app_assoc. reflexivity.
    + rewrite Htab3, Htab2. exact Htab1.
  - intros Hrs Hno. unfold _single_cell_extraction.
    rewrite Hpivot, Hname.
    rewrite (bind_Ok _ _ _ _ _ (getitem_Some _ _ _)).
    rewrite (bind_Ok _ _ _ _ _ (PivotTables_run _ _ _ _ Hpt)).
    rewrite Hlen.
    rewrite (bind_Ok _ _ _ _ _ (lift_run _ _)).
    rewrite (Range_Value_rows R C _ Hshape HC).
    rewrite (search_rows_not_found op kw R C _ _ Hkw Hshape ltac:(lia) Hrs Hno).
    rewrite (bind_Ok _ _ _ _ _ (lift_run _ _)).
    rewrite Hkw.
    rewrite (bind_Ok _ _ _ _ _ (getitem_Some _ _ _)).
    rewrite (bind_Ok _ _ _ _ _ (getitem_Some _ _ _)).
    reflexivity.
Qed.

Lemma keyword_row_length kw rows rs row (R N : nat) :
  keyword_row float_repr kw rows rs row -> rectangular R N rows ->
  length row = N.
Proof.
  intros (k & _ & Hrow & _) [_ Hrows].
  apply (proj1 (Forall_lookup _ _) Hrows k row Hrow).
Qed.


(** *** The header lookup of pattern C *)

Lemma item_eq_str_Value c label :
  item_eq_str (Value c) label = true <-> c = CStr label.
Proof.
  unfold item_eq_str. destruct c; try (split; [discriminate|congruence]).
  rewrite String.eqb_eq. split; congruence.
Qed.

Lemma find_header_spec label (hs : list cell) :
  forall start idx,
    find_header label start (map Value hs) = Some idx
    <-> exists k : nat,
          idx = start + Z.of_nat k
          /\ hs !! k = Some (CStr label)
          /\ forall k', (k' < k)%nat -> hs !! k' <> Some (CStr label).
Proof.
  induction hs as [|c hs IH]; intros start idx; cbn [map find_header].
  - split; [discriminate|]. intros (k & _ & Hk & _). discriminate.
  - destruct (item_eq_str (Value c) label) eqn:E.
    + apply item_eq_str_Value in E. subst c. split.
      * intros [= <-]. exists 0%nat. repeat split; [lia|]. intros k' Hk'. lia.
      * intros (k & -> & Hk & Hfirst). destruct k as [|k]; [f_equal; lia|].
        exfalso. apply (Hfirst 0%nat); [lia|reflexivity].
    + assert (Hc : c <> CStr label).
      { intros Hc. apply item_eq_str_Value in Hc. congruence. }
      rewrite IH. split.
      * intros (k & -> & Hk & Hfirst). exists (S k). repeat split; [lia|exact Hk|].
        intros [|k'] Hk'; cbn; [congruence|]. apply Hfirst. lia.
      * intros (k & -> & Hk & Hfirst). destruct k as [|k]; [cbn in Hk; congruence|].
        exists k. repeat split; [lia|exact Hk|].
        intros k' Hk'. apply (Hfirst (S k')). lia.
Qed.

Lemma find_header_none label (hs : list cell) start :
  CStr label ∉ hs -> find_header label start (map Value hs) = None.
Proof.
  intros Hnot. destruct (find_header label start (map Value hs)) as [idx|] eqn:E;
    [|reflexivity].
  apply find_header_spec in E. destruct E as (k & _ & Hk & _).
  exfalso. apply Hnot. eapply list_elem_of_lookup_2. exact Hk.
Qed.

Lemma HeaderRowRange_cells ws t : HeaderRowRange ws t = [header_cells ws t].
Proof.
  unfold HeaderRowRange, block, header_cells.
  rewrite (seqZ_cons (HeaderRow t) 1) by lia. change (Z.pred 1) with 0.
  rewrite (seqZ_nil (Z.succ (HeaderRow t)) 0) by lia. reflexivity.
Qed.

Lemma header_items_row (hs : list cell) :
  (2 <= length hs)%nat ->
  header_items (Range_Value [hs]) = Ok (map Value hs).
Proof.
  intros Hlen. destruct hs as [|c1 [|c2 hs]]; cbn in Hlen; try lia.
  reflexivity.
Qed.

Lemma length_header_cells ws t :
  length (header_cells ws t) = ListColumns_Count t.
Proof.
  unfold header_cells. rewrite length_map, length_seqZ. lia.
Qed.

(** C2 (amended): in a table of at least two columns the header lookup of
    pattern C finds the label exactly where a header cell equals it
    character for character, at the first such position and wherever in
    the row that is; when no header cell equals the label the operation
    logs a warning and leaves the workbook as it was. *)
Theorem previous_full_day_lookup_header (w : world) (source_sheet : string)
    (op : operation) (pivot_name dsheet tname nm label : string)
    (pt : PivotTable) (ws : Worksheet) (t : ListObject)
    (Hpivot : pivot op = Some pivot_name)
    (Hdsheet : dest_sheet op = Some dsheet)
    (Hdtable : dest_table op = Some tname)
    (Hlabel : dest_col_header op = Some label)
    (Hname : name op = Some nm)
    (Hpt : pivot_info w source_sheet pivot_name = Some pt)
    (Hws : workbook w !! dsheet = Some ws)
    (Ht : ListObjects ws !! tname = Some t)
    (Hcols : (2 <= ListColumns_Count t)%nat) :
  header_items (Range_Value (HeaderRowRange ws t))
  = Ok (map Value (header_cells ws t))
  /\ (forall idx,
        find_header label 1 (map Value (header_cells ws t)) = Some idx
        <-> exists k : nat,
              idx = 1 + Z.of_nat k
              /\ header_cells ws t !! k = Some (CStr label)
              /\ forall k', (k' < k)%nat ->
                            header_cells ws t !! k' <> Some (CStr label))
  /\ (CStr label ∉ header_cells ws t ->
      _previous_full_day_lookup float_repr source_sheet op w
      = (Ok tt,
         {| workbook := workbook w;
            events := events w
                      ++ [Log WARNING ("Column '" +:+ label
                                       +:+ "' not found for " +:+ nm)] |})).
Proof.
  assert (Hitems : header_items (Range_Value (HeaderRowRange ws t))
                   = Ok (map Value (header_cells ws t))).
  { rewrite HeaderRowRange_cells. apply header_items_row.
    rewrite length_header_cells. exact Hcols. }
  split; [exact Hitems|]. split; [intros idx; apply find_header_spec|].
  intros Hnot. unfold _previous_full_day_lookup.
  assert (Htab : table_info w dsheet tname = Some t)
    by (unfold table_info; rewrite Hws; exact Ht).
  rewrite Hpivot, Hdsheet, Hdtable, Hlabel, Hname.
  rewrite (bind_Ok _ _ _ _ _ (getitem_Some _ _ _)).
  rewrite (bind_Ok _ _ _ _ _ (PivotTables_run _ _ _ _ Hpt)).
  rewrite (bind_Ok _ _ _ _ _ (getitem_Some _ _ _)).
  rewrite (bind_Ok _ _ _ _ _ (Sheets_run _ _ _ Hws)).
  rewrite (bind_Ok _ _ _ _ _ (getitem_Some _ _ _)).
  rewrite (bind_Ok _ _ _ _ _ (ListObjects_run _ _ _ _ Htab)).
  rewrite Hitems.
  rewrite (bind_Ok _ _ _ _ _ (lift_run _ _)).
  rewrite (bind_Ok _ _ _ _ _ (getitem_Some _ _ _)).
  rewrite (find_header_none label _ 1 Hnot).
  rewrite (bind_Ok _ _ _ _ _ (getitem_Some _ _ _)).
  reflexivity.
Qed.

End Search.

(** *** The theorems on the scenario workbook *)

Import Scenario.



(** Operation 10 of the plan on a header row without its label. *)
Lemma previous_full_day_lookup_header_witness :
  (2 <= ListColumns_Count table_16)%nat
  /\ _previous_full_day_lookup no_floats "UTILITY" (operation_at 9) report
     = (Ok tt,
        {| workbook := workbook report;
           events := [Log WARNING "Column 'FULL DAY SUBMIT' not found for Prev Full Day AO Submitted"] |}).
Proof.
  assert (Hcols : (2 <= ListColumns_Count table_16)%nat) by apply le_n.
  split; [exact Hcols|].
  refine (proj2 (proj2 (previous_full_day_lookup_header no_floats report
            "UTILITY" (operation_at 9) "PivotTable1" "DN AO YR SUMMARY"
            "Table16" "Prev Full Day AO Submitted" "FULL DAY SUBMIT"
            (pivot_of [] orders_without_estore)
            (sheet_of {[ (1, 1) := CStr "Date";
                         (1, 2) := CStr "Full Day Submit" ]}
                      {[ "Table16" := table_16 ]})
            table_16 eq_refl eq_refl eq_refl eq_refl eq_refl eq_refl eq_refl
            eq_refl Hcols)) _).
  intros Hin. apply list_elem_of_In in Hin. vm_compute in Hin.
  destruct Hin as [Hin|[Hin|[]]]; discriminate Hin.
Defined.

(** What C2 promised and pattern C does not do: the header cell and the
    label differ only in the case of their letters, and the column is not
    found. *)
Lemma previous_full_day_lookup_case_sensitive :
  same_ignoring_case "Full Day Submit" "FULL DAY SUBMIT" = true
  /\ dest_col_header (operation_at 9) = Some "FULL DAY SUBMIT"
  /\ (forall ws, workbook report !! "DN AO YR SUMMARY" = Some ws ->
        header_cells ws table_16 = [CStr "Date"; CStr "Full Day Submit"]
        /\ find_header "FULL DAY SUBMIT" 1 (map Value (header_cells ws table_16))
           = None)
  /\ _previous_full_day_lookup no_floats "UTILITY" (operation_at 9) report
     = (Ok tt,
        {| workbook := workbook report;
           events := [Log WARNING "Column 'FULL DAY SUBMIT' not found for Prev Full Day AO Submitted"] |}).
Proof.
  split; [reflexivity|]. split; [reflexivity|]. split.
  - intros ws Hws. vm_compute in Hws. injection Hws as <-.
    split; vm_compute; reflexivity.
  - vm_compute. reflexivity.
Qed.

(** Operation 12 of the plan on a pivot range without an eStore row,
    handled as pattern B and as pattern D. *)
Lemma keyword_not_found_witness :
  rectangular 3 3 orders_without_estore
  /\ (exists w',
        _search_row_copy_columns no_floats "UTILITY" (operation_at 11) report
        = (Ok tt, w')
        /\ events w'
           = [ListRows_Add "SO YR COMP" "Table11";
              Log WARNING "Keyword 'eStore' not found for SO YR COMP - eStore"]
        /\ table_info w' "SO YR COMP" "Table11"
           = Some (with_added_row (empty_table 3)))
  /\ _single_cell_extraction no_floats "UTILITY" (operation_at 11) report
     = (Ok tt,
        {| workbook := workbook report;
           events := [Log WARNING "Keyword 'eStore' not found for SO YR COMP - eStore"] |}).
Proof.
  assert (Hshape : rectangular 3 3 orders_without_estore).
  { split; [reflexivity|repeat constructor]. }
  split; [exact Hshape|].
  destruct (keyword_not_found no_floats report "UTILITY" (operation_at 11)
              "PivotTable6" "SO YR COMP" "Table11" "SO YR COMP - eStore"
              "eStore" (pivot_of [] orders_without_estore) (empty_table 3) 3 3
              eq_refl eq_refl eq_refl eq_refl eq_refl eq_refl eq_refl
              Hshape ltac:(lia) ltac:(lia)) as [HB HD].
  split.
  - apply HB; [vm_compute; discriminate|]. repeat constructor.
  - apply HD; [vm_compute; discriminate|]. repeat constructor.
Defined.

(** What C3 promised and pattern D does not do: when the keyword is not
    found, pattern D has appended no row; the table has as many rows as
    before. *)
Lemma single_cell_extraction_appends_nothing :
  forallb (fun row => negb (first_cell_matches no_floats "eStore" row))
          orders_without_estore = true
  /\ _single_cell_extraction no_floats "UTILITY" (operation_at 11) report
     = (Ok tt,
        {| workbook := workbook report;
           events := [Log WARNING "Keyword 'eStore' not found for SO YR COMP - eStore"] |})
  /\ (ListRows_Count <$> table_info report "SO YR COMP" "Table11") = Some 0
  /\ (ListRows_Count <$>
      table_info (snd (_single_cell_extraction no_floats "UTILITY"
                         (operation_at 11) report))
                 "SO YR COMP" "Table11") = Some 0.
Proof.
  split; [reflexivity|]. split; [vm_compute; reflexivity|].
  split; vm_compute; reflexivity.
Qed.


End ExcelReportFacts.

(** ** The operation plan and its handlers *)

Module PlanFacts.
Import ExcelReport ExcelReportFacts.

(** *** No handler fails on a missing key *)

Lemma key_safe_ret {A} (a : A) : key_safe (ret a).
Proof. intros w. reflexivity. Qed.

Lemma key_safe_raise {A} (e : exn) :
  raises_KeyError (@Raise A e) = false -> key_safe (@raise A e).
Proof. intros He w. exact He. Qed.

Lemma key_safe_lift {A} (r : result A) :
  raises_KeyError r = false -> key_safe (lift r).
Proof. intros Hr w. exact Hr. Qed.

Lemma key_safe_bind {A B} (m : M A) (k : A -> M B) :
  key_safe m -> (forall a, key_safe (k a)) -> key_safe (bind m k).
Proof.
  intros Hm Hk w. unfold bind. specialize (Hm w).
  destruct (m w) as [[a|e] w']; [apply Hk|exact Hm].
Qed.

Lemma key_safe_getitem {A} key (a : A) : key_safe (getitem key (Some a)).
Proof. intros w. reflexivity. Qed.

Lemma key_safe_for_each {A} (l : list A) (body : A -> M unit) :
  (forall x, key_safe (body x)) -> key_safe (for_each l body).
Proof.
  intros Hbody. induction l as [|x l IH]; cbn [for_each].
  - apply key_safe_ret.
  - apply key_safe_bind; [apply Hbody|intros _; exact IH].
Qed.

Lemma key_safe_emit_event e : key_safe (emit_event e).
Proof. intros w. reflexivity. Qed.

Lemma key_safe_Sheets name : key_safe (Sheets name).
Proof. intros w. unfold Sheets. destruct (workbook w !! name); reflexivity. Qed.

Lemma key_safe_PivotTables sheet name : key_safe (PivotTables_ sheet name).
Proof.
  unfold PivotTables_. apply key_safe_bind; [apply key_safe_Sheets|].
  intros ws. destruct (PivotTables ws !! name);
    [apply key_safe_ret|apply key_safe_raise; reflexivity].
Qed.

Lemma key_safe_ListObjects sheet name : key_safe (ListObjects_ sheet name).
Proof.
  unfold ListObjects_. apply key_safe_bind; [apply key_safe_Sheets|].
  intros ws. destruct (ListObjects ws !! name);
    [apply key_safe_ret|apply key_safe_raise; reflexivity].
Qed.

Lemma key_safe_write_cell sheet r c v : key_safe (write_cell sheet r c v).
Proof.
  unfold write_cell. apply key_safe_bind; [apply key_safe_Sheets|].
  intros ws w. reflexivity.
Qed.

Lemma key_safe_write_list_row sheet t n i j v :
  key_safe (write_list_row sheet t n i j v).
Proof. apply key_safe_write_cell. Qed.

Lemma key_safe_ListRows_Add sheet table : key_safe (ListRows_Add_ sheet table).
Proof.
  unfold ListRows_Add_. apply key_safe_bind; [apply key_safe_Sheets|].
  intros ws. apply key_safe_bind; [apply key_safe_ListObjects|].
  intros t w. reflexivity.
Qed.

Lemma key_safe_write_date_stamp op sheet t n :
  key_safe (write_date_stamp op sheet t n).
Proof.
  unfold write_date_stamp. destruct (date_col op) as [[col date_val]|];
    [apply key_safe_write_list_row|apply key_safe_ret].
Qed.

(** The pure parts. *)
Lemma py_len_no_key v : raises_KeyError (py_len v) = false.
Proof. destruct v as [[]|]; reflexivity. Qed.

Lemma py_getitem_no_key v i : raises_KeyError (py_getitem v i) = false.
Proof.
  destruct v as [[]|rows]; cbn [py_getitem]; try reflexivity;
    match goal with |- context [py_index ?l ?i] => destruct (py_index l i) end;
    reflexivity.
Qed.

Lemma py_iter_no_key v : raises_KeyError (py_iter v) = false.
Proof. destruct v as [[]|]; reflexivity. Qed.

Lemma item_getitem_no_key it i : raises_KeyError (item_getitem it i) = false.
Proof.
  destruct it as [cells|[]]; cbn [item_getitem]; try reflexivity;
    match goal with |- context [py_index ?l ?i] => destruct (py_index l i) end;
    reflexivity.
Qed.

Lemma item_len_no_key it : raises_KeyError (item_len it) = false.
Proof. destruct it as [cells|[]]; reflexivity. Qed.

Lemma item_iter_no_key it : raises_KeyError (item_iter it) = false.
Proof. destruct it as [cells|[]]; reflexivity. Qed.

Lemma item_tail_no_key it : raises_KeyError (item_tail it) = false.
Proof. destruct it as [cells|[]]; reflexivity. Qed.

Lemma result_bind_no_key {A B} (r : result A) (k : A -> result B) :
  raises_KeyError r = false -> (forall a, raises_KeyError (k a) = false) ->
  raises_KeyError (result_bind r k) = false.
Proof. intros Hr Hk. destruct r as [a|e]; [apply Hk|exact Hr]. Qed.

Lemma header_items_no_key v : raises_KeyError (header_items v) = false.
Proof.
  unfold header_items. destruct (variant_truthy v); [|apply py_iter_no_key].
  apply result_bind_no_key; [apply py_getitem_no_key|].
  intros first. destruct (item_is_tuple first);
    [apply item_iter_no_key|apply py_iter_no_key].
Qed.

Lemma find_empty_row_no_key dest_col :
  forall body_vals row_idx,
    raises_KeyError (find_empty_row dest_col row_idx body_vals) = false.
Proof.
  induction body_vals as [|row_data body_vals IH]; intros row_idx;
    cbn [find_empty_row]; [reflexivity|].
  apply result_bind_no_key; [apply item_getitem_no_key|].
  intros v. destruct (negb (truthy v)); [reflexivity|apply IH].
Qed.

Lemma num_cols_no_key values :
  raises_KeyError
    (if variant_truthy values then
       result_bind (py_getitem values 0) (fun first => item_len first)
     else Ok 0) = false.
Proof.
  destruct (variant_truthy values); [|reflexivity].
  apply result_bind_no_key; [apply py_getitem_no_key|apply item_len_no_key].
Qed.

Section WithRepr.
Variable float_repr : spec_float -> string.

Lemma keyword_in_no_key op kw c :
  keyword op = Some kw -> raises_KeyError (keyword_in float_repr op c) = false.
Proof.
  intros Hkw. unfold keyword_in. rewrite Hkw. destruct (truthy c); reflexivity.
Qed.

Lemma search_rows_no_key op kw values :
  keyword op = Some kw ->
  forall indices,
    raises_KeyError (search_rows float_repr values op indices) = false.
Proof.
  intros Hkw. induction indices as [|i indices IH]; cbn [search_rows];
    [reflexivity|].
  apply result_bind_no_key; [apply py_getitem_no_key|]. intros row.
  apply result_bind_no_key; [apply item_getitem_no_key|]. intros c.
  apply result_bind_no_key; [apply (keyword_in_no_key op kw c Hkw)|].
  intros found. destruct found; [reflexivity|apply IH].
Qed.

Lemma search_items_no_key op kw :
  keyword op = Some kw ->
  forall items, raises_KeyError (search_items float_repr op items) = false.
Proof.
  intros Hkw. induction items as [|row items IH]; cbn [search_items];
    [reflexivity|].
  apply result_bind_no_key; [apply item_getitem_no_key|]. intros c.
  apply result_bind_no_key; [apply (keyword_in_no_key op kw c Hkw)|].
  intros found. destruct found; [reflexivity|apply IH].
Qed.

Ltac key_safe_pure :=
  solve [ apply py_len_no_key | apply py_getitem_no_key | apply py_iter_no_key
        | apply item_getitem_no_key | apply item_len_no_key
        | apply item_iter_no_key | apply item_tail_no_key
        | apply header_items_no_key | apply find_empty_row_no_key
        | apply num_cols_no_key
        | eapply search_rows_no_key; eassumption
        | eapply search_items_no_key; eassumption
        | reflexivity
        | match goal with
          | |- raises_KeyError (if ?b then _ else _) = false =>
            destruct b; [reflexivity|apply item_getitem_no_key]
          end ].

Ltac key_safe_step :=
  first
    [ apply key_safe_ret
    | apply key_safe_getitem
    | apply key_safe_emit_event
    | apply key_safe_Sheets
    | apply key_safe_PivotTables
    | apply key_safe_ListObjects
    | apply key_safe_ListRows_Add
    | apply key_safe_write_date_stamp
    | apply key_safe_write_list_row
    | apply key_safe_write_cell
    | apply key_safe_raise; reflexivity
    | apply key_safe_lift; key_safe_pure
    | apply key_safe_for_each; intros ?
    | apply key_safe_bind; [|intros ?]
    | match goal with
      | |- key_safe (match ?x with _ => _ end) => destruct x
      end ].

Ltac key_safe_auto :=
  unfold logger_info, logger_warning, logger_error; repeat key_safe_step.

Lemma key_safe_copy_data_body_range ss op :
  required_keys "A" op = true -> key_safe (_copy_data_body_range ss op).
Proof.
  unfold required_keys. cbn [one_of existsb String.eqb Ascii.eqb Bool.eqb orb].
  rewrite !andb_true_iff. intros ((((((((Hn & Hs) & Ht) & Hp) & Ho) & _) & _) & _) & _).
  unfold _copy_data_body_range.
  destruct (name op), (dest_sheet op), (dest_table op), (pivot op),
    (col_offset op); try discriminate.
  key_safe_auto.
Qed.

Ltac open_required_keys :=
  unfold required_keys;
  cbn [one_of existsb String.eqb Ascii.eqb Bool.eqb orb];
  rewrite !andb_true_iff;
  intros ((((((((Hn & Hs) & Ht) & Hp) & Ho) & Hk) & Hh) & He) & Hf).

Lemma key_safe_search_row_copy_columns ss op :
  required_keys "B" op = true ->
  key_safe (_search_row_copy_columns float_repr ss op).
Proof.
  open_required_keys. unfold _search_row_copy_columns.
  destruct (keyword op) as [kw|] eqn:Hkw; [|discriminate].
  destruct (name op), (dest_sheet op), (dest_table op), (pivot op),
    (col_offset op); try discriminate.
  key_safe_auto.
Qed.

Lemma key_safe_previous_full_day_lookup ss op :
  required_keys "C" op = true ->
  key_safe (_previous_full_day_lookup float_repr ss op).
Proof.
  open_required_keys. unfold _previous_full_day_lookup.
  destruct (keyword op) as [kw|] eqn:Hkw; [|discriminate].
  destruct (name op), (dest_sheet op), (dest_table op), (pivot op),
    (dest_col_header op); try discriminate.
  key_safe_auto.
Qed.

Lemma key_safe_single_cell_extraction ss op :
  required_keys "D" op = true ->
  key_safe (_single_cell_extraction float_repr ss op).
Proof.
  open_required_keys. unfold _single_cell_extraction.
  destruct (keyword op) as [kw|] eqn:Hkw; [|discriminate].
  destruct (name op), (dest_sheet op), (dest_table op), (pivot op),
    (extract_col op); try discriminate.
  key_safe_auto.
Qed.

Lemma key_safe_search_row_with_blank_check ss op :
  required_keys "E" op = true ->
  key_safe (_search_row_with_blank_check float_repr ss op).
Proof.
  open_required_keys. unfold _search_row_with_blank_check.
  destruct (keyword op) as [kw|] eqn:Hkw; [|discriminate].
  destruct (name op), (dest_sheet op), (dest_table op), (pivot op),
    (col_offset op); try discriminate.
  key_safe_auto.
Qed.

Lemma key_safe_sheet_range_copy op :
  required_keys "F" op = true -> key_safe (_sheet_range_copy op).
Proof.
  open_required_keys.
  destruct Hf as ((((H1 & H2) & H3) & H4) & H5).
  unfold _sheet_range_copy.
  destruct (name op), (dest_sheet op), (dest_table op), (col_offset op),
    (source_sheet op), (start_row op), (start_col op), (end_row op),
    (end_col op); try discriminate.
  key_safe_auto.
Qed.

(** A record with the keys of its pattern never makes its handler raise
    [KeyError]. *)
Lemma well_formed_operation_key_safe op :
  well_formed_operation float_repr op = true ->
  exists p h,
    pattern op = Some p
    /\ _DISPATCH float_repr p = Some h
    /\ forall ss, key_safe (call_handler p h ss op).
Proof.
  unfold well_formed_operation.
  destruct (pattern op) as [p|]; [|discriminate].
  rewrite !andb_true_iff. intros [[Hone Hd] Hkeys].
  destruct (_DISPATCH float_repr p) as [h|] eqn:Hdisp; [|discriminate].
  exists p, h. split; [reflexivity|]. split; [exact Hdisp|]. intros ss.
  unfold _DISPATCH in Hdisp. unfold call_handler.
  repeat match type of Hdisp with
         | (if String.eqb p ?c then _ else _) = _ =>
           destruct (String.eqb_spec p c) as [->|?];
             [injection Hdisp as <-; cbn [String.eqb Ascii.eqb Bool.eqb call2 call3]|]
         end; try discriminate.
  - apply key_safe_copy_data_body_range; assumption.
  - apply key_safe_search_row_copy_columns; assumption.
  - apply key_safe_previous_full_day_lookup; assumption.
  - apply key_safe_single_cell_extraction; assumption.
  - apply key_safe_search_row_with_blank_check; assumption.
  - apply key_safe_sheet_range_copy; assumption.
Qed.

(** C9: [_build_operations] returns 19 records, in an order and with
    names that do not depend on the dates; every record has a pattern
    among A to F with a handler in [_DISPATCH] and holds the keys this
    handler reads, so that calling the handler as the loop does never
    ends in a [KeyError], whatever the workbook holds. *)
Theorem build_operations_well_formed (today_str prev_bday_str : string) :
  length (_build_operations today_str prev_bday_str) = 19%nat
  /\ map pattern (_build_operations today_str prev_bday_str)
     = map Some ["A"; "A"; "A"; "B"; "C"; "B"; "B"; "B"; "B"; "C";
                 "B"; "D"; "B"; "B"; "E"; "D"; "E"; "E"; "F"]
  /\ map name (_build_operations today_str prev_bday_str)
     = map name (_build_operations "" "")
  /\ Forall (fun op => well_formed_operation float_repr op = true)
            (_build_operations today_str prev_bday_str)
  /\ Forall (fun op =>
               exists p h,
                 pattern op = Some p
                 /\ one_of p ["A"; "B"; "C"; "D"; "E"; "F"] = true
                 /\ _DISPATCH float_repr p = Some h
                 /\ required_keys p op = true
                 /\ forall ss, key_safe (call_handler p h ss op))
            (_build_operations today_str prev_bday_str).
Proof.
  assert (Hwf : Forall (fun op => well_formed_operation float_repr op = true)
                       (_build_operations today_str prev_bday_str)).
  { unfold _build_operations. repeat (constructor; [reflexivity|]).
    constructor. }
  split; [reflexivity|]. split; [reflexivity|]. split; [reflexivity|].
  split; [exact Hwf|].
  eapply Forall_impl; [exact Hwf|]. intros op Hop.
  destruct (well_formed_operation_key_safe op Hop) as (p & h & Hp & Hh & Hsafe).
  exists p, h. unfold well_formed_operation in Hop. rewrite Hp in Hop.
  rewrite !andb_true_iff in Hop. destruct Hop as [[Hone _] Hkeys].
  repeat split; assumption.
Qed.

End WithRepr.

End PlanFacts.

(** ** Facts about double precision *)

Module FloatFacts.
Import ExcelReport.

(** *** Number of binary digits *)

Lemma digits2_pos_bounds p :
  2 ^ (Z.pos (digits2_pos p) - 1) <= Z.pos p < 2 ^ Z.pos (digits2_pos p).
Proof.
  induction p as [p IH|p IH|]; cbn [digits2_pos].
  - rewrite Pos2Z.inj_succ.
    replace (Z.succ (Z.pos (digits2_pos p)) - 1)
      with (Z.succ (Z.pos (digits2_pos p) - 1)) by lia.
    rewrite !Z.pow_succ_r by lia. lia.
  - rewrite Pos2Z.inj_succ.
    replace (Z.succ (Z.pos (digits2_pos p)) - 1)
      with (Z.succ (Z.pos (digits2_pos p) - 1)) by lia.
    rewrite !Z.pow_succ_r by lia. lia.
  - change (2 ^ (1 - 1)) with 1. change (2 ^ 1) with 2. lia.
Qed.

Lemma Zdigits2_bounds m :
  0 < m -> 0 < Zdigits2 m /\ 2 ^ (Zdigits2 m - 1) <= m < 2 ^ Zdigits2 m.
Proof.
  destruct m as [|p|p]; try lia. intros _. cbn [Zdigits2].
  split; [lia|]. apply digits2_pos_bounds.
Qed.

Lemma Zdigits2_nonneg m : 0 <= m -> 0 <= Zdigits2 m.
Proof.
  destruct m as [|p|p]; try lia. all: intros _; cbn [Zdigits2]; lia.
Qed.

Lemma Zdigits2_le m k : 0 <= k -> 0 <= m < 2 ^ k -> Zdigits2 m <= k.
Proof.
  intros Hk [Hm Hlt]. destruct (Z.eq_dec m 0) as [->|Hne]; [cbn; lia|].
  destruct (Zdigits2_bounds m) as [Hd [Hlo _]]; [lia|].
  destruct (Z.le_gt_cases (Zdigits2 m) k) as [|Hgt]; [assumption|].
  exfalso.
  assert (2 ^ k <= 2 ^ (Zdigits2 m - 1)) by (apply Z.pow_le_mono_r; lia).
  lia.
Qed.

Lemma Zdigits2_eq m d : 0 < d -> 2 ^ (d - 1) <= m < 2 ^ d -> Zdigits2 m = d.
Proof.
  intros Hd [Hlo Hhi].
  assert (0 < 2 ^ (d - 1)) by (apply Z.pow_pos_nonneg; lia).
  destruct (Zdigits2_bounds m) as [Hd' [Hlo' Hhi']]; [lia|].
  assert (Zdigits2 m <= d) by (apply Zdigits2_le; lia).
  destruct (Z.eq_dec (Zdigits2 m) d) as [|Hne]; [assumption|]. exfalso.
  assert (2 ^ Zdigits2 m <= 2 ^ (d - 1)) by (apply Z.pow_le_mono_r; lia).
  lia.
Qed.

(** *** Shifting a mantissa to the right *)

Lemma iter_pos_nat {A} (f : A -> A) n x :
  SpecFloat.iter_pos f n x = Nat.iter (Pos.to_nat n) f x.
Proof.
  revert x. induction n as [n IH|n IH|]; intros x; cbn [SpecFloat.iter_pos].
  - rewrite !IH, Pos2Nat.inj_xI.
    replace (S (2 * Pos.to_nat n)) with (Pos.to_nat n + S (Pos.to_nat n))%nat
      by lia.
    rewrite Nat.iter_add, Nat.iter_succ_r. reflexivity.
  - rewrite !IH, Pos2Nat.inj_xO.
    replace (2 * Pos.to_nat n)%nat with (Pos.to_nat n + Pos.to_nat n)%nat
      by lia.
    rewrite Nat.iter_add. reflexivity.
  - reflexivity.
Qed.

Lemma shr_1_spec mrs :
  0 <= shr_m mrs ->
  shr_m (shr_1 mrs) = shr_m mrs / 2
  /\ shr_r (shr_1 mrs) = Z.odd (shr_m mrs)
  /\ shr_s (shr_1 mrs) = shr_r mrs || shr_s mrs.
Proof.
  destruct mrs as [m r s]. cbn [shr_m shr_r shr_s shr_1].
  destruct m as [|[p|p|]|p]; try lia; intros _; cbn [shr_m shr_r shr_s].
  - split; [|split; reflexivity]. reflexivity.
  - split; [|split; reflexivity].
    apply Z.div_unique with (r := 1); lia.
  - split; [|split; reflexivity].
    apply Z.div_unique with (r := 0); lia.
  - split; [|split; reflexivity]. reflexivity.
Qed.

Lemma iter_shr_1_spec (k : nat) mrs :
  0 <= shr_m mrs ->
  shr_m (Nat.iter k shr_1 mrs) = shr_m mrs / 2 ^ Z.of_nat k
  /\ (shr_r mrs = false -> shr_s mrs = false ->
      shr_m mrs mod 2 ^ Z.of_nat k = 0 ->
      shr_r (Nat.iter k shr_1 mrs) = false
      /\ shr_s (Nat.iter k shr_1 mrs) = false).
Proof.
  intros Hm. induction k as [|k [IHm IHx]].
  - cbn [Nat.iter]. change (2 ^ Z.of_nat 0) with 1. rewrite Z.div_1_r.
    split; [reflexivity|]. intros Hr Hs _. split; assumption.
  - change (Nat.iter (S k) shr_1 mrs) with (shr_1 (Nat.iter k shr_1 mrs)).
    assert (Hpow : 0 < 2 ^ Z.of_nat k) by (apply Z.pow_pos_nonneg; lia).
    assert (Hk : 0 <= shr_m (Nat.iter k shr_1 mrs)).
    { rewrite IHm. apply Z.div_pos; lia. }
    destruct (shr_1_spec _ Hk) as (H1 & H2 & H3).
    rewrite Nat2Z.inj_succ, Z.pow_succ_r by lia.
    split.
    + rewrite H1, IHm, Z.div_div by lia. f_equal. lia.
    + intros Hr Hs Hmod.
      assert (Hdiv : shr_m mrs = 2 * 2 ^ Z.of_nat k * (shr_m mrs / (2 * 2 ^ Z.of_nat k))).
      { apply Z.div_exact; lia. }
      assert (Hmodk : shr_m mrs mod 2 ^ Z.of_nat k = 0).
      { rewrite Hdiv.
        replace (2 * 2 ^ Z.of_nat k * (shr_m mrs / (2 * 2 ^ Z.of_nat k)))
          with (2 * (shr_m mrs / (2 * 2 ^ Z.of_nat k)) * 2 ^ Z.of_nat k) by lia.
        apply Z.mod_mul. lia. }
      destruct (IHx Hr Hs Hmodk) as [Hr' Hs'].
      rewrite H2, H3, Hr', Hs', IHm. split; [|reflexivity].
      rewrite Hdiv.
      replace (2 * 2 ^ Z.of_nat k * (shr_m mrs / (2 * 2 ^ Z.of_nat k)))
        with (2 * (shr_m mrs / (2 * 2 ^ Z.of_nat k)) * 2 ^ Z.of_nat k) by lia.
      rewrite Z.div_mul by lia.
      rewrite Z.odd_mul. reflexivity.
Qed.

Lemma loc_of_shr_record_of_loc m l :
  loc_of_shr_record (shr_record_of_loc m l) = l.
Proof. destruct l as [|[]]; reflexivity. Qed.

Lemma shr_m_record_of_loc m l : shr_m (shr_record_of_loc m l) = m.
Proof. destruct l as [|[]]; reflexivity. Qed.

(** [shr_fexp] drops [n] bits, where [n] brings the exponent up to the
    one of the format. *)
Lemma shr_fexp_spec mx ex lx :
  0 <= mx ->
  exists n mrs,
    shr_fexp 53 1024 mx ex lx = (mrs, ex + n)
    /\ 0 <= n
    /\ ex + n = Z.max ex (fexp 53 1024 (Zdigits2 mx + ex))
    /\ shr_m mrs = mx / 2 ^ n
    /\ (n = 0 -> loc_of_shr_record mrs = lx)
    /\ (lx = loc_Exact -> mx mod 2 ^ n = 0 -> loc_of_shr_record mrs = loc_Exact).
Proof.
  intros Hmx. unfold shr_fexp, shr.
  destruct (fexp 53 1024 (Zdigits2 mx + ex) - ex) as [|p|p] eqn:Hn.
  - exists 0, (shr_record_of_loc mx lx).
    rewrite Z.add_0_r, shr_m_record_of_loc, loc_of_shr_record_of_loc.
    change (2 ^ 0) with 1. rewrite Z.div_1_r.
    repeat split; try lia; try reflexivity. intros ->. reflexivity.
  - exists (Z.pos p), (SpecFloat.iter_pos shr_1 p (shr_record_of_loc mx lx)).
    rewrite iter_pos_nat.
    destruct (iter_shr_1_spec (Pos.to_nat p) (shr_record_of_loc mx lx))
      as [Hm Hx]; [rewrite shr_m_record_of_loc; assumption|].
    rewrite positive_nat_Z, shr_m_record_of_loc in Hm, Hx.
    repeat split; try lia; try assumption.
    intros -> Hmod. destruct (Hx eq_refl eq_refl Hmod) as [Hr Hs].
    destruct (Nat.iter _ _ _) as [m r s]. cbn [shr_r shr_s] in Hr, Hs.
    subst r s. reflexivity.
  - exists 0, (shr_record_of_loc mx lx).
    rewrite Z.add_0_r, shr_m_record_of_loc, loc_of_shr_record_of_loc.
    change (2 ^ 0) with 1. rewrite Z.div_1_r.
    repeat split; try lia; try reflexivity. intros ->. reflexivity.
Qed.

Lemma round_nearest_even_bounds m l :
  m <= round_nearest_even m l <= m + 1
  /\ (l = loc_Exact -> round_nearest_even m l = m).
Proof.
  destruct l as [|[]]; cbn [round_nearest_even]; try destruct (Z.even m);
    split; try lia; try reflexivity; discriminate.
Qed.

Lemma fexp_unfold e : fexp 53 1024 e = Z.max (e - 53) (-1074).
Proof. reflexivity. Qed.

(** *** Rounding stays below a bound of the format *)

(** A mantissa [mx] at exponent [ex] with location [lx] stands for a real
    in [[mx * 2^ex, (mx + 1) * 2^ex)], equal to [mx * 2^ex] when the location is
    exact.  If this real is at most the integer [B], so is its rounding. *)
Lemma binary_round_aux_le mx ex lx B :
  0 <= mx -> ex <= 0 -> 0 < B < 2 ^ 53 ->
  mx <= B * 2 ^ (- ex) ->
  (lx <> loc_Exact -> mx < B * 2 ^ (- ex)) ->
  binary_round_aux 53 1024 false mx ex lx = S754_zero false
  \/ exists m e,
       binary_round_aux 53 1024 false mx ex lx = S754_finite false m e
       /\ e <= 0 /\ Z.pos m <= B * 2 ^ (- e).
Proof.
  intros Hmx Hex HB Hle Hlt.
  assert (Hdig : forall m e, 0 <= m -> e <= 0 -> m <= B * 2 ^ (- e) ->
                 Z.max e (fexp 53 1024 (Zdigits2 m + e)) <= 0).
  { intros m e Hm He Hb. rewrite fexp_unfold.
    assert (Zdigits2 m <= 53 - e).
    { apply Zdigits2_le; [lia|]. split; [assumption|].
      replace (53 - e) with (53 + - e) by lia. rewrite Z.pow_add_r by lia.
      assert (0 < 2 ^ (- e)) by (apply Z.pow_pos_nonneg; lia). nia. }
    lia. }
  unfold binary_round_aux.
  destruct (shr_fexp_spec mx ex lx Hmx)
    as (n & mrs & -> & Hn & He' & Hm' & Hloc0 & HlocX).
  pose proof (Hdig mx ex Hmx Hex Hle) as He'0. rewrite <- He' in He'0.
  set (e' := ex + n) in *.
  set (m1 := round_nearest_even (shr_m mrs) (loc_of_shr_record mrs)).
  assert (Hpn : 0 < 2 ^ n) by (apply Z.pow_pos_nonneg; lia).
  assert (Hpe : 0 < 2 ^ (- e')) by (apply Z.pow_pos_nonneg; lia).
  assert (Hsplit : 2 ^ (- ex) = 2 ^ (- e') * 2 ^ n).
  { rewrite <- Z.pow_add_r by lia. f_equal. lia. }
  assert (Hm'0 : 0 <= shr_m mrs) by (rewrite Hm'; apply Z.div_pos; lia).
  assert (Hm1 : 0 <= m1 <= B * 2 ^ (- e')).
  { destruct (round_nearest_even_bounds (shr_m mrs) (loc_of_shr_record mrs))
      as [Hb Hx]. fold m1 in Hb, Hx.
    split; [lia|].
    assert (Hq : shr_m mrs <= B * 2 ^ (- e')).
    { rewrite Hm'. apply Z.div_le_upper_bound; [lia|]. rewrite Hsplit in Hle. lia. }
    destruct (Z.eq_dec (shr_m mrs) (B * 2 ^ (- e'))) as [Heq|Hne]; [|lia].
    assert (Hge : 2 ^ n * (mx / 2 ^ n) <= mx) by (apply Z.mul_div_le; lia).
    rewrite <- Hm', Heq in Hge.
    assert (Hmxeq : mx = B * 2 ^ (- ex)) by (rewrite Hsplit in *; lia).
    assert (Hlx : lx = loc_Exact).
    { destruct lx as [|c]; [reflexivity|].
      exfalso. assert (mx < B * 2 ^ (- ex)) by (apply Hlt; discriminate). lia. }
    rewrite Hx; [lia|]. apply HlocX; [assumption|].
    rewrite Hmxeq, Hsplit, Z.mul_assoc. apply Z.mod_mul. lia. }
  destruct (shr_fexp_spec m1 e' loc_Exact (proj1 Hm1))
    as (n2 & mrs2 & -> & Hn2 & He2 & Hm2 & _ & _).
  pose proof (Hdig m1 e' (proj1 Hm1) He'0 (proj2 Hm1)) as He2'.
  rewrite <- He2 in He2'.
  assert (Hp2 : 0 < 2 ^ n2) by (apply Z.pow_pos_nonneg; lia).
  assert (Hsplit2 : 2 ^ (- e') = 2 ^ (- (e' + n2)) * 2 ^ n2).
  { rewrite <- Z.pow_add_r by lia. f_equal. lia. }
  assert (Hfin : 0 <= shr_m mrs2 <= B * 2 ^ (- (e' + n2))).
  { rewrite Hm2. split; [apply Z.div_pos; lia|].
    apply Z.div_le_upper_bound; [lia|].
    assert (0 < 2 ^ (- (e' + n2))) by (apply Z.pow_pos_nonneg; lia).
    rewrite Hsplit2 in Hm1. lia. }
  destruct (shr_m mrs2) as [|m|m]; [left; reflexivity| |lia].
  right. exists m, (e' + n2).
  replace (e' + n2 <=? 1024 - 53) with true by (symmetry; apply Z.leb_le; lia).
  split; [reflexivity|]. split; [lia|]. lia.
Qed.

(** *** Rounding a value of the format changes nothing *)

Lemma binary_round_aux_exact sx m e :
  fexp 53 1024 (Zdigits2 (Z.pos m) + e) <= e -> e <= 971 ->
  binary_round_aux 53 1024 sx (Z.pos m) e loc_Exact = S754_finite sx m e.
Proof.
  intros Hf He. unfold binary_round_aux.
  assert (Hshr : shr_fexp 53 1024 (Z.pos m) e loc_Exact
                 = (Build_shr_record (Z.pos m) false false, e)).
  { unfold shr_fexp, shr.
    destruct (fexp 53 1024 (Zdigits2 (Z.pos m) + e) - e) eqn:Hn;
      try reflexivity. lia. }
  rewrite Hshr. cbn [shr_m loc_of_shr_record round_nearest_even].
  rewrite Hshr. cbn [shr_m].
  replace (e <=? 1024 - 53) with true by (symmetry; apply Z.leb_le; lia).
  reflexivity.
Qed.

(** *** Integers below [2^53] are floats *)

Lemma float_of_int_spec z :
  0 < z < 2 ^ 53 ->
  exists m e,
    float_of_int z = S754_finite false m e
    /\ -52 <= e <= 0
    /\ Z.pos m = z * 2 ^ (- e)
    /\ Zdigits2 (Z.pos m) = 53.
Proof.
  intros [Hz Hlt]. destruct z as [|p|p]; try lia.
  unfold float_of_int, binary_normalize, binary_round, shl_align.
  pose proof (digits2_pos_bounds p) as [Hlo Hhi].
  set (d := Z.pos (digits2_pos p)) in *.
  assert (Hd : 1 <= d <= 53).
  { split; [subst d; lia|].
    assert (H := Zdigits2_le (Z.pos p) 53). cbn [Zdigits2] in H. apply H; lia. }
  rewrite fexp_unfold.
  replace (Z.max (d + 0 - 53) (-1074)) with (d - 53) by lia.
  destruct (d - 53 - 0) as [|k|k] eqn:Hk; try lia.
  - assert (d = 53) by lia.
    exists p, 0. split; [|split; [lia|split]].
    + apply binary_round_aux_exact; [|lia].
      cbn [Zdigits2]. fold d. rewrite fexp_unfold. lia.
    + change (2 ^ (- 0)) with 1. lia.
    + cbn [Zdigits2]. fold d. assumption.
  - assert (Hpk : Z.pos k = 53 - d) by lia.
    assert (Hshift : Z.pos (Pos.iter xO p k) = Z.pos p * 2 ^ (53 - d)).
    { change (Pos.iter xO p k) with (shift_pos k p).
      rewrite shift_pos_correct, <- Hpk.
      change (Z.pow_pos 2 k) with (2 ^ Z.pos k). lia. }
    assert (Hdig : Zdigits2 (Z.pos (Pos.iter xO p k)) = 53).
    { apply Zdigits2_eq; [lia|]. rewrite Hshift.
      assert (Hp : 0 < 2 ^ (53 - d)) by (apply Z.pow_pos_nonneg; lia).
      assert (H1 : 2 ^ (53 - 1) = 2 ^ (d - 1) * 2 ^ (53 - d)).
      { rewrite <- Z.pow_add_r by lia. f_equal. lia. }
      assert (H2 : 2 ^ 53 = 2 ^ d * 2 ^ (53 - d)).
      { rewrite <- Z.pow_add_r by lia. f_equal. lia. }
      rewrite H1, H2. nia. }
    exists (Pos.iter xO p k), (d - 53). split; [|split; [lia|split]].
    + apply binary_round_aux_exact; [|lia].
      rewrite Hdig, fexp_unfold. lia.
    + rewrite Hshift. f_equal. f_equal. lia.
    + assumption.
Qed.

(** *** The quotient of two integers *)

Lemma new_location_0 nb_steps : new_location nb_steps 0 = loc_Exact.
Proof.
  unfold new_location, new_location_even, new_location_odd.
  destruct (Z.even nb_steps); reflexivity.
Qed.

Lemma int_truediv_le a b :
  0 < a <= b -> b < 2 ^ 53 ->
  int_truediv a b = S754_zero false
  \/ exists m e,
       int_truediv a b = S754_finite false m e
       /\ e <= 0 /\ Z.pos m <= 1 * 2 ^ (- e).
Proof.
  intros Hab Hb. unfold int_truediv.
  destruct (float_of_int_spec a) as (m1 & e1 & -> & He1 & Hm1 & Hd1); [lia|].
  destruct (float_of_int_spec b) as (m2 & e2 & -> & He2 & Hm2 & Hd2); [lia|].
  unfold SFdiv, SFdiv_core_binary. rewrite Hd1, Hd2, fexp_unfold.
  replace (Z.min (Z.max (53 + e1 - (53 + e2) - 53) (-1074)) (e1 - e2))
    with (e1 - e2 - 53) by lia.
  replace (e1 - e2 - (e1 - e2 - 53)) with 53 by lia.
  rewrite Z.shiftl_mul_pow2 by lia.
  pose proof (Z_div_mod (Z.pos m1 * 2 ^ 53) (Z.pos m2) eq_refl) as Hdm.
  destruct (Z.div_eucl (Z.pos m1 * 2 ^ 53) (Z.pos m2)) as [q r].
  destruct Hdm as [Heq Hr]. cbn [xorb].
  set (T := 2 ^ (- (e1 - e2 - 53))).
  assert (HT : 0 < T) by (apply Z.pow_pos_nonneg; lia).
  assert (Hpe1 : 0 < 2 ^ (- e1)) by (apply Z.pow_pos_nonneg; lia).
  assert (Hpe2 : 0 < 2 ^ (- e2)) by (apply Z.pow_pos_nonneg; lia).
  assert (Hval : Z.pos m1 * 2 ^ 53 <= Z.pos m2 * T).
  { rewrite Hm1, Hm2. unfold T.
    replace (- (e1 - e2 - 53)) with (53 + - e1 - - e2) by lia.
    assert (H53 : 2 ^ (- e2) * 2 ^ (53 + - e1 - - e2) = 2 ^ (- e1) * 2 ^ 53).
    { rewrite <- !Z.pow_add_r by lia. f_equal. lia. }
    rewrite <- (Z.mul_assoc b), H53.
    assert (0 < 2 ^ 53) by (apply Z.pow_pos_nonneg; lia). nia. }
  assert (Hq0 : 0 <= q) by nia.
  assert (HqT : q <= T) by nia.
  apply (binary_round_aux_le q (e1 - e2 - 53) (new_location (Z.pos m2) r) 1).
  - assumption.
  - lia.
  - split; [lia|reflexivity].
  - fold T. lia.
  - fold T. intros Hloc.
    destruct (Z.eq_dec q T) as [->|]; [|lia].
    assert (r = 0) by nia. subst r. rewrite new_location_0 in Hloc.
    congruence.
Qed.

(** *** Seventy times a fraction, and its integer part *)

Lemma float_of_int_70 :
  float_of_int 70 = S754_finite false 4925812092436480 (-46).
Proof. vm_compute. reflexivity. Qed.

Lemma float_mul_70_le x :
  (x = S754_zero false
   \/ exists m e, x = S754_finite false m e /\ e <= 0
                  /\ Z.pos m <= 1 * 2 ^ (- e)) ->
  float_mul x (float_of_int 70) = S754_zero false
  \/ exists m e,
       float_mul x (float_of_int 70) = S754_finite false m e
       /\ e <= 0 /\ Z.pos m <= 70 * 2 ^ (- e).
Proof.
  rewrite float_of_int_70. intros [->|(m & e & -> & He & Hm)].
  - left. reflexivity.
  - unfold float_mul, SFmul. cbn [xorb].
    apply binary_round_aux_le.
    + lia.
    + lia.
    + split; [lia|reflexivity].
    + rewrite Pos2Z.inj_mul.
      replace (- (e + -46)) with (- e + 46) by lia.
      rewrite Z.pow_add_r by lia.
      change (Z.pos 4925812092436480) with (70 * 2 ^ 46).
      assert (0 < 2 ^ 46) by reflexivity.
      assert (0 < 2 ^ (- e)) by (apply Z.pow_pos_nonneg; lia). nia.
    + intros H. congruence.
Qed.

Lemma float_to_int_le x B :
  0 <= B ->
  (x = S754_zero false
   \/ exists m e, x = S754_finite false m e /\ e <= 0
                  /\ Z.pos m <= B * 2 ^ (- e)) ->
  exists n, float_to_int x = Ok n /\ 0 <= n <= B.
Proof.
  intros HB [->|(m & e & -> & He & Hm)].
  - exists 0. split; [reflexivity|lia].
  - unfold float_to_int.
    assert (Hp : 0 < 2 ^ (- e)) by (apply Z.pow_pos_nonneg; lia).
    destruct (0 <=? e) eqn:H0.
    + apply Z.leb_le in H0. assert (e = 0) by lia. subst e.
      change (2 ^ 0) with 1. change (2 ^ (- 0)) with 1 in Hm.
      exists (Z.pos m * 1). split; [reflexivity|lia].
    + exists (Z.pos m / 2 ^ (- e)). split; [reflexivity|].
      split; [apply Z.div_pos; lia|].
      apply Z.div_le_upper_bound; lia.
Qed.

(** [20 + int((idx / total) * 70)] is a percentage between 20 and 90. *)
Lemma percent_range idx total :
  1 <= idx <= total -> total < 2 ^ 53 ->
  exists pct, percent idx total = Ok pct /\ 20 <= pct <= 90.
Proof.
  intros Hidx Htotal. unfold percent.
  destruct (float_to_int_le
              (float_mul (int_truediv idx total) (float_of_int 70)) 70)
    as (n & -> & Hn); [lia| |].
  - apply float_mul_70_le, int_truediv_le; lia.
  - exists (20 + n). split; [reflexivity|lia].
Qed.

End FloatFacts.

(** ** Facts about the operations loop *)

Module LoopFacts.
Import ExcelReport ExcelReportFacts FloatFacts.

Lemma for_each_app {A} (l1 l2 : list A) (body : A -> M unit) w w1 :
  for_each l1 body w = (Ok tt, w1) ->
  for_each (l1 ++ l2) body w = for_each l2 body w1.
Proof.
  revert w. induction l1 as [|x l1 IH]; intros w; cbn [for_each app].
  - unfold ret. intros [= <-]. reflexivity.
  - unfold bind. destruct (body x w) as [[[]|e] w2]; [|discriminate].
    apply IH.
Qed.

Lemma for_each_singleton {A} (x : A) (body : A -> M unit) w :
  for_each [x] body w = body x w.
Proof.
  cbn [for_each]. unfold bind, ret.
  destruct (body x w) as [[[]|e] w1]; reflexivity.
Qed.

Lemma enumerate_lookup {A} (l : list A) (k : nat) (x : A) :
  l !! k = Some x -> enumerate 1 l !! k = Some (Z.of_nat k + 1, x).
Proof.
  intros Hx. unfold enumerate.
  assert (Hk : (k < length l)%nat) by (eapply lookup_lt_Some; exact Hx).
  rewrite lookup_zip_with, lookup_seqZ_lt by lia. cbn.
  rewrite Hx. cbn. do 2 f_equal. lia.
Qed.

Lemma len_or_1_bounds ops (k : nat) :
  (k < length ops)%nat ->
  len_or_1 ops = Z.of_nat (length ops) /\ 1 <= Z.of_nat k + 1 <= len_or_1 ops.
Proof.
  intros Hk. unfold len_or_1.
  destruct (Z.of_nat (length ops) =? 0) eqn:H0; [apply Z.eqb_eq in H0|]; lia.
Qed.

Section Loop.
Variable float_repr : spec_float -> string.

(** One turn of the loop on an operation that has a handler. *)
Lemma run_operation_known cb ss total idx op p h n pct w :
  pattern op = Some p -> _DISPATCH float_repr p = Some h ->
  name op = Some n -> percent idx total = Ok pct ->
  run_operation float_repr cb ss total idx op w
  = (Ok tt,
     {| workbook := workbook (snd (call_handler p h ss op w));
        events := events (snd (call_handler p h ss op w))
                  ++ failure_log n (fst (call_handler p h ss op w))
                  ++ progress_log cb pct n |}).
Proof.
  intros Hp Hh Hn Hpct. unfold run_operation.
  rewrite Hp, Hn, Hpct.
  rewrite (bind_Ok _ _ _ _ _ (getitem_Some _ _ _)). cbv zeta.
  rewrite Hh. fold (call_handler p h ss op).
  unfold bind at 1. unfold try_except. unfold bind at 1.
  destruct (call_handler p h ss op w) as [[[]|e] w1]; cbn [fst snd failure_log].
  - unfold ret at 1. unfold bind at 1. rewrite lift_run.
    rewrite (bind_Ok _ _ _ _ _ (getitem_Some _ _ _)).
    unfold emit, logger_info, bind, emit_event, progress_log.
    cbn [workbook events app].
    destruct cb; cbn [workbook events app]; unfold ret;
      rewrite <- ?app_assoc; reflexivity.
  - rewrite (bind_Ok _ _ _ _ _ (getitem_Some _ _ _)).
    unfold logger_error, bind at 1, emit_event at 1.
    unfold ret at 1. unfold bind at 1. rewrite lift_run.
    rewrite (bind_Ok _ _ _ _ _ (getitem_Some _ _ _)).
    unfold emit, logger_info, bind, emit_event, progress_log.
    cbn [workbook events app].
    destruct cb; cbn [workbook events app]; unfold ret;
      rewrite <- ?app_assoc; reflexivity.
Qed.

Lemma known_operation_inv op :
  known_operation float_repr op = true ->
  exists p h n, pattern op = Some p /\ _DISPATCH float_repr p = Some h
                /\ name op = Some n.
Proof.
  unfold known_operation.
  destruct (pattern op) as [p|]; [|discriminate].
  destruct (name op) as [n|]; [|discriminate].
  destruct (_DISPATCH float_repr p) as [h|] eqn:Hh; [|discriminate].
  intros _. exists p, h, n. split; [reflexivity|]. split; [exact Hh|reflexivity].
Qed.

(** The loop up to the operation [k] returns, and its last turn is the
    one of [run_operation_known]. *)
Lemma loop_prefix cb ss ops w (k : nat) :
  Forall (fun op => known_operation float_repr op = true) ops ->
  Z.of_nat (length ops) < 2 ^ 53 ->
  (k <= length ops)%nat ->
  for_each (take k (enumerate 1 ops)) (fun '(idx, op) =>
    run_operation float_repr cb ss (len_or_1 ops) idx op) w
  = (Ok tt, world_before float_repr cb ss ops k w).
Proof.
  intros Hknown Hlen. unfold world_before. induction k as [|k IH]; intros Hk.
  - reflexivity.
  - destruct (lookup_lt_is_Some_2 ops k) as [op Hop]; [lia|].
    pose proof (enumerate_lookup ops k op Hop) as Hitem.
    rewrite (take_S_r _ _ _ Hitem).
    rewrite (for_each_app _ _ _ _ _ (IH ltac:(lia))), for_each_singleton.
    destruct (known_operation_inv op) as (p & h & n & Hp & Hh & Hn).
    { exact (proj1 (Forall_lookup _ _) Hknown k op Hop). }
    destruct (len_or_1_bounds ops k) as [Htot Hidx]; [lia|].
    destruct (percent_range (Z.of_nat k + 1) (len_or_1 ops)) as (pct & Hpct & _);
      [lia|lia|].
    rewrite (run_operation_known cb ss _ _ op p h n pct _ Hp Hh Hn Hpct).
    reflexivity.
Qed.

(** The percentages of a plan of 19 operations are the exact ones. *)
Lemma percent_19 (k : nat) :
  (k < 19)%nat ->
  percent (Z.of_nat k + 1) 19 = Ok (20 + (Z.of_nat k + 1) * 70 / 19).
Proof.
  intros Hk.
  do 19 (destruct k as [|k]; [vm_compute; reflexivity|]). lia.
Qed.


End Loop.

Import Scenario.



End LoopFacts.

(** ** More facts about the pattern handlers *)

Module HandlerFacts.
Import ExcelReport ExcelReportFacts.

Section Found.
Variable float_repr : spec_float -> string.

Lemma num_cols_rectangular (R N : nat) (r : Range) :
  rectangular R N r -> (1 <= R)%nat -> (1 <= N)%nat ->
  (if variant_truthy (Rows r) then
     result_bind (py_getitem (Rows r) 0) (fun first => item_len first)
   else Ok 0) = Ok (Z.of_nat N).
Proof.
  intros Hshape HR HN.
  destruct (rectangular_lookup R N _ 0 Hshape ltac:(lia) ltac:(lia))
    as (c & rest & Hfirst & Hlen).
  destruct r as [|first rows] eqn:E; [discriminate|].
  cbn [variant_truthy].
  rewrite (rows_getitem (first :: rows) 0 (c :: rest) ltac:(lia) Hfirst).
  rewrite result_bind_Ok. cbn [item_len]. rewrite Hlen. reflexivity.
Qed.



End Found.

(** *** Pattern F *)

(** What pattern F iterates over: the first row of the range, whatever the
    number of its rows. *)
Lemma flat_values_region (src : Worksheet) (sr sc er ec : Z) :
  match Range_Value (region src sr sc er ec) with
  | Rows (first :: _) => first
  | Rows [] => []
  | Scalar v => [v]
  end
  = map (fun c => cell_at src (Z.min sr er) c)
        (seqZ (Z.min sc ec) (Z.abs (ec - sc) + 1)).
Proof.
  unfold region, block.
  rewrite (seqZ_cons (Z.min sr er)) by lia. cbn [map].
  set (first := map (fun c => cell_at src (Z.min sr er) c)
                    (seqZ (Z.min sc ec) (Z.abs (ec - sc) + 1))).
  unfold Range_Value.
  destruct first as [|v [|v' first']] eqn:E; try reflexivity.
  destruct (map _ (seqZ (Z.succ (Z.min sr er)) _)); reflexivity.
Qed.

Lemma write_values_run sheet t n off :
  forall (vals : list cell) start w,
    sheet_exists w sheet ->
    exists w',
      for_each (enumerate start vals) (fun '(i, val) =>
        write_list_row sheet t n 1 (off i) val) w = (Ok tt, w')
      /\ writes_only w w'
           (map (fun '(i, val) =>
                   Write sheet (HeaderRow t + n + 1 - 1)
                         (FirstColumn t + off i - 1) val)
                (enumerate start vals)).
Proof.
  induction vals as [|v vals IH]; intros start w Hs.
  - exists w. split; [reflexivity|apply writes_only_refl].
  - rewrite enumerate_cons. cbn [for_each map].
    destruct (write_cell_run w sheet (HeaderRow t + n + 1 - 1)
                (FirstColumn t + off start - 1) v Hs) as (w1 & Hrun & Hw1).
    unfold write_list_row at 1. rewrite (bind_Ok _ _ _ _ _ Hrun).
    destruct (IH (start + 1) w1) as (w2 & Hrest & Hw2); [apply Hw1, Hs|].
    exists w2. split; [exact Hrest|].
    apply (writes_only_trans w w1 w2 [_] _ Hw1 Hw2).
Qed.

Lemma enumerate_map_seqZ {A} (f : Z -> A) (g : Z -> A -> event) :
  forall (n : nat) (start c0 : Z),
    map (fun '(i, val) => g i val)
        (enumerate start (map f (seqZ c0 (Z.of_nat n))))
    = map (fun i => g i (f (c0 + (i - start))))
          (seqZ start (Z.of_nat n)).
Proof.
  induction n as [|n IH]; intros start c0; [reflexivity|].
  rewrite Nat2Z.inj_succ, (seqZ_cons c0), (seqZ_cons start) by lia.
  replace (Z.pred (Z.succ (Z.of_nat n))) with (Z.of_nat n) by lia.
  cbn [map]. rewrite enumerate_cons. cbn [map].
  f_equal; [f_equal; f_equal; lia|].
  replace (start + 1) with (Z.succ start) by lia.
  rewrite (IH (Z.succ start) (Z.succ c0)).
  apply map_ext. intros i. f_equal. f_equal. lia.
Qed.


(** *** Pattern C *)

Section FullDay.
Variable float_repr : spec_float -> string.

Lemma search_items_found op kw (rows : list (list cell)) :
  keyword op = Some kw ->
  forall (k : nat) row,
    Forall (fun r => r <> []) rows ->
    rows !! k = Some row ->
    first_cell_matches float_repr kw row = true ->
    (forall k' row', (k' < k)%nat -> rows !! k' = Some row' ->
                     first_cell_matches float_repr kw row' = false) ->
    search_items float_repr op (map Tuple rows) = Ok (Some (Tuple row)).
Proof.
  intros Hkw. induction rows as [|r rows IH]; intros k row Hne Hk Hm Hbefore;
    [discriminate|].
  apply Forall_cons in Hne. destruct Hne as [Hr Hne].
  destruct r as [|c rest]; [congruence|].
  cbn [map search_items]. cbn [item_getitem]. unfold py_index.
  cbn [length]. change (0 <=? 0) with true.
  destruct (Z.ltb_spec 0 (Z.of_nat (S (length rest)))) as [_|Hbad]; [|lia].
  cbn [andb]. change (Z.to_nat 0) with 0%nat. cbn [lookup list_lookup].
  rewrite result_bind_Ok.
  rewrite (keyword_in_first_cell float_repr op kw c rest Hkw), result_bind_Ok.
  destruct k as [|k].
  - injection Hk as <-. rewrite Hm. reflexivity.
  - rewrite (Hbefore 0%nat (c :: rest) ltac:(lia) eq_refl).
    apply (IH k row Hne Hk Hm).
    intros k' row' Hk' Hrow'. apply (Hbefore (S k') row'); [lia|exact Hrow'].
Qed.

Lemma find_empty_row_first (dc : Z) (rows : list (list cell)) :
  forall (idx : Z) (e : nat),
    (e <= length rows)%nat ->
    Forall (fun row => 0 <= dc - 1 < Z.of_nat (length row)) rows ->
    (forall e' row, (e' < e)%nat -> rows !! e' = Some row ->
       truthy (default CNone (row !! Z.to_nat (dc - 1))) = true) ->
    (forall row, rows !! e = Some row ->
       truthy (default CNone (row !! Z.to_nat (dc - 1))) = false) ->
    find_empty_row dc idx (map Tuple rows)
    = Ok (if decide (e < length rows)%nat then Some (idx + Z.of_nat e)
          else None).
Proof.
  induction rows as [|row rows IH]; intros idx e He Hlen Hfull Hempty.
  - cbn [length] in *. destruct (decide (e < 0)%nat); [lia|reflexivity].
  - apply Forall_cons in Hlen. destruct Hlen as [Hrow Hlen].
    cbn [map find_empty_row].
    rewrite tuple_getitem_in_range by assumption. rewrite result_bind_Ok.
    destruct e as [|e].
    + rewrite (Hempty row eq_refl). cbn [negb length].
      destruct (decide (0 < S (length rows))%nat); [|lia].
      do 2 f_equal. lia.
    + rewrite (Hfull 0%nat row ltac:(lia) eq_refl). cbn [negb].
      rewrite (IH (idx + 1) e); [|cbn [length] in He; lia|assumption| |].
      * cbn [length].
        destruct (decide (e < length rows)%nat),
                 (decide (S e < S (length rows))%nat); try lia;
          [do 2 f_equal; lia|reflexivity].
      * intros e' row' He' Hrow'. apply (Hfull (S e') row'); [lia|exact Hrow'].
      * intros row' Hrow'. apply (Hempty row'). exact Hrow'.
Qed.

Lemma lookup_map {A B} (f : A -> B) (l : list A) (i : nat) :
  map f l !! i = f <$> (l !! i).
Proof.
  revert i. induction l as [|x l IH]; intros [|i]; try reflexivity.
  apply IH.
Qed.

Lemma block_lookup ws r0 c0 (nrows ncols : Z) (e : nat) :
  Z.of_nat e < nrows ->
  block ws r0 c0 nrows ncols !! e
  = Some (map (fun c => cell_at ws (r0 + Z.of_nat e) c) (seqZ c0 ncols)).
Proof.
  intros He. unfold block. etrans; [apply lookup_map|].
  rewrite lookup_seqZ_lt by lia. reflexivity.
Qed.

Lemma block_row_lookup ws r c0 (ncols : Z) (k : nat) :
  Z.of_nat k < ncols ->
  default CNone (map (fun c => cell_at ws r c) (seqZ c0 ncols) !! k)
  = cell_at ws r (c0 + Z.of_nat k).
Proof.
  intros Hk. rewrite lookup_map, lookup_seqZ_lt by lia. reflexivity.
Qed.

Lemma length_block ws r0 c0 nrows ncols :
  length (block ws r0 c0 nrows ncols) = Z.to_nat nrows.
Proof. unfold block. rewrite length_map, length_seqZ. reflexivity. Qed.

Lemma block_rows_length ws r0 c0 nrows ncols :
  Forall (fun row => length row = Z.to_nat ncols) (block ws r0 c0 nrows ncols).
Proof.
  unfold block. apply Forall_forall. intros row Hrow.
  apply list_elem_of_In, in_map_iff in Hrow. destruct Hrow as (r & <- & _).
  rewrite length_map, length_seqZ. reflexivity.
Qed.

Lemma Range_Value_block ws r0 c0 nrows ncols :
  2 <= ncols ->
  Range_Value (block ws r0 c0 nrows ncols) = Rows (block ws r0 c0 nrows ncols).
Proof.
  intros Hc. pose proof (block_rows_length ws r0 c0 nrows ncols) as Hlen.
  destruct (block ws r0 c0 nrows ncols) as [|row rows]; [reflexivity|].
  apply Forall_cons in Hlen. destruct Hlen as [Hrow _].
  destruct row as [|v [|v' row]]; cbn [length] in Hrow; try lia; reflexivity.
Qed.


End FullDay.

(** *** Failing before anything is written *)

Section Missing.
Variable float_repr : spec_float -> string.

Lemma PivotTables_missing w sheet name :
  pivot_info w sheet name = None ->
  PivotTables_ sheet name w = (Raise (com_error "Exception occurred."), w).
Proof.
  unfold pivot_info, PivotTables_, bind, Sheets.
  destruct (workbook w !! sheet) as [ws|]; [|reflexivity].
  intros ->. reflexivity.
Qed.

Lemma table_missing {A} w sheet name (k : ListObject -> M A) :
  table_info w sheet name = None ->
  bind (Sheets sheet) (fun _ =>
    bind (getitem "dest_table" (Some name)) (fun dest_table_name =>
      bind (ListObjects_ sheet dest_table_name) k)) w
  = (Raise (com_error "Exception occurred."), w).
Proof.
  unfold table_info, ListObjects_, bind, Sheets, getitem, ret.
  destruct (workbook w !! sheet) as [ws|] eqn:Hws; [|reflexivity].
  rewrite Hws. intros ->. reflexivity.
Qed.

(** A handler whose pivot table, source sheet or destination table does
    not exist raises the COM error and leaves the workbook and the log as
    they were: no row has been appended yet.  Pattern D looks at its
    destination only after the search. *)
Theorem missing_object_raises_untouched (w : world) (source_sheet : string)
    (op : operation) (pivot_name dsheet tname : string)
    (Hpivot : pivot op = Some pivot_name)
    (Hdsheet : dest_sheet op = Some dsheet)
    (Hdtable : dest_table op = Some tname)
    (Hmissing : pivot_info w source_sheet pivot_name = None
                \/ table_info w dsheet tname = None) :
  _copy_data_body_range source_sheet op w
  = (Raise (com_error "Exception occurred."), w)
  /\ _search_row_copy_columns float_repr source_sheet op w
     = (Raise (com_error "Exception occurred."), w)
  /\ _previous_full_day_lookup float_repr source_sheet op w
     = (Raise (com_error "Exception occurred."), w)
  /\ _search_row_with_blank_check float_repr source_sheet op w
     = (Raise (com_error "Exception occurred."), w)
  /\ (pivot_info w source_sheet pivot_name = None ->
      _single_cell_extraction float_repr source_sheet op w
      = (Raise (com_error "Exception occurred."), w))
  /\ (forall ssheet sr sc er ec,
        ExcelReport.source_sheet op = Some ssheet -> start_row op = Some sr ->
        start_col op = Some sc -> end_row op = Some er ->
        end_col op = Some ec ->
        workbook w !! ssheet = None \/ table_info w dsheet tname = None ->
        _sheet_range_copy op w = (Raise (com_error "Exception occurred."), w)).
Proof.
  assert (Hcases :
    pivot_info w source_sheet pivot_name = None
    \/ (exists pt, pivot_info w source_sheet pivot_name = Some pt)
       /\ table_info w dsheet tname = None).
  { destruct (pivot_info w source_sheet pivot_name) as [pt|] eqn:E;
      [|left; reflexivity].
    right. split; [eauto|]. destruct Hmissing as [?|?]; [discriminate|assumption]. }
  split; [|split; [|split; [|split; [|split]]]].
  - unfold _copy_data_body_range. rewrite Hpivot, Hdsheet, Hdtable.
    rewrite (bind_Ok _ _ _ _ _ (getitem_Some _ _ _)).
    destruct Hcases as [Hp|[[pt Hp] Ht]].
    + rewrite (bind_Raise _ _ _ _ _ (PivotTables_missing _ _ _ Hp)). reflexivity.
    + rewrite (bind_Ok _ _ _ _ _ (PivotTables_run _ _ _ _ Hp)). cbv zeta.
      rewrite (bind_Ok _ _ _ _ _ (getitem_Some _ _ _)).
      apply table_missing. exact Ht.
  - unfold _search_row_copy_columns. rewrite Hpivot, Hdsheet, Hdtable.
    rewrite (bind_Ok _ _ _ _ _ (getitem_Some _ _ _)).
    destruct Hcases as [Hp|[[pt Hp] Ht]].
    + rewrite (bind_Raise _ _ _ _ _ (PivotTables_missing _ _ _ Hp)). reflexivity.
    + rewrite (bind_Ok _ _ _ _ _ (PivotTables_run _ _ _ _ Hp)). cbv zeta.
      rewrite (bind_Ok _ _ _ _ _ (getitem_Some _ _ _)).
      apply table_missing. exact Ht.
  - unfold _previous_full_day_lookup. rewrite Hpivot, Hdsheet, Hdtable.
    rewrite (bind_Ok _ _ _ _ _ (getitem_Some _ _ _)).
    destruct Hcases as [Hp|[[pt Hp] Ht]].
    + rewrite (bind_Raise _ _ _ _ _ (PivotTables_missing _ _ _ Hp)). reflexivity.
    + rewrite (bind_Ok _ _ _ _ _ (PivotTables_run _ _ _ _ Hp)). cbv zeta.
      rewrite (bind_Ok _ _ _ _ _ (getitem_Some _ _ _)).
      unfold table_info in Ht. unfold ListObjects_, bind, Sheets, getitem, ret.
      destruct (workbook w !! dsheet) as [ws|] eqn:Hws; [|reflexivity].
      rewrite Hws, Ht. reflexivity.
  - unfold _search_row_with_blank_check. rewrite Hpivot, Hdsheet, Hdtable.
    rewrite (bind_Ok _ _ _ _ _ (getitem_Some _ _ _)).
    destruct Hcases as [Hp|[[pt Hp] Ht]].
    + rewrite (bind_Raise _ _ _ _ _ (PivotTables_missing _ _ _ Hp)). reflexivity.
    + rewrite (bind_Ok _ _ _ _ _ (PivotTables_run _ _ _ _ Hp)). cbv zeta.
      rewrite (bind_Ok _ _ _ _ _ (getitem_Some _ _ _)).
      apply table_missing. exact Ht.
  - intros Hp. unfold _single_cell_extraction. rewrite Hpivot.
    rewrite (bind_Ok _ _ _ _ _ (getitem_Some _ _ _)).
    rewrite (bind_Raise _ _ _ _ _ (PivotTables_missing _ _ _ Hp)). reflexivity.
  - intros ssheet sr sc er ec Hss Hsr Hsc Her Hec Hmiss.
    unfold _sheet_range_copy.
    rewrite Hss, Hsr, Hsc, Her, Hec, Hdsheet, Hdtable.
    rewrite (bind_Ok _ _ _ _ _ (getitem_Some _ _ _)).
    destruct (workbook w !! ssheet) as [src|] eqn:Hsrc.
    + rewrite (bind_Ok _ _ _ _ _ (Sheets_run _ _ _ Hsrc)).
      rewrite (bind_Ok _ _ _ _ _ (getitem_Some _ _ _)).
      rewrite (bind_Ok _ _ _ _ _ (getitem_Some _ _ _)).
      rewrite (bind_Ok _ _ _ _ _ (getitem_Some _ _ _)).
      rewrite (bind_Ok _ _ _ _ _ (getitem_Some _ _ _)).
      cbv zeta.
      rewrite (bind_Ok _ _ _ _ _ (getitem_Some _ _ _)).
      apply table_missing. destruct Hmiss as [?|?]; [discriminate|assumption].
    + unfold bind at 1. unfold Sheets. rewrite Hsrc. reflexivity.
Qed.

End Missing.

(** *** The theorems on the second workbook *)

Import Scenario Scenario2.





(** Operation 1 of the plan on a workbook without its pivot table. *)
Lemma missing_object_raises_untouched_witness :
  pivot_info report2 "UTILITY" "PivotTable5" = None
  /\ _copy_data_body_range "UTILITY" (operation_at 0) report2
     = (Raise (com_error "Exception occurred."), report2).
Proof.
  split; [reflexivity|].
  exact (proj1 (missing_object_raises_untouched no_floats report2 "UTILITY"
                  (operation_at 0) "PivotTable5" "MO YR SUMMARY" "YR_INCOMP"
                  eq_refl eq_refl eq_refl (or_introl eq_refl))).
Defined.

End HandlerFacts.

(** ** What the handlers and the loop leave in place *)

Module LayoutFacts.
Import ExcelReport ExcelReportFacts Layout.

Lemma same_layout_refl w : same_layout w w.
Proof.
  split; [exists []; symmetry; apply app_nil_r|].
  split; [reflexivity|]. split; [reflexivity|]. split; [reflexivity|].
  intros s t tab Htab. exists tab. split; [exact Htab|lia].
Qed.

Lemma same_layout_trans w1 w2 w3 :
  same_layout w1 w2 -> same_layout w2 w3 -> same_layout w1 w3.
Proof.
  intros ([e1 E1] & S1 & P1 & F1 & C1) ([e2 E2] & S2 & P2 & F2 & C2).
  split; [exists (e1 ++ e2); rewrite E2, E1; symmetry; apply app_assoc|].
  split; [intros s; rewrite S2; apply S1|].
  split; [intros s p; rewrite P2; apply P1|].
  split; [intros s t; rewrite F2; apply F1|].
  intros s t tab Htab. destruct (C1 s t tab Htab) as (tab2 & Htab2 & Hle2).
  destruct (C2 s t tab2 Htab2) as (tab3 & Htab3 & Hle3).
  exists tab3. split; [exact Htab3|lia].
Qed.

(** A state that differs in its log only. *)
Lemma same_layout_log w evs :
  same_layout w {| workbook := workbook w; events := events w ++ evs |}.
Proof.
  split; [exists evs; reflexivity|].
  split; [reflexivity|]. split; [reflexivity|]. split; [reflexivity|].
  intros s t tab Htab. exists tab. split; [exact Htab|lia].
Qed.

Lemma steady_ret {A} (a : A) : steady (ret a).
Proof. intros w. apply same_layout_refl. Qed.

Lemma steady_raise {A} (e : exn) : steady (@raise A e).
Proof. intros w. apply same_layout_refl. Qed.

Lemma steady_lift {A} (r : result A) : steady (lift r).
Proof. intros w. apply same_layout_refl. Qed.

Lemma steady_getitem {A} key (field : option A) : steady (getitem key field).
Proof. destruct field; [apply steady_ret|apply steady_raise]. Qed.

Lemma steady_bind {A B} (m : M A) (k : A -> M B) :
  steady m -> (forall a, steady (k a)) -> steady (bind m k).
Proof.
  intros Hm Hk w. unfold bind. specialize (Hm w).
  destruct (m w) as [[a|e] w']; cbn [snd] in *; [|exact Hm].
  eapply same_layout_trans; [exact Hm|apply Hk].
Qed.

Lemma steady_try_except {A} (body : M A) (handler : exn -> M A) :
  steady body -> (forall e, steady (handler e)) ->
  steady (try_except body handler).
Proof.
  intros Hm Hk w. unfold try_except. specialize (Hm w).
  destruct (body w) as [[a|e] w']; cbn [snd] in *; [exact Hm|].
  eapply same_layout_trans; [exact Hm|apply Hk].
Qed.

Lemma steady_for_each {A} (l : list A) (body : A -> M unit) :
  (forall x, steady (body x)) -> steady (for_each l body).
Proof.
  intros Hbody. induction l as [|x l IH]; cbn [for_each].
  - apply steady_ret.
  - apply steady_bind; [apply Hbody|intros _; exact IH].
Qed.

Lemma steady_emit_event e : steady (emit_event e).
Proof. intros w. apply (same_layout_log w [e]). Qed.

Lemma steady_Sheets name : steady (Sheets name).
Proof.
  intros w. unfold Sheets. destruct (workbook w !! name);
    apply same_layout_refl.
Qed.

Lemma steady_PivotTables sheet name : steady (PivotTables_ sheet name).
Proof.
  unfold PivotTables_. apply steady_bind; [apply steady_Sheets|].
  intros ws. destruct (PivotTables ws !! name);
    [apply steady_ret|apply steady_raise].
Qed.

Lemma steady_ListObjects sheet name : steady (ListObjects_ sheet name).
Proof.
  unfold ListObjects_. apply steady_bind; [apply steady_Sheets|].
  intros ws. destruct (ListObjects ws !! name);
    [apply steady_ret|apply steady_raise].
Qed.

(** Writing a cell changes the cells of one sheet and nothing else. *)
Lemma steady_write_cell sheet r c v : steady (write_cell sheet r c v).
Proof.
  intros w. unfold write_cell, bind, Sheets.
  destruct (workbook w !! sheet) as [ws|] eqn:Hws; [|apply same_layout_refl].
  cbn [snd].
  split; [exists [Write sheet r c v]; reflexivity|].
  split; [|split; [|split]].
  - intros s. unfold sheet_exists. cbn [workbook].
    destruct (decide (sheet = s)) as [->|Hne].
    + rewrite lookup_insert_eq, Hws. split; eauto.
    + rewrite lookup_insert_ne by assumption. reflexivity.
  - intros s p. unfold pivot_info. cbn [workbook].
    destruct (decide (sheet = s)) as [->|Hne].
    + rewrite lookup_insert_eq, Hws. reflexivity.
    + rewrite lookup_insert_ne by assumption. reflexivity.
  - intros s t. unfold table_info. cbn [workbook].
    destruct (decide (sheet = s)) as [->|Hne].
    + rewrite lookup_insert_eq, Hws. reflexivity.
    + rewrite lookup_insert_ne by assumption. reflexivity.
  - intros s t tab. unfold table_info. cbn [workbook].
    destruct (decide (sheet = s)) as [->|Hne].
    + rewrite lookup_insert_eq, Hws. cbn [ListObjects].
      intros Htab. exists tab. split; [exact Htab|lia].
    + rewrite lookup_insert_ne by assumption.
      intros Htab. exists tab. split; [exact Htab|lia].
Qed.

Lemma steady_write_list_row sheet t n i j v :
  steady (write_list_row sheet t n i j v).
Proof. apply steady_write_cell. Qed.

Lemma steady_write_date_stamp op sheet t n :
  steady (write_date_stamp op sheet t n).
Proof.
  unfold write_date_stamp. destruct (date_col op) as [[col date_val]|];
    [apply steady_write_list_row|apply steady_ret].
Qed.

(** [ListRows.Add()] gives one table one more row. *)
Lemma steady_ListRows_Add sheet table : steady (ListRows_Add_ sheet table).
Proof.
  intros w. unfold ListRows_Add_, bind, ListObjects_, bind, Sheets.
  destruct (workbook w !! sheet) as [ws|] eqn:Hws; [|apply same_layout_refl].
  rewrite Hws.
  destruct (ListObjects ws !! table) as [t|] eqn:Ht;
    [|apply same_layout_refl].
  cbn [ret snd].
  split; [exists [ListRows_Add sheet table]; reflexivity|].
  split; [|split; [|split]].
  - intros s. unfold sheet_exists. cbn [workbook].
    destruct (decide (sheet = s)) as [->|Hne].
    + rewrite lookup_insert_eq, Hws. split; eauto.
    + rewrite lookup_insert_ne by assumption. reflexivity.
  - intros s p. unfold pivot_info. cbn [workbook].
    destruct (decide (sheet = s)) as [->|Hne].
    + rewrite lookup_insert_eq, Hws. reflexivity.
    + rewrite lookup_insert_ne by assumption. reflexivity.
  - intros s t'. unfold table_info. cbn [workbook].
    destruct (decide (sheet = s)) as [->|Hne].
    + rewrite lookup_insert_eq, Hws. cbn [ListObjects].
      destruct (decide (table = t')) as [->|Hnt].
      * rewrite lookup_insert_eq, Ht. reflexivity.
      * rewrite lookup_insert_ne by assumption. reflexivity.
    + rewrite lookup_insert_ne by assumption. reflexivity.
  - intros s t' tab. unfold table_info. cbn [workbook].
    destruct (decide (sheet = s)) as [->|Hne].
    + rewrite lookup_insert_eq, Hws. cbn [ListObjects].
      destruct (decide (table = t')) as [->|Hnt].
      * rewrite lookup_insert_eq, Ht. intros [= <-].
        eexists. split; [reflexivity|]. cbn [ListRows_Count]. lia.
      * rewrite lookup_insert_ne by assumption.
        intros Htab. exists tab. split; [exact Htab|lia].
    + rewrite lookup_insert_ne by assumption.
      intros Htab. exists tab. split; [exact Htab|lia].
Qed.

Ltac steady_step :=
  first
    [ apply steady_ret
    | apply steady_raise
    | apply steady_lift
    | apply steady_getitem
    | apply steady_emit_event
    | apply steady_Sheets
    | apply steady_PivotTables
    | apply steady_ListObjects
    | apply steady_ListRows_Add
    | apply steady_write_date_stamp
    | apply steady_write_list_row
    | apply steady_write_cell
    | apply steady_for_each; intros ?
    | apply steady_try_except; [|intros ?]
    | apply steady_bind; [|intros ?]
    | match goal with
      | |- steady (match ?x with _ => _ end) => destruct x
      | |- steady (if ?x then _ else _) => destruct x
      end ].

Ltac steady_auto :=
  unfold logger_info, logger_warning, logger_error; repeat steady_step.

Section Handlers.
Variable float_repr : spec_float -> string.

Lemma steady_copy_data_body_range ss op :
  steady (_copy_data_body_range ss op).
Proof. unfold _copy_data_body_range. steady_auto. Qed.

Lemma steady_search_row_copy_columns ss op :
  steady (_search_row_copy_columns float_repr ss op).
Proof. unfold _search_row_copy_columns. steady_auto. Qed.

Lemma steady_previous_full_day_lookup ss op :
  steady (_previous_full_day_lookup float_repr ss op).
Proof. unfold _previous_full_day_lookup. steady_auto. Qed.

Lemma steady_single_cell_extraction ss op :
  steady (_single_cell_extraction float_repr ss op).
Proof. unfold _single_cell_extraction. steady_auto. Qed.

Lemma steady_search_row_with_blank_check ss op :
  steady (_search_row_with_blank_check float_repr ss op).
Proof. unfold _search_row_with_blank_check. steady_auto. Qed.

Lemma steady_sheet_range_copy op : steady (_sheet_range_copy op).
Proof. unfold _sheet_range_copy. steady_auto. Qed.

Lemma steady_call_handler p h ss op :
  _DISPATCH float_repr p = Some h -> steady (call_handler p h ss op).
Proof.
  unfold _DISPATCH, call_handler. intros Hdisp.
  repeat match type of Hdisp with
         | (if String.eqb p ?c then _ else _) = _ =>
           destruct (String.eqb_spec p c) as [->|?];
             [injection Hdisp as <-;
              cbn [String.eqb Ascii.eqb Bool.eqb call2 call3]|]
         end; try discriminate.
  - apply steady_copy_data_body_range.
  - apply steady_search_row_copy_columns.
  - apply steady_previous_full_day_lookup.
  - apply steady_single_cell_extraction.
  - apply steady_search_row_with_blank_check.
  - apply steady_sheet_range_copy.
Qed.

Lemma steady_emit cb pct stage : steady (emit cb pct stage).
Proof. unfold emit. steady_auto. Qed.

Lemma steady_run_operation cb ss total idx op :
  steady (run_operation float_repr cb ss total idx op).
Proof.
  unfold run_operation. apply steady_bind; [apply steady_getitem|].
  intros p. cbv zeta. apply steady_bind.
  - apply steady_try_except.
    + destruct (_DISPATCH float_repr p) as [h|] eqn:Hd.
      * apply steady_bind; [|intros _; apply steady_ret].
        apply (steady_call_handler p h ss op Hd).
      * steady_auto.
    + intros e. steady_auto.
  - intros [|]; [apply steady_ret|].
    apply steady_bind; [apply steady_lift|]. intros pct.
    apply steady_bind; [apply steady_getitem|]. intros n.
    apply steady_emit.
Qed.


End Handlers.

End LayoutFacts.

(** ** More facts about the operations loop *)

Module LoopEdgeFacts.
Import ExcelReport ExcelReportFacts FloatFacts LoopFacts.

(** *** The percentage of the last operation *)

Lemma int_truediv_same n :
  0 < n < 2 ^ 53 ->
  int_truediv n n = S754_finite false 4503599627370496 (-52).
Proof.
  intros Hn. unfold int_truediv.
  destruct (float_of_int_spec n Hn) as (m & e & -> & He & Hm & Hd).
  unfold SFdiv, SFdiv_core_binary. rewrite Hd, fexp_unfold.
  replace (Z.min (Z.max (53 + e - (53 + e) - 53) (-1074)) (e - e))
    with (-53) by lia.
  replace (e - e - -53) with 53 by lia.
  rewrite Z.shiftl_mul_pow2 by lia.
  pose proof (Z_div_mod (Z.pos m * 2 ^ 53) (Z.pos m) eq_refl) as Hdm.
  destruct (Z.div_eucl (Z.pos m * 2 ^ 53) (Z.pos m)) as [q r].
  destruct Hdm as [Heq Hr].
  assert (Hq : q = 2 ^ 53) by nia.
  assert (Hr0 : r = 0) by nia.
  subst q r. rewrite new_location_0. cbn [xorb].
  vm_compute. reflexivity.
Qed.

(** The last operation reports 90 per cent, whatever the length of the
    list. *)
Theorem percent_of_last_operation (total : Z)
    (Htotal : 1 <= total < 2 ^ 53) :
  percent total total = Ok 90.
Proof.
  unfold percent. rewrite int_truediv_same by lia.
  vm_compute. reflexivity.
Qed.

Lemma percent_of_last_operation_witness :
  1 <= 19 < 2 ^ 53 /\ percent 19 19 = Ok 90.
Proof.
  assert (H : 1 <= 19 < 2 ^ 53) by (split; [lia|reflexivity]).
  split; [exact H|]. exact (percent_of_last_operation 19 H).
Defined.

(** *** Records without a pattern or a name *)

Section Escape.
Variable float_repr : spec_float -> string.

Lemma run_operation_no_pattern cb ss total idx op w :
  pattern op = None ->
  run_operation float_repr cb ss total idx op w
  = (Raise (KeyError "pattern"), w).
Proof. intros Hp. unfold run_operation. rewrite Hp. reflexivity. Qed.

Lemma run_operation_no_name cb ss total idx op p pct w :
  pattern op = Some p -> name op = None ->
  percent idx total = Ok pct ->
  fst (run_operation float_repr cb ss total idx op w)
  = Raise (KeyError "name").
Proof.
  intros Hp Hn Hpct. unfold run_operation. rewrite Hp, Hn, Hpct.
  rewrite (bind_Ok _ _ _ _ _ (getitem_Some _ _ _)). cbv zeta.
  unfold bind at 1. unfold try_except.
  destruct (_DISPATCH float_repr p) as [h|].
  - unfold bind at 1.
    destruct ((if String.eqb p "F" then call2 h op else call3 h ss op) w)
      as [[[]|e] w1]; reflexivity.
  - reflexivity.
Qed.

(** The loop does not survive a record that lacks its pattern or its
    name: the [KeyError] of the first such record leaves the loop, after
    the records before it have run and before any record after it does.
    A missing name does so whether the handler succeeds, fails or does
    not exist. *)
Theorem operations_loop_key_error (cb : bool) (ss : string)
    (before after : list operation) (op : operation) (w : world)
    (Hknown : Forall (fun o => known_operation float_repr o = true) before)
    (Hlen : Z.of_nat (length (before ++ op :: after)) < 2 ^ 53)
    (Hbad : pattern op = None \/ name op = None) :
  fst (operations_loop float_repr cb ss (before ++ op :: after) w)
  = Raise (KeyError (match pattern op with
                     | Some _ => "name"
                     | None => "pattern"
                     end))
  /\ snd (operations_loop float_repr cb ss (before ++ op :: after) w)
     = snd (run_operation float_repr cb ss
              (len_or_1 (before ++ op :: after))
              (Z.of_nat (length before) + 1) op
              (snd (for_each (enumerate 1 before) (fun '(idx, o) =>
                      run_operation float_repr cb ss
                        (len_or_1 (before ++ op :: after)) idx o) w))).
Proof.
  set (ops := before ++ op :: after) in *.
  set (body := fun '(idx, o) =>
                 run_operation float_repr cb ss (len_or_1 ops) idx o).
  assert (Hsplit : enumerate 1 ops
                   = enumerate 1 before
                     ++ (Z.of_nat (length before) + 1, op)
                        :: enumerate (Z.of_nat (length before) + 2) after).
  { unfold ops, enumerate. rewrite length_app. cbn [length].
    rewrite Nat2Z.inj_add, (seqZ_app 1) by lia.
    rewrite zip_with_app by (rewrite length_seqZ; lia).
    f_equal. rewrite Nat2Z.inj_succ, seqZ_cons by lia. cbn [zip_with].
    f_equal; [f_equal; lia|]. f_equal. f_equal; lia. }
  assert (Hidx : 1 <= Z.of_nat (length before) + 1 <= len_or_1 ops
                 /\ len_or_1 ops < 2 ^ 53).
  { unfold len_or_1, ops in *. rewrite length_app in *. cbn [length] in *.
    destruct (Z.eqb_spec (Z.of_nat (length before + S (length after))) 0); lia. }
  assert (Hprefix : forall k, (k <= length before)%nat ->
            fst (for_each (take k (enumerate 1 before)) body w) = Ok tt).
  { induction k as [|k IH]; intros Hk; [reflexivity|].
    destruct (lookup_lt_is_Some_2 before k) as [o Ho]; [lia|].
    rewrite (take_S_r _ _ _ (enumerate_lookup before k o Ho)).
    specialize (IH ltac:(lia)).
    destruct (for_each (take k (enumerate 1 before)) body w) as [r wk] eqn:E.
    cbn [fst] in IH. subst r.
    rewrite (for_each_app _ _ _ _ _ E), for_each_singleton.
    destruct (known_operation_inv float_repr o) as (p & h & n & Hp & Hh & Hn).
    { exact (proj1 (Forall_lookup _ _) Hknown k o Ho). }
    apply lookup_lt_Some in Ho.
    destruct (percent_range (Z.of_nat k + 1) (len_or_1 ops)) as (pct & Hpct & _);
      [lia|lia|].
    unfold body.
    rewrite (run_operation_known float_repr cb ss _ _ o p h n pct _ Hp Hh Hn Hpct).
    reflexivity. }
  specialize (Hprefix (length before) (le_n _)).
  rewrite firstn_all2 in Hprefix by (rewrite length_enumerate; lia).
  unfold operations_loop. cbv zeta. fold ops. fold body. rewrite Hsplit.
  destruct (for_each (enumerate 1 before) body w) as [r wk] eqn:E.
  cbn [fst] in Hprefix. subst r.
  rewrite (for_each_app _ _ _ _ _ E). cbn [for_each snd].
  change (body (Z.of_nat (length before) + 1, op))
    with (run_operation float_repr cb ss (len_or_1 ops)
            (Z.of_nat (length before) + 1) op).
  destruct (percent_range (Z.of_nat (length before) + 1) (len_or_1 ops))
    as (pct & Hpct & _); [lia|lia|].
  destruct (pattern op) as [p|] eqn:Hp.
  - destruct Hbad as [Hbad|Hn]; [discriminate|].
    pose proof (run_operation_no_name cb ss (len_or_1 ops)
                  (Z.of_nat (length before) + 1) op p pct wk Hp Hn Hpct) as Hrun.
    destruct (run_operation float_repr cb ss (len_or_1 ops)
                (Z.of_nat (length before) + 1) op wk) as [r w'] eqn:Erun.
    cbn [fst] in Hrun. subst r.
    rewrite (bind_Raise _ _ _ _ _ Erun). split; reflexivity.
  - rewrite (bind_Raise _ _ _ _ _
               (run_operation_no_pattern cb ss _ _ op wk Hp)).
    rewrite (run_operation_no_pattern cb ss _ _ op wk Hp). split; reflexivity.
Qed.

End Escape.

Import Scenario.

(** Operation 2 of the plan, then a record without any key, then
    operation 3, which is not reached. *)
Lemma operations_loop_key_error_witness :
  Forall (fun o => known_operation no_floats o = true) [operation_at 1]
  /\ (pattern no_keys = None \/ name no_keys = None)
  /\ fst (operations_loop no_floats true "UTILITY"
            ([operation_at 1] ++ no_keys :: [operation_at 2]) report)
     = Raise (KeyError "pattern")
  /\ filter (fun e => is_progress e)
            (events (snd (operations_loop no_floats true "UTILITY"
                            ([operation_at 1] ++ no_keys :: [operation_at 2])
                            report)))
     = [Progress 43 "No Inventory = 0"].
Proof.
  assert (H1 : Forall (fun o => known_operation no_floats o = true)
                      [operation_at 1]) by (repeat constructor).
  assert (H2 : pattern no_keys = None \/ name no_keys = None)
    by (left; reflexivity).
  split; [exact H1|]. split; [exact H2|].
  destruct (operations_loop_key_error no_floats true "UTILITY"
              [operation_at 1] [operation_at 2] no_keys report H1
              ltac:(reflexivity) H2) as [Hfst Hsnd].
  split; [exact Hfst|]. rewrite Hsnd. vm_compute. reflexivity.
Defined.

End LoopEdgeFacts.

(** ** The company holidays of a year *)

Module HolidayFacts.
Import Calendar Helpers CalendarFacts HelpersFacts.

Lemma weekday_same_month y m d1 d2 u1 u2 :
  weekday (mk_datetime y m d2 u2)
  = (weekday (mk_datetime y m d1 u1) + (d2 - d1)) mod 7.
Proof.
  unfold weekday. rewrite (toordinal_same_month y m d1 d2 u1 u2).
  rewrite Zplus_mod_idemp_l. f_equal. lia.
Qed.

Lemma first_weekday_if y m (target k : Z) :
  (weekday (mk_datetime y m 1 0) = target -> k = 0) ->
  (if weekday (mk_datetime y m 1 0) =? target then mk_datetime y m 1 0
   else mk_datetime y m (1 + k) 0)
  = mk_datetime y m (1 + k) 0.
Proof.
  intros Hk. destruct (Z.eqb_spec (weekday (mk_datetime y m 1 0)) target) as [E|_];
    [|reflexivity].
  rewrite (Hk E). reflexivity.
Qed.

Lemma get_company_holidays_members y :
  1 <= y <= 9999 ->
  exists hs,
    get_company_holidays y = Ok hs
    /\ forall x, x ∈ hs <->
         x = mk_datetime y 1 1 0 \/ x = mk_datetime y 6 19 0
         \/ x = mk_datetime y 7 4 0 \/ x = mk_datetime y 12 24 0
         \/ x = mk_datetime y 12 25 0
         \/ (weekday (mk_datetime y 7 4 0) = 5 /\ x = mk_datetime y 7 3 0)
         \/ (weekday (mk_datetime y 7 4 0) = 6 /\ x = mk_datetime y 7 5 0)
         \/ x = mk_datetime y 1
                  (15 + (7 - weekday (mk_datetime y 1 1 0)) mod 7) 0
         \/ x = mk_datetime y 2
                  (15 + (7 - weekday (mk_datetime y 2 1 0)) mod 7) 0
         \/ x = mk_datetime y 5
                  (31 - (weekday (mk_datetime y 5 31 0) - 0) mod 7) 0
         \/ x = mk_datetime y 9
                  (1 + (7 - weekday (mk_datetime y 9 1 0)) mod 7) 0
         \/ x = mk_datetime y 11
                  (22 + (3 - weekday (mk_datetime y 11 1 0)) mod 7) 0
         \/ x = mk_datetime y 11
                  (23 + (3 - weekday (mk_datetime y 11 1 0)) mod 7) 0.
Proof.
  intros Hy. unfold get_company_holidays. cbv zeta.
  repeat (rewrite datetime__ok by solve_valid; rewrite result_bind_Ok; cbv beta).
  set (k1 := (7 - weekday (mk_datetime y 1 1 0)) mod 7).
  set (k2 := (7 - weekday (mk_datetime y 2 1 0)) mod 7).
  set (k3 := (weekday (mk_datetime y 5 31 0) - 0) mod 7).
  set (k4 := (7 - weekday (mk_datetime y 9 1 0)) mod 7).
  set (k5 := (3 - weekday (mk_datetime y 11 1 0)) mod 7).
  assert (H1 : 0 <= k1 < 7) by (apply Z.mod_pos_bound; lia).
  assert (H2 : 0 <= k2 < 7) by (apply Z.mod_pos_bound; lia).
  assert (H3 : 0 <= k3 < 7) by (apply Z.mod_pos_bound; lia).
  assert (H4 : 0 <= k4 < 7) by (apply Z.mod_pos_bound; lia).
  assert (H5 : 0 <= k5 < 7) by (apply Z.mod_pos_bound; lia).
  assert (Hfeb : 28 <= _days_in_month y 2)
    by (pose proof (days_in_month_bounds y 2); lia).
  assert (E1 : weekday (mk_datetime y 1 1 0) = 0 -> k1 = 0)
    by (intros E; unfold k1; rewrite E; reflexivity).
  assert (E2 : weekday (mk_datetime y 2 1 0) = 0 -> k2 = 0)
    by (intros E; unfold k2; rewrite E; reflexivity).
  assert (E4 : weekday (mk_datetime y 9 1 0) = 0 -> k4 = 0)
    by (intros E; unfold k4; rewrite E; reflexivity).
  assert (E5 : weekday (mk_datetime y 11 1 0) = 3 -> k5 = 0)
    by (intros E; unfold k5; rewrite E; reflexivity).
  set (wj := weekday (mk_datetime y 7 4 0)).
  destruct (Z.eqb_spec wj 5) as [J5|J5];
    [|destruct (Z.eqb_spec wj 6) as [J6|J6]].
  all: rewrite ?result_bind_Ok; cbv beta; fold k1.
  all: rewrite add_days_in_month by solve_in_month;
    rewrite result_bind_Ok; cbv beta;
    rewrite (first_weekday_if y 1 0 k1 E1);
    rewrite add_days_in_month by solve_in_month;
    rewrite result_bind_Ok; cbv beta.
  all: rewrite ?result_bind_Ok; cbv beta; fold k2.
  all: rewrite add_days_in_month by solve_in_month;
    rewrite result_bind_Ok; cbv beta;
    rewrite (first_weekday_if y 2 0 k2 E2);
    rewrite add_days_in_month by solve_in_month;
    rewrite result_bind_Ok; cbv beta.
  all: rewrite datetime__ok by solve_valid; rewrite result_bind_Ok; cbv beta;
    fold k3.
  all: rewrite sub_days_in_month by solve_in_month;
    rewrite result_bind_Ok; cbv beta.
  all: rewrite datetime__ok by solve_valid; rewrite result_bind_Ok; cbv beta;
    fold k4.
  all: rewrite add_days_in_month by solve_in_month;
    rewrite result_bind_Ok; cbv beta;
    rewrite (first_weekday_if y 9 0 k4 E4).
  all: rewrite datetime__ok by solve_valid; rewrite result_bind_Ok; cbv beta;
    fold k5.
  all: rewrite add_days_in_month by solve_in_month;
    rewrite result_bind_Ok; cbv beta;
    rewrite (first_weekday_if y 11 3 k5 E5);
    rewrite add_days_in_month by solve_in_month;
    rewrite result_bind_Ok; cbv beta;
    rewrite add_days_in_month by solve_in_month;
    rewrite result_bind_Ok; cbv beta.
  all: eexists; split; [reflexivity|]; intros x; unfold set_add;
    rewrite !elem_of_union, !elem_of_singleton, elem_of_empty.
  all: replace (1 + k1 + 7 * 2) with (15 + k1) by lia;
    replace (1 + k2 + 7 * 2) with (15 + k2) by lia;
    replace (1 + k5 + 7 * 3) with (22 + k5) by lia;
    replace (22 + k5 + 1) with (23 + k5) by lia.
  all: assert (wj <> 6 \/ wj <> 5) by lia; tauto.
Qed.

Ltac pick tac := first [solve [tac] | left; solve [tac] | right; pick tac].

(** The weekday of another day of the month of an anchor day. *)
Ltac anchor y m0 d0 :=
  match goal with
  | |- context [weekday (mk_datetime y m0 ?D 0)] =>
    lazymatch D with
    | d0 => fail
    | _ => pose proof (weekday_same_month y m0 d0 D 0 0)
    end
  end.

(** The holiday calendar, by date.  For a year of the calendar
    [get_company_holidays] returns exactly these midnights of that year:
    January 1, June 19, July 4, December 24 and 25; July 3 when it is a
    Friday and July 5 when it is a Monday (the observed Independence Day);
    the third Monday of January and of February; the last Monday of May;
    the first Monday of September; the fourth Thursday of November and the
    Friday after it. *)
Theorem get_company_holidays_calendar (y : Z) (Hy : 1 <= y <= 9999) :
  exists hs,
    get_company_holidays y = Ok hs
    /\ forall x, x ∈ hs <->
         exists m d,
           x = mk_datetime y m d 0
           /\ ((m = 1 /\ d = 1) \/ (m = 6 /\ d = 19) \/ (m = 7 /\ d = 4)
               \/ (m = 12 /\ d = 24) \/ (m = 12 /\ d = 25)
               \/ (m = 7 /\ d = 3 /\ weekday x = 4)
               \/ (m = 7 /\ d = 5 /\ weekday x = 0)
               \/ (m = 1 /\ 15 <= d <= 21 /\ weekday x = 0)
               \/ (m = 2 /\ 15 <= d <= 21 /\ weekday x = 0)
               \/ (m = 5 /\ 25 <= d <= 31 /\ weekday x = 0)
               \/ (m = 9 /\ 1 <= d <= 7 /\ weekday x = 0)
               \/ (m = 11 /\ 22 <= d <= 28 /\ weekday x = 3)
               \/ (m = 11 /\ 23 <= d <= 29 /\ weekday x = 4)).
Proof.
  destruct (get_company_holidays_members y Hy) as (hs & Hhs & Hmem).
  exists hs. split; [exact Hhs|]. intros x. rewrite Hmem. clear Hmem Hhs hs.
  pose proof (weekday_range (mk_datetime y 1 1 0)) as R1.
  pose proof (weekday_range (mk_datetime y 2 1 0)) as R2.
  pose proof (weekday_range (mk_datetime y 5 31 0)) as R3.
  pose proof (weekday_range (mk_datetime y 9 1 0)) as R4.
  pose proof (weekday_range (mk_datetime y 11 1 0)) as R5.
  pose proof (weekday_range (mk_datetime y 7 4 0)) as R6.
  split.
  - intros H.
    repeat match type of H with
           | _ \/ _ => destruct H as [H|H]
           | _ /\ _ => destruct H as [? H]
           end; subst x; eexists _, _; (split; [reflexivity|]).
    + pick ltac:(lia).
    + pick ltac:(lia).
    + pick ltac:(lia).
    + pick ltac:(lia).
    + pick ltac:(lia).
    + anchor y 7 4.
      do 5 right; left. Z.to_euclidean_division_equations; lia.
    + anchor y 7 4.
      do 6 right; left. Z.to_euclidean_division_equations; lia.
    + anchor y 1 1.
      do 7 right; left. Z.to_euclidean_division_equations; lia.
    + anchor y 2 1.
      do 8 right; left. Z.to_euclidean_division_equations; lia.
    + anchor y 5 31.
      do 9 right; left. Z.to_euclidean_division_equations; lia.
    + anchor y 9 1.
      do 10 right; left. Z.to_euclidean_division_equations; lia.
    + anchor y 11 1.
      do 11 right; left. Z.to_euclidean_division_equations; lia.
    + anchor y 11 1.
      do 12 right. Z.to_euclidean_division_equations; lia.
  - intros (m & d & -> & H).
    repeat match type of H with
           | _ \/ _ => destruct H as [H|H]
           end.
    + destruct H as [-> ->]. tauto.
    + destruct H as [-> ->]. tauto.
    + destruct H as [-> ->]. tauto.
    + destruct H as [-> ->]. tauto.
    + destruct H as [-> ->]. tauto.
    + destruct H as (-> & -> & Hw).
      rewrite (weekday_same_month y 7 4 3 0 0) in Hw.
      do 5 right; left. split; [|reflexivity].
      Z.to_euclidean_division_equations; lia.
    + destruct H as (-> & -> & Hw).
      rewrite (weekday_same_month y 7 4 5 0 0) in Hw.
      do 6 right; left. split; [|reflexivity].
      Z.to_euclidean_division_equations; lia.
    + destruct H as (-> & Hd & Hw).
      rewrite (weekday_same_month y 1 1 d 0 0) in Hw.
      do 7 right; left. f_equal.
      Z.to_euclidean_division_equations; lia.
    + destruct H as (-> & Hd & Hw).
      rewrite (weekday_same_month y 2 1 d 0 0) in Hw.
      do 8 right; left. f_equal.
      Z.to_euclidean_division_equations; lia.
    + destruct H as (-> & Hd & Hw).
      rewrite (weekday_same_month y 5 31 d 0 0) in Hw.
      do 9 right; left. f_equal.
      Z.to_euclidean_division_equations; lia.
    + destruct H as (-> & Hd & Hw).
      rewrite (weekday_same_month y 9 1 d 0 0) in Hw.
      do 10 right; left. f_equal.
      Z.to_euclidean_division_equations; lia.
    + destruct H as (-> & Hd & Hw).
      rewrite (weekday_same_month y 11 1 d 0 0) in Hw.
      do 11 right; left. f_equal.
      Z.to_euclidean_division_equations; lia.
    + destruct H as (-> & Hd & Hw).
      rewrite (weekday_same_month y 11 1 d 0 0) in Hw.
      do 12 right. f_equal.
      Z.to_euclidean_division_equations; lia.
Qed.


(** An ordinary day: when the calendar day before [d] is a business day,
    [subtract_one_business_day] returns exactly that day, at the time of
    day of [d]; the loop body is never entered. *)
Theorem subtract_one_business_day_ordinary (d p : datetime)
    (Hvalid : valid_datetime d = true)
    (Hafter : toordinal first_supported < toordinal d)
    (Hprev : prev_day d = Ok p)
    (Hbus : business_day p = true) :
  forall fuel, (50 <= fuel)%nat ->
    subtract_one_business_day fuel d = Some (Ok p).
Proof.
  destruct (subtract_one_business_day_spec d Hvalid Hafter)
    as (r & Hrun & Hvr & Htod & Hlt & _ & Hnear).
  destruct (prev_day_spec d p Hvalid Hprev) as (Hvp & Hordp & Htodp).
  assert (Hord : toordinal r = toordinal p).
  { destruct (Z.eq_dec (toordinal r) (toordinal p)) as [E|N]; [exact E|].
    rewrite (Hnear p Hvp) in Hbus by lia. discriminate. }
  destruct (toordinal_inj r p Hvr Hvp Hord) as (Ey & Em & Ed).
  assert (r = p) as ->.
  { destruct r, p. cbn in *. congruence. }
  exact Hrun.
Qed.

Lemma get_company_holidays_calendar_witness :
  1 <= 2026 <= 9999
  /\ exists hs,
       get_company_holidays 2026 = Ok hs
       /\ forall x, x ∈ hs <->
            exists m d,
              x = mk_datetime 2026 m d 0
              /\ ((m = 1 /\ d = 1) \/ (m = 6 /\ d = 19) \/ (m = 7 /\ d = 4)
                  \/ (m = 12 /\ d = 24) \/ (m = 12 /\ d = 25)
                  \/ (m = 7 /\ d = 3 /\ weekday x = 4)
                  \/ (m = 7 /\ d = 5 /\ weekday x = 0)
                  \/ (m = 1 /\ 15 <= d <= 21 /\ weekday x = 0)
                  \/ (m = 2 /\ 15 <= d <= 21 /\ weekday x = 0)
                  \/ (m = 5 /\ 25 <= d <= 31 /\ weekday x = 0)
                  \/ (m = 9 /\ 1 <= d <= 7 /\ weekday x = 0)
                  \/ (m = 11 /\ 22 <= d <= 28 /\ weekday x = 3)
                  \/ (m = 11 /\ 23 <= d <= 29 /\ weekday x = 4)).
Proof.
  split; [lia|]. apply (get_company_holidays_calendar 2026). lia.
Defined.


(** Wednesday 2026-11-04: the day before is an ordinary Tuesday. *)
Lemma subtract_one_business_day_ordinary_witness :
  valid_datetime (mk_datetime 2026 11 4 30600) = true
  /\ toordinal first_supported < toordinal (mk_datetime 2026 11 4 30600)
  /\ prev_day (mk_datetime 2026 11 4 30600) = Ok (mk_datetime 2026 11 3 30600)
  /\ business_day (mk_datetime 2026 11 3 30600) = true
  /\ forall fuel, (50 <= fuel)%nat ->
       subtract_one_business_day fuel (mk_datetime 2026 11 4 30600)
       = Some (Ok (mk_datetime 2026 11 3 30600)).
Proof.
  split; [reflexivity|]. split; [reflexivity|]. split; [reflexivity|].
  split; [vm_compute; reflexivity|].
  apply (subtract_one_business_day_ordinary (mk_datetime 2026 11 4 30600)
           (mk_datetime 2026 11 3 30600));
    [reflexivity|reflexivity|reflexivity|vm_compute; reflexivity].
Defined.

End HolidayFacts.

(** ** Every task of the worker *)

Module WorkerFacts.
Import App Worker AppFacts.

Lemma report_lines_quiet report : Forall thread_event (report_lines report).
Proof.
  unfold report_lines. apply Forall_forall. intros e He.
  apply list_elem_of_In, in_map_iff in He. destruct He as ([pct stage] & <- & _).
  exact I.
Qed.

Lemma last_snoc2 {A} (l : list A) (a x : A) : last (l ++ [a; x]) = Some x.
Proof. rewrite (last_app_cons l [x] a). reflexivity. Qed.

(** One signal at the end.  For each of the five task types the worker
    sends [finished] exactly once, as the last thing it does, and with
    [True] exactly when every entry point of the task returned; for any
    other [script_type] it sends nothing at all, not even [finished]. *)
Theorem run_finishes_once (script_type : string) (schedule : list bool)
    (web sap : outcome) (report : report_run) :
  if bool_decide (script_type ∈ script_types) then
    exists msg,
      finished_signals (run script_type schedule web sap report)
      = [(task_succeeds script_type web sap report, msg)]
      /\ last (run script_type schedule web sap report)
         = Some (finished_emit (task_succeeds script_type web sap report) msg)
  else run script_type schedule web sap report = [].
Proof.
  pose proof (threads_quiet schedule web sap) as Hq.
  pose proof (finished_signals_thread _ Hq) as Hf.
  pose proof (finished_signals_thread _ (report_lines_quiet report)) as Hl.
  unfold run, task_succeeds.
  destruct (String.eqb_spec script_type "both") as [->|N1].
  { rewrite bool_decide_eq_true_2 by (unfold script_types; repeat constructor).
    unfold run_both.
    destruct web as [|ew], sap as [|es]; cbn [run_website run_sap fst snd] in *;
      cbn [succeeded returncode Z.eqb andb orb negb returned];
      eexists; rewrite !finished_signals_app, Hf, !app_assoc, last_snoc;
      split; reflexivity. }
  destruct (String.eqb_spec script_type "website") as [->|N2].
  { rewrite bool_decide_eq_true_2 by (unfold script_types; repeat constructor).
    destruct web; eexists; split; reflexivity. }
  destruct (String.eqb_spec script_type "sap") as [->|N3].
  { rewrite bool_decide_eq_true_2 by (unfold script_types; repeat constructor).
    destruct sap; eexists; split; reflexivity. }
  destruct (String.eqb_spec script_type "excel_report") as [->|N4].
  { rewrite bool_decide_eq_true_2 by (unfold script_types; repeat constructor).
    destruct (report_outcome report); cbn [returned]; eexists;
      (split; [rewrite !finished_signals_app, Hl; reflexivity|]);
      rewrite !app_assoc; first [apply last_snoc|apply last_snoc2]. }
  destruct (String.eqb_spec script_type "all") as [->|N5].
  { rewrite bool_decide_eq_true_2 by (unfold script_types; repeat constructor).
    unfold run_all.
    destruct web as [|ew], sap as [|es]; cbn [run_website run_sap fst snd] in *;
      cbn [succeeded returncode Z.eqb andb orb negb returned];
      try (eexists; rewrite !finished_signals_app, Hf, !app_assoc, last_snoc;
           split; reflexivity).
    destruct (report_outcome report); eexists;
      (split; [rewrite !finished_signals_app, Hf, Hl; reflexivity|]);
      rewrite !app_assoc; first [apply last_snoc|apply last_snoc2]. }
  rewrite bool_decide_eq_false_2; [reflexivity|].
  unfold script_types. rewrite !elem_of_cons, elem_of_nil. tauto.
Qed.

End WorkerFacts.

(** ** Facts about [release_excel] *)

Module ReleaseFacts.
Import ExcelManager ExcelRelease ExcelManagerFacts.

Lemma acquire_refused me env lock lock' :
  acquire me env lock = (false, lock') -> lock' = lock.
Proof.
  unfold acquire. destruct (owner lock) as [t|]; [|discriminate].
  destruct (Nat.eqb t me); [discriminate|].
  destruct (lock_freed_in_time env); [discriminate|].
  intros [= <-]. reflexivity.
Qed.

(** [release_excel] and the lock.  Without [force_quit=True] nothing
    happens.  Otherwise the lock is asked for with a timeout of 10
    seconds; when it is not obtained only a warning is logged.  When it
    is obtained the call ends with its one release and the caller holds
    the lock as often as before, [CoUninitialize] is called exactly once
    whatever failed before, [Quit] is sent exactly when [CoInitialize]
    succeeded and a running Excel was found, and the closing is reported
    exactly when [Quit] succeeded too. *)
Theorem release_excel_discipline (me : thread_id) (env : environment)
    (active : option string) (force_quit : option bool) (lock : RLock) :
  let '(lock', steps) := release_excel me env active force_quit lock in
  if negb (default false force_quit) then lock' = lock /\ steps = []
  else if (acquire me env lock).1 then
    head steps = Some (performed (lock_acquire 10 true))
    /\ last steps = Some (performed lock_release)
    /\ length (List.filter is_release steps) = 1%nat
    /\ holds me lock' = holds me lock
    /\ length (List.filter (is_site CoUninitialize) steps) = 1%nat
    /\ existsb (is_site Quit) steps
       = no_failure env CoInitialize && bool_decide (active = None)
    /\ existsb reports_closing steps
       = no_failure env CoInitialize && bool_decide (active = None)
         && no_failure env Quit
  else
    lock' = lock
    /\ steps = [performed (lock_acquire 10 false);
                logger_warning "Could not acquire lock to force close Excel"].
Proof.
  unfold release_excel.
  destruct (default false force_quit); cbn [negb]; [|split; reflexivity].
  destruct (acquire me env lock) as [[|] lock1] eqn:Hacq; cbn [negb fst].
  - pose proof (holds_release_acquire me env lock lock1 Hacq) as Hholds.
    unfold try_except, bind, call, get_active_object, note, ret, no_failure.
    destruct (fails env CoInitialize), active, (fails env Quit),
      (fails env CoUninitialize); cbn;
      repeat split; try reflexivity; try exact Hholds.
  - split; [exact (acquire_refused me env lock lock1 Hacq)|reflexivity].
Qed.

End ReleaseFacts.

(** ** Facts about the pipeline: the engine file and the waiting *)

Module PipelineFacts.
Import Calendar Helpers ExcelReport Pipeline.
Local Open Scope pipeline_scope.

(** *** [_find_engine_file] *)

Lemma max_from_spec (env : surroundings) (items : list string) :
  forall best bk,
    readable env items ->
    exists f t,
      max_from (path_getmtime env) best bk items = Returned f
      /\ bk <= t
      /\ (f = best /\ t = bk
          \/ exists i : nat,
               items !! i = Some f /\ path_getmtime env f = Returned t /\ bk < t
               /\ forall (j : nat) g, (j < i)%nat -> items !! j = Some g ->
                    exists t', path_getmtime env g = Returned t' /\ t' < t)
      /\ forall (j : nat) g, items !! j = Some g ->
           exists t', path_getmtime env g = Returned t' /\ t' <= t.
Proof.
  induction items as [|x items IH]; intros best bk Hread.
  - exists best, bk. cbn [max_from]. split; [reflexivity|]. split; [lia|].
    split; [left; split; reflexivity|]. intros j g Hj. discriminate.
  - inversion Hread as [|? ? [k Hk] Hrest]; subst.
    cbn [max_from]. rewrite Hk. cbn [ended_bind].
    destruct (Z.ltb_spec bk k) as [Hlt|Hge].
    + destruct (IH x k Hrest) as (f & t & Hrun & Hkt & Hwhich & Hall).
      exists f, t. split; [exact Hrun|]. split; [lia|]. split.
      * right. destruct Hwhich as [[-> ->]|(i & Hi & Hf & Hlt' & Hbefore)].
        -- exists 0%nat. split; [reflexivity|]. split; [exact Hk|].
           split; [exact Hlt|]. intros j g Hj. lia.
        -- exists (S i). split; [exact Hi|]. split; [exact Hf|].
           split; [lia|]. intros [|j] g Hj Hg.
           ++ injection Hg as <-. exists k. split; [exact Hk|lia].
           ++ apply (Hbefore j g); [lia|exact Hg].
      * intros [|j] g Hg.
        -- injection Hg as <-. exists k. split; [exact Hk|lia].
        -- apply (Hall j g Hg).
    + destruct (IH best bk Hrest) as (f & t & Hrun & Hkt & Hwhich & Hall).
      exists f, t. split; [exact Hrun|]. split; [lia|]. split.
      * destruct Hwhich as [[-> ->]|(i & Hi & Hf & Hlt' & Hbefore)];
          [left; split; reflexivity|].
        right. exists (S i). split; [exact Hi|]. split; [exact Hf|].
        split; [lia|]. intros [|j] g Hj Hg.
        -- injection Hg as <-. exists k. split; [exact Hk|lia].
        -- apply (Hbefore j g); [lia|exact Hg].
      * intros [|j] g Hg.
        -- injection Hg as <-. exists k. split; [exact Hk|lia].
        -- apply (Hall j g Hg).
Qed.

Lemma py_max_newest (env : surroundings) (x : string) (items : list string) :
  readable env (x :: items) ->
  exists f, py_max (path_getmtime env) (x :: items) = Returned f
            /\ newest_first env (x :: items) f.
Proof.
  intros Hread. inversion Hread as [|? ? [k Hk] Hrest]; subst.
  cbn [py_max]. rewrite Hk. cbn [ended_bind].
  destruct (max_from_spec env items x k Hrest)
    as (f & t & Hrun & Hkt & Hwhich & Hall).
  exists f. split; [exact Hrun|].
  destruct Hwhich as [[-> ->]|(i & Hi & Hf & Hlt & Hbefore)].
  - exists 0%nat, k. split; [reflexivity|]. split; [exact Hk|].
    intros [|j] g Hg.
    + injection Hg as <-. exists k. split; [exact Hk|]. split; lia.
    + destruct (Hall j g Hg) as (t' & Ht' & Hle).
      exists t'. split; [exact Ht'|]. split; [exact Hle|lia].
  - exists (S i), t. split; [exact Hi|]. split; [exact Hf|].
    intros [|j] g Hg.
    + injection Hg as <-. exists k. split; [exact Hk|]. split; lia.
    + destruct (Hall j g Hg) as (t' & Ht' & Hle).
      exists t'. split; [exact Ht'|]. split; [exact Hle|].
      intros Hj. destruct (Hbefore j g ltac:(lia) Hg) as (t'' & Ht'' & Hlt'').
      rewrite Ht' in Ht''. injection Ht'' as ->. exact Hlt''.
Qed.

(** The engine workbook that is chosen.  With no match for either pattern
    the search raises [FileNotFoundError], naming both patterns and the
    working directory.  As soon as one [.xlsm] file matches, the result is
    one of the newest [.xlsm] matches, the first of them in the order of
    [glob], and the [.xlsx] matches are not looked at, however new they
    are; only without any [.xlsm] match is the newest [.xlsx] taken. *)
Theorem find_engine_file_prefers_xlsm (env : surroundings) :
  let xlsm := glob_glob env
                (path_join env (getcwd env) "*AO MO SO CHECKER*.xlsm") in
  let xlsx := glob_glob env
                (path_join env (getcwd env) "*AO MO SO CHECKER*.xlsx") in
  match xlsm, xlsx with
  | [], [] =>
    _find_engine_file env
    = Raised (FileNotFoundError
              ("No engine workbook (*AO MO SO CHECKER*.xlsm, "
               +:+ "*AO MO SO CHECKER*.xlsx) found in " +:+ getcwd env))
  | [], _ :: _ =>
    readable env xlsx ->
    exists f, _find_engine_file env = Returned f /\ newest_first env xlsx f
  | _ :: _, _ =>
    readable env xlsm ->
    exists f, _find_engine_file env = Returned f /\ newest_first env xlsm f
  end.
Proof.
  cbv zeta. unfold _find_engine_file, ENGINE_PATTERNS.
  cbn [first_pattern_with_matches].
  destruct (glob_glob env
              (path_join env (getcwd env) "*AO MO SO CHECKER*.xlsm"))
    as [|x1 m1].
  - destruct (glob_glob env
                (path_join env (getcwd env) "*AO MO SO CHECKER*.xlsx"))
      as [|x2 m2].
    + reflexivity.
    + intros Hread. apply (py_max_newest env x2 m2 Hread).
  - intros Hread. apply (py_max_newest env x1 m1 Hread).
Qed.

(** *** [_wait_for_calculations] *)

Lemma backoff_0 : backoff 0 = half.
Proof. reflexivity. Qed.

Lemma next_interval_backoff (k : nat) : next_interval (backoff k) = backoff (S k).
Proof.
  do 5 (destruct k as [|k]; [vm_compute; reflexivity|]).
  unfold backoff.
  replace (S (S (S (S (S k)))) <? 5)%nat with false
    by (symmetry; apply Nat.ltb_ge; lia).
  replace (S (S (S (S (S (S k))))) <? 5)%nat with false
    by (symmetry; apply Nat.ltb_ge; lia).
  vm_compute. reflexivity.
Qed.

Lemma sleeps_app t1 t2 : sleeps (t1 ++ t2) = sleeps t1 ++ sleeps t2.
Proof. unfold sleeps. apply omap_app. Qed.

Lemma sleeps_engine evs : sleeps (map engine evs) = [].
Proof. induction evs as [|e evs IH]; [reflexivity|exact IH]. Qed.

Lemma sleeps_snoc_sleep t i : sleeps (t ++ [time_sleep i]) = sleeps t ++ [i].
Proof. apply sleeps_app. Qed.

Lemma calls_app c t1 t2 : calls c (t1 ++ t2) = (calls c t1 + calls c t2)%nat.
Proof. unfold calls. rewrite List.filter_app, length_app. reflexivity. Qed.

Lemma calls_engine c evs : calls c (map engine evs) = 0%nat.
Proof. induction evs as [|e evs IH]; [reflexivity|exact IH]. Qed.

Lemma calls_external_other c c' : c' <> c -> calls c [external c'] = 0%nat.
Proof.
  intros Hne. unfold calls. cbn [List.filter].
  rewrite bool_decide_eq_false_2 by exact Hne. reflexivity.
Qed.

Lemma wait_loop_step (env : surroundings) (max_wait : Z) (start : spec_float)
    (fuel : nat) (interval : spec_float) (s : session) :
  wait_loop env (S fuel) start max_wait interval s
  = match fails env read_CalculationState with
    | Some e =>
      (Fail e,
       {| book := book s; trace := trace s ++ [external read_CalculationState];
          excel := excel s; workbook_ := workbook_ s; ticks := ticks s;
          polls := polls s; refreshes := refreshes s |})
    | None =>
      if CalculationState env (polls s) =? 0 then
        (match fails env CalculateUntilAsyncQueriesDone with
         | Some e => Fail e
         | None => Done true
         end,
         {| book := book s;
            trace := (trace s ++ [external read_CalculationState])
                     ++ [external CalculateUntilAsyncQueriesDone];
            excel := excel s; workbook_ := workbook_ s; ticks := ticks s;
            polls := S (polls s); refreshes := refreshes s |})
      else if SFltb (float_of_int max_wait)
                    (SFsub 53 1024 (time_time env (ticks s)) start) then
        (Done false,
         {| book := book s;
            trace := (trace s ++ [external read_CalculationState])
                     ++ [engine (Log WARNING
                                   "Calculation timeout — proceeding anyway.")];
            excel := excel s; workbook_ := workbook_ s; ticks := S (ticks s);
            polls := S (polls s); refreshes := refreshes s |})
      else
        wait_loop env fuel start max_wait (next_interval interval)
          {| book := book s;
             trace := (trace s ++ [external read_CalculationState])
                      ++ [time_sleep interval];
             excel := excel s; workbook_ := workbook_ s; ticks := S (ticks s);
             polls := S (polls s); refreshes := refreshes s |}
    end.
Proof.
  cbn [wait_loop].
  unfold bind, CalculationState_, call, bind, note, time_time_, run_engine,
    logger_warning, emit_event, raise, ret.
  destruct (fails env read_CalculationState) as [e|]; [reflexivity|].
  cbn [polls trace excel workbook_ book ticks refreshes].
  destruct (CalculationState env (polls s) =? 0); cbn [negb].
  - destruct (fails env CalculateUntilAsyncQueriesDone); reflexivity.
  - cbn [polls trace excel workbook_ book ticks refreshes].
    destruct (SFltb (float_of_int max_wait)
                    (SFsub 53 1024 (time_time env (ticks s)) start));
      reflexivity.
Qed.

Lemma wait_loop_spec (env : surroundings) (max_wait : Z) (start : spec_float)
    (fuel : nat) :
  forall (k : nat) (s : session),
    exists added,
      trace (snd (wait_loop env fuel start max_wait (backoff k) s))
      = trace s ++ added
      /\ same_locals s (snd (wait_loop env fuel start max_wait (backoff k) s))
      /\ sleeps added = map backoff (seq k (length (sleeps added)))
      /\ (forall c, c <> read_CalculationState ->
                    c <> CalculateUntilAsyncQueriesDone ->
                    calls c added = 0%nat)
      /\ match fst (wait_loop env fuel start max_wait (backoff k) s) with
         | Done true =>
           last added = Some (external CalculateUntilAsyncQueriesDone)
           /\ CalculationState env (polls s + length (sleeps added)) = 0
         | Done false =>
           last added
           = Some (engine (Log WARNING
                             "Calculation timeout — proceeding anyway."))
           /\ CalculationState env (polls s + length (sleeps added)) <> 0
           /\ SFltb (float_of_int max_wait)
                    (SFsub 53 1024
                       (time_time env (ticks s + length (sleeps added)))
                       start) = true
         | _ => True
         end.
Proof.
  induction fuel as [|fuel IH]; intros k s.
  - exists []. cbn [wait_loop unfinished fst snd]. rewrite app_nil_r.
    repeat split; reflexivity.
  - rewrite wait_loop_step.
    destruct (fails env read_CalculationState) as [e|] eqn:Hpoll.
    { exists [external read_CalculationState]. cbn [fst snd trace].
      split; [reflexivity|]. split; [repeat split|]. split; [reflexivity|].
      split; [|exact I].
      intros c Hc _. apply calls_external_other. congruence. }
    destruct (Z.eqb_spec (CalculationState env (polls s)) 0) as [Hzero|Hbusy].
    + exists [external read_CalculationState;
              external CalculateUntilAsyncQueriesDone].
      cbn [fst snd trace]. rewrite <- app_assoc.
      split; [reflexivity|]. split; [repeat split|]. split; [reflexivity|].
      split.
      { intros c Hc1 Hc2. unfold calls. cbn [List.filter].
        rewrite !bool_decide_eq_false_2 by congruence. reflexivity. }
      destruct (fails env CalculateUntilAsyncQueriesDone); [exact I|].
      split; [reflexivity|]. cbn [sleeps omap length].
      rewrite Nat.add_0_r. exact Hzero.
    + destruct (SFltb (float_of_int max_wait)
                      (SFsub 53 1024 (time_time env (ticks s)) start))
        eqn:Hlate.
      * exists [external read_CalculationState;
                engine (Log WARNING "Calculation timeout — proceeding anyway.")].
        cbn [fst snd trace]. rewrite <- app_assoc.
        split; [reflexivity|]. split; [repeat split|]. split; [reflexivity|].
        split.
        { intros c Hc1 Hc2. unfold calls. cbn [List.filter].
          rewrite !bool_decide_eq_false_2 by congruence. reflexivity. }
        cbn [sleeps omap length]. rewrite !Nat.add_0_r.
        split; [reflexivity|]. split; [exact Hbusy|exact Hlate].
      * rewrite next_interval_backoff.
        set (s1 := {| book := book s;
                      trace := (trace s ++ [external read_CalculationState])
                               ++ [time_sleep (backoff k)];
                      excel := excel s; workbook_ := workbook_ s;
                      ticks := S (ticks s); polls := S (polls s);
                      refreshes := refreshes s |}).
        destruct (IH (S k) s1) as (added & Htr & Hloc & Hsl & Hcalls & Hend).
        exists ([external read_CalculationState; time_sleep (backoff k)]
                ++ added).
        rewrite Htr. unfold s1 at 1. cbn [trace]. rewrite <- !app_assoc.
        split; [reflexivity|].
        split; [destruct Hloc as (? & ? & ? & ?); repeat split; assumption|].
        assert (Hlen : sleeps ([external read_CalculationState;
                                time_sleep (backoff k)] ++ added)
                       = backoff k :: sleeps added) by reflexivity.
        rewrite Hlen. cbn [length seq map].
        split; [rewrite Hsl at 1; reflexivity|].
        split.
        { intros c Hc1 Hc2. rewrite calls_app, (Hcalls c Hc1 Hc2).
          unfold calls. cbn [List.filter].
          rewrite !bool_decide_eq_false_2 by congruence. reflexivity. }
        replace (polls s + S (length (sleeps added)))%nat
          with (polls s1 + length (sleeps added))%nat
          by (unfold s1; cbn [polls]; lia).
        replace (ticks s + S (length (sleeps added)))%nat
          with (ticks s1 + length (sleeps added))%nat
          by (unfold s1; cbn [ticks]; lia).
        destruct (fst (wait_loop env fuel start max_wait (backoff (S k)) s1))
          as [[|]| |]; try exact I.
        -- destruct Hend as [Hlast Hz]. split; [|exact Hz].
           rewrite last_app, Hlast. reflexivity.
        -- destruct Hend as (Hlast & Hz & Hl). split; [|split; assumption].
           rewrite last_app, Hlast. reflexivity.
Qed.

Lemma wait_loop_finishes (env : surroundings) (max_wait : Z)
    (start : spec_float) :
  forall (n fuel : nat) (interval : spec_float) (s : session),
    (n < fuel)%nat ->
    CalculationState env (polls s + n) = 0 ->
    fst (wait_loop env fuel start max_wait interval s) <> Unfinished.
Proof.
  induction n as [|n IH]; intros fuel interval s Hn Hzero;
    (destruct fuel as [|fuel]; [lia|]); rewrite wait_loop_step;
    destruct (fails env read_CalculationState); try discriminate.
  - rewrite Nat.add_0_r in Hzero. rewrite Hzero. cbn [Z.eqb fst].
    destruct (fails env CalculateUntilAsyncQueriesDone); discriminate.
  - destruct (CalculationState env (polls s) =? 0).
    + cbn [fst]. destruct (fails env CalculateUntilAsyncQueriesDone);
        discriminate.
    + destruct (SFltb (float_of_int max_wait)
                      (SFsub 53 1024 (time_time env (ticks s)) start));
        [discriminate|].
      apply IH; [lia|]. cbn [polls].
      replace (S (polls s) + n)%nat with (polls s + S n)%nat by lia.
      exact Hzero.
Qed.

Lemma backoff_le_three (k : nat) : SFleb (backoff k) three = true.
Proof.
  do 5 (destruct k as [|k]; [vm_compute; reflexivity|]).
  unfold backoff.
  replace (S (S (S (S (S k)))) <? 5)%nat with false
    by (symmetry; apply Nat.ltb_ge; lia).
  vm_compute. reflexivity.
Qed.

Lemma wait_for_calculations_unfold (env : surroundings) (fuel : nat)
    (max_wait : option Z) (s : session) :
  _wait_for_calculations env fuel max_wait s
  = wait_loop env fuel (time_time env (ticks s)) (default 60 max_wait)
      (backoff 0)
      {| book := book s; trace := trace s; excel := excel s;
         workbook_ := workbook_ s; ticks := S (ticks s);
         polls := polls s; refreshes := refreshes s |}.
Proof. reflexivity. Qed.


End PipelineFacts.

(** ** Facts about [SAP_Init] *)

Module SapFacts.
Import Sap.

Lemma tries_app s1 s2 : tries (s1 ++ s2) = (tries s1 + tries s2)%nat.
Proof. unfold tries. rewrite List.filter_app, length_app. reflexivity. Qed.

Lemma slept_app s1 s2 : slept (s1 ++ s2) = slept s1 + slept s2.
Proof.
  unfold slept. induction s1 as [|st s1 IH]; [reflexivity|].
  cbn [app foldr]. destruct st; rewrite IH; lia.
Qed.

Lemma turn_early (observe : Z -> observation) (j : Z) :
  j < 9 -> connects observe j = false ->
  exists steps,
    turn observe j = (None, steps) /\ tries steps = 1%nat
    /\ slept steps = if pauses observe j then 2 else 0.
Proof.
  intros Hj Hc. unfold turn, connects, pauses, on_exception in *.
  change (max_retries - 1) with 9.
  destruct (Z.ltb_spec j 9); [|lia].
  destruct (observe j) as [msg| |count conn].
  - eexists. split; [reflexivity|]. split; reflexivity.
  - eexists. split; [reflexivity|]. split; reflexivity.
  - destruct (count =? 0); [|discriminate].
    eexists. split; [reflexivity|]. split; reflexivity.
Qed.

Lemma turn_connects (observe : Z -> observation) (k : Z) :
  connects observe k = true ->
  exists steps,
    turn observe k = (Some (returns (connection_of observe k)), steps)
    /\ tries steps = 1%nat /\ slept steps = 0.
Proof.
  intros Hc. unfold turn, connects, connection_of in *.
  destruct (observe k) as [msg| |count conn]; try discriminate.
  destruct (count =? 0); [discriminate|].
  eexists. split; [reflexivity|]. split; reflexivity.
Qed.

Lemma turn_last (observe : Z -> observation) :
  connects observe 9 = false ->
  exists steps,
    (turn observe 9 = (Some (last_turn_ending observe), steps)
     \/ last_turn_ending observe = returns_None
        /\ turn observe 9 = (None, steps))
    /\ tries steps = 1%nat /\ slept steps = 0.
Proof.
  intros Hc. unfold turn, connects, last_turn_ending, on_exception in *.
  change (max_retries - 1) with 9. change (9 <? 9) with false.
  destruct (observe 9) as [msg| |count conn].
  - eexists. split; [left; reflexivity|]. split; reflexivity.
  - eexists. split; [right; split; reflexivity|]. split; reflexivity.
  - destruct (count =? 0); [|discriminate].
    eexists. split; [left; reflexivity|]. split; reflexivity.
Qed.

Lemma filter_pauses_cons (observe : Z -> observation) (a : Z) (l : list Z) :
  Z.of_nat (length (List.filter (pauses observe) (a :: l)))
  = (if pauses observe a then 1 else 0)
    + Z.of_nat (length (List.filter (pauses observe) l)).
Proof. cbn [List.filter]. destruct (pauses observe a); cbn [length]; lia. Qed.

(** The turns from [a] on, when turn [a + m] is the first to connect. *)
Lemma turns_connect (observe : Z -> observation) (m : nat) :
  forall a n,
    0 <= a -> a + Z.of_nat m < 10 -> a + n = 10 ->
    connects observe (a + Z.of_nat m) = true ->
    (forall j, a <= j < a + Z.of_nat m -> connects observe j = false) ->
    fst (turns observe (seqZ a n))
    = returns (connection_of observe (a + Z.of_nat m))
    /\ tries (snd (turns observe (seqZ a n))) = S m
    /\ slept (snd (turns observe (seqZ a n)))
       = 2 * Z.of_nat (length (List.filter (pauses observe)
                                 (seqZ a (Z.of_nat m)))).
Proof.
  induction m as [|m IH]; intros a n Ha Hk Hn Hc Hbefore.
  - rewrite Z.add_0_r in *. rewrite (seqZ_cons a n) by lia. cbn [turns].
    destruct (turn_connects observe a Hc) as (steps & -> & Ht & Hs).
    cbn [fst snd]. rewrite Ht, Hs. repeat split.
  - rewrite (seqZ_cons a n) by lia. cbn [turns].
    destruct (turn_early observe a ltac:(lia) (Hbefore a ltac:(lia)))
      as (steps & -> & Ht & Hs).
    destruct (IH (Z.succ a) (Z.pred n) ltac:(lia) ltac:(lia) ltac:(lia))
      as (Hr & Ht' & Hs').
    { replace (Z.succ a + Z.of_nat m) with (a + Z.of_nat (S m)) by lia.
      exact Hc. }
    { intros j Hj. apply Hbefore. lia. }
    destruct (turns observe (seqZ (Z.succ a) (Z.pred n))) as [r steps'].
    cbn [fst snd] in *. rewrite tries_app, slept_app, Ht, Ht', Hs, Hs'.
    replace (Z.succ a + Z.of_nat m) with (a + Z.of_nat (S m)) in Hr by lia.
    split; [exact Hr|]. split; [reflexivity|].
    rewrite (seqZ_cons a (Z.of_nat (S m))) by lia.
    rewrite filter_pauses_cons.
    replace (Z.pred (Z.of_nat (S m))) with (Z.of_nat m) by lia.
    destruct (pauses observe a); lia.
Qed.

(** The turns from [a] on, when none connects. *)
Lemma turns_no_connect (observe : Z -> observation) (m : nat) :
  forall a,
    0 <= a -> a + Z.of_nat m = 9 ->
    (forall j, a <= j < 10 -> connects observe j = false) ->
    fst (turns observe (seqZ a (Z.of_nat (S m)))) = last_turn_ending observe
    /\ tries (snd (turns observe (seqZ a (Z.of_nat (S m))))) = S m
    /\ slept (snd (turns observe (seqZ a (Z.of_nat (S m)))))
       = 2 * Z.of_nat (length (List.filter (pauses observe)
                                 (seqZ a (Z.of_nat m)))).
Proof.
  induction m as [|m IH]; intros a Ha Hend Hnone.
  - assert (a = 9) as -> by lia.
    change (seqZ 9 (Z.of_nat 1)) with [9]. cbn [turns].
    destruct (turn_last observe (Hnone 9 ltac:(lia)))
      as (steps & [Hturn|[Hnone' Hturn]] & Ht & Hs); rewrite Hturn.
    + cbn [fst snd]. rewrite Ht, Hs. repeat split.
    + cbn [fst snd]. rewrite app_nil_r, Ht, Hs, Hnone'. repeat split.
  - rewrite (seqZ_cons a (Z.of_nat (S (S m)))) by lia. cbn [turns].
    destruct (turn_early observe a ltac:(lia) (Hnone a ltac:(lia)))
      as (steps & -> & Ht & Hs).
    replace (Z.pred (Z.of_nat (S (S m)))) with (Z.of_nat (S m)) by lia.
    destruct (IH (Z.succ a) ltac:(lia) ltac:(lia)) as (Hr & Ht' & Hs').
    { intros j Hj. apply Hnone. lia. }
    destruct (turns observe (seqZ (Z.succ a) (Z.of_nat (S m)))) as [r steps'].
    cbn [fst snd] in *. rewrite tries_app, slept_app, Ht, Ht', Hs, Hs'.
    split; [exact Hr|]. split; [reflexivity|].
    rewrite (seqZ_cons a (Z.of_nat (S m))) by lia.
    rewrite filter_pauses_cons.
    replace (Z.pred (Z.of_nat (S m))) with (Z.of_nat m) by lia.
    destruct (pauses observe a); lia.
Qed.

Lemma pauses_before_bound (observe : Z -> observation) (k : Z) :
  0 <= k -> 0 <= pauses_before observe k <= k.
Proof.
  intros Hk. unfold pauses_before.
  pose proof (List.filter_length_le (pauses observe) (seqZ 0 k)) as Hle.
  rewrite length_seqZ in Hle. lia.
Qed.


End SapFacts.

(** ** Who reports progress *)

Module ProgressFacts.
Import ExcelReport ExcelReportFacts Layout FloatFacts LoopFacts.

Lemma progress_of_app e1 e2 :
  progress_of (e1 ++ e2) = progress_of e1 ++ progress_of e2.
Proof. unfold progress_of. apply omap_app. Qed.

Lemma silent_ret {A} (a : A) : silent (ret a).
Proof. intros w. exists []. split; [symmetry; apply app_nil_r|reflexivity]. Qed.

Lemma silent_raise {A} (e : exn) : silent (@raise A e).
Proof. intros w. exists []. split; [symmetry; apply app_nil_r|reflexivity]. Qed.

Lemma silent_lift {A} (r : result A) : silent (lift r).
Proof. intros w. exists []. split; [symmetry; apply app_nil_r|reflexivity]. Qed.

Lemma silent_getitem {A} key (field : option A) : silent (getitem key field).
Proof. destruct field; [apply silent_ret|apply silent_raise]. Qed.

Lemma silent_bind {A B} (m : M A) (k : A -> M B) :
  silent m -> (forall a, silent (k a)) -> silent (bind m k).
Proof.
  intros Hm Hk w. unfold bind. destruct (Hm w) as (e1 & E1 & P1).
  destruct (m w) as [[a|e] w']; cbn [snd] in *; [|exists e1; split; assumption].
  destruct (Hk a w') as (e2 & E2 & P2).
  exists (e1 ++ e2). rewrite E2, E1, app_assoc, progress_of_app, P1, P2.
  split; reflexivity.
Qed.

Lemma silent_try_except {A} (body : M A) (handler : exn -> M A) :
  silent body -> (forall e, silent (handler e)) ->
  silent (try_except body handler).
Proof.
  intros Hm Hk w. unfold try_except. destruct (Hm w) as (e1 & E1 & P1).
  destruct (body w) as [[a|e] w']; cbn [snd] in *; [exists e1; split; assumption|].
  destruct (Hk e w') as (e2 & E2 & P2).
  exists (e1 ++ e2). rewrite E2, E1, app_assoc, progress_of_app, P1, P2.
  split; reflexivity.
Qed.

Lemma silent_for_each {A} (l : list A) (body : A -> M unit) :
  (forall x, silent (body x)) -> silent (for_each l body).
Proof.
  intros Hbody. induction l as [|x l IH]; cbn [for_each].
  - apply silent_ret.
  - apply silent_bind; [apply Hbody|intros _; exact IH].
Qed.

Lemma silent_emit_event e : is_progress e = false -> silent (emit_event e).
Proof.
  intros He w. exists [e]. split; [reflexivity|].
  destruct e; try discriminate; reflexivity.
Qed.

Lemma silent_Sheets name : silent (Sheets name).
Proof.
  intros w. exists []. unfold Sheets.
  destruct (workbook w !! name); (split; [symmetry; apply app_nil_r|reflexivity]).
Qed.

Lemma silent_PivotTables sheet name : silent (PivotTables_ sheet name).
Proof.
  unfold PivotTables_. apply silent_bind; [apply silent_Sheets|].
  intros ws. destruct (PivotTables ws !! name);
    [apply silent_ret|apply silent_raise].
Qed.

Lemma silent_ListObjects sheet name : silent (ListObjects_ sheet name).
Proof.
  unfold ListObjects_. apply silent_bind; [apply silent_Sheets|].
  intros ws. destruct (ListObjects ws !! name);
    [apply silent_ret|apply silent_raise].
Qed.

Lemma silent_write_cell sheet r c v : silent (write_cell sheet r c v).
Proof.
  intros w. unfold write_cell, bind, Sheets.
  destruct (workbook w !! sheet) as [ws|].
  - exists [Write sheet r c v]. split; reflexivity.
  - exists []. split; [symmetry; apply app_nil_r|reflexivity].
Qed.

Lemma silent_write_list_row sheet t n i j v :
  silent (write_list_row sheet t n i j v).
Proof. apply silent_write_cell. Qed.

Lemma silent_write_date_stamp op sheet t n :
  silent (write_date_stamp op sheet t n).
Proof.
  unfold write_date_stamp. destruct (date_col op) as [[col date_val]|];
    [apply silent_write_list_row|apply silent_ret].
Qed.

Lemma silent_ListRows_Add sheet table : silent (ListRows_Add_ sheet table).
Proof.
  intros w. unfold ListRows_Add_, bind, ListObjects_, bind, Sheets.
  destruct (workbook w !! sheet) as [ws|] eqn:Hws;
    [|exists []; split; [symmetry; apply app_nil_r|reflexivity]].
  rewrite Hws.
  destruct (ListObjects ws !! table) as [t|];
    [|exists []; split; [symmetry; apply app_nil_r|reflexivity]].
  exists [ListRows_Add sheet table]. split; reflexivity.
Qed.

Ltac silent_step :=
  first
    [ apply silent_ret
    | apply silent_raise
    | apply silent_lift
    | apply silent_getitem
    | apply silent_emit_event; reflexivity
    | apply silent_Sheets
    | apply silent_PivotTables
    | apply silent_ListObjects
    | apply silent_ListRows_Add
    | apply silent_write_date_stamp
    | apply silent_write_list_row
    | apply silent_write_cell
    | apply silent_for_each; intros ?
    | apply silent_try_except; [|intros ?]
    | apply silent_bind; [|intros ?]
    | match goal with
      | |- silent (match ?x with _ => _ end) => destruct x
      | |- silent (if ?x then _ else _) => destruct x
      end ].

Ltac silent_auto :=
  unfold logger_info, logger_warning, logger_error; repeat silent_step.

Section Handlers.
Variable float_repr : spec_float -> string.

Lemma silent_copy_data_body_range ss op :
  silent (_copy_data_body_range ss op).
Proof. unfold _copy_data_body_range. silent_auto. Qed.

Lemma silent_search_row_copy_columns ss op :
  silent (_search_row_copy_columns float_repr ss op).
Proof. unfold _search_row_copy_columns. silent_auto. Qed.

Lemma silent_previous_full_day_lookup ss op :
  silent (_previous_full_day_lookup float_repr ss op).
Proof. unfold _previous_full_day_lookup. silent_auto. Qed.

Lemma silent_single_cell_extraction ss op :
  silent (_single_cell_extraction float_repr ss op).
Proof. unfold _single_cell_extraction. silent_auto. Qed.

Lemma silent_search_row_with_blank_check ss op :
  silent (_search_row_with_blank_check float_repr ss op).
Proof. unfold _search_row_with_blank_check. silent_auto. Qed.

Lemma silent_sheet_range_copy op : silent (_sheet_range_copy op).
Proof. unfold _sheet_range_copy. silent_auto. Qed.

Lemma silent_call_handler p h ss op :
  _DISPATCH float_repr p = Some h -> silent (call_handler p h ss op).
Proof.
  unfold _DISPATCH, call_handler. intros Hdisp.
  repeat match type of Hdisp with
         | (if String.eqb p ?c then _ else _) = _ =>
           destruct (String.eqb_spec p c) as [->|?];
             [injection Hdisp as <-;
              cbn [String.eqb Ascii.eqb Bool.eqb call2 call3]|]
         end; try discriminate.
  - apply silent_copy_data_body_range.
  - apply silent_search_row_copy_columns.
  - apply silent_previous_full_day_lookup.
  - apply silent_single_cell_extraction.
  - apply silent_search_row_with_blank_check.
  - apply silent_sheet_range_copy.
Qed.

(** One turn of the loop reports its percentage, once, and nothing else. *)
Lemma run_operation_progress cb ss total idx op pct w :
  known_operation float_repr op = true ->
  percent idx total = Ok pct ->
  fst (run_operation float_repr cb ss total idx op w) = Ok tt
  /\ progress_of (events (snd (run_operation float_repr cb ss total idx op w)))
     = progress_of (events w) ++ (if cb then [pct] else []).
Proof.
  intros Hknown Hpct.
  destruct (known_operation_inv float_repr op Hknown) as (p & h & n & Hp & Hh & Hn).
  rewrite (run_operation_known float_repr cb ss total idx op p h n pct w
             Hp Hh Hn Hpct).
  cbn [fst snd events]. split; [reflexivity|].
  destruct (silent_call_handler p h ss op Hh w) as (evs & -> & Hevs).
  rewrite !progress_of_app, Hevs, app_nil_r.
  f_equal.
  assert (Hf : progress_of
                 (failure_log n (fst (call_handler p h ss op w))) = [])
    by (destruct (fst (call_handler p h ss op w)); reflexivity).
  rewrite Hf. destruct cb; reflexivity.
Qed.

(** The turns of a loop whose operations have the percentages [pcts]. *)
Lemma for_each_progress cb ss total (items : list (Z * operation)) :
  forall (pcts : list Z) w,
    Forall2 (fun item pct =>
               known_operation float_repr (snd item) = true
               /\ percent (fst item) total = Ok pct) items pcts ->
    fst (for_each items (fun '(idx, op) =>
           run_operation float_repr cb ss total idx op) w) = Ok tt
    /\ progress_of
         (events (snd (for_each items (fun '(idx, op) =>
                         run_operation float_repr cb ss total idx op) w)))
       = progress_of (events w) ++ (if cb then pcts else []).
Proof.
  induction items as [|[idx op] items IH]; intros pcts w Hall.
  - inversion Hall; subst. cbn [for_each ret fst snd].
    split; [reflexivity|]. destruct cb; rewrite app_nil_r; reflexivity.
  - inversion Hall as [|? pct ? pcts' [Hk Hp] Hrest]; subst.
    cbn [fst snd] in Hk, Hp. cbn [for_each]. unfold bind.
    destruct (run_operation_progress cb ss total idx op pct w Hk Hp)
      as [Hr He].
    destruct (run_operation float_repr cb ss total idx op w) as [r w1].
    cbn [fst snd] in Hr, He. subst r.
    destruct (IH pcts' w1 Hrest) as [Hr' He'].
    split; [exact Hr'|]. rewrite He', He, <- app_assoc.
    destruct cb; reflexivity.
Qed.

(** The plan reports the percentages of [plan_percentages], whatever its
    handlers do. *)
Lemma plan_progress cb ss today_str prev_bday_str w :
  fst (operations_loop float_repr cb ss
         (_build_operations today_str prev_bday_str) w) = Ok tt
  /\ progress_of
       (events (snd (operations_loop float_repr cb ss
                       (_build_operations today_str prev_bday_str) w)))
     = progress_of (events w) ++ (if cb then plan_percentages else []).
Proof.
  unfold operations_loop. cbv zeta.
  apply for_each_progress.
  change (len_or_1 (_build_operations today_str prev_bday_str)) with 19.
  unfold _build_operations, enumerate, plan_percentages.
  change (Z.of_nat (length _)) with 19.
  repeat (constructor; [split; [reflexivity|vm_compute; reflexivity]|]).
  constructor.
Qed.

End Handlers.

End ProgressFacts.

(** ** Facts about the pipeline: [main] *)

Module MainFacts.
Import Calendar Helpers ExcelReport Pipeline PipelineFacts.
Local Open Scope pipeline_scope.

(** *** Running the steps *)

Lemma bind_Done {A B} (m : P A) (k : A -> P B) s a s' :
  m s = (Done a, s') -> bind m k s = k a s'.
Proof. intros E. unfold bind. rewrite E. reflexivity. Qed.

Lemma bind_Fail {A B} (m : P A) (k : A -> P B) s e s' :
  m s = (Fail e, s') -> bind m k s = (Fail e, s').
Proof. intros E. unfold bind. rewrite E. reflexivity. Qed.

Lemma bind_Unfinished {A B} (m : P A) (k : A -> P B) s s' :
  m s = (Unfinished, s') -> bind m k s = (Unfinished, s').
Proof. intros E. unfold bind. rewrite E. reflexivity. Qed.

Lemma call_run env c s :
  call env c s
  = (match fails env c with Some e => Fail e | None => Done tt end,
     {| book := book s; trace := trace s ++ [external c]; excel := excel s;
        workbook_ := workbook_ s; ticks := ticks s; polls := polls s;
        refreshes := refreshes s |}).
Proof.
  unfold call, bind, note, raise, ret. destruct (fails env c); reflexivity.
Qed.

Lemma emit_run cb pct stage s :
  emit_ cb pct stage s
  = (Done tt,
     {| book := book s;
        trace := trace s ++ map engine (progress_log cb pct stage);
        excel := excel s; workbook_ := workbook_ s; ticks := ticks s;
        polls := polls s; refreshes := refreshes s |}).
Proof.
  unfold emit_, run_engine, emit, ExcelReport.bind, logger_info, emit_event,
    ExcelReport.ret, progress_log.
  destruct cb; reflexivity.
Qed.

Lemma calls_nil c : calls c [] = 0%nat.
Proof. reflexivity. Qed.

Lemma calls_external c c' :
  calls c [external c'] = if bool_decide (c' = c) then 1%nat else 0%nat.
Proof. unfold calls. cbn [List.filter]. destruct (bool_decide (c' = c)); reflexivity. Qed.

(** *** Steps that leave the locals alone *)

Section Tame.
Variable guarded : site -> bool.

Lemma tame_ret {A} (a : A) : tame guarded (ret a).
Proof.
  intros s. exists []. cbn [ret snd]. rewrite app_nil_r. repeat split.
Qed.

Lemma tame_raise {A} (e : error) : tame guarded (@raise A e).
Proof.
  intros s. exists []. cbn [raise snd]. rewrite app_nil_r. repeat split.
Qed.

Lemma tame_unfinished {A} : tame guarded (@unfinished A).
Proof.
  intros s. exists []. cbn [unfinished snd]. rewrite app_nil_r. repeat split.
Qed.

Lemma tame_lift {A} (r : ended A) : tame guarded (lift r).
Proof.
  intros s. exists []. cbn [lift snd]. rewrite app_nil_r. repeat split.
Qed.

Lemma tame_bind {A B} (m : P A) (k : A -> P B) :
  tame guarded m -> (forall a, tame guarded (k a)) -> tame guarded (bind m k).
Proof.
  intros Hm Hk s. unfold bind.
  destruct (Hm s) as (added & Htr & Hex & Hwb & Hc).
  destruct (m s) as [[a|e|] s1]; cbn [snd] in *;
    try (exists added; repeat split; assumption).
  destruct (Hk a s1) as (added' & Htr' & Hex' & Hwb' & Hc').
  exists (added ++ added'). rewrite Htr', Htr, Hex', Hex, Hwb', Hwb, app_assoc.
  repeat split. intros c Hg. rewrite calls_app, (Hc c Hg), (Hc' c Hg).
  reflexivity.
Qed.

Lemma tame_note_engine e : tame guarded (note (engine e)).
Proof.
  intros s. exists [engine e]. cbn [note snd trace excel workbook_].
  repeat split.
Qed.

Lemma tame_note_sleep i : tame guarded (note (time_sleep i)).
Proof.
  intros s. exists [time_sleep i]. cbn [note snd trace excel workbook_].
  repeat split.
Qed.

Lemma tame_call env c : guarded c = false -> tame guarded (call env c).
Proof.
  intros Hg s. exists [external c]. rewrite call_run.
  cbn [snd trace excel workbook_]. repeat split.
  intros c' Hc'. apply calls_external_other. congruence.
Qed.

Lemma tame_run_engine {A} (m : M A) : tame guarded (run_engine m).
Proof.
  intros s. unfold run_engine.
  destruct (m {| workbook := book s; events := [] |}) as [r w].
  exists (map engine (events w)). cbn [snd trace excel workbook_].
  repeat split. intros c _. apply calls_engine.
Qed.

Lemma tame_emit cb pct stage : tame guarded (emit_ cb pct stage).
Proof. apply tame_run_engine. Qed.

Lemma tame_time_time env : tame guarded (time_time_ env).
Proof.
  intros s. exists []. cbn [time_time_ snd trace excel workbook_].
  rewrite app_nil_r. repeat split.
Qed.

Lemma tame_CalculationState env :
  guarded read_CalculationState = false -> tame guarded (CalculationState_ env).
Proof.
  intros Hg. unfold CalculationState_. apply tame_bind; [apply tame_call, Hg|].
  intros _ s. exists []. cbn [snd trace excel workbook_].
  rewrite app_nil_r. repeat split.
Qed.

Lemma tame_RefreshAll env c : guarded c = false -> tame guarded (RefreshAll_ env c).
Proof.
  intros Hg. unfold RefreshAll_. apply tame_bind; [apply tame_call, Hg|].
  intros _ s. exists []. cbn [snd trace excel workbook_].
  rewrite app_nil_r. repeat split.
Qed.

Lemma tame_wait_loop env fuel start max_wait :
  guarded read_CalculationState = false ->
  guarded CalculateUntilAsyncQueriesDone = false ->
  forall interval, tame guarded (wait_loop env fuel start max_wait interval).
Proof.
  intros Hg1 Hg2. induction fuel as [|fuel IH]; intros interval;
    cbn [wait_loop]; [apply tame_unfinished|].
  apply tame_bind; [apply tame_CalculationState, Hg1|]. intros state.
  destruct (negb (state =? 0)).
  - apply tame_bind; [apply tame_time_time|]. intros now.
    destruct (SFltb _ _).
    + apply tame_bind; [apply tame_run_engine|]. intros _. apply tame_ret.
    + apply tame_bind; [apply tame_note_sleep|]. intros _. apply IH.
  - apply tame_bind; [apply tame_call, Hg2|]. intros _. apply tame_ret.
Qed.

Lemma tame_wait env fuel max_wait :
  guarded read_CalculationState = false ->
  guarded CalculateUntilAsyncQueriesDone = false ->
  tame guarded (_wait_for_calculations env fuel max_wait).
Proof.
  intros Hg1 Hg2. unfold _wait_for_calculations. cbv zeta.
  apply tame_bind; [apply tame_time_time|]. intros start.
  apply tame_wait_loop; assumption.
Qed.

Lemma tame_times n (body : P unit) :
  tame guarded body -> tame guarded (times n body).
Proof.
  intros Hb. induction n as [|n IH]; cbn [times]; [apply tame_ret|].
  apply tame_bind; [exact Hb|intros _; exact IH].
Qed.

Lemma tame_subtract fuel d : tame guarded (subtract_one_business_day_ fuel d).
Proof.
  unfold subtract_one_business_day_.
  destruct (subtract_one_business_day fuel d) as [[r|e]|];
    [apply tame_ret|apply tame_raise|apply tame_unfinished].
Qed.

End Tame.

Lemma tame_weaken (g g' : site -> bool) {A} (m : P A) :
  (forall c, g' c = true -> g c = true) -> tame g m -> tame g' m.
Proof.
  intros Hgg Hm s. destruct (Hm s) as (added & Htr & Hex & Hwb & Hc).
  exists added. repeat split; try assumption. intros c Hc'. apply Hc, Hgg, Hc'.
Qed.

Ltac tame_step :=
  lazymatch goal with
  | |- tame _ (bind _ _) => apply tame_bind; [|intros ?]
  | |- tame _ (ret _) => apply tame_ret
  | |- tame _ (raise _) => apply tame_raise
  | |- tame _ (lift _) => apply tame_lift
  | |- tame _ (call _ _) => apply tame_call; reflexivity
  | |- tame _ (run_engine _) => apply tame_run_engine
  | |- tame _ (emit_ _ _ _) => apply tame_emit
  | |- tame _ (RefreshAll_ _ _) => apply tame_RefreshAll; reflexivity
  | |- tame _ (_wait_for_calculations _ _ _) => apply tame_wait; reflexivity
  | |- tame _ (times _ _) => apply tame_times
  | |- tame _ (subtract_one_business_day_ _ _) => apply tame_subtract
  | |- tame _ (let '(_, _) := ?x in _) => destruct x
  end.

(** *** The steps of [main] *)

Section Steps.
Variable float_repr : spec_float -> string.
Variable env : surroundings.

Lemma tame_refresh_queries cb fuel :
  tame not_in_steps_3_and_4 (refresh_queries env cb fuel).
Proof. unfold refresh_queries. repeat tame_step. Qed.

Lemma tame_execute_operations cb today_str prev_bday_str :
  tame not_in_steps_3_and_4
    (execute_operations float_repr cb today_str prev_bday_str).
Proof. unfold execute_operations. cbv zeta. repeat tame_step. Qed.

(** A step that does not save, before steps that save last. *)
Lemma saves_last_bind {A B} (m : P A) (k : A -> P B) :
  tame not_in_steps_3_and_4 m -> (forall a, saves_last env (k a)) ->
  saves_last env (bind m k).
Proof.
  intros Hm Hk s. unfold bind.
  destruct (Hm s) as (added & Htr & Hex & Hwb & Hc).
  assert (Hsave : calls Save added = 0%nat) by (apply Hc; reflexivity).
  assert (Hother : forall c, not_in_steps_3_to_5 c = true ->
                             calls c added = 0%nat).
  { intros c Hg. apply Hc. unfold not_in_steps_3_and_4. rewrite Hg.
    reflexivity. }
  destruct (m s) as [[a|e|] s1]; cbn [fst snd] in *.
  - destruct (Hk a s1) as (added' & Htr' & Hex' & Hwb' & Hc' & Hle & Hdone
                           & Hsaved).
    exists (added ++ added'). rewrite Htr', Htr, Hex', Hex, Hwb', Hwb, app_assoc.
    split; [reflexivity|]. split; [reflexivity|]. split; [reflexivity|].
    split; [intros c Hg; rewrite calls_app, (Hother c Hg), (Hc' c Hg);
            reflexivity|].
    rewrite calls_app, Hsave. cbn [Nat.add].
    split; [exact Hle|]. split; [exact Hdone|exact Hsaved].
  - exists added. split; [exact Htr|]. split; [exact Hex|].
    split; [exact Hwb|]. split; [exact Hother|]. split; [lia|].
    split; [intros a; discriminate|].
    intros H1. rewrite Hsave in H1. discriminate.
  - exists added. split; [exact Htr|]. split; [exact Hex|].
    split; [exact Hwb|]. split; [exact Hother|]. split; [lia|].
    split; [intros a; discriminate|].
    intros H1. rewrite Hsave in H1. discriminate.
Qed.

Lemma saves_last_final cb fuel : saves_last env (final_refresh_and_save env cb fuel).
Proof.
  unfold final_refresh_and_save.
  apply saves_last_bind; [apply tame_emit|]. intros _.
  apply saves_last_bind; [apply tame_RefreshAll; reflexivity|]. intros _.
  apply saves_last_bind; [apply tame_wait; reflexivity|]. intros _.
  intros s. unfold bind. rewrite call_run.
  unfold succeeds.
  destruct (fails env Save) as [e|] eqn:Hsave; cbn [fst snd].
  { exists [external Save]. cbn [trace excel workbook_].
    change (calls Save [external Save]) with 1%nat.
    split; [reflexivity|]. split; [reflexivity|]. split; [reflexivity|].
    split; [intros c Hg; apply calls_external_other;
            intros E; rewrite <- E in Hg; discriminate|].
    split; [lia|]. split; [intros a; discriminate|].
    intros _. right. left. reflexivity. }
  rewrite call_run.
  destruct (fails env set_Visible_True_at_end) as [e|] eqn:Hvis; cbn [fst snd].
  { exists [external Save; external set_Visible_True_at_end].
    cbn [trace excel workbook_]. rewrite <- app_assoc.
    change (calls Save [external Save; external set_Visible_True_at_end])
      with 1%nat.
    split; [reflexivity|]. split; [reflexivity|]. split; [reflexivity|].
    split.
    { intros c Hg. unfold calls. cbn [List.filter].
      rewrite !bool_decide_eq_false_2
        by (intros E; rewrite <- E in Hg; discriminate).
      reflexivity. }
    split; [lia|]. split; [intros a; discriminate|].
    intros _. right. right. reflexivity. }
  rewrite emit_run. cbn [fst snd trace excel workbook_].
  exists ([external Save; external set_Visible_True_at_end]
          ++ map engine (progress_log cb 100 "Excel report complete!")).
  rewrite <- !app_assoc.
  split; [reflexivity|]. split; [reflexivity|]. split; [reflexivity|].
  split.
  { intros c Hg. rewrite calls_app, calls_engine. unfold calls.
    cbn [List.filter].
    rewrite !bool_decide_eq_false_2
      by (intros E; rewrite <- E in Hg; discriminate).
    reflexivity. }
  rewrite calls_app, calls_engine.
  change (calls Save [external Save; external set_Visible_True_at_end])
    with 1%nat.
  split; [lia|]. split; [intros a _; reflexivity|].
  intros _. left. exists tt. reflexivity.
Qed.

Lemma bind_call {B} c (k : unit -> P B) s :
  bind (call env c) k s
  = match fails env c with
    | Some e =>
      (Fail e,
       {| book := book s; trace := trace s ++ [external c]; excel := excel s;
          workbook_ := workbook_ s; ticks := ticks s; polls := polls s;
          refreshes := refreshes s |})
    | None =>
      k tt {| book := book s; trace := trace s ++ [external c];
              excel := excel s; workbook_ := workbook_ s; ticks := ticks s;
              polls := polls s; refreshes := refreshes s |}
    end.
Proof. unfold bind. rewrite call_run. destruct (fails env c); reflexivity. Qed.

Lemma bind_emit {B} cb pct stage (k : unit -> P B) s :
  bind (emit_ cb pct stage) k s
  = k tt {| book := book s;
            trace := trace s ++ map engine (progress_log cb pct stage);
            excel := excel s; workbook_ := workbook_ s; ticks := ticks s;
            polls := polls s; refreshes := refreshes s |}.
Proof. unfold bind. rewrite emit_run. reflexivity. Qed.

Lemma bind_set_excel {B} b (k : unit -> P B) s :
  bind (set_excel b) k s
  = k tt {| book := book s; trace := trace s; excel := b;
            workbook_ := workbook_ s; ticks := ticks s; polls := polls s;
            refreshes := refreshes s |}.
Proof. reflexivity. Qed.

Lemma bind_set_workbook {B} b (k : unit -> P B) s :
  bind (set_workbook b) k s
  = k tt {| book := book s; trace := trace s; excel := excel s;
            workbook_ := b; ticks := ticks s; polls := polls s;
            refreshes := refreshes s |}.
Proof. reflexivity. Qed.

Ltac count_calls :=
  rewrite ?calls_app, ?calls_engine; unfold calls; cbn [List.filter];
  repeat match goal with
         | |- context [bool_decide (?a = ?b)] =>
           first [ rewrite (bool_decide_eq_true_2 (a = b)) by reflexivity
                 | rewrite (bool_decide_eq_false_2 (a = b)) by congruence ]
         end;
  cbn [length Nat.add]; try reflexivity; try lia.

(** Step 2: which of its three calls are made, and what the locals hold
    afterwards. *)
Lemma open_and_set_dates_spec cb fuel path s :
  excel s = false -> workbook_ s = false ->
  exists added,
    trace (snd (open_and_set_dates env cb fuel path s)) = trace s ++ added
    /\ calls Dispatch_Excel added = 1%nat
    /\ excel (snd (open_and_set_dates env cb fuel path s))
       = succeeds env Dispatch_Excel
    /\ calls Workbooks_Open added
       = (if succeeds env Dispatch_Excel && succeeds env set_Visible_True
          then 1%nat else 0%nat)
    /\ workbook_ (snd (open_and_set_dates env cb fuel path s))
       = succeeds env Dispatch_Excel && succeeds env set_Visible_True
         && succeeds env Workbooks_Open
    /\ (forall c, not_in_step_2 c = true -> calls c added = 0%nat)
    /\ (forall a, fst (open_and_set_dates env cb fuel path s) = Done a ->
        succeeds env Dispatch_Excel = true
        /\ succeeds env Workbooks_Open = true).
Proof.
  intros Hex Hwb. unfold open_and_set_dates, succeeds.
  rewrite bind_emit, bind_call.
  destruct (fails env Dispatch_Excel) as [e|] eqn:HD.
  { eexists. cbn [fst snd trace excel workbook_]. rewrite <- app_assoc.
    split; [reflexivity|]. split; [count_calls|]. split; [exact Hex|].
    split; [count_calls|]. split; [exact Hwb|].
    split; [|intros a; discriminate].
    intros c Hc. destruct c; try discriminate; count_calls. }
  rewrite bind_set_excel, bind_call. cbn [trace excel workbook_ book ticks polls refreshes].
  destruct (fails env set_Visible_True) as [e|] eqn:HV.
  { eexists. cbn [fst snd trace excel workbook_]. rewrite <- !app_assoc.
    split; [reflexivity|]. split; [count_calls|]. split; [reflexivity|].
    split; [count_calls|]. split; [exact Hwb|].
    split; [|intros a; discriminate].
    intros c Hc. destruct c; try discriminate; count_calls. }
  rewrite bind_call. cbn [trace excel workbook_ book ticks polls refreshes].
  destruct (fails env Workbooks_Open) as [e|] eqn:HO.
  { eexists. cbn [fst snd trace excel workbook_]. rewrite <- !app_assoc.
    split; [reflexivity|]. split; [count_calls|]. split; [reflexivity|].
    split; [count_calls|]. split; [exact Hwb|].
    split; [|intros a; discriminate].
    intros c Hc. destruct c; try discriminate; count_calls. }
  rewrite bind_set_workbook.
  cbn [trace excel workbook_ book ticks polls refreshes]. cbv zeta.
  match goal with
  | |- context [bind (subtract_one_business_day_ fuel ?d) ?k ?st] =>
    assert (Ht : tame (fun _ => true)
                   (bind (subtract_one_business_day_ fuel d) k))
      by (repeat tame_step);
    destruct (Ht st) as (added & Htr & Hex' & Hwb' & Hc); clear Ht
  end.
  cbn [trace excel workbook_] in Htr, Hex', Hwb'.
  eexists. rewrite Htr, Hex', Hwb'. rewrite <- !app_assoc.
  split; [reflexivity|].
  split; [rewrite !calls_app, (Hc Dispatch_Excel eq_refl); count_calls|].
  split; [reflexivity|].
  split; [rewrite !calls_app, (Hc Workbooks_Open eq_refl); count_calls|].
  split; [reflexivity|].
  split; [|intros a _; split; reflexivity].
  intros c Hg. rewrite !calls_app, (Hc c eq_refl).
  destruct c; try discriminate; count_calls.
Qed.

Lemma main_try_unfold cb fuel path s :
  main_try float_repr env cb fuel path s
  = match open_and_set_dates env cb fuel path s with
    | (Done (a, b), s1) =>
      bind (refresh_queries env cb fuel) (fun _ =>
      bind (call env set_Visible_False) (fun _ =>
      bind (execute_operations float_repr cb a b) (fun _ =>
      final_refresh_and_save env cb fuel))) s1
    | (Fail e, s1) => (Fail e, s1)
    | (Unfinished, s1) => (Unfinished, s1)
    end.
Proof.
  unfold main_try, bind at 1.
  destruct (open_and_set_dates env cb fuel path s) as [[[a b]|e|] s1];
    reflexivity.
Qed.

(** The [try] block. *)
Lemma main_try_spec cb fuel path s :
  excel s = false -> workbook_ s = false ->
  exists added,
    trace (snd (main_try float_repr env cb fuel path s)) = trace s ++ added
    /\ calls Dispatch_Excel added = 1%nat
    /\ excel (snd (main_try float_repr env cb fuel path s))
       = succeeds env Dispatch_Excel
    /\ calls Workbooks_Open added
       = (if succeeds env Dispatch_Excel && succeeds env set_Visible_True
          then 1%nat else 0%nat)
    /\ workbook_ (snd (main_try float_repr env cb fuel path s))
       = succeeds env Dispatch_Excel && succeeds env set_Visible_True
         && succeeds env Workbooks_Open
    /\ (forall c, outside_try c = true -> calls c added = 0%nat)
    /\ (calls Save added <= 1)%nat
    /\ (forall a, fst (main_try float_repr env cb fuel path s) = Done a ->
        calls Save added = 1%nat)
    /\ (calls Save added = 1%nat ->
        (exists a, fst (main_try float_repr env cb fuel path s) = Done a)
        \/ succeeds env Save = false
        \/ succeeds env set_Visible_True_at_end = false).
Proof.
  intros Hex Hwb. rewrite main_try_unfold.
  destruct (open_and_set_dates_spec cb fuel path s Hex Hwb)
    as (added1 & Htr1 & HD1 & Hex1 & HO1 & Hwb1 & Hc1 & Hdone1).
  assert (Hout1 : forall c, outside_try c = true -> calls c added1 = 0%nat).
  { intros c Hc. apply Hc1. destruct c; try discriminate; reflexivity. }
  assert (Hsave1 : calls Save added1 = 0%nat) by (apply Hc1; reflexivity).
  destruct (open_and_set_dates env cb fuel path s) as [[[a b]|e|] s1];
    cbn [fst snd] in *.
  - assert (Hrest : saves_last env
                      (bind (refresh_queries env cb fuel) (fun _ =>
                       bind (call env set_Visible_False) (fun _ =>
                       bind (execute_operations float_repr cb a b) (fun _ =>
                       final_refresh_and_save env cb fuel))))).
    { apply saves_last_bind; [apply tame_refresh_queries|]. intros _.
      apply saves_last_bind; [apply tame_call; reflexivity|]. intros _.
      apply saves_last_bind; [apply tame_execute_operations|]. intros _.
      apply saves_last_final. }
    destruct (Hrest s1) as (added2 & Htr2 & Hex2 & Hwb2 & Hc2 & Hle2 & Hdone2
                            & Hsaved2).
    exists (added1 ++ added2).
    rewrite Htr2, Htr1, Hex2, Hex1, Hwb2, Hwb1, app_assoc.
    rewrite !calls_app, HD1, HO1, Hsave1.
    rewrite (Hc2 Dispatch_Excel eq_refl), (Hc2 Workbooks_Open eq_refl).
    split; [reflexivity|]. split; [reflexivity|]. split; [reflexivity|].
    split; [lia|]. split; [reflexivity|].
    split.
    { intros c Hc. rewrite calls_app, (Hout1 c Hc). apply Hc2.
      unfold outside_try in Hc. unfold not_in_steps_3_to_5.
      destruct c; try discriminate; reflexivity. }
    split; [exact Hle2|]. split; [exact Hdone2|exact Hsaved2].
  - exists added1. rewrite Hsave1.
    split; [exact Htr1|]. split; [exact HD1|]. split; [exact Hex1|].
    split; [exact HO1|]. split; [exact Hwb1|]. split; [exact Hout1|].
    split; [lia|]. split; [intros a; discriminate|]. discriminate.
  - exists added1. rewrite Hsave1.
    split; [exact Htr1|]. split; [exact HD1|]. split; [exact Hex1|].
    split; [exact HO1|]. split; [exact Hwb1|]. split; [exact Hout1|].
    split; [lia|]. split; [intros a; discriminate|]. discriminate.
Qed.

Lemma swallow_call c s :
  try_except (call env c) (fun _ => ret tt) s
  = (Done tt,
     {| book := book s; trace := trace s ++ [external c]; excel := excel s;
        workbook_ := workbook_ s; ticks := ticks s; polls := polls s;
        refreshes := refreshes s |}).
Proof.
  unfold try_except. rewrite call_run. destruct (fails env c); reflexivity.
Qed.

Lemma swallow_call_if (test : session -> bool) c s :
  try_except (fun s => if test s then call env c s else ret tt s)
             (fun _ => ret tt) s
  = (Done tt,
     {| book := book s;
        trace := trace s ++ (if test s then [external c] else []);
        excel := excel s; workbook_ := workbook_ s; ticks := ticks s;
        polls := polls s; refreshes := refreshes s |}).
Proof.
  unfold try_except. destruct (test s).
  - rewrite call_run. destruct (fails env c); reflexivity.
  - cbn [ret]. rewrite app_nil_r. destruct s; reflexivity.
Qed.

Lemma release_run (obj : bool) s :
  _release_com_object env obj s
  = (Done tt,
     {| book := book s;
        trace := trace s ++ (if obj then [external gc_collect] else []);
        excel := excel s; workbook_ := workbook_ s; ticks := ticks s;
        polls := polls s; refreshes := refreshes s |}).
Proof.
  unfold _release_com_object. destruct obj; cbn [negb].
  - apply swallow_call.
  - cbn [ret]. rewrite app_nil_r. destruct s; reflexivity.
Qed.

(** The [finally] block: its calls are made whatever they raise. *)
Lemma main_finally_run s :
  main_finally env s
  = (Done tt,
     {| book := book s;
        trace := trace s
                 ++ map external (finally_calls (workbook_ s) (excel s));
        excel := excel s; workbook_ := workbook_ s; ticks := ticks s;
        polls := polls s; refreshes := refreshes s |}).
Proof.
  unfold main_finally, finally_calls.
  rewrite (bind_Done _ _ _ _ _ (swallow_call_if workbook_ Close s)).
  rewrite (bind_Done _ _ _ _ _ (swallow_call_if excel Quit _)).
  unfold bind. rewrite release_run. rewrite release_run.
  cbn [trace book excel workbook_ ticks polls refreshes].
  destruct (workbook_ s), (excel s); cbn [map app];
    rewrite <- ?app_assoc; cbn [app]; rewrite ?app_nil_r; reflexivity.
Qed.

Lemma tame_backup fuel path :
  tame not_in_backup (_backup_engine_file env fuel path).
Proof. unfold _backup_engine_file. cbv zeta. repeat tame_step. Qed.

Lemma uninitialize_run s :
  try_except (call env CoUninitialize)
    (fun e => note (logger_debug ("COM cleanup: " +:+ error_text e))) s
  = (Done tt,
     {| book := book s;
        trace := trace s
                 ++ external CoUninitialize
                    :: match fails env CoUninitialize with
                       | Some e =>
                         [logger_debug ("COM cleanup: " +:+ error_text e)]
                       | None => []
                       end;
        excel := excel s; workbook_ := workbook_ s; ticks := ticks s;
        polls := polls s; refreshes := refreshes s |}).
Proof.
  unfold try_except. rewrite call_run.
  destruct (fails env CoUninitialize); [|reflexivity].
  unfold note. cbn [trace book excel workbook_ ticks polls refreshes].
  rewrite <- app_assoc. reflexivity.
Qed.

(** The [try] block with its [except] and [finally] clauses. *)
Lemma guarded_try_run cb fuel path s :
  let s0 := {| book := book s; trace := trace s; excel := false;
               workbook_ := false; ticks := ticks s; polls := polls s;
               refreshes := refreshes s |} in
  let run := main_try float_repr env cb fuel path s0 in
  bind (set_excel false) (fun _ =>
  bind (set_workbook false) (fun _ =>
    try_finally
      (try_except (main_try float_repr env cb fuel path)
         (fun e =>
            bind (run_engine
                    (logger_error ("Excel report failed: " +:+ error_text e)))
                 (fun _ => raise e)))
      (main_finally env))) s
  = match fst run with
    | Unfinished => (Unfinished, snd run)
    | r =>
      (r,
       {| book := book (snd run);
          trace := (trace (snd run)
                    ++ match r with
                       | Fail e =>
                         [engine (Log ERROR ("Excel report failed: "
                                             +:+ error_text e))]
                       | _ => []
                       end)
                   ++ map external
                        (finally_calls (workbook_ (snd run)) (excel (snd run)));
          excel := excel (snd run); workbook_ := workbook_ (snd run);
          ticks := ticks (snd run); polls := polls (snd run);
          refreshes := refreshes (snd run) |})
    end.
Proof.
  cbv zeta. rewrite bind_set_excel, bind_set_workbook.
  cbn [book trace excel workbook_ ticks polls refreshes].
  unfold try_finally, try_except at 1.
  destruct (main_try float_repr env cb fuel path _) as [[[]|e|] s1];
    cbn [fst snd].
  - rewrite main_finally_run. rewrite app_nil_r. reflexivity.
  - unfold bind, run_engine, logger_error, emit_event, raise.
    cbn [workbook events map]. rewrite main_finally_run.
    cbn [book trace excel workbook_ ticks polls refreshes]. reflexivity.
  - reflexivity.
Qed.

Lemma externals_app t1 t2 : externals (t1 ++ t2) = externals t1 ++ externals t2.
Proof. unfold externals. apply omap_app. Qed.

Lemma externals_map_external cs : externals (map external cs) = cs.
Proof. induction cs as [|c cs IH]; [reflexivity|]. cbn. f_equal. exact IH. Qed.

Lemma Forall_cleanup_finally wb ex :
  Forall (fun st => is_cleanup st = true) (map external (finally_calls wb ex)).
Proof. destruct wb, ex; repeat constructor. Qed.

Ltac simpl_calls :=
  repeat match goal with
         | |- context [calls ?c [external ?c']] =>
           let v := eval vm_compute in (calls c [external c']) in
           change (calls c [external c']) with v
         end;
  cbn [Nat.add].

(** How a run of [main] that ends is laid out: the work, then the calls
    of the [finally] clauses. *)
Lemma main_outline cb fuel s r s' :
  main float_repr env cb fuel s = (r, s') -> r <> Unfinished ->
  exists work cleanup,
    trace s' = trace s ++ work ++ cleanup
    /\ (forall c, cleanup_site c = true -> calls c work = 0%nat)
    /\ Forall (fun st => is_cleanup st = true) cleanup
    /\ externals cleanup
       = finally_calls
           (bool_decide (calls Workbooks_Open work = 1%nat)
            && succeeds env Workbooks_Open)
           (bool_decide (calls Dispatch_Excel work = 1%nat)
            && succeeds env Dispatch_Excel)
         ++ (if bool_decide (calls CoInitialize work = 1%nat)
                && succeeds env CoInitialize
             then [CoUninitialize] else [])
    /\ (calls Save work <= 1)%nat
    /\ (r = Done tt -> calls Save work = 1%nat)
    /\ (calls Save work = 1%nat ->
        r = Done tt \/ succeeds env Save = false
        \/ succeeds env set_Visible_True_at_end = false)
    /\ (forall e, r = Fail e -> calls Dispatch_Excel work = 1%nat ->
        last work
        = Some (engine (Log ERROR ("Excel report failed: " +:+ error_text e)))).
Proof.
  intros Hrun Hfin. unfold main in Hrun. unfold bind at 1, lift in Hrun.
  destruct (_find_engine_file env) as [path|e].
  2: { injection Hrun as <- <-. exists [], []. rewrite !app_nil_r.
       split; [reflexivity|]. split; [reflexivity|]. split; [constructor|].
       split; [reflexivity|]. split; [cbn; lia|].
       split; [discriminate|]. split; [discriminate|].
       intros e' _. discriminate. }
  rewrite !bind_emit in Hrun.
  cbn [book trace excel workbook_ ticks polls refreshes] in Hrun.
  unfold bind at 1 in Hrun.
  match type of Hrun with
  | context [_backup_engine_file env fuel path ?st] =>
    destruct (tame_backup fuel path st) as (added_b & Htrb & _ & _ & Hcb);
    destruct (_backup_engine_file env fuel path st) as [[[]|e|] s3]
  end; cbn [fst snd trace] in Htrb.
  3: { injection Hrun as <- _. congruence. }
  2: { injection Hrun as <- <-. rewrite Htrb, <- !app_assoc.
       match goal with
       | |- exists work cleanup, trace s ++ ?l = _ /\ _ => exists l, []
       end.
       rewrite app_nil_r.
       split; [reflexivity|].
       split.
       { intros c Hc. rewrite !calls_app, !calls_engine.
         apply Hcb. destruct c; try discriminate; reflexivity. }
       split; [constructor|].
       rewrite !calls_app, !calls_engine.
       rewrite (Hcb Workbooks_Open eq_refl), (Hcb Dispatch_Excel eq_refl),
         (Hcb CoInitialize eq_refl), (Hcb Save eq_refl).
       split; [reflexivity|]. split; [cbn; lia|].
       split; [discriminate|]. split; [discriminate|].
       intros e' _. discriminate. }
  unfold com_context in Hrun. rewrite bind_call in Hrun.
  unfold succeeds.
  destruct (fails env CoInitialize) as [e|] eqn:Hinit.
  { injection Hrun as <- <-. cbn [trace]. rewrite Htrb, <- !app_assoc.
    match goal with
    | |- exists work cleanup, trace s ++ ?l = _ /\ _ => exists l, []
    end.
    rewrite app_nil_r.
    split; [reflexivity|].
    split.
    { intros c Hc. rewrite !calls_app, !calls_engine.
      rewrite (Hcb c) by (destruct c; try discriminate; reflexivity).
      destruct c; try discriminate; reflexivity. }
    split; [constructor|].
    rewrite !calls_app, !calls_engine.
    rewrite (Hcb Workbooks_Open eq_refl), (Hcb Dispatch_Excel eq_refl),
      (Hcb CoInitialize eq_refl), (Hcb Save eq_refl).
    simpl_calls. rewrite andb_false_r.
    split; [reflexivity|]. split; [lia|].
    split; [discriminate|]. split; [discriminate|].
    intros e' _. discriminate. }
  unfold try_finally at 1 in Hrun. rewrite guarded_try_run in Hrun.
  cbv zeta in Hrun.
  cbn [book trace excel workbook_ ticks polls refreshes] in Hrun.
  match type of Hrun with
  | context [main_try float_repr env cb fuel path ?st] =>
    destruct (main_try_spec cb fuel path st eq_refl eq_refl)
      as (added_t & Htrt & HD & Hex & HO & Hwb & Hout & Hle & Hdone & Hsaved);
    destruct (main_try float_repr env cb fuel path st) as [rt s6]
  end.
  cbn [fst snd trace] in *.
  destruct rt as [[]|e|]; cbn [fst snd] in Hrun.
  3: { injection Hrun as <- _. congruence. }
  - rewrite uninitialize_run in Hrun.
    cbn [book trace excel workbook_ ticks polls refreshes] in Hrun.
    injection Hrun as <- <-. cbn [trace].
    rewrite Htrt, Htrb, Hex, Hwb, app_nil_r, <- !app_assoc.
    match goal with
    | |- exists work cleanup,
           trace s ++ ?a ++ ?b ++ ?c ++ ?d ++ ?e ++ ?cl = _ /\ _ =>
      exists (a ++ b ++ c ++ d ++ e), cl
    end.
    split; [rewrite <- !app_assoc; reflexivity|].
    split.
    { intros c Hc. rewrite !calls_app, !calls_engine.
      rewrite (Hcb c) by (destruct c; try discriminate; reflexivity).
      rewrite (Hout c) by (unfold outside_try; rewrite Hc; reflexivity).
      destruct c; try discriminate; reflexivity. }
    split.
    { apply Forall_app. split; [apply Forall_cleanup_finally|].
      constructor; [reflexivity|].
      destruct (fails env CoUninitialize); repeat constructor. }
    rewrite externals_app, externals_map_external.
    rewrite !calls_app, !calls_engine.
    rewrite (Hcb Workbooks_Open eq_refl), (Hcb Dispatch_Excel eq_refl),
      (Hcb CoInitialize eq_refl), (Hcb Save eq_refl), HD, HO.
    rewrite (Hout CoInitialize eq_refl).
    cbn [calls List.filter length Nat.add bool_decide decide_rel].
    split.
    { f_equal.
      - unfold succeeds.
        destruct (fails env Dispatch_Excel), (fails env set_Visible_True),
          (fails env Workbooks_Open); reflexivity.
      - destruct (fails env CoUninitialize); reflexivity. }
    split; [exact Hle|]. split; [intros _; apply (Hdone tt eq_refl)|].
    split; [intros _; left; reflexivity|].
    intros e' He'. discriminate.
  - rewrite uninitialize_run in Hrun.
    cbn [book trace excel workbook_ ticks polls refreshes] in Hrun.
    injection Hrun as <- <-. cbn [trace].
    rewrite Htrt, Htrb, Hex, Hwb, <- !app_assoc.
    match goal with
    | |- exists work cleanup,
           trace s ++ ?a ++ ?b ++ ?c ++ ?d ++ ?e ++ ?g ++ ?cl = _ /\ _ =>
      exists (a ++ b ++ c ++ d ++ e ++ g), cl
    end.
    split; [rewrite <- !app_assoc; reflexivity|].
    split.
    { intros c Hc. rewrite !calls_app, !calls_engine.
      rewrite (Hcb c) by (destruct c; try discriminate; reflexivity).
      rewrite (Hout c) by (unfold outside_try; rewrite Hc; reflexivity).
      destruct c; try discriminate; reflexivity. }
    split.
    { apply Forall_app. split; [apply Forall_cleanup_finally|].
      constructor; [reflexivity|].
      destruct (fails env CoUninitialize); repeat constructor. }
    rewrite externals_app, externals_map_external.
    rewrite !calls_app, !calls_engine.
    rewrite (Hcb Workbooks_Open eq_refl), (Hcb Dispatch_Excel eq_refl),
      (Hcb CoInitialize eq_refl), (Hcb Save eq_refl), HD, HO.
    rewrite (Hout CoInitialize eq_refl).
    cbn [calls List.filter length Nat.add bool_decide decide_rel].
    split.
    { f_equal.
      - unfold succeeds.
        destruct (fails env Dispatch_Excel), (fails env set_Visible_True),
          (fails env Workbooks_Open); reflexivity.
      - destruct (fails env CoUninitialize); reflexivity. }
    rewrite !Nat.add_0_r.
    split; [exact Hle|]. split; [discriminate|].
    split.
    { intros H1. destruct (Hsaved H1) as [[a Ha]|H2]; [discriminate|].
      right. exact H2. }
    intros e' [= <-] _. rewrite !app_assoc. apply last_snoc.
Qed.

End Steps.

(** *** Steps that end *)

Lemma finishes_ret {A} (a : A) : finishes (ret a).
Proof. intros s. discriminate. Qed.

Lemma finishes_raise {A} (e : error) : finishes (@raise A e).
Proof. intros s. discriminate. Qed.

Lemma finishes_lift {A} (r : ended A) : finishes (lift r).
Proof. intros s. destruct r; discriminate. Qed.

Lemma finishes_bind {A B} (m : P A) (k : A -> P B) :
  finishes m -> (forall a, finishes (k a)) -> finishes (bind m k).
Proof.
  intros Hm Hk s. unfold bind. specialize (Hm s).
  destruct (m s) as [[a|e|] s1]; cbn [fst] in *;
    [apply Hk|discriminate|congruence].
Qed.

Lemma finishes_call env c : finishes (call env c).
Proof. intros s. rewrite call_run. destruct (fails env c); discriminate. Qed.

Lemma finishes_note st : finishes (note st).
Proof. intros s. discriminate. Qed.

Lemma finishes_set_excel b : finishes (set_excel b).
Proof. intros s. discriminate. Qed.

Lemma finishes_set_workbook b : finishes (set_workbook b).
Proof. intros s. discriminate. Qed.

Lemma finishes_run_engine {A} (m : M A) : finishes (run_engine m).
Proof.
  intros s. unfold run_engine.
  destruct (m {| workbook := book s; events := [] |}) as [[a|e] w];
    discriminate.
Qed.

Lemma finishes_RefreshAll env c : finishes (RefreshAll_ env c).
Proof.
  unfold RefreshAll_. apply finishes_bind; [apply finishes_call|].
  intros _ s. discriminate.
Qed.

Lemma finishes_times n (body : P unit) :
  finishes body -> finishes (times n body).
Proof.
  intros Hb. induction n as [|n IH]; cbn [times]; [apply finishes_ret|].
  apply finishes_bind; [exact Hb|intros _; exact IH].
Qed.

Lemma finishes_try_except {A} (body : P A) (handler : error -> P A) :
  finishes body -> (forall e, finishes (handler e)) ->
  finishes (try_except body handler).
Proof.
  intros Hb Hh s. unfold try_except. specialize (Hb s).
  destruct (body s) as [[a|e|] s1]; cbn [fst] in *;
    [discriminate|apply Hh|congruence].
Qed.

Lemma finishes_try_finally {A} (body : P A) (final : P unit) :
  finishes body -> finishes final -> finishes (try_finally body final).
Proof.
  intros Hb Hf s. unfold try_finally. specialize (Hb s).
  destruct (body s) as [[a|e|] s1]; cbn [fst] in *; try congruence;
    specialize (Hf s1); destruct (final s1) as [[[]|e'|] s2];
    cbn [fst] in *; congruence.
Qed.

Lemma finishes_wait env fuel max_wait :
  settles env fuel -> finishes (_wait_for_calculations env fuel max_wait).
Proof.
  intros Hs s. rewrite wait_for_calculations_unfold.
  destruct (Hs (polls s)) as (n & Hn & Hzero).
  apply (wait_loop_finishes env _ _ n fuel _
           {| book := book s; trace := trace s; excel := excel s;
              workbook_ := workbook_ s; ticks := S (ticks s);
              polls := polls s; refreshes := refreshes s |} Hn Hzero).
Qed.

Lemma finishes_subtract fuel d :
  valid_datetime d = true -> (50 <= fuel)%nat ->
  finishes (subtract_one_business_day_ fuel d).
Proof.
  intros Hv Hfuel s. unfold subtract_one_business_day_.
  destruct (HelpersFacts.subtract_one_business_day_terminates d fuel Hv Hfuel)
    as (res & ->).
  destruct res; discriminate.
Qed.

Lemma finishes_if_session {A} (test : session -> bool) (m1 m2 : P A) :
  finishes m1 -> finishes m2 ->
  finishes (fun s => if test s then m1 s else m2 s).
Proof. intros H1 H2 s. destruct (test s); [apply H1|apply H2]. Qed.

Lemma finishes_release env :
  finishes (fun s => _release_com_object env (workbook_ s) s)
  /\ finishes (fun s => _release_com_object env (excel s) s).
Proof.
  split; intros s; unfold _release_com_object;
    [destruct (workbook_ s)|destruct (excel s)]; cbn [negb];
    try discriminate;
    apply finishes_try_except;
    solve [apply finishes_call|intros e; apply finishes_ret].
Qed.

Ltac finishes_step :=
  lazymatch goal with
  | |- finishes (bind _ _) => apply finishes_bind; [|intros ?]
  | |- finishes (ret _) => apply finishes_ret
  | |- finishes (raise _) => apply finishes_raise
  | |- finishes (lift _) => apply finishes_lift
  | |- finishes (call _ _) => apply finishes_call
  | |- finishes (note _) => apply finishes_note
  | |- finishes (run_engine _) => apply finishes_run_engine
  | |- finishes (set_excel _) => apply finishes_set_excel
  | |- finishes (set_workbook _) => apply finishes_set_workbook
  | |- finishes (RefreshAll_ _ _) => apply finishes_RefreshAll
  | |- finishes (times _ _) => apply finishes_times
  | |- finishes (try_except _ _) => apply finishes_try_except; [|intros ?]
  | |- finishes (try_finally _ _) => apply finishes_try_finally
  | |- finishes (let '(_, _) := ?x in _) => destruct x
  end.

Section Finishes.
Variable float_repr : spec_float -> string.
Variable env : surroundings.
Variable fuel : nat.
Hypothesis Hfuel : (50 <= fuel)%nat.
Hypothesis Hbackup : valid_datetime (now_of_backup env) = true.
Hypothesis Hmain : valid_datetime (now_of_main env) = true.
Hypothesis Hsettles : settles env fuel.

Lemma finishes_main_try cb path : finishes (main_try float_repr env cb fuel path).
Proof.
  unfold main_try, open_and_set_dates, refresh_queries, execute_operations,
    final_refresh_and_save, emit_. cbv zeta.
  repeat first
    [ apply (finishes_wait env fuel _ Hsettles)
    | apply (finishes_subtract fuel _ Hmain Hfuel)
    | finishes_step ].
Qed.

Lemma finishes_main_finally : finishes (main_finally env).
Proof.
  unfold main_finally.
  destruct (finishes_release env) as [Hw He].
  repeat first
    [ exact Hw | exact He
    | finishes_step
    | apply finishes_if_session ].
Qed.

Lemma main_finishes cb : finishes (main float_repr env cb fuel).
Proof.
  unfold main, _backup_engine_file, com_context, emit_. cbv zeta.
  repeat first
    [ apply finishes_main_try
    | apply finishes_main_finally
    | apply (finishes_subtract fuel _ Hbackup Hfuel)
    | finishes_step ].
Qed.

End Finishes.

(** *** The theorems about [main] *)

Section Main.
Variable float_repr : spec_float -> string.
Variable env : surroundings.

(** What [main] opens it closes.  A run whose dates are valid and whose
    waits come to an end is made of its work followed by the calls of the
    [finally] clauses, and nothing else follows them.  No [Close], [Quit]
    or [CoUninitialize] happens during the work.  Afterwards the workbook
    is closed exactly when [Workbooks.Open] was called and returned,
    Excel is quit exactly when [Dispatch] was called and returned, in this
    order, and COM is uninitialized exactly when [CoInitialize] was called
    and returned, as the last call; this holds whatever else raised, in
    the work or in the cleanup itself. *)
Theorem main_cleans_up (cb : bool) (fuel : nat) (s : session)
    (Hfuel : (50 <= fuel)%nat)
    (Hbackup : valid_datetime (now_of_backup env) = true)
    (Hmain : valid_datetime (now_of_main env) = true)
    (Hsettles : settles env fuel) :
  fst (main float_repr env cb fuel s) <> Unfinished
  /\ exists work cleanup,
       trace (snd (main float_repr env cb fuel s)) = trace s ++ work ++ cleanup
       /\ (forall c, cleanup_site c = true -> calls c work = 0%nat)
       /\ Forall (fun st => is_cleanup st = true) cleanup
       /\ externals cleanup
          = finally_calls
              (bool_decide (calls Workbooks_Open work = 1%nat)
               && succeeds env Workbooks_Open)
              (bool_decide (calls Dispatch_Excel work = 1%nat)
               && succeeds env Dispatch_Excel)
            ++ (if bool_decide (calls CoInitialize work = 1%nat)
                   && succeeds env CoInitialize
                then [CoUninitialize] else []).
Proof.
  pose proof (main_finishes float_repr env fuel Hfuel Hbackup Hmain Hsettles
                cb s) as Hfin.
  split; [exact Hfin|].
  destruct (main float_repr env cb fuel s) as [r s'] eqn:Hrun.
  destruct (main_outline float_repr env cb fuel s r s' Hrun Hfin)
    as (work & cleanup & Htr & Hwork & Hclean & Hext & _).
  exists work, cleanup. cbn [snd].
  split; [exact Htr|]. split; [exact Hwork|]. split; [exact Hclean|exact Hext].
Qed.

(** Saving and failing.  A run of [main] saves at most once, during its
    work.  When it returns it has saved; when it raises after a save, the
    save itself or the call after it raised.  Once [Dispatch] has been
    called, the exception that [main] raises is the one logged as
    [Excel report failed: ...], which is the last step before the
    cleanup.  Without an engine workbook [main] raises the error of the
    search and does nothing else. *)
Theorem main_saves_last_and_reports (cb : bool) (fuel : nat) (s : session)
    (Hfuel : (50 <= fuel)%nat)
    (Hbackup : valid_datetime (now_of_backup env) = true)
    (Hmain : valid_datetime (now_of_main env) = true)
    (Hsettles : settles env fuel) :
  (exists work cleanup,
     trace (snd (main float_repr env cb fuel s)) = trace s ++ work ++ cleanup
     /\ Forall (fun st => is_cleanup st = true) cleanup
     /\ (calls Save work <= 1)%nat
     /\ (fst (main float_repr env cb fuel s) = Done tt ->
         calls Save work = 1%nat)
     /\ (calls Save work = 1%nat ->
         fst (main float_repr env cb fuel s) = Done tt
         \/ succeeds env Save = false
         \/ succeeds env set_Visible_True_at_end = false)
     /\ (forall e, fst (main float_repr env cb fuel s) = Fail e ->
         calls Dispatch_Excel work = 1%nat ->
         last work
         = Some (engine (Log ERROR ("Excel report failed: "
                                    +:+ error_text e)))))
  /\ (forall e, _find_engine_file env = Raised e ->
      main float_repr env cb fuel s = (Fail e, s)).
Proof.
  split.
  - pose proof (main_finishes float_repr env fuel Hfuel Hbackup Hmain Hsettles
                  cb s) as Hfin.
    destruct (main float_repr env cb fuel s) as [r s'] eqn:Hrun.
    destruct (main_outline float_repr env cb fuel s r s' Hrun Hfin)
      as (work & cleanup & Htr & _ & Hclean & _ & Hle & Hdone & Hsaved & Hlog).
    exists work, cleanup. cbn [fst snd].
    split; [exact Htr|]. split; [exact Hclean|]. split; [exact Hle|].
    split; [exact Hdone|]. split; [exact Hsaved|exact Hlog].
  - intros e He. unfold main, bind at 1, lift. rewrite He. reflexivity.
Qed.

End Main.

Import Scenario Scenario3.

Lemma office_settles : settles office 50.
Proof. intros p. exists 0%nat. split; [lia|reflexivity]. Qed.

(** A run in the office, where [Quit] raises: the cleanup goes on. *)
Lemma main_cleans_up_witness :
  fst (main no_floats office true 50 (fresh (workbook report))) = Done tt
  /\ exists work cleanup,
       trace (snd (main no_floats office true 50 (fresh (workbook report))))
       = trace (fresh (workbook report)) ++ work ++ cleanup
       /\ (forall c, cleanup_site c = true -> calls c work = 0%nat)
       /\ Forall (fun st => is_cleanup st = true) cleanup
       /\ externals cleanup
          = [Close; Quit; gc_collect; gc_collect; CoUninitialize].
Proof.
  destruct (main_cleans_up no_floats office true 50 (fresh (workbook report)))
    as (_ & work & cleanup & Htr & Hwork & Hclean & Hext);
    [lia|reflexivity|reflexivity|exact office_settles|].
  assert (Hrun : fst (main no_floats office true 50 (fresh (workbook report))) = Done tt)
    by (vm_compute; reflexivity).
  split; [exact Hrun|].
  exists work, cleanup.
  split; [exact Htr|]. split; [exact Hwork|]. split; [exact Hclean|].
  rewrite Hext. clear Hext.
  assert (HO : calls Workbooks_Open work = 1%nat /\ calls Dispatch_Excel work = 1%nat
               /\ calls CoInitialize work = 1%nat).
  { assert (Hall : forall c,
              calls c (work ++ cleanup)
              = calls c (trace (snd (main no_floats office true 50
                                       (fresh (workbook report)))))).
    { intros c. rewrite Htr. reflexivity. }
    assert (Hcl : forall c, cleanup_site c = false -> calls c cleanup = 0%nat).
    { intros c Hc. clear -Hclean Hc. induction cleanup as [|st cl IH];
        [reflexivity|].
      inversion Hclean as [|? ? Hst Hrest]; subst.
      unfold calls in *. cbn [List.filter].
      destruct st as [ev|c'|i|msg]; try (apply IH; exact Hrest).
      cbn [is_cleanup] in Hst.
      rewrite bool_decide_eq_false_2 by congruence. apply IH. exact Hrest. }
    pose proof (Hall Workbooks_Open) as H1.
    pose proof (Hall Dispatch_Excel) as H2.
    pose proof (Hall CoInitialize) as H3.
    rewrite calls_app, Hcl in H1, H2, H3 by reflexivity.
    rewrite Nat.add_0_r in H1, H2, H3.
    rewrite H1, H2, H3. repeat split; vm_compute; reflexivity. }
  destruct HO as (-> & -> & ->). reflexivity.
Defined.

Lemma main_saves_last_and_reports_witness :
  fst (main no_floats office true 50 (fresh (workbook report))) = Done tt
  /\ exists work cleanup,
       trace (snd (main no_floats office true 50 (fresh (workbook report))))
       = trace (fresh (workbook report)) ++ work ++ cleanup
       /\ calls Save work = 1%nat.
Proof.
  destruct (main_saves_last_and_reports no_floats office true 50 (fresh (workbook report)))
    as ((work & cleanup & Htr & _ & _ & Hdone & _) & _);
    [lia|reflexivity|reflexivity|exact office_settles|].
  assert (Hrun : fst (main no_floats office true 50 (fresh (workbook report))) = Done tt)
    by (vm_compute; reflexivity).
  split; [exact Hrun|].
  exists work, cleanup. split; [exact Htr|exact (Hdone Hrun)].
Defined.

End MainFacts.

(** ** Facts about the pipeline: a complete run *)

Module RunFacts.
Import Calendar Helpers ExcelReport Layout Pipeline PipelineFacts MainFacts.
Local Open Scope pipeline_scope.

Lemma percentages_app t1 t2 :
  percentages (t1 ++ t2) = percentages t1 ++ percentages t2.
Proof. unfold percentages. apply omap_app. Qed.

Lemma plain_externals_app t1 t2 :
  plain_externals (t1 ++ t2) = plain_externals t1 ++ plain_externals t2.
Proof. unfold plain_externals. rewrite externals_app. apply List.filter_app. Qed.

Lemma percentages_engine evs : percentages (map engine evs) = progress_of evs.
Proof.
  unfold percentages, progress_of.
  induction evs as [|e evs IH]; [reflexivity|].
  destruct e; cbn in *; rewrite IH; reflexivity.
Qed.

Lemma plain_externals_engine evs : plain_externals (map engine evs) = [].
Proof. induction evs as [|e evs IH]; [reflexivity|exact IH]. Qed.

Lemma percentages_external cs : percentages (map external cs) = [].
Proof. induction cs as [|c cs IH]; [reflexivity|exact IH]. Qed.

Lemma performs_eq {A} (m : P A) pcts exts pcts' exts' :
  performs pcts exts m -> pcts = pcts' -> exts = exts' ->
  performs pcts' exts' m.
Proof. intros H <- <-. exact H. Qed.

Lemma performs_ret {A} (a : A) : performs [] [] (ret a).
Proof.
  intros s Hs. exists a, []. cbn [ret fst snd]. rewrite app_nil_r.
  repeat split; try reflexivity. exact Hs.
Qed.

Lemma performs_bind {A B} (m : P A) (k : A -> P B) p1 e1 p2 e2 :
  performs p1 e1 m -> (forall a, performs p2 e2 (k a)) ->
  performs (p1 ++ p2) (e1 ++ e2) (bind m k).
Proof.
  intros Hm Hk s Hs. unfold bind.
  destruct (Hm s Hs) as (a & added & Hr & Htr & Hu & Hp & He).
  destruct (m s) as [r s1]. cbn [fst snd] in *. subst r.
  destruct (Hk a s1 Hu) as (b & added' & Hr' & Htr' & Hu' & Hp' & He').
  exists b, (added ++ added').
  rewrite Htr', Htr, app_assoc, percentages_app, plain_externals_app,
    Hp, Hp', He, He'.
  repeat split; try reflexivity; assumption.
Qed.

Lemma performs_set_excel b : performs [] [] (set_excel b).
Proof.
  intros s Hs. exists tt, []. cbn [set_excel fst snd trace].
  rewrite app_nil_r. repeat split; try reflexivity. exact Hs.
Qed.

Lemma performs_set_workbook b : performs [] [] (set_workbook b).
Proof.
  intros s Hs. exists tt, []. cbn [set_workbook fst snd trace].
  rewrite app_nil_r. repeat split; try reflexivity. exact Hs.
Qed.

Lemma performs_call (env : surroundings) (c : site) :
  fails env c = None ->
  performs [] (if is_poll c then [] else [c]) (call env c).
Proof.
  intros Hc s Hs. exists tt, [external c]. rewrite call_run, Hc.
  cbn [fst snd trace]. split; [reflexivity|]. split; [reflexivity|].
  split; [exact Hs|]. split; [reflexivity|].
  unfold plain_externals. cbn. destruct (is_poll c); reflexivity.
Qed.

(** A computation of the engine that returns on a workbook with its
    [UTILITY] sheet. *)
Lemma performs_run_engine {A} (m : M A) pcts :
  (forall w, events w = [] -> is_Some (workbook w !! "UTILITY") ->
     exists a, fst (m w) = Ok a
               /\ is_Some (workbook (snd (m w)) !! "UTILITY")
               /\ progress_of (events (snd (m w))) = pcts) ->
  performs pcts [] (run_engine m).
Proof.
  intros Hm s Hs. unfold run_engine.
  destruct (Hm {| workbook := book s; events := [] |} eq_refl Hs)
    as (a & Hr & Hu & Hp).
  destruct (m {| workbook := book s; events := [] |}) as [r w].
  cbn [fst snd] in *. subst r.
  exists a, (map engine (events w)). cbn [trace].
  split; [reflexivity|]. split; [reflexivity|]. split; [exact Hu|].
  split; [rewrite percentages_engine; exact Hp|apply plain_externals_engine].
Qed.

Lemma performs_emit (cb : bool) (pct : Z) (stage : string) :
  performs (if cb then [pct] else []) [] (emit_ cb pct stage).
Proof.
  unfold emit_. apply performs_run_engine. intros w Hev Hu.
  exists tt. unfold emit, ExcelReport.bind, logger_info, emit_event,
    ExcelReport.ret.
  destruct cb; cbn [fst snd workbook events]; rewrite Hev;
    (split; [reflexivity|]); (split; [exact Hu|reflexivity]).
Qed.

Lemma performs_log msg : performs [] [] (run_engine (logger_info msg)).
Proof.
  apply performs_run_engine. intros w Hev Hu. exists tt.
  unfold logger_info, emit_event. cbn [fst snd workbook events]. rewrite Hev.
  split; [reflexivity|]. split; [exact Hu|reflexivity].
Qed.

Lemma performs_Sheets : performs [] [] (run_engine (Sheets "UTILITY")).
Proof.
  apply performs_run_engine. intros w Hev Hu. unfold Sheets.
  destruct Hu as [ws Hws]. rewrite Hws. exists ws. cbn [fst snd].
  rewrite Hws, Hev. split; [reflexivity|]. split; [eauto|reflexivity].
Qed.

Lemma performs_write_cell r c v :
  performs [] [] (run_engine (write_cell "UTILITY" r c v)).
Proof.
  apply performs_run_engine. intros w Hev Hu.
  unfold write_cell, ExcelReport.bind, Sheets.
  destruct Hu as [ws Hws]. rewrite Hws. exists tt.
  cbn [fst snd workbook events]. rewrite Hev.
  split; [reflexivity|]. split; [|reflexivity].
  rewrite lookup_insert_eq. eauto.
Qed.

Lemma performs_subtract fuel d :
  (50 <= fuel)%nat -> valid_datetime d = true ->
  toordinal first_supported < toordinal d ->
  performs [] [] (subtract_one_business_day_ fuel d).
Proof.
  intros Hfuel Hv Hafter s Hs. unfold subtract_one_business_day_.
  destruct (HelpersFacts.subtract_one_business_day_spec d Hv Hafter)
    as (r & Hrun & _).
  rewrite (Hrun fuel Hfuel). exists r, []. cbn [ret fst snd].
  rewrite app_nil_r. repeat split; try reflexivity. exact Hs.
Qed.

Lemma performs_lift {A} (r : ended A) (a : A) :
  r = Returned a -> performs [] [] (lift r).
Proof.
  intros -> s Hs. exists a, []. cbn [lift fst snd]. rewrite app_nil_r.
  repeat split; try reflexivity. exact Hs.
Qed.

Lemma performs_try_except {A} (body : P A) handler pcts exts :
  performs pcts exts body -> performs pcts exts (try_except body handler).
Proof.
  intros Hb s Hs. unfold try_except.
  destruct (Hb s Hs) as (a & added & Hr & Hrest).
  destruct (body s) as [r s1]. cbn [fst] in Hr. subst r.
  exists a, added. split; [reflexivity|exact Hrest].
Qed.

Lemma performs_try_finally {A} (body : P A) final p1 e1 p2 e2 :
  performs p1 e1 body -> performs p2 e2 final ->
  performs (p1 ++ p2) (e1 ++ e2) (try_finally body final).
Proof.
  intros Hb Hf s Hs. unfold try_finally.
  destruct (Hb s Hs) as (a & added & Hr & Htr & Hu & Hp & He).
  destruct (body s) as [r s1]. cbn [fst snd] in *. subst r.
  destruct (Hf s1 Hu) as (u & added' & Hr' & Htr' & Hu' & Hp' & He').
  destruct (final s1) as [r s2]. cbn [fst snd] in *. subst r.
  exists a, (added ++ added'). cbn [fst snd].
  rewrite Htr', Htr, app_assoc, percentages_app, plain_externals_app,
    Hp, Hp', He, He'.
  repeat split; try reflexivity; assumption.
Qed.

Ltac performs_step H :=
  lazymatch goal with
  | |- performs _ _ ?m =>
    lazymatch m with
    | bind _ _ => eapply performs_bind; [|intros ?]
    | ret _ => apply performs_ret
    | lift _ => eapply performs_lift; eassumption
    | emit_ _ _ _ => apply performs_emit
    | call _ _ => apply performs_call; apply H
    | set_excel _ => apply performs_set_excel
    | set_workbook _ => apply performs_set_workbook
    | run_engine (Sheets _) => apply performs_Sheets
    | run_engine (write_cell _ _ _ _) => apply performs_write_cell
    | run_engine (logger_info _) => apply performs_log
    | match ?x with pair _ _ => _ end => destruct x
    end
  end.

Section Run.
Variable float_repr : spec_float -> string.
Variable env : surroundings.
Variable fuel : nat.
Hypothesis Hnofail : forall c, fails env c = None.
Hypothesis Hfuel : (50 <= fuel)%nat.
Hypothesis Hsettles : settles env fuel.
Hypothesis Hrefresh :
  forall k wb, is_Some (wb !! "UTILITY") ->
               is_Some (refreshed env k wb !! "UTILITY").

Lemma performs_RefreshAll (c : site) :
  performs [] (if is_poll c then [] else [c]) (RefreshAll_ env c).
Proof.
  unfold RefreshAll_.
  eapply performs_eq;
    [eapply performs_bind; [apply performs_call, Hnofail|]| |].
  - intros _ s Hs. exists tt, []. cbn [fst snd trace book].
    rewrite app_nil_r. split; [reflexivity|]. split; [reflexivity|].
    split; [apply Hrefresh, Hs|]. split; reflexivity.
  - reflexivity.
  - apply app_nil_r.
Qed.

Lemma wait_loop_plain max_wait start :
  forall (n : nat) interval s,
    exists added,
      trace (snd (wait_loop env n start max_wait interval s)) = trace s ++ added
      /\ book (snd (wait_loop env n start max_wait interval s)) = book s
      /\ percentages added = [] /\ plain_externals added = []
      /\ forall e, fst (wait_loop env n start max_wait interval s) <> Fail e.
Proof.
  induction n as [|n IH]; intros interval s.
  - exists []. cbn [wait_loop unfinished fst snd]. rewrite app_nil_r.
    repeat split; try reflexivity. intros e. discriminate.
  - rewrite wait_loop_step, (Hnofail read_CalculationState),
      (Hnofail CalculateUntilAsyncQueriesDone).
    destruct (CalculationState env (polls s) =? 0).
    + eexists [_; _]. cbn [fst snd trace book]. rewrite <- app_assoc.
      repeat split; try reflexivity. intros e. discriminate.
    + destruct (SFltb _ _).
      * eexists [_; _]. cbn [fst snd trace book]. rewrite <- app_assoc.
        repeat split; try reflexivity. intros e. discriminate.
      * match goal with
        | |- context [wait_loop env n start max_wait ?i ?st] =>
          destruct (IH i st) as (added & Htr & Hbk & Hp & He & Hf)
        end.
        exists ([external read_CalculationState; time_sleep interval] ++ added).
        split; [rewrite Htr; cbn [trace]; rewrite <- !app_assoc; reflexivity|].
        split; [rewrite Hbk; reflexivity|].
        rewrite percentages_app, plain_externals_app, Hp, He.
        repeat split; try reflexivity. exact Hf.
Qed.

Lemma performs_wait max_wait :
  performs [] [] (_wait_for_calculations env fuel max_wait).
Proof.
  intros s Hs.
  pose proof (finishes_wait env fuel max_wait Hsettles s) as Hfin.
  rewrite wait_for_calculations_unfold in *.
  match goal with
  | |- context [wait_loop env fuel ?st0 ?mw ?i ?st] =>
    destruct (wait_loop_plain mw st0 fuel i st)
      as (added & Htr & Hbk & Hp & He & Hf);
    destruct (wait_loop env fuel st0 mw i st) as [[b|e|] s1]
  end; cbn [fst snd trace book] in *;
    [|exfalso; exact (Hf e eq_refl)|exfalso; apply Hfin; reflexivity].
  exists b, added.
  split; [reflexivity|]. split; [exact Htr|].
  split; [unfold has_utility in *; rewrite Hbk; exact Hs|].
  split; assumption.
Qed.

Lemma performs_loop (cb : bool) (today_str prev_bday_str : string) :
  performs (if cb then plan_percentages else []) []
    (run_engine (operations_loop float_repr cb "UTILITY"
                   (_build_operations today_str prev_bday_str))).
Proof.
  apply performs_run_engine. intros w Hev Hu.
  destruct (ProgressFacts.plan_progress float_repr cb "UTILITY" today_str
              prev_bday_str w) as [Hr Hp].
  exists tt. split; [exact Hr|]. split.
  - assert (Hst : same_layout w
                    (snd (operations_loop float_repr cb "UTILITY"
                            (_build_operations today_str prev_bday_str) w))).
    { unfold operations_loop. cbv zeta.
      apply LayoutFacts.steady_for_each. intros [idx op].
      apply LayoutFacts.steady_run_operation. }
    destruct Hst as (_ & Hsheets & _). apply Hsheets. exact Hu.
  - rewrite Hp, Hev. reflexivity.
Qed.

Hypothesis Hbackup : valid_datetime (now_of_backup env) = true.
Hypothesis Hbackup_after :
  toordinal first_supported < toordinal (now_of_backup env).
Hypothesis Hmain : valid_datetime (now_of_main env) = true.
Hypothesis Hmain_after :
  toordinal first_supported < toordinal (now_of_main env).

Ltac run_step :=
  first
    [ performs_step Hnofail
    | lazymatch goal with
      | |- performs _ _ ?m =>
        lazymatch m with
        | subtract_one_business_day_ _ _ =>
          apply performs_subtract; assumption
        | RefreshAll_ _ _ => apply performs_RefreshAll
        | _wait_for_calculations _ _ _ => apply performs_wait
        | run_engine (operations_loop _ _ _ _) => apply performs_loop
        end
      end ].

Lemma performs_backup path :
  performs [] [os_makedirs; shutil_copy] (_backup_engine_file env fuel path).
Proof.
  unfold _backup_engine_file. cbv zeta.
  eapply performs_eq; [repeat run_step|reflexivity|reflexivity].
Qed.

Lemma performs_main_try (cb : bool) path :
  performs
    (if cb then [5; 10; 20] ++ plan_percentages ++ [92; 100] else [])
    [Dispatch_Excel; set_Visible_True; Workbooks_Open;
     RefreshAll; RefreshAll; RefreshAll; set_Visible_False;
     final_RefreshAll; Save; set_Visible_True_at_end]
    (main_try float_repr env cb fuel path).
Proof.
  unfold main_try, open_and_set_dates, refresh_queries, execute_operations,
    final_refresh_and_save.
  cbv zeta. cbn [times].
  eapply performs_eq; [repeat run_step| |reflexivity].
  destruct cb; reflexivity.
Qed.

(** The two locals are reset, the [try] block runs and the [finally]
    block closes what it opened. *)
Lemma performs_guarded (cb : bool) path :
  performs
    (if cb then [5; 10; 20] ++ plan_percentages ++ [92; 100] else [])
    [Dispatch_Excel; set_Visible_True; Workbooks_Open;
     RefreshAll; RefreshAll; RefreshAll; set_Visible_False;
     final_RefreshAll; Save; set_Visible_True_at_end;
     Close; Quit; gc_collect; gc_collect]
    (bind (set_excel false) (fun _ =>
     bind (set_workbook false) (fun _ =>
       try_finally
         (try_except (main_try float_repr env cb fuel path)
            (fun e =>
               bind (run_engine
                       (logger_error ("Excel report failed: " +:+ error_text e)))
                    (fun _ => raise e)))
         (main_finally env)))).
Proof.
  intros s Hs. rewrite guarded_try_run. cbv zeta.
  match goal with
  | |- context [main_try float_repr env cb fuel path ?st] =>
    destruct (performs_main_try cb path st Hs)
      as ([] & added & Hr & Htr & Hu & Hp & He);
    destruct (main_try_spec float_repr env cb fuel path st eq_refl eq_refl)
      as (_ & _ & _ & Hex & _ & Hwb & _);
    destruct (main_try float_repr env cb fuel path st) as [r s1]
  end.
  cbn [fst snd trace] in *. subst r.
  unfold succeeds in Hex, Hwb.
  rewrite (Hnofail Dispatch_Excel) in Hex.
  rewrite (Hnofail Dispatch_Excel), (Hnofail set_Visible_True),
    (Hnofail Workbooks_Open) in Hwb.
  cbn [andb] in Hwb. rewrite Hex, Hwb, Htr, app_nil_r.
  exists tt, (added ++ map external (finally_calls true true)).
  cbn [fst snd trace].
  split; [reflexivity|]. split; [rewrite <- app_assoc; reflexivity|].
  split; [exact Hu|].
  rewrite percentages_app, plain_externals_app, Hp, He,
    percentages_external, app_nil_r.
  split; reflexivity.
Qed.

Lemma performs_main (cb : bool) path :
  _find_engine_file env = Returned path ->
  performs
    (if cb then [0; 2; 5; 10; 20] ++ plan_percentages ++ [92; 100] else [])
    [os_makedirs; shutil_copy; CoInitialize;
     Dispatch_Excel; set_Visible_True; Workbooks_Open;
     RefreshAll; RefreshAll; RefreshAll; set_Visible_False;
     final_RefreshAll; Save; set_Visible_True_at_end;
     Close; Quit; gc_collect; gc_collect; CoUninitialize]
    (main float_repr env cb fuel).
Proof.
  intros Hfind. unfold main, com_context.
  eapply performs_eq.
  - eapply performs_bind; [eapply performs_lift; exact Hfind|intros path'].
    eapply performs_bind; [apply performs_emit|intros _].
    eapply performs_bind; [apply performs_emit|intros _].
    eapply performs_bind; [apply performs_backup|intros _].
    eapply performs_bind; [apply performs_call, Hnofail|intros _].
    eapply performs_try_finally; [apply performs_guarded|].
    apply performs_try_except, performs_call, Hnofail.
  - destruct cb; reflexivity.
  - reflexivity.
Qed.

(** A run of [main] in which nothing fails.  When an engine workbook is
    found, no external call raises, the workbook has its [UTILITY] sheet
    and keeps it over every refresh, both dates are in the supported range
    and Excel settles, [main] returns: the progress callback, when given,
    is told 0, 2, 5, 10 and 20, then the 19 percentages from 23 to 90 of
    the operations, then 92 and 100, in this order; and apart from the
    looks at the calculation the external calls are the backup,
    [CoInitialize], the opening, three refreshes, hiding Excel, the final
    refresh, [Save], showing Excel, [Close], [Quit], two collections and
    [CoUninitialize], in this order. *)
Theorem main_complete_run (cb : bool) (s : session) :
  (exists path, _find_engine_file env = Returned path) ->
  has_utility s ->
  exists added,
    fst (main float_repr env cb fuel s) = Done tt
    /\ trace (snd (main float_repr env cb fuel s)) = trace s ++ added
    /\ percentages added
       = (if cb then [0; 2; 5; 10; 20] ++ plan_percentages ++ [92; 100]
          else [])
    /\ plain_externals added
       = [os_makedirs; shutil_copy; CoInitialize;
          Dispatch_Excel; set_Visible_True; Workbooks_Open;
          RefreshAll; RefreshAll; RefreshAll; set_Visible_False;
          final_RefreshAll; Save; set_Visible_True_at_end;
          Close; Quit; gc_collect; gc_collect; CoUninitialize].
Proof.
  intros [path Hfind] Hs.
  destruct (performs_main cb path Hfind s Hs)
    as ([] & added & Hr & Htr & _ & Hp & He).
  exists added. repeat split; assumption.
Qed.

End Run.

Import Scenario Scenario3.

Lemma busy_excel_settles : settles busy_excel 50.
Proof.
  intros p. destruct (decide (p < 3)%nat) as [Hp|Hp].
  - exists (3 - p)%nat. split; [lia|].
    replace (p + (3 - p))%nat with 3%nat by lia. reflexivity.
  - exists 0%nat. split; [lia|]. rewrite Nat.add_0_r.
    cbn [CalculationState busy_excel].
    destruct (Nat.ltb_spec p 3); [lia|reflexivity].
Qed.

(** A run with an Excel that is busy for the first three polls. *)
Lemma main_complete_run_witness :
  exists added,
    fst (main no_floats busy_excel true 50 (fresh (workbook report))) = Done tt
    /\ trace (snd (main no_floats busy_excel true 50 (fresh (workbook report))))
       = trace (fresh (workbook report)) ++ added
    /\ percentages added
       = [0; 2; 5; 10; 20] ++ plan_percentages ++ [92; 100]
    /\ plain_externals added
       = [os_makedirs; shutil_copy; CoInitialize;
          Dispatch_Excel; set_Visible_True; Workbooks_Open;
          RefreshAll; RefreshAll; RefreshAll; set_Visible_False;
          final_RefreshAll; Save; set_Visible_True_at_end;
          Close; Quit; gc_collect; gc_collect; CoUninitialize].
Proof.
  apply (main_complete_run no_floats busy_excel 50).
  - intros c. reflexivity.
  - lia.
  - exact busy_excel_settles.
  - intros k wb Hwb. exact Hwb.
  - reflexivity.
  - vm_compute. reflexivity.
  - reflexivity.
  - vm_compute. reflexivity.
  - eexists. vm_compute. reflexivity.
  - vm_compute. eauto.
Defined.

End RunFacts.
